(** * Execution-context registry of the MT4 expander: model and properties

    This development embeds [src/context.cpp] in Rocq and proves properties
    of the context registry, the thread/program tracker, the limbo scan, the
    init-reason resolver, the context synchroniser and the context release.

    The C++ code works on raw pointers into host memory and on process-wide
    vectors.  The embedding keeps that shape:
    - host memory is a finite map from addresses to [EXECUTION_CONTEXT]
      records, a pointer is an address, [NULL] is address [0];
    - the globals [g_contextChains], [g_threads], [g_threadsPrograms] and
      [g_lastUIThreadProgram] are fields of one [State] record;
    - a function is a computation in the monad [M]: it takes a [State] and
      either finishes with a value and a new state ([Done]) or runs into
      behaviour the C++ standard leaves undefined ([Undefined]: an access
      through a pointer to no record, a vector read out of range);
    - [error], [warn] and [debug] append to a diagnostics log in the state;
    - what the terminal and Win32 answer (thread ids, build number, window
      titles) is one [Terminal] record handed to every function. *)

From stdpp Require Import base decidable option list gmap strings.
From Stdlib Require Import ZArith Lia.

Local Open Scope Z_scope.

(** ** Machine integers *)

(** [uint], [DWORD] and pointers are 32 bit wide, [int] is their signed
    reading.  Values are kept as [Z]; the two casts the code uses are written
    out. *)
Definition to_uint (x : Z) : Z := x mod 2 ^ 32.

Definition to_int (x : Z) : Z :=
  let y := x mod 2 ^ 32 in
  if y <? 2 ^ 31 then y else y - 2 ^ 32.

Definition NULL : Z := 0.
Definition EMPTY : Z := -1.
Definition INVALID_HWND : Z := -1.

(** ** Enumerations of [Expander.h]

    Every enumeration gets one more constructor for the value [0] that
    erased memory holds and that the code writes as [NULL]; for
    [UninitializeReason] that value is [UR_UNDEFINED] itself. *)

Inductive ProgramType : Type :=
| PT_NULL | PT_INDICATOR | PT_EXPERT | PT_SCRIPT.

Inductive ModuleType : Type :=
| MT_NULL | MT_INDICATOR | MT_EXPERT | MT_SCRIPT | MT_LIBRARY.

Inductive RootFunction : Type :=
| RF_NULL | RF_INIT | RF_START | RF_DEINIT.

Inductive InitializeReason : Type :=
| IR_NULL
| IR_USER
| IR_TEMPLATE
| IR_PROGRAM
| IR_PROGRAM_AFTERTEST
| IR_PARAMETERS
| IR_TIMEFRAMECHANGE
| IR_SYMBOLCHANGE
| IR_RECOMPILE.

Inductive UninitializeReason : Type :=
| UR_UNDEFINED
| UR_REMOVE
| UR_RECOMPILE
| UR_CHARTCHANGE
| UR_CHARTCLOSE
| UR_PARAMETERS
| UR_ACCOUNT
| UR_TEMPLATE
| UR_INITFAILED
| UR_CLOSE.

#[global] Instance ProgramType_eq_dec : EqDecision ProgramType.
Proof. solve_decision. Defined.
#[global] Instance ModuleType_eq_dec : EqDecision ModuleType.
Proof. solve_decision. Defined.
#[global] Instance RootFunction_eq_dec : EqDecision RootFunction.
Proof. solve_decision. Defined.
#[global] Instance InitializeReason_eq_dec : EqDecision InitializeReason.
Proof. solve_decision. Defined.
#[global] Instance UninitializeReason_eq_dec : EqDecision UninitializeReason.
Proof. solve_decision. Defined.

(** The cast [(ModuleType)programType] of a main module (line 168:
    "Hauptmodul: ModuleType == ProgramType"): the enumerators of the two
    types share their values. *)
Definition ModuleType_of (t : ProgramType) : ModuleType :=
  match t with
  | PT_NULL => MT_NULL
  | PT_INDICATOR => MT_INDICATOR
  | PT_EXPERT => MT_EXPERT
  | PT_SCRIPT => MT_SCRIPT
  end.

(** ** The execution context

    The struct is declared in [ExecutionContext.h]; the fields are the ones
    [context.cpp] reads and writes.  [BOOL] fields are kept as [bool], a
    [char*] that may be [NULL] as [option string], handles, thread ids,
    times and the super context pointer as [Z]. *)

Module EC.

Record EXECUTION_CONTEXT : Type := Build {
  programId : Z;
  programType : ProgramType;
  programName : string;
  moduleType : ModuleType;
  moduleName : string;
  rootFunction : RootFunction;
  initCycle : bool;
  initReason : InitializeReason;
  uninitReason : UninitializeReason;
  testing : bool;
  visualMode : bool;
  optimization : bool;
  initFlags : Z;
  deinitFlags : Z;
  logging : bool;
  customLogFile : option string;
  symbol : string;
  timeframe : Z;
  hChart : Z;
  hChartWindow : Z;
  superContext : Z;
  threadId : Z;
  ticks : Z;
  previousTickTime : Z;
  currentTickTime : Z;
  mqlError : Z;
  dllError : Z;
  dllErrorMsg : option string;
  dllWarning : Z;
  dllWarningMsg : option string
}.

(** Freshly erased host memory: every field is zero. *)
Definition zero : EXECUTION_CONTEXT :=
  Build 0 PT_NULL EmptyString MT_NULL EmptyString RF_NULL false IR_NULL UR_UNDEFINED false false false 0 0 false None EmptyString 0 0 0 0 0 0 0 0 0 0 None 0 None.

Definition set_programId (v : Z) (r : EXECUTION_CONTEXT) : EXECUTION_CONTEXT :=
  Build v (programType r) (programName r) (moduleType r) (moduleName r)
    (rootFunction r) (initCycle r) (initReason r) (uninitReason r) (testing r)
    (visualMode r) (optimization r) (initFlags r) (deinitFlags r) (logging r)
    (customLogFile r) (symbol r) (timeframe r) (hChart r) (hChartWindow r)
    (superContext r) (threadId r) (ticks r) (previousTickTime r)
    (currentTickTime r) (mqlError r) (dllError r) (dllErrorMsg r)
    (dllWarning r) (dllWarningMsg r).

Definition set_programType (v : ProgramType) (r : EXECUTION_CONTEXT) : EXECUTION_CONTEXT :=
  Build (programId r) v (programName r) (moduleType r) (moduleName r)
    (rootFunction r) (initCycle r) (initReason r) (uninitReason r) (testing r)
    (visualMode r) (optimization r) (initFlags r) (deinitFlags r) (logging r)
    (customLogFile r) (symbol r) (timeframe r) (hChart r) (hChartWindow r)
    (superContext r) (threadId r) (ticks r) (previousTickTime r)
    (currentTickTime r) (mqlError r) (dllError r) (dllErrorMsg r)
    (dllWarning r) (dllWarningMsg r).

Definition set_programName (v : string) (r : EXECUTION_CONTEXT) : EXECUTION_CONTEXT :=
  Build (programId r) (programType r) v (moduleType r) (moduleName r)
    (rootFunction r) (initCycle r) (initReason r) (uninitReason r) (testing r)
    (visualMode r) (optimization r) (initFlags r) (deinitFlags r) (logging r)
    (customLogFile r) (symbol r) (timeframe r) (hChart r) (hChartWindow r)
    (superContext r) (threadId r) (ticks r) (previousTickTime r)
    (currentTickTime r) (mqlError r) (dllError r) (dllErrorMsg r)
    (dllWarning r) (dllWarningMsg r).

Definition set_moduleType (v : ModuleType) (r : EXECUTION_CONTEXT) : EXECUTION_CONTEXT :=
  Build (programId r) (programType r) (programName r) v (moduleName r)
    (rootFunction r) (initCycle r) (initReason r) (uninitReason r) (testing r)
    (visualMode r) (optimization r) (initFlags r) (deinitFlags r) (logging r)
    (customLogFile r) (symbol r) (timeframe r) (hChart r) (hChartWindow r)
    (superContext r) (threadId r) (ticks r) (previousTickTime r)
    (currentTickTime r) (mqlError r) (dllError r) (dllErrorMsg r)
    (dllWarning r) (dllWarningMsg r).

Definition set_moduleName (v : string) (r : EXECUTION_CONTEXT) : EXECUTION_CONTEXT :=
  Build (programId r) (programType r) (programName r) (moduleType r) v
    (rootFunction r) (initCycle r) (initReason r) (uninitReason r) (testing r)
    (visualMode r) (optimization r) (initFlags r) (deinitFlags r) (logging r)
    (customLogFile r) (symbol r) (timeframe r) (hChart r) (hChartWindow r)
    (superContext r) (threadId r) (ticks r) (previousTickTime r)
    (currentTickTime r) (mqlError r) (dllError r) (dllErrorMsg r)
    (dllWarning r) (dllWarningMsg r).

Definition set_rootFunction (v : RootFunction) (r : EXECUTION_CONTEXT) : EXECUTION_CONTEXT :=
  Build (programId r) (programType r) (programName r) (moduleType r)
    (moduleName r) v (initCycle r) (initReason r) (uninitReason r) (testing r)
    (visualMode r) (optimization r) (initFlags r) (deinitFlags r) (logging r)
    (customLogFile r) (symbol r) (timeframe r) (hChart r) (hChartWindow r)
    (superContext r) (threadId r) (ticks r) (previousTickTime r)
    (currentTickTime r) (mqlError r) (dllError r) (dllErrorMsg r)
    (dllWarning r) (dllWarningMsg r).

Definition set_initCycle (v : bool) (r : EXECUTION_CONTEXT) : EXECUTION_CONTEXT :=
  Build (programId r) (programType r) (programName r) (moduleType r)
    (moduleName r) (rootFunction r) v (initReason r) (uninitReason r)
    (testing r) (visualMode r) (optimization r) (initFlags r) (deinitFlags r)
    (logging r) (customLogFile r) (symbol r) (timeframe r) (hChart r)
    (hChartWindow r) (superContext r) (threadId r) (ticks r)
    (previousTickTime r) (currentTickTime r) (mqlError r) (dllError r)
    (dllErrorMsg r) (dllWarning r) (dllWarningMsg r).

Definition set_initReason (v : InitializeReason) (r : EXECUTION_CONTEXT) : EXECUTION_CONTEXT :=
  Build (programId r) (programType r) (programName r) (moduleType r)
    (moduleName r) (rootFunction r) (initCycle r) v (uninitReason r)
    (testing r) (visualMode r) (optimization r) (initFlags r) (deinitFlags r)
    (logging r) (customLogFile r) (symbol r) (timeframe r) (hChart r)
    (hChartWindow r) (superContext r) (threadId r) (ticks r)
    (previousTickTime r) (currentTickTime r) (mqlError r) (dllError r)
    (dllErrorMsg r) (dllWarning r) (dllWarningMsg r).

Definition set_uninitReason (v : UninitializeReason) (r : EXECUTION_CONTEXT) : EXECUTION_CONTEXT :=
  Build (programId r) (programType r) (programName r) (moduleType r)
    (moduleName r) (rootFunction r) (initCycle r) (initReason r) v (testing r)
    (visualMode r) (optimization r) (initFlags r) (deinitFlags r) (logging r)
    (customLogFile r) (symbol r) (timeframe r) (hChart r) (hChartWindow r)
    (superContext r) (threadId r) (ticks r) (previousTickTime r)
    (currentTickTime r) (mqlError r) (dllError r) (dllErrorMsg r)
    (dllWarning r) (dllWarningMsg r).

Definition set_testing (v : bool) (r : EXECUTION_CONTEXT) : EXECUTION_CONTEXT :=
  Build (programId r) (programType r) (programName r) (moduleType r)
    (moduleName r) (rootFunction r) (initCycle r) (initReason r)
    (uninitReason r) v (visualMode r) (optimization r) (initFlags r)
    (deinitFlags r) (logging r) (customLogFile r) (symbol r) (timeframe r)
    (hChart r) (hChartWindow r) (superContext r) (threadId r) (ticks r)
    (previousTickTime r) (currentTickTime r) (mqlError r) (dllError r)
    (dllErrorMsg r) (dllWarning r) (dllWarningMsg r).

Definition set_visualMode (v : bool) (r : EXECUTION_CONTEXT) : EXECUTION_CONTEXT :=
  Build (programId r) (programType r) (programName r) (moduleType r)
    (moduleName r) (rootFunction r) (initCycle r) (initReason r)
    (uninitReason r) (testing r) v (optimization r) (initFlags r)
    (deinitFlags r) (logging r) (customLogFile r) (symbol r) (timeframe r)
    (hChart r) (hChartWindow r) (superContext r) (threadId r) (ticks r)
    (previousTickTime r) (currentTickTime r) (mqlError r) (dllError r)
    (dllErrorMsg r) (dllWarning r) (dllWarningMsg r).

Definition set_optimization (v : bool) (r : EXECUTION_CONTEXT) : EXECUTION_CONTEXT :=
  Build (programId r) (programType r) (programName r) (moduleType r)
    (moduleName r) (rootFunction r) (initCycle r) (initReason r)
    (uninitReason r) (testing r) (visualMode r) v (initFlags r)
    (deinitFlags r) (logging r) (customLogFile r) (symbol r) (timeframe r)
    (hChart r) (hChartWindow r) (superContext r) (threadId r) (ticks r)
    (previousTickTime r) (currentTickTime r) (mqlError r) (dllError r)
    (dllErrorMsg r) (dllWarning r) (dllWarningMsg r).

Definition set_initFlags (v : Z) (r : EXECUTION_CONTEXT) : EXECUTION_CONTEXT :=
  Build (programId r) (programType r) (programName r) (moduleType r)
    (moduleName r) (rootFunction r) (initCycle r) (initReason r)
    (uninitReason r) (testing r) (visualMode r) (optimization r) v
    (deinitFlags r) (logging r) (customLogFile r) (symbol r) (timeframe r)
    (hChart r) (hChartWindow r) (superContext r) (threadId r) (ticks r)
    (previousTickTime r) (currentTickTime r) (mqlError r) (dllError r)
    (dllErrorMsg r) (dllWarning r) (dllWarningMsg r).

Definition set_deinitFlags (v : Z) (r : EXECUTION_CONTEXT) : EXECUTION_CONTEXT :=
  Build (programId r) (programType r) (programName r) (moduleType r)
    (moduleName r) (rootFunction r) (initCycle r) (initReason r)
    (uninitReason r) (testing r) (visualMode r) (optimization r) (initFlags r)
    v (logging r) (customLogFile r) (symbol r) (timeframe r) (hChart r)
    (hChartWindow r) (superContext r) (threadId r) (ticks r)
    (previousTickTime r) (currentTickTime r) (mqlError r) (dllError r)
    (dllErrorMsg r) (dllWarning r) (dllWarningMsg r).

Definition set_logging (v : bool) (r : EXECUTION_CONTEXT) : EXECUTION_CONTEXT :=
  Build (programId r) (programType r) (programName r) (moduleType r)
    (moduleName r) (rootFunction r) (initCycle r) (initReason r)
    (uninitReason r) (testing r) (visualMode r) (optimization r) (initFlags r)
    (deinitFlags r) v (customLogFile r) (symbol r) (timeframe r) (hChart r)
    (hChartWindow r) (superContext r) (threadId r) (ticks r)
    (previousTickTime r) (currentTickTime r) (mqlError r) (dllError r)
    (dllErrorMsg r) (dllWarning r) (dllWarningMsg r).

Definition set_customLogFile (v : option string) (r : EXECUTION_CONTEXT) : EXECUTION_CONTEXT :=
  Build (programId r) (programType r) (programName r) (moduleType r)
    (moduleName r) (rootFunction r) (initCycle r) (initReason r)
    (uninitReason r) (testing r) (visualMode r) (optimization r) (initFlags r)
    (deinitFlags r) (logging r) v (symbol r) (timeframe r) (hChart r)
    (hChartWindow r) (superContext r) (threadId r) (ticks r)
    (previousTickTime r) (currentTickTime r) (mqlError r) (dllError r)
    (dllErrorMsg r) (dllWarning r) (dllWarningMsg r).

Definition set_symbol (v : string) (r : EXECUTION_CONTEXT) : EXECUTION_CONTEXT :=
  Build (programId r) (programType r) (programName r) (moduleType r)
    (moduleName r) (rootFunction r) (initCycle r) (initReason r)
    (uninitReason r) (testing r) (visualMode r) (optimization r) (initFlags r)
    (deinitFlags r) (logging r) (customLogFile r) v (timeframe r) (hChart r)
    (hChartWindow r) (superContext r) (threadId r) (ticks r)
    (previousTickTime r) (currentTickTime r) (mqlError r) (dllError r)
    (dllErrorMsg r) (dllWarning r) (dllWarningMsg r).

Definition set_timeframe (v : Z) (r : EXECUTION_CONTEXT) : EXECUTION_CONTEXT :=
  Build (programId r) (programType r) (programName r) (moduleType r)
    (moduleName r) (rootFunction r) (initCycle r) (initReason r)
    (uninitReason r) (testing r) (visualMode r) (optimization r) (initFlags r)
    (deinitFlags r) (logging r) (customLogFile r) (symbol r) v (hChart r)
    (hChartWindow r) (superContext r) (threadId r) (ticks r)
    (previousTickTime r) (currentTickTime r) (mqlError r) (dllError r)
    (dllErrorMsg r) (dllWarning r) (dllWarningMsg r).

Definition set_hChart (v : Z) (r : EXECUTION_CONTEXT) : EXECUTION_CONTEXT :=
  Build (programId r) (programType r) (programName r) (moduleType r)
    (moduleName r) (rootFunction r) (initCycle r) (initReason r)
    (uninitReason r) (testing r) (visualMode r) (optimization r) (initFlags r)
    (deinitFlags r) (logging r) (customLogFile r) (symbol r) (timeframe r) v
    (hChartWindow r) (superContext r) (threadId r) (ticks r)
    (previousTickTime r) (currentTickTime r) (mqlError r) (dllError r)
    (dllErrorMsg r) (dllWarning r) (dllWarningMsg r).

Definition set_hChartWindow (v : Z) (r : EXECUTION_CONTEXT) : EXECUTION_CONTEXT :=
  Build (programId r) (programType r) (programName r) (moduleType r)
    (moduleName r) (rootFunction r) (initCycle r) (initReason r)
    (uninitReason r) (testing r) (visualMode r) (optimization r) (initFlags r)
    (deinitFlags r) (logging r) (customLogFile r) (symbol r) (timeframe r)
    (hChart r) v (superContext r) (threadId r) (ticks r) (previousTickTime r)
    (currentTickTime r) (mqlError r) (dllError r) (dllErrorMsg r)
    (dllWarning r) (dllWarningMsg r).

Definition set_superContext (v : Z) (r : EXECUTION_CONTEXT) : EXECUTION_CONTEXT :=
  Build (programId r) (programType r) (programName r) (moduleType r)
    (moduleName r) (rootFunction r) (initCycle r) (initReason r)
    (uninitReason r) (testing r) (visualMode r) (optimization r) (initFlags r)
    (deinitFlags r) (logging r) (customLogFile r) (symbol r) (timeframe r)
    (hChart r) (hChartWindow r) v (threadId r) (ticks r) (previousTickTime r)
    (currentTickTime r) (mqlError r) (dllError r) (dllErrorMsg r)
    (dllWarning r) (dllWarningMsg r).

Definition set_threadId (v : Z) (r : EXECUTION_CONTEXT) : EXECUTION_CONTEXT :=
  Build (programId r) (programType r) (programName r) (moduleType r)
    (moduleName r) (rootFunction r) (initCycle r) (initReason r)
    (uninitReason r) (testing r) (visualMode r) (optimization r) (initFlags r)
    (deinitFlags r) (logging r) (customLogFile r) (symbol r) (timeframe r)
    (hChart r) (hChartWindow r) (superContext r) v (ticks r)
    (previousTickTime r) (currentTickTime r) (mqlError r) (dllError r)
    (dllErrorMsg r) (dllWarning r) (dllWarningMsg r).

Definition set_ticks (v : Z) (r : EXECUTION_CONTEXT) : EXECUTION_CONTEXT :=
  Build (programId r) (programType r) (programName r) (moduleType r)
    (moduleName r) (rootFunction r) (initCycle r) (initReason r)
    (uninitReason r) (testing r) (visualMode r) (optimization r) (initFlags r)
    (deinitFlags r) (logging r) (customLogFile r) (symbol r) (timeframe r)
    (hChart r) (hChartWindow r) (superContext r) (threadId r) v
    (previousTickTime r) (currentTickTime r) (mqlError r) (dllError r)
    (dllErrorMsg r) (dllWarning r) (dllWarningMsg r).

Definition set_previousTickTime (v : Z) (r : EXECUTION_CONTEXT) : EXECUTION_CONTEXT :=
  Build (programId r) (programType r) (programName r) (moduleType r)
    (moduleName r) (rootFunction r) (initCycle r) (initReason r)
    (uninitReason r) (testing r) (visualMode r) (optimization r) (initFlags r)
    (deinitFlags r) (logging r) (customLogFile r) (symbol r) (timeframe r)
    (hChart r) (hChartWindow r) (superContext r) (threadId r) (ticks r) v
    (currentTickTime r) (mqlError r) (dllError r) (dllErrorMsg r)
    (dllWarning r) (dllWarningMsg r).

Definition set_currentTickTime (v : Z) (r : EXECUTION_CONTEXT) : EXECUTION_CONTEXT :=
  Build (programId r) (programType r) (programName r) (moduleType r)
    (moduleName r) (rootFunction r) (initCycle r) (initReason r)
    (uninitReason r) (testing r) (visualMode r) (optimization r) (initFlags r)
    (deinitFlags r) (logging r) (customLogFile r) (symbol r) (timeframe r)
    (hChart r) (hChartWindow r) (superContext r) (threadId r) (ticks r)
    (previousTickTime r) v (mqlError r) (dllError r) (dllErrorMsg r)
    (dllWarning r) (dllWarningMsg r).

Definition set_mqlError (v : Z) (r : EXECUTION_CONTEXT) : EXECUTION_CONTEXT :=
  Build (programId r) (programType r) (programName r) (moduleType r)
    (moduleName r) (rootFunction r) (initCycle r) (initReason r)
    (uninitReason r) (testing r) (visualMode r) (optimization r) (initFlags r)
    (deinitFlags r) (logging r) (customLogFile r) (symbol r) (timeframe r)
    (hChart r) (hChartWindow r) (superContext r) (threadId r) (ticks r)
    (previousTickTime r) (currentTickTime r) v (dllError r) (dllErrorMsg r)
    (dllWarning r) (dllWarningMsg r).

Definition set_dllError (v : Z) (r : EXECUTION_CONTEXT) : EXECUTION_CONTEXT :=
  Build (programId r) (programType r) (programName r) (moduleType r)
    (moduleName r) (rootFunction r) (initCycle r) (initReason r)
    (uninitReason r) (testing r) (visualMode r) (optimization r) (initFlags r)
    (deinitFlags r) (logging r) (customLogFile r) (symbol r) (timeframe r)
    (hChart r) (hChartWindow r) (superContext r) (threadId r) (ticks r)
    (previousTickTime r) (currentTickTime r) (mqlError r) v (dllErrorMsg r)
    (dllWarning r) (dllWarningMsg r).

Definition set_dllErrorMsg (v : option string) (r : EXECUTION_CONTEXT) : EXECUTION_CONTEXT :=
  Build (programId r) (programType r) (programName r) (moduleType r)
    (moduleName r) (rootFunction r) (initCycle r) (initReason r)
    (uninitReason r) (testing r) (visualMode r) (optimization r) (initFlags r)
    (deinitFlags r) (logging r) (customLogFile r) (symbol r) (timeframe r)
    (hChart r) (hChartWindow r) (superContext r) (threadId r) (ticks r)
    (previousTickTime r) (currentTickTime r) (mqlError r) (dllError r) v
    (dllWarning r) (dllWarningMsg r).

Definition set_dllWarning (v : Z) (r : EXECUTION_CONTEXT) : EXECUTION_CONTEXT :=
  Build (programId r) (programType r) (programName r) (moduleType r)
    (moduleName r) (rootFunction r) (initCycle r) (initReason r)
    (uninitReason r) (testing r) (visualMode r) (optimization r) (initFlags r)
    (deinitFlags r) (logging r) (customLogFile r) (symbol r) (timeframe r)
    (hChart r) (hChartWindow r) (superContext r) (threadId r) (ticks r)
    (previousTickTime r) (currentTickTime r) (mqlError r) (dllError r)
    (dllErrorMsg r) v (dllWarningMsg r).

Definition set_dllWarningMsg (v : option string) (r : EXECUTION_CONTEXT) : EXECUTION_CONTEXT :=
  Build (programId r) (programType r) (programName r) (moduleType r)
    (moduleName r) (rootFunction r) (initCycle r) (initReason r)
    (uninitReason r) (testing r) (visualMode r) (optimization r) (initFlags r)
    (deinitFlags r) (logging r) (customLogFile r) (symbol r) (timeframe r)
    (hChart r) (hChartWindow r) (superContext r) (threadId r) (ticks r)
    (previousTickTime r) (currentTickTime r) (mqlError r) (dllError r)
    (dllErrorMsg r) (dllWarning r) v.

End EC.

Abbreviation EXECUTION_CONTEXT := EC.EXECUTION_CONTEXT.

(** ** Diagnostics, terminal and global state *)

Inductive ErrorCode : Type :=
| ERR_INVALID_PARAMETER | ERR_ILLEGAL_STATE | ERR_RUNTIME_ERROR.

Inductive Diagnostic : Type :=
| LogDebug
| LogWarn (code : ErrorCode)
| LogError (code : ErrorCode).

#[global] Instance ErrorCode_eq_dec : EqDecision ErrorCode.
Proof. solve_decision. Defined.
#[global] Instance Diagnostic_eq_dec : EqDecision Diagnostic.
Proof. solve_decision. Defined.

(** A [const char*] argument: the address the pointer checks look at and
    the characters [strcmp] and the setters read. *)
Record char_ptr : Type := CharPtr {
  address : Z;
  chars : string
}.

(** What the terminal and the operating system answer during one call.
    [FindChartWindow] stands for the window enumeration at the end of
    [FindWindowHandle]: the handle it finds (or [INVALID_HWND]) and the
    diagnostics it emits on the way. *)
Record Terminal : Type := {
  GetCurrentThreadId : Z;
  GetUIThreadId : Z;
  IsUIThread : bool;
  GetTerminalBuild : Z;
  MIN_VALID_POINTER : Z;
  GetParent : Z -> Z;
  GetWindowText : Z -> string;
  FindChartWindow : ModuleType -> string -> Z -> Z * list Diagnostic
}.

(** A context chain holds pointers: slot 0 the master, slot 1 the main
    module, slots from 2 on the libraries. *)
Abbreviation ContextChain := (list Z).

Record State : Type := mkState {
  memory : gmap Z EXECUTION_CONTEXT;
  g_contextChains : list ContextChain;
  g_threads : list Z;
  g_threadsPrograms : list Z;
  g_lastUIThreadProgram : Z;
  diagnostics : list Diagnostic
}.

Definition set_memory (h : gmap Z EXECUTION_CONTEXT) (s : State) : State :=
  mkState h (g_contextChains s) (g_threads s) (g_threadsPrograms s)
    (g_lastUIThreadProgram s) (diagnostics s).

Definition set_contextChains (c : list ContextChain) (s : State) : State :=
  mkState (memory s) c (g_threads s) (g_threadsPrograms s)
    (g_lastUIThreadProgram s) (diagnostics s).

Definition set_threads (t : list Z) (s : State) : State :=
  mkState (memory s) (g_contextChains s) t (g_threadsPrograms s)
    (g_lastUIThreadProgram s) (diagnostics s).

Definition set_threadsPrograms (p : list Z) (s : State) : State :=
  mkState (memory s) (g_contextChains s) (g_threads s) p
    (g_lastUIThreadProgram s) (diagnostics s).

Definition set_lastUIThreadProgram (p : Z) (s : State) : State :=
  mkState (memory s) (g_contextChains s) (g_threads s) (g_threadsPrograms s)
    p (diagnostics s).

Definition set_diagnostics (d : list Diagnostic) (s : State) : State :=
  mkState (memory s) (g_contextChains s) (g_threads s) (g_threadsPrograms s)
    (g_lastUIThreadProgram s) d.

(** ** The monad of the embedding *)

Inductive outcome (A : Type) : Type :=
| Done (a : A) (s : State)
| Undefined.
Arguments Done {A} a s.
Arguments Undefined {A}.

Definition M (A : Type) : Type := State -> outcome A.

Definition ret {A} (a : A) : M A := fun s => Done a s.

Definition bind {A B} (m : M A) (f : A -> M B) : M B :=
  fun s => match m s with
           | Done a s' => f a s'
           | Undefined => Undefined
           end.

Definition undefined {A} : M A := fun _ => Undefined.

Definition get : M State := fun s => Done s s.

Definition update (f : State -> State) : M unit := fun s => Done tt (f s).

Notation "x <- m ;; k" := (bind m (fun x => k))
  (at level 20, m at level 99, k at level 200).
Notation "m ;; k" := (bind m (fun _ => k))
  (at level 100, k at level 200, right associativity).

Definition when (b : bool) (m : M unit) : M unit :=
  if b then m else ret tt.

(** Vector subscript with a machine integer: [v[i]] is defined for
    [0 <= i < v.size()] only. *)
Definition subscript {A} (v : list A) (i : Z) : option A :=
  if i <? 0 then None else v !! Z.to_nat i.

Definition of_option {A} (o : option A) : M A :=
  match o with
  | Some a => ret a
  | None => undefined
  end.

(** [*p] as a value. *)
Definition deref (p : Z) : M EXECUTION_CONTEXT :=
  s <- get ;; of_option (memory s !! p).

(** [*p = r]; the pointer has to point to a record. *)
Definition assign (p : Z) (r : EXECUTION_CONTEXT) : M unit :=
  deref p ;; update (fun s => set_memory (<[p := r]> (memory s)) s).

(** [p->field = v], with [f] the update of that field. *)
Definition poke (p : Z) (f : EXECUTION_CONTEXT -> EXECUTION_CONTEXT) : M unit :=
  r <- deref p ;; update (fun s => set_memory (<[p := f r]> (memory s)) s).

(** [new EXECUTION_CONTEXT()]: a zeroed record at an address that held
    none. *)
Definition new_EXECUTION_CONTEXT : M Z :=
  s <- get ;;
  let p := fresh (dom (memory s) ∪ {[NULL]}) in
  update (fun s => set_memory (<[p := EC.zero]> (memory s)) s) ;;
  ret p.

(** [g_contextChains[id]], [g_contextChains[id][slot]] and the two writes
    the code does on a chain. *)
Definition chain_at (id : Z) : M ContextChain :=
  s <- get ;; of_option (subscript (g_contextChains s) id).

Definition slot_at (id slot : Z) : M Z :=
  c <- chain_at id ;; of_option (subscript c slot).

Definition set_slot (id slot : Z) (p : Z) : M unit :=
  c <- chain_at id ;;
  of_option (subscript c slot) ;;
  update (fun s => set_contextChains
            (<[Z.to_nat id := <[Z.to_nat slot := p]> c]> (g_contextChains s)) s).

Definition chain_push_back (id : Z) (p : Z) : M unit :=
  c <- chain_at id ;;
  update (fun s => set_contextChains
            (<[Z.to_nat id := c ++ [p]]> (g_contextChains s)) s).

(** ** Diagnostics

    Modelled from the spec: the bodies of [_error], [_warn] and [_debug] are
    not part of [context.cpp].  Each emits one diagnostic event; [error] and
    [warn] carry the code, and the value handed back to the caller is the
    failure value [0] ([FALSE], [NULL]). *)
Definition log (d : Diagnostic) : M unit :=
  update (fun s => set_diagnostics (diagnostics s ++ [d]) s).

Definition error (code : ErrorCode) : M Z := log (LogError code) ;; ret 0.
Definition warn (code : ErrorCode) : M Z := log (LogWarn code) ;; ret 0.
Definition debug : M Z := log LogDebug ;; ret 0.

(** ** Accessors of the execution context

    Modelled from the spec: the setters [ec_Set...] are defined in
    [ExecutionContext.cpp], which is not among the sources.  The spec speaks
    of them as field updates ("set root-function", "stamp init/uninit
    reasons, symbol, period"); each stores its argument in the field it
    names of the record the pointer points to.

    The comments of [LeaveContext] ("set main and master context to NULL",
    against "set library context to NULL") tell that a setter applied to
    the main record in slot 1 of a chain also brings the master in slot 0
    up to date.  That copy happens in [ExecutionContext.cpp] and is not
    part of the model.  The theorems on a main record are therefore stated
    for the record itself, the chains and the thread map; what the master
    of its chain holds after a setter is left open by them. *)

Definition ec_SetProgramId (ec : Z) (v : Z) : M unit := poke ec (EC.set_programId v).
Definition ec_SetProgramType (ec : Z) (v : ProgramType) : M unit := poke ec (EC.set_programType v).
Definition ec_SetProgramName (ec : Z) (v : char_ptr) : M unit := poke ec (EC.set_programName (chars v)).
Definition ec_SetModuleType (ec : Z) (v : ModuleType) : M unit := poke ec (EC.set_moduleType v).
Definition ec_SetModuleName (ec : Z) (v : char_ptr) : M unit := poke ec (EC.set_moduleName (chars v)).
Definition ec_SetRootFunction (ec : Z) (v : RootFunction) : M unit := poke ec (EC.set_rootFunction v).
Definition ec_SetInitCycle (ec : Z) (v : bool) : M unit := poke ec (EC.set_initCycle v).
Definition ec_SetInitReason (ec : Z) (v : InitializeReason) : M unit := poke ec (EC.set_initReason v).
Definition ec_SetUninitReason (ec : Z) (v : UninitializeReason) : M unit := poke ec (EC.set_uninitReason v).
Definition ec_SetTesting (ec : Z) (v : bool) : M unit := poke ec (EC.set_testing v).
Definition ec_SetVisualMode (ec : Z) (v : bool) : M unit := poke ec (EC.set_visualMode v).
Definition ec_SetOptimization (ec : Z) (v : bool) : M unit := poke ec (EC.set_optimization v).
Definition ec_SetInitFlags (ec : Z) (v : Z) : M unit := poke ec (EC.set_initFlags v).
Definition ec_SetDeinitFlags (ec : Z) (v : Z) : M unit := poke ec (EC.set_deinitFlags v).
Definition ec_SetLogging (ec : Z) (v : bool) : M unit := poke ec (EC.set_logging v).
Definition ec_SetCustomLogFile (ec : Z) (v : option string) : M unit := poke ec (EC.set_customLogFile v).
Definition ec_SetSymbol (ec : Z) (v : char_ptr) : M unit := poke ec (EC.set_symbol (chars v)).
Definition ec_SetTimeframe (ec : Z) (v : Z) : M unit := poke ec (EC.set_timeframe v).
Definition ec_SetHChart (ec : Z) (v : Z) : M unit := poke ec (EC.set_hChart v).
Definition ec_SetHChartWindow (ec : Z) (v : Z) : M unit := poke ec (EC.set_hChartWindow v).
Definition ec_SetSuperContext (ec : Z) (v : Z) : M unit := poke ec (EC.set_superContext v).
Definition ec_SetThreadId (ec : Z) (v : Z) : M unit := poke ec (EC.set_threadId v).
Definition ec_SetTicks (ec : Z) (v : Z) : M unit := poke ec (EC.set_ticks v).
Definition ec_SetPreviousTickTime (ec : Z) (v : Z) : M unit := poke ec (EC.set_previousTickTime v).
Definition ec_SetCurrentTickTime (ec : Z) (v : Z) : M unit := poke ec (EC.set_currentTickTime v).
Definition ec_SetMqlError (ec : Z) (v : Z) : M unit := poke ec (EC.set_mqlError v).
Definition ec_SetDllError (ec : Z) (v : Z) : M unit := poke ec (EC.set_dllError v).
Definition ec_SetDllWarning (ec : Z) (v : Z) : M unit := poke ec (EC.set_dllWarning v).

(** A [BOOL] or enumeration made from the [int] that [error] hands back. *)
Definition BOOL_of (x : Z) : bool := negb (x =? 0).

(** Modelled from the spec: [StringEndsWith] lives in [util/string], which
    is not among the sources; the spec names its use as the "visual-mode
    title marker" test.  It tells whether [str] ends with [suffix]. *)
Fixpoint StringEndsWith (str suffix : string) : bool :=
  String.eqb str suffix ||
  match str with
  | EmptyString => false
  | String _ rest => StringEndsWith rest suffix
  end.

(** ** Thread and program tracker: [StoreThreadAndProgram] *)

(** The look-up loop over [g_threads]: the index of the first entry equal
    to the current thread, counting from [i]. *)
Fixpoint lookup_thread (threads : list Z) (currentThread i : Z) : option Z :=
  match threads with
  | [] => None
  | t :: rest =>
      if t =? currentThread then Some i
      else lookup_thread rest currentThread (i + 1)
  end.

Definition set_threadProgram (i programId : Z) : M unit :=
  s <- get ;;
  of_option (subscript (g_threadsPrograms s) i) ;;
  update (set_threadsPrograms (<[Z.to_nat i := programId]> (g_threadsPrograms s))).

Definition StoreThreadAndProgram (t : Terminal) (programId : Z) : M Z :=
  if to_int programId <? 0 then
    error ERR_INVALID_PARAMETER ;; ret (to_uint EMPTY)
  else
    let currentThread := GetCurrentThreadId t in
    s <- get ;;
    currentThreadIndex <-
      match lookup_thread (g_threads s) currentThread 0 with
      | Some i =>
          when (negb (programId =? 0)) (set_threadProgram i programId) ;;
          ret i
      | None =>
          update (fun s => set_threads (g_threads s ++ [currentThread]) s) ;;
          update (fun s => set_threadsPrograms (g_threadsPrograms s ++ [programId]) s) ;;
          s' <- get ;;
          let currentThreadIndex := Z.of_nat (length (g_threads s')) - 1 in
          when (511 <? currentThreadIndex) (debug ;; ret tt) ;;
          ret currentThreadIndex
      end ;;
    when (negb (programId =? 0) && IsUIThread t)
      (update (set_lastUIThreadProgram programId)) ;;
    ret (to_uint currentThreadIndex).

(** ** Limbo scan: [FindIndicatorInLimbo] *)

(** The test in the body of the scan loop, on the master record. *)
Definition in_limbo (t : Terminal) (hChart : Z) (name : char_ptr)
    (reason : UninitializeReason) (master : EXECUTION_CONTEXT) : bool :=
  (EC.threadId master =? GetUIThreadId t)
  && (EC.hChart master =? hChart)
  && bool_decide (EC.programType master = PT_INDICATOR)
  && String.eqb (EC.programName master) (chars name)
  && bool_decide (EC.uninitReason master = reason)
  && bool_decide (EC.rootFunction master = RF_NULL).

(** The loop [for (i=1; i < size; i++)], on the chains from index 1 on. *)
Fixpoint FindIndicatorInLimbo_loop (t : Terminal) (hChart : Z) (name : char_ptr)
    (reason : UninitializeReason) (chains : list ContextChain) : M Z :=
  match chains with
  | [] => ret NULL
  | chain :: rest =>
      p <- of_option (subscript chain 0) ;;
      master <- deref p ;;
      if in_limbo t hChart name reason master
      then ret (to_int (EC.programId master))
      else FindIndicatorInLimbo_loop t hChart name reason rest
  end.

Definition FindIndicatorInLimbo (t : Terminal) (hChart : Z) (name : char_ptr)
    (reason : UninitializeReason) : M Z :=
  if negb (hChart =? NULL) then
    s <- get ;;
    FindIndicatorInLimbo_loop t hChart name reason (drop 1 (g_contextChains s))
  else ret NULL.

(** ** Context release: [LeaveContext] *)

Definition LeaveContext (t : Terminal) (ec : Z) : M bool :=
  if to_uint ec <? MIN_VALID_POINTER t then
    e <- error ERR_INVALID_PARAMETER ;; ret (BOOL_of e)
  else
    r <- deref ec ;;
    let id := EC.programId r in
    if to_int id <? 1 then
      e <- error ERR_INVALID_PARAMETER ;; ret (BOOL_of e)
    else if negb (bool_decide (EC.rootFunction r = RF_DEINIT)) then
      e <- error ERR_INVALID_PARAMETER ;; ret (BOOL_of e)
    else
      match EC.moduleType r with
      | MT_INDICATOR | MT_SCRIPT =>
          main <- slot_at id 1 ;;
          if negb (ec =? main) then
            e <- error ERR_ILLEGAL_STATE ;; ret (BOOL_of e)
          else
            ec_SetRootFunction ec RF_NULL ;;
            set_slot id 1 NULL ;;
            ret true
      | MT_EXPERT =>
          main <- slot_at id 1 ;;
          if negb (ec =? main) then
            e <- error ERR_ILLEGAL_STATE ;; ret (BOOL_of e)
          else
            ec_SetRootFunction ec RF_NULL ;;
            r' <- deref ec ;;
            when (negb (bool_decide (EC.uninitReason r' = UR_CHARTCHANGE))
                  && negb (bool_decide (EC.uninitReason r' = UR_PARAMETERS))
                  && negb (bool_decide (EC.uninitReason r' = UR_ACCOUNT)))
              (set_slot id 1 NULL) ;;
            ret true
      | MT_LIBRARY =>
          ec_SetRootFunction ec RF_NULL ;;
          ret false
      | MT_NULL =>
          e <- error ERR_INVALID_PARAMETER ;; ret (BOOL_of e)
      end.

(** ** Display handle: [FindWindowHandle] *)

Fixpoint log_all (ds : list Diagnostic) : M unit :=
  match ds with
  | [] => ret tt
  | d :: rest => log d ;; log_all rest
  end.

(** The first three answers are the code's; the enumeration of the
    terminal's windows that follows is [FindChartWindow] of the terminal. *)
Definition FindWindowHandle (t : Terminal) (hChart sec : Z) (moduleType : ModuleType)
    (symbol : char_ptr) (timeframe : Z) (isTesting isVisualMode : bool) : M Z :=
  if negb (hChart =? NULL) then ret hChart
  else if negb (sec =? NULL) then
    r <- deref sec ;; ret (EC.hChart r)
  else if isTesting && negb isVisualMode then ret NULL
  else
    let found := FindChartWindow t moduleType (chars symbol) timeframe in
    log_all (snd found) ;; ret (fst found).

(** ** Init-reason resolver *)

(** An error return of the resolver: [(InitializeReason)error(...)] is the
    [NULL] reason. *)
Definition InitializeReason_error (code : ErrorCode) : M InitializeReason :=
  error code ;; ret IR_NULL.

(** [uint& originalProgramId] is an in/out argument: the function takes the
    caller's value and hands back the reason together with the value the
    variable holds on return. *)
Definition InitReason_indicator (t : Terminal) (ec sec : Z) (programName : char_ptr)
    (uninitReason : UninitializeReason) (symbol : char_ptr)
    (isTesting isVisualMode : bool) (hChart droppedOnChart : Z)
    (originalProgramId : Z) : M (InitializeReason * Z) :=
  let build := GetTerminalBuild t in
  let isUIThread := IsUIThread t in
  match uninitReason with
  (* (1) UR_PARAMETERS *)
  | UR_PARAMETERS =>
      if negb (sec =? NULL) then
        r <- InitializeReason_error ERR_ILLEGAL_STATE ;; ret (r, originalProgramId)
      else
        e <- deref ec ;;
        let programId := to_int (EC.programId e) in
        if negb (programId =? 0) then
          p <- slot_at programId 0 ;;
          master <- deref p ;;
          let isProgramNew := EC.ticks master =? 0 in
          ret (if isProgramNew then IR_USER else IR_PARAMETERS, originalProgramId)
        else
          programId <- FindIndicatorInLimbo t hChart programName uninitReason ;;
          if programId <? 0 then ret (IR_NULL, originalProgramId)
          else
            let originalProgramId := to_uint programId in
            let isProgramNew := programId =? 0 in
            ret (if isProgramNew then IR_USER else IR_PARAMETERS, originalProgramId)
  (* (2) UR_CHARTCHANGE *)
  | UR_CHARTCHANGE =>
      if negb (sec =? NULL) then
        r <- InitializeReason_error ERR_ILLEGAL_STATE ;; ret (r, originalProgramId)
      else
        e <- deref ec ;;
        let programId := to_int (EC.programId e) in
        let compare (programId originalProgramId : Z) : M (InitializeReason * Z) :=
          p <- slot_at programId 0 ;;
          master <- deref p ;;
          let masterSymbol := EC.symbol master in
          if String.eqb masterSymbol (chars symbol)
          then ret (IR_TIMEFRAMECHANGE, originalProgramId)
          else ret (IR_SYMBOLCHANGE, originalProgramId) in
        if programId =? 0 then
          programId <- FindIndicatorInLimbo t hChart programName uninitReason ;;
          if programId <=? 0 then
            if programId <? 0 then ret (IR_NULL, originalProgramId)
            else r <- InitializeReason_error ERR_RUNTIME_ERROR ;; ret (r, originalProgramId)
          else compare programId (to_uint programId)
        else compare programId originalProgramId
  (* (3) UR_UNDEFINED *)
  | UR_UNDEFINED =>
      if sec =? NULL then
        if build <? 654 then ret (IR_TEMPLATE, originalProgramId)
        else if 0 <=? droppedOnChart then ret (IR_TEMPLATE, originalProgramId)
        else ret (IR_USER, originalProgramId)
      else if isTesting && negb isVisualMode && isUIThread then
        if build <=? 229 then ret (IR_PROGRAM_AFTERTEST, originalProgramId)
        else r <- InitializeReason_error ERR_ILLEGAL_STATE ;; ret (r, originalProgramId)
      else ret (IR_PROGRAM, originalProgramId)
  (* (4) UR_REMOVE *)
  | UR_REMOVE =>
      if sec =? NULL then
        r <- InitializeReason_error ERR_ILLEGAL_STATE ;; ret (r, originalProgramId)
      else if negb isTesting || negb isUIThread then
        r <- InitializeReason_error ERR_ILLEGAL_STATE ;; ret (r, originalProgramId)
      else if (if negb isVisualMode
               then (388 <=? build) && (build <=? 628)
               else (578 <=? build) && (build <=? 628))
      then ret (IR_PROGRAM_AFTERTEST, originalProgramId)
      else r <- InitializeReason_error ERR_ILLEGAL_STATE ;; ret (r, originalProgramId)
  (* (5) UR_RECOMPILE *)
  | UR_RECOMPILE =>
      if negb (sec =? NULL) then
        r <- InitializeReason_error ERR_ILLEGAL_STATE ;; ret (r, originalProgramId)
      else ret (IR_RECOMPILE, originalProgramId)
  (* (6) UR_CHARTCLOSE *)
  | UR_CHARTCLOSE =>
      if sec =? NULL then
        r <- InitializeReason_error ERR_ILLEGAL_STATE ;; ret (r, originalProgramId)
      else if negb isTesting || negb isUIThread then
        r <- InitializeReason_error ERR_ILLEGAL_STATE ;; ret (r, originalProgramId)
      else if 633 <=? build then ret (IR_PROGRAM_AFTERTEST, originalProgramId)
      else r <- InitializeReason_error ERR_ILLEGAL_STATE ;; ret (r, originalProgramId)
  (* the closing switch *)
  | UR_ACCOUNT | UR_TEMPLATE | UR_INITFAILED | UR_CLOSE =>
      r <- InitializeReason_error ERR_ILLEGAL_STATE ;; ret (r, originalProgramId)
  end.

Definition InitReason_expert (t : Terminal) (ec : Z) (uninitReason : UninitializeReason)
    (symbol : char_ptr) (isTesting : bool) (droppedOnPosX droppedOnPosY : Z)
    : M InitializeReason :=
  let build := GetTerminalBuild t in
  match uninitReason with
  | UR_PARAMETERS => ret IR_PARAMETERS
  | UR_CHARTCHANGE =>
      e <- deref ec ;;
      let programId := to_int (EC.programId e) in
      if programId =? 0 then InitializeReason_error ERR_ILLEGAL_STATE
      else
        p <- slot_at programId 0 ;;
        master <- deref p ;;
        let masterSymbol := EC.symbol master in
        if String.eqb masterSymbol (chars symbol) then ret IR_TIMEFRAMECHANGE
        else ret IR_SYMBOLCHANGE
  | UR_RECOMPILE => ret IR_RECOMPILE
  | UR_CHARTCLOSE =>
      if 509 <? build then InitializeReason_error ERR_ILLEGAL_STATE
      else ret IR_USER
  | UR_UNDEFINED =>
      if isTesting then ret IR_USER
      else if 0 <=? droppedOnPosX then ret IR_USER
      else ret IR_TEMPLATE
  | UR_REMOVE =>
      if 0 <=? droppedOnPosX then ret IR_USER
      else ret IR_TEMPLATE
  | UR_TEMPLATE =>
      if build <=? 509 then InitializeReason_error ERR_ILLEGAL_STATE
      else if 0 <=? droppedOnPosX then ret IR_USER
      else ret IR_TEMPLATE
  | UR_ACCOUNT | UR_CLOSE | UR_INITFAILED =>
      InitializeReason_error ERR_ILLEGAL_STATE
  end.

Definition InitReason_script : M InitializeReason := ret IR_USER.

Definition InitReason (t : Terminal) (ec sec : Z) (programType : ProgramType)
    (programName : char_ptr) (uninitReason : UninitializeReason) (symbol : char_ptr)
    (isTesting isVisualMode : bool) (hChart droppedOnChart droppedOnPosX droppedOnPosY : Z)
    : M (InitializeReason * Z) :=
  let originalProgramId := NULL in
  match programType with
  | PT_INDICATOR =>
      InitReason_indicator t ec sec programName uninitReason symbol isTesting
        isVisualMode hChart droppedOnChart originalProgramId
  | PT_EXPERT =>
      r <- InitReason_expert t ec uninitReason symbol isTesting droppedOnPosX droppedOnPosY ;;
      ret (r, originalProgramId)
  | PT_SCRIPT =>
      r <- InitReason_script ;; ret (r, originalProgramId)
  | PT_NULL =>
      r <- InitializeReason_error ERR_INVALID_PARAMETER ;; ret (r, originalProgramId)
  end.

(** ** Effective flags *)

Definition ProgramIsTesting (t : Terminal) (ec : Z) (isTesting : bool) : M bool :=
  r <- deref ec ;;
  if negb (EC.superContext r =? NULL) then
    sc <- deref (EC.superContext r) ;; ret (EC.testing sc)
  else
    match EC.programType r with
    | PT_INDICATOR =>
        if isTesting then ret true
        else
          let hWnd := EC.hChartWindow r in
          if hWnd =? NULL then ret true
          else
            let title := GetWindowText t hWnd in
            if (String.length title =? 0)%nat then ret false
            else ret (StringEndsWith title "(visual)")
    | PT_EXPERT => ret isTesting
    | PT_SCRIPT =>
        let hWnd := EC.hChartWindow r in
        if negb (hWnd =? NULL) then
          ret (StringEndsWith (GetWindowText t hWnd) "(visual)")
        else e <- error ERR_ILLEGAL_STATE ;; ret (BOOL_of e)
    | PT_NULL => e <- error ERR_INVALID_PARAMETER ;; ret (BOOL_of e)
    end.

Definition ProgramIsVisualMode (t : Terminal) (ec : Z) (isVisualMode : bool) : M bool :=
  r <- deref ec ;;
  if negb (EC.superContext r =? NULL) then
    sc <- deref (EC.superContext r) ;; ret (EC.visualMode sc)
  else
    match EC.programType r with
    | PT_INDICATOR => ret (EC.testing r && negb (EC.hChart r =? NULL))
    | PT_EXPERT => ret isVisualMode
    | PT_SCRIPT => ret (EC.testing r)
    | PT_NULL => e <- error ERR_INVALID_PARAMETER ;; ret (BOOL_of e)
    end.

Definition ProgramIsOptimization (t : Terminal) (ec : Z) (isOptimization : bool) : M bool :=
  r <- deref ec ;;
  if negb (EC.superContext r =? NULL) then
    sc <- deref (EC.superContext r) ;; ret (EC.optimization sc)
  else
    match EC.programType r with
    | PT_INDICATOR | PT_EXPERT | PT_SCRIPT => ret isOptimization
    | PT_NULL => e <- error ERR_INVALID_PARAMETER ;; ret (BOOL_of e)
    end.

Definition ProgramIsLogging (t : Terminal) (ec : Z) : M bool :=
  r <- deref ec ;;
  if negb (EC.superContext r =? NULL) then
    sc <- deref (EC.superContext r) ;; ret (EC.logging sc)
  else
    match EC.programType r with
    | PT_INDICATOR | PT_EXPERT | PT_SCRIPT => ret true
    | PT_NULL => e <- error ERR_INVALID_PARAMETER ;; ret (BOOL_of e)
    end.

Definition ProgramCustomLogFile (t : Terminal) (ec : Z) : M (option string) :=
  r <- deref ec ;;
  if negb (EC.superContext r =? NULL) then
    sc <- deref (EC.superContext r) ;; ret (EC.customLogFile sc)
  else
    match EC.programType r with
    | PT_INDICATOR | PT_EXPERT | PT_SCRIPT => ret None
    | PT_NULL => error ERR_INVALID_PARAMETER ;; ret None
    end.

(** ** Context synchroniser: main module *)

(** Step (1) of [SyncMainContext_init], the block [if (!ec->programId)]:
    adopt the original id, then restore the record from the master of an
    indicator in its init cycle or create a new chain.  The result is the
    values the block leaves in [sec], [lastProgramId] and [isNewExpert]. *)
Definition SyncMainContext_init_chain (t : Terminal) (ec : Z) (programType : ProgramType)
    (sec : Z) (initReason : InitializeReason) (originalProgramId : Z)
    : M (Z * Z * bool) :=
  when (negb (originalProgramId =? 0))
    (ec_SetProgramId ec originalProgramId ;;
     e <- deref ec ;;
     StoreThreadAndProgram t (EC.programId e) ;;
     ret tt) ;;
  let indicatorInInitCycle :=
    bool_decide (programType = PT_INDICATOR)
    && (bool_decide (initReason = IR_PARAMETERS)
        || bool_decide (initReason = IR_SYMBOLCHANGE)
        || bool_decide (initReason = IR_TIMEFRAMECHANGE)) in
  let indicatorAfterTest :=
    bool_decide (programType = PT_INDICATOR)
    && bool_decide (initReason = IR_PROGRAM_AFTERTEST) in
  created <-
    (if indicatorInInitCycle then
       (* (1.1) indicator in init cycle: restore the main context *)
       e <- deref ec ;;
       master <- slot_at (EC.programId e) 0 ;;
       m <- deref master ;;
       assign ec m ;;
       e <- deref ec ;;
       set_slot (EC.programId e) 1 ec ;;
       ret (0, false)
     else
       (* (1.2) anything else: new master, new chain, new program id *)
       master <- new_EXECUTION_CONTEXT ;;
       e <- deref ec ;;
       assign master e ;;
       let chain : ContextChain := [master; ec] in
       update (fun s => set_contextChains (g_contextChains s ++ [chain]) s) ;;
       s <- get ;;
       let size := to_uint (Z.of_nat (length (g_contextChains s))) in
       poke ec (EC.set_programId (to_uint (size - 1))) ;;
       e <- deref ec ;;
       poke master (EC.set_programId (EC.programId e)) ;;
       index <- StoreThreadAndProgram t 0 ;;
       s <- get ;;
       lastProgramId <- of_option (subscript (g_threadsPrograms s) index) ;;
       e <- deref ec ;;
       set_threadProgram index (EC.programId e) ;;
       ret (lastProgramId, bool_decide (programType = PT_EXPERT))) ;;
  if indicatorAfterTest then
    ec_SetSuperContext ec NULL ;;
    ret (NULL, fst created, snd created)
  else ret (sec, fst created, snd created).

(** Step (2): the fields set on the first call of [init()] (2.1) and on
    every call (2.2).  The result is the values the block leaves in
    [isTesting], [isVisualMode] and [isOptimization]. *)
Definition SyncMainContext_init_update (t : Terminal) (ec : Z) (programType : ProgramType)
    (programName : char_ptr) (uninitReason : UninitializeReason)
    (initFlags deinitFlags : Z) (symbol : char_ptr) (period sec : Z)
    (isTesting isVisualMode isOptimization : bool) (hChart : Z)
    (initReason : InitializeReason) : M (bool * bool * bool) :=
  e <- deref ec ;;
  flags <-
    (if EC.ticks e =? 0 then
       ec_SetProgramType ec programType ;;
       ec_SetProgramName ec programName ;;
       ec_SetModuleType ec (ModuleType_of programType) ;;
       ec_SetModuleName ec programName ;;
       ec_SetSuperContext ec sec ;;
       ec_SetHChart ec hChart ;;
       ec_SetHChartWindow ec (if negb (hChart =? NULL) then GetParent t hChart else NULL) ;;
       isTesting <- ProgramIsTesting t ec isTesting ;;
       ec_SetTesting ec isTesting ;;
       isVisualMode <- ProgramIsVisualMode t ec isVisualMode ;;
       ec_SetVisualMode ec isVisualMode ;;
       isOptimization <- ProgramIsOptimization t ec isOptimization ;;
       ec_SetOptimization ec isOptimization ;;
       ec_SetInitFlags ec initFlags ;;
       ec_SetDeinitFlags ec deinitFlags ;;
       logging <- ProgramIsLogging t ec ;;
       ec_SetLogging ec logging ;;
       customLogFile <- ProgramCustomLogFile t ec ;;
       ec_SetCustomLogFile ec customLogFile ;;
       ret (isTesting, isVisualMode, isOptimization)
     else ret (isTesting, isVisualMode, isOptimization)) ;;
  ec_SetRootFunction ec RF_INIT ;;
  ec_SetInitReason ec initReason ;;
  ec_SetUninitReason ec uninitReason ;;
  ec_SetSymbol ec symbol ;;
  ec_SetTimeframe ec period ;;
  ec_SetThreadId ec (GetCurrentThreadId t) ;;
  ret flags.

(** The body of the loop of step (3) for the slots [i] of [slots], in
    order; [currentChain] and [lastChain] are the chains of the programs
    [currentProgramId] and [lastProgramId]. *)
Fixpoint SyncMainContext_init_loop (ec currentProgramId lastProgramId : Z)
    (slots : list Z) : M unit :=
  match slots with
  | [] => ret tt
  | i :: rest =>
      lib <- slot_at lastProgramId i ;;
      (if lib =? NULL then
         warn ERR_ILLEGAL_STATE ;; ret tt
       else
         l <- deref lib ;;
         when (EC.initCycle l)
           (set_slot lastProgramId i NULL ;;
            e <- deref ec ;; ec_SetProgramId lib (EC.programId e) ;;
            ec_SetInitCycle lib false ;;
            e <- deref ec ;; ec_SetVisualMode lib (EC.visualMode e) ;;
            e <- deref ec ;; ec_SetOptimization lib (EC.optimization e) ;;
            e <- deref ec ;; ec_SetLogging lib (EC.logging e) ;;
            e <- deref ec ;; ec_SetCustomLogFile lib (EC.customLogFile e) ;;
            e <- deref ec ;; ec_SetHChart lib (EC.hChart e) ;;
            e <- deref ec ;; ec_SetHChartWindow lib (EC.hChartWindow e) ;;
            chain_push_back currentProgramId lib)) ;;
      SyncMainContext_init_loop ec currentProgramId lastProgramId rest
  end.

(** The slots [first], [first+1], ... [first+count-1]. *)
Fixpoint slots_from (first : Z) (count : nat) : list Z :=
  match count with
  | O => []
  | S n => first :: slots_from (first + 1) n
  end.

(** Step (3): an expert in the tester takes over the libraries its
    predecessor on this thread left in their init cycle. *)
Definition SyncMainContext_init_libraries (ec : Z) (isNewExpert isTesting : bool)
    (lastProgramId : Z) : M unit :=
  when (isNewExpert && isTesting && negb (lastProgramId =? 0))
    (lastMaster <- slot_at lastProgramId 0 ;;
     marked <- (if lastMaster =? NULL then ret false
                else m <- deref lastMaster ;; ret (EC.initCycle m)) ;;
     when marked
       (e <- deref ec ;;
        let currentProgramId := EC.programId e in
        chain_at currentProgramId ;;
        lastChain <- chain_at lastProgramId ;;
        let lastSize := length lastChain in
        SyncMainContext_init_loop ec currentProgramId lastProgramId
          (slots_from 2 (lastSize - 2)) ;;
        poke lastMaster (EC.set_initCycle false))).

Definition SyncMainContext_init (t : Terminal) (ec : Z) (programType : ProgramType)
    (programName : char_ptr) (uninitReason : UninitializeReason)
    (initFlags deinitFlags : Z) (symbol : char_ptr) (period sec : Z)
    (isTesting isVisualMode isOptimization : bool)
    (hChart droppedOnChart droppedOnPosX droppedOnPosY : Z) : M bool :=
  if to_uint ec <? MIN_VALID_POINTER t then
    e <- error ERR_INVALID_PARAMETER ;; ret (BOOL_of e)
  else if to_uint (address programName) <? MIN_VALID_POINTER t then
    e <- error ERR_INVALID_PARAMETER ;; ret (BOOL_of e)
  else if to_uint (address symbol) <? MIN_VALID_POINTER t then
    e <- error ERR_INVALID_PARAMETER ;; ret (BOOL_of e)
  else if to_int period <=? 0 then
    e <- error ERR_INVALID_PARAMETER ;; ret (BOOL_of e)
  else if negb (sec =? NULL) && (to_uint sec <? MIN_VALID_POINTER t) then
    e <- error ERR_INVALID_PARAMETER ;; ret (BOOL_of e)
  else
    e <- deref ec ;;
    when (negb (EC.programId e =? 0))
      (StoreThreadAndProgram t (EC.programId e) ;; ret tt) ;;
    resolved <- InitReason t ec sec programType programName uninitReason symbol
                  isTesting isVisualMode hChart droppedOnChart droppedOnPosX
                  droppedOnPosY ;;
    let initReason := fst resolved in
    let originalProgramId := snd resolved in
    hChart <- FindWindowHandle t hChart sec (ModuleType_of programType) symbol
                period isTesting isVisualMode ;;
    if hChart =? INVALID_HWND then
      e <- error ERR_RUNTIME_ERROR ;; ret (BOOL_of e)
    else
      e <- deref ec ;;
      (* (1) *)
      step1 <-
        (if EC.programId e =? 0 then
           SyncMainContext_init_chain t ec programType sec initReason originalProgramId
         else ret (sec, 0, false)) ;;
      let sec := fst (fst step1) in
      let lastProgramId := snd (fst step1) in
      let isNewExpert := snd step1 in
      (* (2) *)
      flags <- SyncMainContext_init_update t ec programType programName uninitReason
                 initFlags deinitFlags symbol period sec isTesting isVisualMode
                 isOptimization hChart initReason ;;
      let isTesting := fst (fst flags) in
      (* (3) *)
      SyncMainContext_init_libraries ec isNewExpert isTesting lastProgramId ;;
      ret true.

(** The tick values [bid], [ask] and [volume] of the C++ signature are not
    used by the body and are left out. *)
Definition SyncMainContext_start (t : Terminal) (ec : Z) (time : Z) : M bool :=
  if to_uint ec <? MIN_VALID_POINTER t then
    e <- error ERR_INVALID_PARAMETER ;; ret (BOOL_of e)
  else
    e <- deref ec ;;
    if EC.programId e =? 0 then
      e <- error ERR_INVALID_PARAMETER ;; ret (BOOL_of e)
    else
      StoreThreadAndProgram t (EC.programId e) ;;
      ec_SetRootFunction ec RF_START ;;
      ec_SetThreadId ec (GetCurrentThreadId t) ;;
      e <- deref ec ;; ec_SetTicks ec (to_uint (EC.ticks e + 1)) ;;
      e <- deref ec ;; ec_SetPreviousTickTime ec (EC.currentTickTime e) ;;
      ec_SetCurrentTickTime ec time ;;
      ret true.

Definition SyncMainContext_deinit (t : Terminal) (ec : Z)
    (uninitReason : UninitializeReason) : M bool :=
  if to_uint ec <? MIN_VALID_POINTER t then
    e <- error ERR_INVALID_PARAMETER ;; ret (BOOL_of e)
  else
    e <- deref ec ;;
    if EC.programId e =? 0 then
      e <- error ERR_INVALID_PARAMETER ;; ret (BOOL_of e)
    else
      StoreThreadAndProgram t (EC.programId e) ;;
      ec_SetRootFunction ec RF_DEINIT ;;
      ec_SetUninitReason ec uninitReason ;;
      ec_SetThreadId ec (GetCurrentThreadId t) ;;
      ret true.

(** ** Context synchroniser: libraries *)

Definition SyncLibContext_init (t : Terminal) (ec : Z) (uninitReason : UninitializeReason)
    (initFlags deinitFlags : Z) (moduleName symbol : char_ptr) (period : Z)
    (isOptimization : bool) : M bool :=
  if to_uint ec <? MIN_VALID_POINTER t then
    e <- error ERR_INVALID_PARAMETER ;; ret (BOOL_of e)
  else if to_uint (address moduleName) <? MIN_VALID_POINTER t then
    e <- error ERR_INVALID_PARAMETER ;; ret (BOOL_of e)
  else if to_uint (address symbol) <? MIN_VALID_POINTER t then
    e <- error ERR_INVALID_PARAMETER ;; ret (BOOL_of e)
  else if to_int period <=? 0 then
    e <- error ERR_INVALID_PARAMETER ;; ret (BOOL_of e)
  else
    e <- deref ec ;;
    (if EC.programId e =? 0 then
       (* (1) the library is loaded the first time *)
       index <- StoreThreadAndProgram t 0 ;;
       s <- get ;;
       programId <- of_option (subscript (g_threadsPrograms s) index) ;;
       master <- slot_at programId 0 ;;
       m <- deref master ;;
       assign ec m ;;
       ec_SetModuleType ec MT_LIBRARY ;;
       ec_SetModuleName ec moduleName ;;
       ec_SetRootFunction ec RF_INIT ;;
       ec_SetInitCycle ec false ;;
       ec_SetInitReason ec IR_NULL ;;
       ec_SetUninitReason ec uninitReason ;;
       ec_SetInitFlags ec initFlags ;;
       ec_SetDeinitFlags ec deinitFlags ;;
       ec_SetTicks ec 0 ;;
       ec_SetMqlError ec 0 ;;
       ec_SetDllError ec 0 ;;
       poke ec (EC.set_dllErrorMsg None) ;;
       ec_SetDllWarning ec 0 ;;
       poke ec (EC.set_dllWarningMsg None) ;;
       chain_push_back programId ec
     else if IsUIThread t then
       (* (2.1) init cycle of an indicator *)
       StoreThreadAndProgram t (EC.programId e) ;;
       ec_SetRootFunction ec RF_INIT ;;
       ec_SetInitCycle ec false ;;
       ec_SetUninitReason ec uninitReason ;;
       ec_SetSymbol ec symbol ;;
       ec_SetTimeframe ec period
     else
       (* (2.2) init cycle of an expert in the tester *)
       StoreThreadAndProgram t (EC.programId e) ;;
       ec_SetRootFunction ec RF_INIT ;;
       ec_SetInitCycle ec true ;;
       ec_SetUninitReason ec uninitReason ;;
       ec_SetVisualMode ec false ;;
       ec_SetOptimization ec isOptimization ;;
       ec_SetLogging ec false ;;
       ec_SetCustomLogFile ec None ;;
       ec_SetSymbol ec symbol ;;
       ec_SetTimeframe ec period ;;
       ec_SetHChart ec NULL ;;
       ec_SetHChartWindow ec NULL ;;
       ec_SetThreadId ec (GetCurrentThreadId t) ;;
       e <- deref ec ;;
       master <- slot_at (EC.programId e) 0 ;;
       poke master (EC.set_initCycle true)) ;;
    ret true.

Definition SyncLibContext_deinit (t : Terminal) (ec : Z)
    (uninitReason : UninitializeReason) : M bool :=
  if to_uint ec <? MIN_VALID_POINTER t then
    e <- error ERR_INVALID_PARAMETER ;; ret (BOOL_of e)
  else
    e <- deref ec ;;
    if EC.programId e =? 0 then
      e <- error ERR_INVALID_PARAMETER ;; ret (BOOL_of e)
    else
      StoreThreadAndProgram t (EC.programId e) ;;
      ec_SetRootFunction ec RF_DEINIT ;;
      ec_SetUninitReason ec uninitReason ;;
      ret true.

(** * Vocabulary of the properties *)

(** The slot [slot] of the chain of program [id], read off a state. *)
Definition slot_of (s : State) (id slot : Z) : option Z :=
  subscript (g_contextChains s) id ≫= fun c => subscript c slot.

(** The master record of the chain at index [i] of a registry. *)
Definition master_of (s : State) (id : Z) : option EXECUTION_CONTEXT :=
  slot_of s id 0 ≫= fun p => memory s !! p.

(** A failed call: the caller gets [FALSE], one error diagnostic with the
    code is emitted, and nothing else changes. *)
Definition failed (code : ErrorCode) (s : State) : outcome bool :=
  Done false (set_diagnostics (diagnostics s ++ [LogError code]) s).

(** The state after the release of the main record [ec] of program [id]:
    the record's root function is cleared and, when [clear] holds, slot 1 of
    the chain is set to [NULL]. *)
Definition released (ec : Z) (r : EXECUTION_CONTEXT) (id : Z) (c : ContextChain)
    (clear : bool) (s : State) : State :=
  let s' := set_memory (<[ec := EC.set_rootFunction RF_NULL r]> (memory s)) s in
  if clear
  then set_contextChains (<[Z.to_nat id := <[1%nat := NULL]> c]> (g_contextChains s')) s'
  else s'.

(** The uninit reasons that keep an expert's main record in its chain. *)
Definition keeps_main (reason : UninitializeReason) : bool :=
  match reason with
  | UR_CHARTCHANGE | UR_PARAMETERS | UR_ACCOUNT => true
  | _ => false
  end.

(** The state after the current thread was entered into the map with the
    program [programId]. *)
Definition thread_added (t : Terminal) (programId : Z) (s : State) : State :=
  let s1 := set_threads (g_threads s ++ [GetCurrentThreadId t]) s in
  let s2 := set_threadsPrograms (g_threadsPrograms s1 ++ [programId]) s1 in
  if 511 <? Z.of_nat (length (g_threads s2)) - 1
  then set_diagnostics (diagnostics s2 ++ [LogDebug]) s2
  else s2.

(** What the spec asks of a master record for a resurrection: it is on
    the UI thread, has the chart handle, is an indicator of the given name
    with the given uninit reason, and no root function is running. *)
Definition matches_limbo (t : Terminal) (hChart : Z) (name : char_ptr)
    (reason : UninitializeReason) (master : EXECUTION_CONTEXT) : Prop :=
  EC.threadId master = GetUIThreadId t
  /\ EC.hChart master = hChart
  /\ EC.programType master = PT_INDICATOR
  /\ EC.programName master = chars name
  /\ EC.uninitReason master = reason
  /\ EC.rootFunction master = RF_NULL.

(** The master record a chain points to. *)
Definition chain_master (s : State) (chain : ContextChain) : option EXECUTION_CONTEXT :=
  subscript chain 0 ≫= fun p => memory s !! p.

(** The state after one error diagnostic. *)
Definition logged (d : Diagnostic) (s : State) : State :=
  set_diagnostics (diagnostics s ++ [d]) s.

(** The record a first activation (blocks (2.1) and (2.2) of
    [SyncMainContext_init]) leaves for a nested program: everything the block sets, with the five effective
    values taken from the super context [sc]. *)
Definition first_activation (t : Terminal) (programType : ProgramType)
    (programName : char_ptr) (uninitReason : UninitializeReason)
    (initFlags deinitFlags : Z) (symbol : char_ptr) (period sec hChart : Z)
    (initReason : InitializeReason) (sc e : EXECUTION_CONTEXT) : EXECUTION_CONTEXT :=
  EC.set_threadId (GetCurrentThreadId t)
    (EC.set_timeframe period
       (EC.set_symbol (chars symbol)
          (EC.set_uninitReason uninitReason
             (EC.set_initReason initReason
                (EC.set_rootFunction RF_INIT
                   (EC.set_customLogFile (EC.customLogFile sc)
                      (EC.set_logging (EC.logging sc)
                         (EC.set_deinitFlags deinitFlags
                            (EC.set_initFlags initFlags
                               (EC.set_optimization (EC.optimization sc)
                                  (EC.set_visualMode (EC.visualMode sc)
                                     (EC.set_testing (EC.testing sc)
                                        (EC.set_hChartWindow
                                           (if negb (hChart =? NULL) then GetParent t hChart else NULL)
                                           (EC.set_hChart hChart
                                              (EC.set_superContext sec
                                                 (EC.set_moduleName (chars programName)
                                                    (EC.set_moduleType (ModuleType_of programType)
                                                       (EC.set_programName (chars programName)
                                                          (EC.set_programType programType e))))))))))))))))))).

(** [wp m Q s]: when [m] finishes from [s], its result and final state
    satisfy [Q]; a run that leaves the defined behaviour of the program
    is not constrained. *)
Definition wp {A} (m : M A) (Q : A -> State -> Prop) (s : State) : Prop :=
  match m s with
  | Done a s' => Q a s'
  | Undefined => True
  end.

(** [preserves I m]: [m] keeps the state property [I]. *)
Definition preserves {A} (I : State -> Prop) (m : M A) : Prop :=
  forall s, I s -> wp m (fun _ s' => I s') s.

(** *** State properties the operations keep

    [Invariant I]: the property [I] survives a change of the trackers and
    of the diagnostics, a write to a record that keeps its program id, a
    write to a library slot of a chain and an append to a chain.
    [CopiesProgramId ec I]: it also survives a write of the program id of
    the record at [ec] into any record. *)
Class Invariant (I : State -> Prop) : Prop := {
  inv_record : forall s p r r',
    I s -> memory s !! p = Some r -> EC.programId r' = EC.programId r ->
    I (set_memory (<[p := r']> (memory s)) s);
  inv_threads : forall s l, I s -> I (set_threads l s);
  inv_threadsPrograms : forall s l, I s -> I (set_threadsPrograms l s);
  inv_lastUIThreadProgram : forall s p, I s -> I (set_lastUIThreadProgram p s);
  inv_diagnostics : forall s d, I s -> I (set_diagnostics d s);
  inv_library_slot : forall s id c slot p,
    I s -> subscript (g_contextChains s) id = Some c -> 2 <= slot ->
    I (set_contextChains (<[Z.to_nat id := <[Z.to_nat slot := p]> c]> (g_contextChains s)) s);
  inv_push_back : forall s id c p,
    I s -> subscript (g_contextChains s) id = Some c ->
    I (set_contextChains (<[Z.to_nat id := c ++ [p]]> (g_contextChains s)) s)
}.

Class CopiesProgramId (ec : Z) (I : State -> Prop) : Prop :=
  inv_program_id : forall s p r e,
    I s -> memory s !! p = Some r -> memory s !! ec = Some e ->
    I (set_memory (<[p := EC.set_programId (EC.programId e) r]> (memory s)) s).

(** The number of chains of the registry satisfies [P]. *)
Definition registry (P : nat -> Prop) (s : State) : Prop :=
  P (length (g_contextChains s)).

(** The record at [p] exists. *)
Definition allocated (p : Z) (s : State) : Prop := is_Some (memory s !! p).

(** Program [n] owns the newest chain: the registry has [n + 1] chains, the
    chain at index [n] starts with the master and the main record [ec], and
    both records hold the program id [n]. *)
Definition owns (ec master : Z) (n : nat) (s : State) : Prop :=
  length (g_contextChains s) = S n
  /\ (exists libs, g_contextChains s !! n = Some (master :: ec :: libs))
  /\ EC.programId <$> memory s !! ec = Some (Z.of_nat n)
  /\ EC.programId <$> memory s !! master = Some (Z.of_nat n).

Inductive api_call : Type :=
| Call_SyncMainContext_init (t : Terminal) (ec : Z) (programType : ProgramType)
    (programName : char_ptr) (uninitReason : UninitializeReason)
    (initFlags deinitFlags : Z) (symbol : char_ptr) (period sec : Z)
    (isTesting isVisualMode isOptimization : bool)
    (hChart droppedOnChart droppedOnPosX droppedOnPosY : Z)
| Call_SyncMainContext_start (t : Terminal) (ec : Z) (time : Z)
| Call_SyncMainContext_deinit (t : Terminal) (ec : Z) (uninitReason : UninitializeReason)
| Call_SyncLibContext_init (t : Terminal) (ec : Z) (uninitReason : UninitializeReason)
    (initFlags deinitFlags : Z) (moduleName symbol : char_ptr) (period : Z)
    (isOptimization : bool)
| Call_SyncLibContext_deinit (t : Terminal) (ec : Z) (uninitReason : UninitializeReason)
| Call_LeaveContext (t : Terminal) (ec : Z).

Definition perform (c : api_call) : M bool :=
  match c with
  | Call_SyncMainContext_init t ec programType programName uninitReason initFlags
      deinitFlags symbol period sec isTesting isVisualMode isOptimization hChart
      droppedOnChart droppedOnPosX droppedOnPosY =>
      SyncMainContext_init t ec programType programName uninitReason initFlags
        deinitFlags symbol period sec isTesting isVisualMode isOptimization hChart
        droppedOnChart droppedOnPosX droppedOnPosY
  | Call_SyncMainContext_start t ec time => SyncMainContext_start t ec time
  | Call_SyncMainContext_deinit t ec uninitReason => SyncMainContext_deinit t ec uninitReason
  | Call_SyncLibContext_init t ec uninitReason initFlags deinitFlags moduleName symbol
      period isOptimization =>
      SyncLibContext_init t ec uninitReason initFlags deinitFlags moduleName symbol
        period isOptimization
  | Call_SyncLibContext_deinit t ec uninitReason => SyncLibContext_deinit t ec uninitReason
  | Call_LeaveContext t ec => LeaveContext t ec
  end.

(** The execution context a call is made for. *)
Definition context_of (c : api_call) : Z :=
  match c with
  | Call_SyncMainContext_init _ ec _ _ _ _ _ _ _ _ _ _ _ _ _ _ _ => ec
  | Call_SyncMainContext_start _ ec _ => ec
  | Call_SyncMainContext_deinit _ ec _ => ec
  | Call_SyncLibContext_init _ ec _ _ _ _ _ _ _ => ec
  | Call_SyncLibContext_deinit _ ec _ => ec
  | Call_LeaveContext _ ec => ec
  end.

(** One step of the process: a call of an exported function that
    finishes, or the terminal rewriting the memory of the programs between
    two calls (it erases and reuses the memory of the execution contexts). *)
Inductive step : State -> State -> Prop :=
| step_call (c : api_call) (b : bool) (s s' : State) :
    perform c s = Done b s' -> step s s'
| step_terminal (h : gmap Z EXECUTION_CONTEXT) (s : State) :
    step s (set_memory h s).

(** The state a call leaves. *)
Definition after (c : api_call) (s : State) : State :=
  match perform c s with
  | Done _ s' => s'
  | Undefined => s
  end.

(** The call [c] made in [s] created the chain of the new program [id]:
    it is a [SyncMainContext_init] that appended one chain to the
    registry, [id] is the index of that chain, the chain starts with a
    master record and the record of the call, and both hold [id]. *)
Definition creates_program (c : api_call) (s s' : State) (id : Z) : Prop :=
  (exists t programType programName uninitReason initFlags deinitFlags symbol period
          sec isTesting isVisualMode isOptimization hChart droppedOnChart
          droppedOnPosX droppedOnPosY,
     c = Call_SyncMainContext_init t (context_of c) programType programName
           uninitReason initFlags deinitFlags symbol period sec isTesting
           isVisualMode isOptimization hChart droppedOnChart droppedOnPosX
           droppedOnPosY)
  /\ id = Z.of_nat (length (g_contextChains s))
  /\ length (g_contextChains s') = S (length (g_contextChains s))
  /\ (exists master libs,
        subscript (g_contextChains s') id = Some (master :: context_of c :: libs)
        /\ EC.programId <$> memory s' !! master = Some id)
  /\ EC.programId <$> memory s' !! context_of c = Some id.

(** The library record [l] after the new expert, whose record is [e], has
    taken it over: the setters of the loop of step (3), in order. *)
Definition reattached (e l : EXECUTION_CONTEXT) : EXECUTION_CONTEXT :=
  EC.set_hChartWindow (EC.hChartWindow e)
    (EC.set_hChart (EC.hChart e)
       (EC.set_customLogFile (EC.customLogFile e)
          (EC.set_logging (EC.logging e)
             (EC.set_optimization (EC.optimization e)
                (EC.set_visualMode (EC.visualMode e)
                   (EC.set_initCycle false
                      (EC.set_programId (EC.programId e) l))))))).

(** The slot holds a record that is marked as being in its init cycle. *)
Definition marked (h : gmap Z EXECUTION_CONTEXT) (p : Z) : bool :=
  negb (p =? NULL)
  && match h !! p with
     | Some l => EC.initCycle l
     | None => false
     end.

(** The state after the loop body ran for slot [i] of the last chain,
    which holds [p]. *)
Definition reattach_slot (e : EXECUTION_CONTEXT) (cur last i p : Z) (s : State) : State :=
  if p =? NULL then logged (LogWarn ERR_ILLEGAL_STATE) s
  else
    match memory s !! p with
    | Some l =>
        if EC.initCycle l then
          set_contextChains
            (alter (fun c => c ++ [p]) (Z.to_nat cur)
               (alter (<[Z.to_nat i := NULL]>) (Z.to_nat last) (g_contextChains s)))
            (set_memory (<[p := reattached e l]> (memory s)) s)
        else s
    | None => s
    end.

(** The state after the loop ran for the slots [i], [i+1], ... holding
    [ps]. *)
Fixpoint reattach_slots (e : EXECUTION_CONTEXT) (cur last i : Z) (ps : list Z)
    (s : State) : State :=
  match ps with
  | [] => s
  | p :: rest => reattach_slots e cur last (i + 1) rest (reattach_slot e cur last i p s)
  end.

(** What the loop of step (3), run for the expert's record [e] at [ec], the
    new program [cur] and the previous program [last], needs of a state to
    run for slot [i] holding [p]. *)
Record loop_ready (ec cur last : Z) (e : EXECUTION_CONTEXT) (i p : Z) (s : State)
    : Prop := {
  ready_ec : memory s !! ec = Some e;
  ready_slot : slot_of s last i = Some p;
  ready_cur : is_Some (subscript (g_contextChains s) cur);
  ready_lib : p = NULL \/ (p <> ec /\ is_Some (memory s !! p))
}.

(** The library slots [ps] of a chain hold pairwise different records
    ([NULL] may repeat). *)
Definition distinct_records (ps : list Z) : Prop :=
  NoDup (filter (fun p => p <> NULL) ps).

(** What holds before the loop reaches slot [i] of the previous chain, with
    the slots [ps] still to come. *)
Record reattaching (ec cur last : Z) (e : EXECUTION_CONTEXT) (i : Z) (ps : list Z)
    (s : State) : Prop := {
  reattaching_ec : memory s !! ec = Some e;
  reattaching_last : exists pre,
    g_contextChains s !! Z.to_nat last = Some (pre ++ ps) /\ i = Z.of_nat (length pre);
  reattaching_cur : is_Some (g_contextChains s !! Z.to_nat cur);
  reattaching_libs : forall p, p ∈ ps -> p <> NULL -> p <> ec /\ is_Some (memory s !! p)
}.

(** What the loop has done from [s] to [s'] when it is through with the
    slots [ps] that follow the slots [pre] of the previous chain; [cc] is
    the chain of the new program in [s]. *)
Record reattachment (cur last : Z) (e : EXECUTION_CONTEXT) (pre ps cc : list Z)
    (s s' : State) : Prop := {
  reattachment_last :
    g_contextChains s' !! Z.to_nat last
    = Some (pre ++ ((fun p => if marked (memory s) p then NULL else p) <$> ps));
  reattachment_cur :
    g_contextChains s' !! Z.to_nat cur
    = Some (cc ++ filter (fun p => marked (memory s) p = true) ps);
  reattachment_others : forall j : nat,
    j <> Z.to_nat last -> j <> Z.to_nat cur ->
    g_contextChains s' !! j = g_contextChains s !! j;
  reattachment_length : length (g_contextChains s') = length (g_contextChains s);
  reattachment_memory : forall q,
    memory s' !! q
    = if bool_decide (q ∈ ps) && marked (memory s) q
      then reattached e <$> memory s !! q
      else memory s !! q;
  reattachment_warnings :
    diagnostics s'
    = diagnostics s ++ ((fun _ => LogWarn ERR_ILLEGAL_STATE) <$> filter (fun p => p = NULL) ps);
  reattachment_threads :
    g_threads s' = g_threads s /\ g_threadsPrograms s' = g_threadsPrograms s
    /\ g_lastUIThreadProgram s' = g_lastUIThreadProgram s
}.

(** * Sample states and calls *)

Definition terminal_ui : Terminal :=
  {| GetCurrentThreadId := 7;
     GetUIThreadId := 7;
     IsUIThread := true;
     GetTerminalBuild := 1090;
     MIN_VALID_POINTER := 65536;
     GetParent := fun h => h + 1;
     GetWindowText := fun _ => "EURUSD,H1";
     FindChartWindow := fun _ _ _ => (INVALID_HWND, [LogError ERR_RUNTIME_ERROR]) |}.

Definition terminal_tester : Terminal :=
  {| GetCurrentThreadId := 9;
     GetUIThreadId := 7;
     IsUIThread := false;
     GetTerminalBuild := 1090;
     MIN_VALID_POINTER := 65536;
     GetParent := fun h => h + 1;
     GetWindowText := fun _ => "EURUSD,H1 (visual)";
     FindChartWindow := fun _ _ _ => (INVALID_HWND, [LogError ERR_RUNTIME_ERROR]) |}.

(** A main record of program 1 inside [deinit()]. *)
Definition leaving (kind : ModuleType) (reason : UninitializeReason) : EXECUTION_CONTEXT :=
  EC.set_programId 1
    (EC.set_moduleType kind
       (EC.set_rootFunction RF_DEINIT
          (EC.set_uninitReason reason EC.zero))).

(** One program: master at [0x20000], main record at [0x30000]. *)
Definition one_program (main : EXECUTION_CONTEXT) : State :=
  {| memory := {[ 131072 := EC.set_programId 1 EC.zero; 196608 := main ]};
     g_contextChains := [[]; [131072; 196608]];
     g_threads := [7];
     g_threadsPrograms := [1];
     g_lastUIThreadProgram := 1;
     diagnostics := [] |}.

(** The same program with a record at [0x40000] that is not in the chain. *)
Definition foreign_record (r : EXECUTION_CONTEXT) : State :=
  set_memory (<[262144 := r]> (memory (one_program r))) (one_program r).

(** A map with two threads: the UI thread 7 ran program 1 last, the tester
    thread 9 ran program 2. *)
Definition two_threads : State :=
  {| memory := ∅;
     g_contextChains := [[]];
     g_threads := [7; 9];
     g_threadsPrograms := [1; 2];
     g_lastUIThreadProgram := 1;
     diagnostics := [] |}.

(** The master of an indicator "Bands" of the UI thread (thread 7) on the
    chart [hChart] that left [deinit()] with [reason]; [root] is the root
    function it holds. *)
Definition bands_master (id hChart : Z) (reason : UninitializeReason)
    (root : RootFunction) : EXECUTION_CONTEXT :=
  EC.set_programId id
    (EC.set_programType PT_INDICATOR
       (EC.set_programName "Bands"
          (EC.set_threadId 7
             (EC.set_hChart hChart
                (EC.set_uninitReason reason
                   (EC.set_rootFunction root EC.zero)))))).

(** Two programs with the masters [m1] at [0x20000] and [m2] at [0x22000],
    both without a main record, and an erased record at [0x30000]. *)
Definition two_masters (m1 m2 : EXECUTION_CONTEXT) : State :=
  {| memory := {[ 131072 := m1; 139264 := m2; 196608 := EC.zero ]};
     g_contextChains := [[]; [131072; NULL]; [139264; NULL]];
     g_threads := [7];
     g_threadsPrograms := [2];
     g_lastUIThreadProgram := 2;
     diagnostics := [] |}.

Definition Bands : char_ptr := CharPtr 4198400 "Bands".
Definition EURUSD : char_ptr := CharPtr 4198464 "EURUSD".

(** On the chart 528 the indicator "Bands" with program id 1 is in limbo
    after a change of parameters, program 2 is inside [start()]. *)
Definition limbo_after_parameters : State :=
  two_masters (bands_master 1 528 UR_PARAMETERS RF_NULL)
              (bands_master 2 528 UR_PARAMETERS RF_START).



Definition experts_first_test : api_call :=
  Call_SyncMainContext_init terminal_tester 196608 PT_EXPERT (CharPtr 4198400 "Grid")
    UR_UNDEFINED 0 0 EURUSD 60 NULL true false false NULL 0 0 0.

Definition fresh_process : State :=
  {| memory := {[ 196608 := EC.zero; 262144 := EC.zero ]};
     g_contextChains := [[]];
     g_threads := [];
     g_threadsPrograms := [];
     g_lastUIThreadProgram := 0;
     diagnostics := [] |}.

(** The expert's record moves into [start()], then a second expert is
    loaded on the same thread with its record at [0x40000]. *)
Definition experts_first_tick : api_call :=
  Call_SyncMainContext_start terminal_tester 196608 1700000000.

Definition experts_second_test : api_call :=
  Call_SyncMainContext_init terminal_tester 262144 PT_EXPERT (CharPtr 4198400 "Grid")
    UR_UNDEFINED 0 0 EURUSD 60 NULL true false false NULL 0 0 0.

(** The state before step (3) of the [init()] of a second expert in the
    tester.  Program 1, the expert of the first test, has left the library
    at [0x50000] marked, a [NULL] slot and the library at [0x51000] that is
    not marked; its master at [0x20000] is marked.  Program 2 is the new
    expert with the record at [0x40000]. *)
Definition second_expert : EXECUTION_CONTEXT :=
  EC.set_programId 2
    (EC.set_programType PT_EXPERT
       (EC.set_testing true
          (EC.set_visualMode true
             (EC.set_logging true
                (EC.set_hChart 528
                   (EC.set_hChartWindow 529 EC.zero)))))).

Definition marked_library : EXECUTION_CONTEXT :=
  EC.set_programId 1 (EC.set_moduleType MT_LIBRARY (EC.set_initCycle true EC.zero)).

Definition second_test : State :=
  {| memory := {[ 131072 := EC.set_programId 1 (EC.set_initCycle true EC.zero);
                  196608 := EC.set_programId 1 EC.zero;
                  139264 := EC.set_programId 2 EC.zero;
                  262144 := second_expert;
                  327680 := marked_library;
                  331776 := EC.set_programId 1 (EC.set_moduleType MT_LIBRARY EC.zero) ]};
     g_contextChains :=
       [[]; [131072; 196608; 327680; NULL; 331776]; [139264; 262144]];
     g_threads := [9];
     g_threadsPrograms := [2];
     g_lastUIThreadProgram := 0;
     diagnostics := [] |}.

(** The whole of [SyncMainContext_init] on the scenario of the spec: an
    expert is tested (program 1) and loads a library; before the second
    test the terminal calls the library's [init()] on the tester thread and
    erases the expert's record; the [init()] of the second test creates
    program 2 and takes the library over. *)
Definition library_init : api_call :=
  Call_SyncLibContext_init terminal_tester 327680 UR_UNDEFINED 0 0
    (CharPtr 4198528 "stdlib") EURUSD 60 false.

Definition tester_process : State :=
  {| memory := {[ 196608 := EC.zero; 327680 := EC.zero ]};
     g_contextChains := [[]];
     g_threads := [];
     g_threadsPrograms := [];
     g_lastUIThreadProgram := 0;
     diagnostics := [] |}.

(** The state at the [init()] of a second test.  Program 1, the expert of
    the first test, has left the library at [0x50000] marked, a [NULL] slot
    and the library at [0x51000] that is not marked; its master at
    [0x20000] is marked.  The terminal has erased the expert's record at
    [0x30000], and the tester thread 9 is still entered for program 1. *)
Definition second_test_entry : State :=
  {| memory := {[ 131072 := EC.set_programId 1 (EC.set_initCycle true EC.zero);
                  196608 := EC.zero;
                  327680 := marked_library;
                  331776 := EC.set_programId 1 (EC.set_moduleType MT_LIBRARY EC.zero) ]};
     g_contextChains := [[]; [131072; 196608; 327680; NULL; 331776]];
     g_threads := [9];
     g_threadsPrograms := [1];
     g_lastUIThreadProgram := 0;
     diagnostics := [] |}.

Definition before_second_test : State :=
  let s1 := after experts_first_test tester_process in
  let s2 := after library_init s1 in
  let s3 := after library_init s2 in
  set_memory (<[196608 := EC.zero]> (memory s3)) s3.

(** * Vocabulary of the further properties *)

(** The thread map is well formed: [g_threads] and [g_threadsPrograms] run
    in parallel and no thread is entered twice. *)
Definition tracker_ok (s : State) : Prop :=
  length (g_threads s) = length (g_threadsPrograms s) /\ NoDup (g_threads s).

(** The index of the current thread in the map: the index of its entry, or
    the index a new entry gets. *)
Definition thread_index (t : Terminal) (s : State) : Z :=
  match lookup_thread (g_threads s) (GetCurrentThreadId t) 0 with
  | Some i => i
  | None => Z.of_nat (length (g_threads s))
  end.

(** The state [StoreThreadAndProgram] leaves: a negative id is reported, a
    known thread gets the id when the id is not [0], an unknown thread is
    entered with the id; on the UI thread an id other than [0] is also kept
    as the last program of the UI thread. *)
Definition stored (t : Terminal) (programId : Z) (s : State) : State :=
  if to_int programId <? 0 then logged (LogError ERR_INVALID_PARAMETER) s
  else
    let s1 :=
      match lookup_thread (g_threads s) (GetCurrentThreadId t) 0 with
      | Some i =>
          if programId =? 0 then s
          else set_threadsPrograms (<[Z.to_nat i := programId]> (g_threadsPrograms s)) s
      | None => thread_added t programId s
      end in
    if negb (programId =? 0) && IsUIThread t
    then set_lastUIThreadProgram programId s1
    else s1.

(** [Skeleton I]: [I] speaks of the chains and of the thread map, not of
    the content of the records.  It survives any change of the records, of
    the diagnostics and of the last program of the UI thread, a write to a
    slot other than slot 0 of a chain, an append to a chain, the append of a
    chain to the registry, a new program for a thread that has an entry and
    a new entry for a thread that has none. *)
Class Skeleton (I : State -> Prop) : Prop := {
  skel_memory : forall s h, I s -> I (set_memory h s);
  skel_diagnostics : forall s d, I s -> I (set_diagnostics d s);
  skel_lastUIThreadProgram : forall s p, I s -> I (set_lastUIThreadProgram p s);
  skel_slot : forall s id c slot p,
    I s -> subscript (g_contextChains s) id = Some c ->
    1 <= slot -> is_Some (subscript c slot) ->
    I (set_contextChains (<[Z.to_nat id := <[Z.to_nat slot := p]> c]> (g_contextChains s)) s);
  skel_push_back : forall s id c p,
    I s -> subscript (g_contextChains s) id = Some c ->
    I (set_contextChains (<[Z.to_nat id := c ++ [p]]> (g_contextChains s)) s);
  skel_new_chain : forall s chain,
    I s -> I (set_contextChains (g_contextChains s ++ [chain]) s);
  skel_thread_program : forall s i v,
    I s -> is_Some (subscript (g_threadsPrograms s) i) ->
    I (set_threadsPrograms (<[Z.to_nat i := v]> (g_threadsPrograms s)) s);
  skel_thread_added : forall s x v,
    I s -> x ∉ g_threads s ->
    I (set_threadsPrograms (g_threadsPrograms s ++ [v])
         (set_threads (g_threads s ++ [x]) s))
}.

(** The thread map is well formed and still starts with the entries
    [threads]: entries are only ever added at the end. *)
Definition tracker_extends (threads : list Z) (s : State) : Prop :=
  tracker_ok s /\ threads `prefix_of` g_threads s.

(** The chain of program [id] starts with the master [master] and has at
    least [n] slots. *)
Definition chain_keeps (id : nat) (master : Z) (n : nat) (s : State) : Prop :=
  exists c, g_contextChains s !! id = Some c /\ c !! 0%nat = Some master
            /\ (n <= length c)%nat.

(** The record at [ec] holds the program id [v], and the registry has [n]
    chains. *)
Definition settled (ec v : Z) (n : nat) : State -> Prop :=
  fun s => registry (eq n) s /\ EC.programId <$> memory s !! ec = Some v.

(** The main record [e] after [SyncMainContext_start] for a tick at
    [time]: the setters of the function, in order. *)
Definition ticked (t : Terminal) (time : Z) (e : EXECUTION_CONTEXT) : EXECUTION_CONTEXT :=
  EC.set_currentTickTime time
    (EC.set_previousTickTime (EC.currentTickTime e)
       (EC.set_ticks (to_uint (EC.ticks e + 1))
          (EC.set_threadId (GetCurrentThreadId t)
             (EC.set_rootFunction RF_START e)))).

(** The main record [e] after [SyncMainContext_deinit]. *)
Definition deinitializing (t : Terminal) (uninitReason : UninitializeReason)
    (e : EXECUTION_CONTEXT) : EXECUTION_CONTEXT :=
  EC.set_threadId (GetCurrentThreadId t)
    (EC.set_uninitReason uninitReason
       (EC.set_rootFunction RF_DEINIT e)).

(** The record of a library after its first load by the program with the
    master record [m]: the copy of the master with the fields block (1) of
    [SyncLibContext_init] sets. *)
Definition loaded_library (uninitReason : UninitializeReason) (initFlags deinitFlags : Z)
    (moduleName : char_ptr) (m : EXECUTION_CONTEXT) : EXECUTION_CONTEXT :=
  EC.set_dllWarningMsg None
    (EC.set_dllWarning 0
       (EC.set_dllErrorMsg None
          (EC.set_dllError 0
             (EC.set_mqlError 0
                (EC.set_ticks 0
                   (EC.set_deinitFlags deinitFlags
                      (EC.set_initFlags initFlags
                         (EC.set_uninitReason uninitReason
                            (EC.set_initReason IR_NULL
                               (EC.set_initCycle false
                                  (EC.set_rootFunction RF_INIT
                                     (EC.set_moduleName (chars moduleName)
                                        (EC.set_moduleType MT_LIBRARY m))))))))))))).

(** The record of a library after its [init()] on the UI thread, in the
    init cycle of an indicator (block (2.1)). *)
Definition reloaded_library (uninitReason : UninitializeReason) (symbol : char_ptr)
    (period : Z) (l : EXECUTION_CONTEXT) : EXECUTION_CONTEXT :=
  EC.set_timeframe period
    (EC.set_symbol (chars symbol)
       (EC.set_uninitReason uninitReason
          (EC.set_initCycle false
             (EC.set_rootFunction RF_INIT l)))).

(** The record of a library after its [init()] on another thread, between
    two tests of an expert (block (2.2)). *)
Definition retested_library (t : Terminal) (uninitReason : UninitializeReason)
    (symbol : char_ptr) (period : Z) (isOptimization : bool) (l : EXECUTION_CONTEXT)
    : EXECUTION_CONTEXT :=
  EC.set_threadId (GetCurrentThreadId t)
    (EC.set_hChartWindow NULL
       (EC.set_hChart NULL
          (EC.set_timeframe period
             (EC.set_symbol (chars symbol)
                (EC.set_customLogFile None
                   (EC.set_logging false
                      (EC.set_optimization isOptimization
                         (EC.set_visualMode false
                            (EC.set_uninitReason uninitReason
                               (EC.set_initCycle true
                                  (EC.set_rootFunction RF_INIT l))))))))))).

(** The main record [e] after block (2.2) of [SyncMainContext_init], the
    part that runs on every call of [init()]. *)
Definition initialized (t : Terminal) (initReason : InitializeReason)
    (uninitReason : UninitializeReason) (symbol : char_ptr) (period : Z)
    (e : EXECUTION_CONTEXT) : EXECUTION_CONTEXT :=
  EC.set_threadId (GetCurrentThreadId t)
    (EC.set_timeframe period
       (EC.set_symbol (chars symbol)
          (EC.set_uninitReason uninitReason
             (EC.set_initReason initReason
                (EC.set_rootFunction RF_INIT e))))).

(** The main record [e] after the first [init()] of its program, blocks
    (2.1) and (2.2) of [SyncMainContext_init]: everything the blocks set,
    with the five effective values given. *)
Definition activated (t : Terminal) (programType : ProgramType)
    (programName : char_ptr) (uninitReason : UninitializeReason)
    (initFlags deinitFlags : Z) (symbol : char_ptr) (period sec hChart : Z)
    (initReason : InitializeReason) (testing visualMode optimization logging : bool)
    (customLogFile : option string) (e : EXECUTION_CONTEXT) : EXECUTION_CONTEXT :=
  initialized t initReason uninitReason symbol period
    (EC.set_customLogFile customLogFile
       (EC.set_logging logging
          (EC.set_deinitFlags deinitFlags
             (EC.set_initFlags initFlags
                (EC.set_optimization optimization
                   (EC.set_visualMode visualMode
                      (EC.set_testing testing
                         (EC.set_hChartWindow
                            (if negb (hChart =? NULL) then GetParent t hChart else NULL)
                            (EC.set_hChart hChart
                               (EC.set_superContext sec
                                  (EC.set_moduleName (chars programName)
                                     (EC.set_moduleType (ModuleType_of programType)
                                        (EC.set_programName (chars programName)
                                           (EC.set_programType programType e)))))))))))))).

(** The program the thread map names for the current thread, [0] when the
    thread has no entry. *)
Definition last_program (t : Terminal) (s : State) : Z :=
  match lookup_thread (g_threads s) (GetCurrentThreadId t) 0 with
  | Some i => default 0 (g_threadsPrograms s !! Z.to_nat i)
  | None => 0
  end.

(** The state after the new program [programId] was entered for the
    current thread by block (1.2) of [SyncMainContext_init]: the entry of
    the thread is written, [g_lastUIThreadProgram] is not. *)
Definition entered (t : Terminal) (programId : Z) (s : State) : State :=
  match lookup_thread (g_threads s) (GetCurrentThreadId t) 0 with
  | Some i => set_threadsPrograms (<[Z.to_nat i := programId]> (g_threadsPrograms s)) s
  | None => thread_added t programId s
  end.

(** The state after block (1.2) created the chain of a new program for
    the record [e] at [ec]. *)
Definition created (t : Terminal) (ec : Z) (e : EXECUTION_CONTEXT) (s : State) : State :=
  let master := fresh (dom (memory s) ∪ {[NULL]}) in
  let programId := Z.of_nat (length (g_contextChains s)) in
  entered t programId
    (set_contextChains (g_contextChains s ++ [[master; ec]])
       (set_memory (<[master := EC.set_programId programId e]>
                      (<[ec := EC.set_programId programId e]> (memory s))) s)).

(** The chart handle [FindWindowHandle] resolves for a main module under
    test that has no super context, with the diagnostics of its search: the
    handle the terminal passed when there is one, no handle in a test
    without visual mode, and else what the enumeration of the terminal's
    windows finds. *)
Definition tested_window (t : Terminal) (hChart : Z) (moduleType : ModuleType)
    (symbol : char_ptr) (timeframe : Z) (isVisualMode : bool) : Z * list Diagnostic :=
  if negb (hChart =? NULL) then (hChart, [])
  else if negb isVisualMode then (NULL, [])
  else FindChartWindow t moduleType (chars symbol) timeframe.

(** * Properties *)

(** ** Running the monad *)

Lemma bind_Done {A B} (m : M A) (f : A -> M B) s a s' :
  m s = Done a s' -> bind m f s = f a s'.
Proof. unfold bind. intros ->. reflexivity. Qed.

Lemma bind_inv {A B} (m : M A) (f : A -> M B) s b s'' :
  bind m f s = Done b s'' ->
  exists a s', m s = Done a s' /\ f a s' = Done b s''.
Proof.
  unfold bind. destruct (m s) as [a s'|] eqn:E; [|discriminate].
  intros H. exists a, s'. split; [reflexivity | exact H].
Qed.

Lemma deref_Done p s r : memory s !! p = Some r -> deref p s = Done r s.
Proof. unfold deref, bind, get, of_option. intros ->. reflexivity. Qed.

Lemma deref_inv p s r s' : deref p s = Done r s' -> s' = s /\ memory s !! p = Some r.
Proof.
  unfold deref, bind, get, of_option, ret, undefined.
  destruct (memory s !! p) eqn:E; [|discriminate].
  intros [= -> ->]. split; reflexivity.
Qed.

Lemma poke_Done p f s r :
  memory s !! p = Some r ->
  poke p f s = Done tt (set_memory (<[p := f r]> (memory s)) s).
Proof. intros H. unfold poke. rewrite (bind_Done _ _ _ _ _ (deref_Done _ _ _ H)). reflexivity. Qed.

Lemma assign_Done p r0 s r :
  memory s !! p = Some r ->
  assign p r0 s = Done tt (set_memory (<[p := r0]> (memory s)) s).
Proof. intros H. unfold assign. rewrite (bind_Done _ _ _ _ _ (deref_Done _ _ _ H)). reflexivity. Qed.

Lemma chain_at_Done id s c :
  subscript (g_contextChains s) id = Some c -> chain_at id s = Done c s.
Proof. unfold chain_at, bind, get, of_option. intros ->. reflexivity. Qed.

Lemma slot_at_Done id slot s p :
  slot_of s id slot = Some p -> slot_at id slot s = Done p s.
Proof.
  unfold slot_of, slot_at. intros H.
  destruct (subscript (g_contextChains s) id) as [c|] eqn:E; [|discriminate].
  rewrite (bind_Done _ _ _ _ _ (chain_at_Done _ _ _ E)).
  simpl in H. unfold of_option. rewrite H. reflexivity.
Qed.

Lemma slot_at_inv id slot s p s' :
  slot_at id slot s = Done p s' -> s' = s /\ slot_of s id slot = Some p.
Proof.
  unfold slot_at, slot_of, chain_at, bind, get, of_option, ret, undefined.
  destruct (subscript (g_contextChains s) id) as [c|]; [|discriminate]. simpl.
  destruct (subscript c slot); [|discriminate].
  intros [= -> ->]. split; reflexivity.
Qed.

Lemma set_slot_Done id slot p s c q :
  subscript (g_contextChains s) id = Some c ->
  subscript c slot = Some q ->
  set_slot id slot p s =
    Done tt (set_contextChains
               (<[Z.to_nat id := <[Z.to_nat slot := p]> c]> (g_contextChains s)) s).
Proof.
  intros Hc Hq. unfold set_slot.
  rewrite (bind_Done _ _ _ _ _ (chain_at_Done _ _ _ Hc)).
  unfold bind at 1. unfold of_option. rewrite Hq. reflexivity.
Qed.

Lemma subscript_Some {A} (v : list A) i x :
  subscript v i = Some x <-> 0 <= i /\ v !! Z.to_nat i = Some x.
Proof.
  unfold subscript. destruct (Z.ltb_spec i 0); split.
  - discriminate.
  - intros [? _]. lia.
  - intros H'. split; [lia | exact H'].
  - intros [_ H']. exact H'.
Qed.

Lemma subscript_insert_eq {A} (v : list A) i x y :
  subscript v i = Some x -> subscript (<[Z.to_nat i := y]> v) i = Some y.
Proof.
  rewrite !subscript_Some. intros [Hi Hx]. split; [exact Hi|].
  apply list_lookup_insert_eq. eapply lookup_lt_Some. exact Hx.
Qed.

Lemma subscript_insert_ne {A} (v : list A) i j y :
  0 <= i -> 0 <= j -> i <> j ->
  subscript (<[Z.to_nat i := y]> v) j = subscript v j.
Proof.
  intros Hi Hj Hne. unfold subscript.
  destruct (Z.ltb_spec j 0); [reflexivity|].
  apply list_lookup_insert_ne. lia.
Qed.

Lemma to_int_small x : 0 <= x < 2 ^ 31 -> to_int x = x.
Proof.
  intros H. unfold to_int. rewrite Z.mod_small by lia.
  destruct (Z.ltb_spec x (2 ^ 31)); [reflexivity | lia].
Qed.

Lemma to_uint_small x : 0 <= x < 2 ^ 32 -> to_uint x = x.
Proof. intros H. unfold to_uint. apply Z.mod_small. exact H. Qed.

(** ** Context release *)

Lemma slot_of_released ec r id c s :
  subscript (g_contextChains s) id = Some c ->
  is_Some (subscript c 1) ->
  slot_of (released ec r id c true s) id 1 = Some NULL.
Proof.
  intros Hc [q Hq]. unfold slot_of, released. simpl.
  rewrite (subscript_insert_eq _ _ _ _ Hc). simpl.
  exact (subscript_insert_eq c 1 q NULL Hq).
Qed.

Lemma slot_of_kept ec r id c s :
  slot_of (released ec r id c false s) id 1 = slot_of s id 1.
Proof. reflexivity. Qed.

Lemma memory_released ec r id c clear s :
  memory (released ec r id c clear s) !! ec = Some (EC.set_rootFunction RF_NULL r).
Proof. unfold released. destruct clear; simpl; apply lookup_insert_eq. Qed.

Lemma LeaveContext_invalid t ec r s :
  MIN_VALID_POINTER t <= to_uint ec ->
  memory s !! ec = Some r ->
  to_int (EC.programId r) < 1 \/ EC.rootFunction r <> RF_DEINIT ->
  LeaveContext t ec s = failed ERR_INVALID_PARAMETER s.
Proof.
  intros Hp Hr Hbad. unfold LeaveContext.
  destruct (Z.ltb_spec (to_uint ec) (MIN_VALID_POINTER t)) as [?|_]; [lia|].
  rewrite (bind_Done _ _ _ _ _ (deref_Done _ _ _ Hr)).
  destruct (Z.ltb_spec (to_int (EC.programId r)) 1) as [?|Hid]; [reflexivity|].
  destruct Hbad as [?|Hrf]; [lia|].
  rewrite bool_decide_eq_false_2 by exact Hrf. reflexivity.
Qed.

Lemma LeaveContext_entered t ec r s :
  MIN_VALID_POINTER t <= to_uint ec ->
  memory s !! ec = Some r ->
  1 <= to_int (EC.programId r) ->
  EC.rootFunction r = RF_DEINIT ->
  LeaveContext t ec s =
    match EC.moduleType r with
    | MT_INDICATOR | MT_SCRIPT =>
        (main <- slot_at (EC.programId r) 1 ;;
         if negb (ec =? main) then
           e <- error ERR_ILLEGAL_STATE ;; ret (BOOL_of e)
         else
           ec_SetRootFunction ec RF_NULL ;;
           set_slot (EC.programId r) 1 NULL ;;
           ret true) s
    | MT_EXPERT =>
        (main <- slot_at (EC.programId r) 1 ;;
         if negb (ec =? main) then
           e <- error ERR_ILLEGAL_STATE ;; ret (BOOL_of e)
         else
           ec_SetRootFunction ec RF_NULL ;;
           r' <- deref ec ;;
           when (negb (bool_decide (EC.uninitReason r' = UR_CHARTCHANGE))
                 && negb (bool_decide (EC.uninitReason r' = UR_PARAMETERS))
                 && negb (bool_decide (EC.uninitReason r' = UR_ACCOUNT)))
             (set_slot (EC.programId r) 1 NULL) ;;
           ret true) s
    | MT_LIBRARY => (ec_SetRootFunction ec RF_NULL ;; ret false) s
    | MT_NULL => (e <- error ERR_INVALID_PARAMETER ;; ret (BOOL_of e)) s
    end.
Proof.
  intros Hp Hr Hid Hrf. unfold LeaveContext.
  destruct (Z.ltb_spec (to_uint ec) (MIN_VALID_POINTER t)) as [?|_]; [lia|].
  rewrite (bind_Done _ _ _ _ _ (deref_Done _ _ _ Hr)).
  destruct (Z.ltb_spec (to_int (EC.programId r)) 1) as [?|_]; [lia|].
  rewrite bool_decide_eq_true_2 by exact Hrf. simpl.
  destruct (EC.moduleType r); reflexivity.
Qed.

Lemma LeaveContext_foreign t ec r s c main :
  MIN_VALID_POINTER t <= to_uint ec ->
  memory s !! ec = Some r ->
  1 <= to_int (EC.programId r) ->
  EC.rootFunction r = RF_DEINIT ->
  EC.moduleType r = MT_INDICATOR \/ EC.moduleType r = MT_SCRIPT \/ EC.moduleType r = MT_EXPERT ->
  subscript (g_contextChains s) (EC.programId r) = Some c ->
  subscript c 1 = Some main ->
  main <> ec ->
  LeaveContext t ec s = failed ERR_ILLEGAL_STATE s.
Proof.
  intros Hp Hr Hid Hrf Hmt Hc Hmain Hne.
  rewrite (LeaveContext_entered t ec r s) by assumption.
  assert (Hslot : slot_of s (EC.programId r) 1 = Some main).
  { unfold slot_of. rewrite Hc. exact Hmain. }
  assert (Hcmp : (ec =? main) = false) by (apply Z.eqb_neq; congruence).
  destruct Hmt as [-> | [-> | ->]];
    rewrite (bind_Done _ _ _ _ _ (slot_at_Done _ _ _ _ Hslot)), Hcmp; reflexivity.
Qed.

Lemma LeaveContext_main t ec r s c :
  MIN_VALID_POINTER t <= to_uint ec ->
  memory s !! ec = Some r ->
  1 <= to_int (EC.programId r) ->
  EC.rootFunction r = RF_DEINIT ->
  EC.moduleType r = MT_INDICATOR \/ EC.moduleType r = MT_SCRIPT ->
  subscript (g_contextChains s) (EC.programId r) = Some c ->
  subscript c 1 = Some ec ->
  LeaveContext t ec s = Done true (released ec r (EC.programId r) c true s).
Proof.
  intros Hp Hr Hid Hrf Hmt Hc Hmain.
  rewrite (LeaveContext_entered t ec r s) by assumption.
  assert (Hslot : slot_of s (EC.programId r) 1 = Some ec).
  { unfold slot_of. rewrite Hc. exact Hmain. }
  destruct Hmt as [-> | ->];
    rewrite (bind_Done _ _ _ _ _ (slot_at_Done _ _ _ _ Hslot)), Z.eqb_refl; simpl;
    unfold ec_SetRootFunction;
    rewrite (bind_Done _ _ _ _ _ (poke_Done _ _ _ _ Hr));
    erewrite (bind_Done (set_slot _ _ _)) by (eapply set_slot_Done; [exact Hc | exact Hmain]);
    reflexivity.
Qed.

Lemma LeaveContext_expert t ec r s c :
  MIN_VALID_POINTER t <= to_uint ec ->
  memory s !! ec = Some r ->
  1 <= to_int (EC.programId r) ->
  EC.rootFunction r = RF_DEINIT ->
  EC.moduleType r = MT_EXPERT ->
  subscript (g_contextChains s) (EC.programId r) = Some c ->
  subscript c 1 = Some ec ->
  LeaveContext t ec s =
    Done true (released ec r (EC.programId r) c (negb (keeps_main (EC.uninitReason r))) s).
Proof.
  intros Hp Hr Hid Hrf Hmt Hc Hmain.
  rewrite (LeaveContext_entered t ec r s) by assumption.
  assert (Hslot : slot_of s (EC.programId r) 1 = Some ec).
  { unfold slot_of. rewrite Hc. exact Hmain. }
  rewrite Hmt.
  rewrite (bind_Done _ _ _ _ _ (slot_at_Done _ _ _ _ Hslot)), Z.eqb_refl. simpl.
  unfold ec_SetRootFunction.
  rewrite (bind_Done _ _ _ _ _ (poke_Done _ _ _ _ Hr)).
  erewrite (bind_Done (deref ec)) by (apply deref_Done; simpl; apply lookup_insert_eq).
  simpl.
  destruct (EC.uninitReason r); simpl;
    try (erewrite (bind_Done (set_slot _ _ _)) by (eapply set_slot_Done; [exact Hc | exact Hmain]));
    reflexivity.
Qed.

(** C1: an expert's main record that is released by [LeaveContext] (its
    root function is [RF_DEINIT], it is slot 1 of the chain of its program
    id) has its root function cleared and nothing else of it changed; slot 1
    of the chain afterwards still holds the record exactly when the uninit
    reason is chart change, parameter change or account change, and is
    [NULL] for every other reason.  The statement is about the record and
    the slot; it says nothing on the master of the chain. *)
Theorem LeaveContext_expert_release (t : Terminal) (ec : Z) (r : EXECUTION_CONTEXT)
    (s : State) (c : ContextChain) :
  ec <> NULL ->
  MIN_VALID_POINTER t <= to_uint ec ->
  memory s !! ec = Some r ->
  1 <= to_int (EC.programId r) ->
  EC.moduleType r = MT_EXPERT ->
  EC.rootFunction r = RF_DEINIT ->
  subscript (g_contextChains s) (EC.programId r) = Some c ->
  subscript c 1 = Some ec ->
  exists s',
    LeaveContext t ec s = Done true s'
    /\ memory s' !! ec = Some (EC.set_rootFunction RF_NULL r)
    /\ EC.rootFunction <$> memory s' !! ec = Some RF_NULL
    /\ (slot_of s' (EC.programId r) 1 <> Some NULL <->
        EC.uninitReason r = UR_CHARTCHANGE \/ EC.uninitReason r = UR_PARAMETERS
        \/ EC.uninitReason r = UR_ACCOUNT)
    /\ slot_of s' (EC.programId r) 1 =
         Some (if bool_decide (EC.uninitReason r = UR_CHARTCHANGE
                               \/ EC.uninitReason r = UR_PARAMETERS
                               \/ EC.uninitReason r = UR_ACCOUNT)
               then ec else NULL).
Proof.
  intros Hnull Hp Hr Hid Hmt Hrf Hc Hmain.
  eexists. split; [apply (LeaveContext_expert t ec r s c); assumption|].
  assert (Hslot : slot_of s (EC.programId r) 1 = Some ec).
  { unfold slot_of. rewrite Hc. exact Hmain. }
  assert (Hcl : slot_of (released ec r (EC.programId r) c true s) (EC.programId r) 1 = Some NULL).
  { apply slot_of_released; [exact Hc | eauto]. }
  split; [|split; [|split]].
  - apply memory_released.
  - rewrite memory_released. reflexivity.
  - destruct (EC.uninitReason r) eqn:E; cbn [keeps_main negb];
      rewrite ?Hcl, ?slot_of_kept, ?Hslot;
      split; intros H; try congruence; try tauto;
      try (destruct H as [H|[H|H]]; discriminate).
  - destruct (EC.uninitReason r) eqn:E; cbn [keeps_main negb];
      rewrite ?Hcl, ?slot_of_kept, ?Hslot;
      first [ rewrite bool_decide_eq_true_2 by tauto; reflexivity
            | rewrite bool_decide_eq_false_2
                by (intros [H|[H|H]]; discriminate);
              reflexivity ].
Qed.

(** The release asymmetry of the spec on program 1: after a chart change
    the expert's record stays in slot 1, after a template load slot 1 is
    empty. *)
Lemma LeaveContext_expert_release_witness :
  (exists s', LeaveContext terminal_tester 196608 (one_program (leaving MT_EXPERT UR_CHARTCHANGE))
              = Done true s'
              /\ slot_of s' 1 1 = Some 196608)
  /\ (exists s', LeaveContext terminal_tester 196608 (one_program (leaving MT_EXPERT UR_TEMPLATE))
                 = Done true s'
                 /\ slot_of s' 1 1 = Some NULL).
Proof.
  split.
  - destruct (LeaveContext_expert_release terminal_tester 196608
                (leaving MT_EXPERT UR_CHARTCHANGE)
                (one_program (leaving MT_EXPERT UR_CHARTCHANGE)) [131072; 196608])
      as (s' & Hrun & _ & _ & _ & Hslot);
      [discriminate | vm_compute; discriminate | reflexivity | vm_compute; discriminate
      | reflexivity | reflexivity | reflexivity | reflexivity |].
    exists s'. split; [exact Hrun | exact Hslot].
  - destruct (LeaveContext_expert_release terminal_tester 196608
                (leaving MT_EXPERT UR_TEMPLATE)
                (one_program (leaving MT_EXPERT UR_TEMPLATE)) [131072; 196608])
      as (s' & Hrun & _ & _ & _ & Hslot);
      [discriminate | vm_compute; discriminate | reflexivity | vm_compute; discriminate
      | reflexivity | reflexivity | reflexivity | reflexivity |].
    exists s'. split; [exact Hrun | exact Hslot].
Defined.

(** C4: [LeaveContext] on a record that can be read fails with
    [ERR_INVALID_PARAMETER] when the program id is below 1 or the root
    function is not [RF_DEINIT].  Past these checks, for an indicator or a
    script, it fails with [ERR_ILLEGAL_STATE] when slot 1 of the chain holds
    another pointer, and otherwise succeeds with the root function of the
    record cleared, nothing else of the record changed, and slot 1 of the
    chain set to [NULL].  Nothing is said on the master of the chain. *)
Theorem LeaveContext_checks (t : Terminal) (ec : Z) (r : EXECUTION_CONTEXT) (s : State) :
  MIN_VALID_POINTER t <= to_uint ec ->
  memory s !! ec = Some r ->
  (to_int (EC.programId r) < 1 \/ EC.rootFunction r <> RF_DEINIT ->
   LeaveContext t ec s = failed ERR_INVALID_PARAMETER s)
  /\
  (1 <= to_int (EC.programId r) ->
   EC.rootFunction r = RF_DEINIT ->
   EC.moduleType r = MT_INDICATOR \/ EC.moduleType r = MT_SCRIPT ->
   forall (c : ContextChain) (main : Z),
     subscript (g_contextChains s) (EC.programId r) = Some c ->
     subscript c 1 = Some main ->
     (main <> ec -> LeaveContext t ec s = failed ERR_ILLEGAL_STATE s)
     /\
     (main = ec ->
      exists s',
        LeaveContext t ec s = Done true s'
        /\ memory s' !! ec = Some (EC.set_rootFunction RF_NULL r)
        /\ EC.rootFunction <$> memory s' !! ec = Some RF_NULL
        /\ slot_of s' (EC.programId r) 1 = Some NULL
        /\ diagnostics s' = diagnostics s)).
Proof.
  intros Hp Hr. split.
  - intros Hbad. apply (LeaveContext_invalid t ec r s); assumption.
  - intros Hid Hrf Hmt c main Hc Hmain. split.
    + intros Hne. apply (LeaveContext_foreign t ec r s c main); tauto.
    + intros ->. eexists.
      split; [apply (LeaveContext_main t ec r s c); assumption|].
      split; [apply memory_released|].
      split; [rewrite memory_released; reflexivity|].
      split; [apply slot_of_released; [exact Hc | eauto] | reflexivity].
Qed.

Lemma LeaveContext_checks_witness :
  LeaveContext terminal_ui 196608
    (one_program (EC.set_programId 0 (leaving MT_INDICATOR UR_REMOVE)))
  = failed ERR_INVALID_PARAMETER
      (one_program (EC.set_programId 0 (leaving MT_INDICATOR UR_REMOVE)))
  /\ LeaveContext terminal_ui 262144 (foreign_record (leaving MT_SCRIPT UR_REMOVE))
     = failed ERR_ILLEGAL_STATE (foreign_record (leaving MT_SCRIPT UR_REMOVE))
  /\ (exists s', LeaveContext terminal_ui 196608 (one_program (leaving MT_INDICATOR UR_REMOVE))
                 = Done true s'
                 /\ slot_of s' 1 1 = Some NULL).
Proof.
  split; [|split].
  - apply (LeaveContext_checks terminal_ui 196608
             (EC.set_programId 0 (leaving MT_INDICATOR UR_REMOVE))).
    + vm_compute; discriminate.
    + reflexivity.
    + left. vm_compute. reflexivity.
  - refine (proj1 (proj2 (LeaveContext_checks terminal_ui 262144
             (leaving MT_SCRIPT UR_REMOVE) (foreign_record (leaving MT_SCRIPT UR_REMOVE)) _ _)
             _ _ _ [131072; 196608] 196608 _ _) _).
    + vm_compute; discriminate.
    + reflexivity.
    + vm_compute; discriminate.
    + reflexivity.
    + right; reflexivity.
    + reflexivity.
    + reflexivity.
    + discriminate.
  - destruct (proj2 (proj2 (LeaveContext_checks terminal_ui 196608
             (leaving MT_INDICATOR UR_REMOVE) (one_program (leaving MT_INDICATOR UR_REMOVE))
             ltac:(vm_compute; discriminate) eq_refl)
             ltac:(vm_compute; discriminate) eq_refl (or_introl eq_refl)
             [131072; 196608] 196608 eq_refl eq_refl) eq_refl)
      as (s' & Hrun & _ & _ & Hslot & _).
    exists s'. split; [exact Hrun | exact Hslot].
Defined.

(** ** Thread and program tracker *)

Lemma lookup_thread_Some threads x k i :
  lookup_thread threads x k = Some i <->
  exists n : nat, i = k + Z.of_nat n /\ threads !! n = Some x
                  /\ forall m : nat, (m < n)%nat -> threads !! m <> Some x.
Proof.
  revert k. induction threads as [|y rest IH]; intros k; simpl.
  - split; [discriminate|]. intros (n & _ & H & _). discriminate.
  - destruct (Z.eqb_spec y x) as [->|Hne].
    + split.
      * intros [= <-]. exists 0%nat. split; [lia|]. split; [reflexivity|]. lia.
      * intros (n & -> & Hn & Hfirst). destruct n as [|n]; [f_equal; lia|].
        exfalso. apply (Hfirst 0%nat); [lia | reflexivity].
    + rewrite IH. split.
      * intros (n & -> & Hn & Hfirst). exists (S n). split; [lia|]. split; [exact Hn|].
        intros [|m] Hm; simpl; [congruence|]. apply Hfirst. lia.
      * intros (n & -> & Hn & Hfirst). destruct n as [|n]; [simpl in Hn; congruence|].
        exists n. split; [lia|]. split; [exact Hn|].
        intros m Hm. apply (Hfirst (S m)). lia.
Qed.

Lemma lookup_thread_None threads x k :
  lookup_thread threads x k = None <-> x ∉ threads.
Proof.
  revert k. induction threads as [|y rest IH]; intros k; simpl.
  - split; [intros _; apply not_elem_of_nil | reflexivity].
  - destruct (Z.eqb_spec y x) as [->|Hne].
    + split; [discriminate|]. intros H. exfalso. apply H. left.
    + rewrite IH, not_elem_of_cons. split; [intros H; split; [congruence | exact H] | tauto].
Qed.

Lemma StoreThreadAndProgram_known t s i :
  lookup_thread (g_threads s) (GetCurrentThreadId t) 0 = Some i ->
  StoreThreadAndProgram t 0 s = Done (to_uint i) s.
Proof.
  intros H. unfold StoreThreadAndProgram. change (to_int 0 <? 0) with false.
  cbv iota. unfold bind at 1. unfold get. rewrite H. reflexivity.
Qed.

Lemma StoreThreadAndProgram_new t s :
  lookup_thread (g_threads s) (GetCurrentThreadId t) 0 = None ->
  StoreThreadAndProgram t 0 s =
    Done (to_uint (Z.of_nat (length (g_threads s)))) (thread_added t 0 s).
Proof.
  intros H. unfold StoreThreadAndProgram. change (to_int 0 <? 0) with false.
  cbv iota. unfold bind at 1. unfold get. rewrite H.
  unfold thread_added, bind, update, when, debug, log, ret, get. simpl.
  rewrite length_app. simpl.
  replace (Z.of_nat (length (g_threads s) + 1) - 1) with (Z.of_nat (length (g_threads s))) by lia.
  destruct (511 <? Z.of_nat (length (g_threads s))); reflexivity.
Qed.

Lemma StoreThreadAndProgram_negative t s programId :
  to_int programId < 0 ->
  StoreThreadAndProgram t programId s =
    Done (to_uint EMPTY) (set_diagnostics (diagnostics s ++ [LogError ERR_INVALID_PARAMETER]) s).
Proof.
  intros H. unfold StoreThreadAndProgram.
  destruct (Z.ltb_spec (to_int programId) 0); [reflexivity | lia].
Qed.

(** C9: [StoreThreadAndProgram(0)] on a thread that is in [g_threads]
    changes nothing (neither the thread's entry of [g_threadsPrograms] nor
    [g_lastUIThreadProgram]) and returns the index of the thread's first
    entry; a thread that is not in [g_threads] is appended to it, with [0]
    appended to [g_threadsPrograms], and its new index is returned; a
    negative program id fails with [ERR_INVALID_PARAMETER], returns [EMPTY]
    and leaves the map as it was. *)
Theorem StoreThreadAndProgram_frame (t : Terminal) (s : State) :
  (forall n : nat,
     g_threads s !! n = Some (GetCurrentThreadId t) ->
     (forall m : nat, (m < n)%nat -> g_threads s !! m <> Some (GetCurrentThreadId t)) ->
     StoreThreadAndProgram t 0 s = Done (to_uint (Z.of_nat n)) s)
  /\
  (GetCurrentThreadId t ∉ g_threads s ->
   exists s',
     StoreThreadAndProgram t 0 s = Done (to_uint (Z.of_nat (length (g_threads s)))) s'
     /\ g_threads s' = g_threads s ++ [GetCurrentThreadId t]
     /\ g_threadsPrograms s' = g_threadsPrograms s ++ [0]
     /\ g_lastUIThreadProgram s' = g_lastUIThreadProgram s
     /\ memory s' = memory s
     /\ g_contextChains s' = g_contextChains s)
  /\
  (forall programId : Z,
     to_int programId < 0 ->
     exists s',
       StoreThreadAndProgram t programId s = Done (to_uint EMPTY) s'
       /\ diagnostics s' = diagnostics s ++ [LogError ERR_INVALID_PARAMETER]
       /\ g_threads s' = g_threads s
       /\ g_threadsPrograms s' = g_threadsPrograms s
       /\ g_lastUIThreadProgram s' = g_lastUIThreadProgram s).
Proof.
  split; [|split].
  - intros n Hn Hfirst. replace (Z.of_nat n) with (0 + Z.of_nat n) by lia.
    apply StoreThreadAndProgram_known. apply lookup_thread_Some.
    exists n. split; [reflexivity|]. split; assumption.
  - intros Hnew. exists (thread_added t 0 s).
    split; [apply StoreThreadAndProgram_new, lookup_thread_None, Hnew|].
    unfold thread_added. simpl.
    destruct (511 <? _); simpl; repeat split; reflexivity.
  - intros programId Hneg. eexists.
    split; [apply StoreThreadAndProgram_negative, Hneg|].
    simpl. repeat split; reflexivity.
Qed.

Lemma StoreThreadAndProgram_frame_witness :
  StoreThreadAndProgram terminal_tester 0 two_threads = Done 1 two_threads
  /\ (exists s',
        StoreThreadAndProgram
          {| GetCurrentThreadId := 11; GetUIThreadId := 7; IsUIThread := false;
             GetTerminalBuild := 1090; MIN_VALID_POINTER := 65536;
             GetParent := fun h => h; GetWindowText := fun _ => EmptyString;
             FindChartWindow := fun _ _ _ => (NULL, []) |} 0 two_threads
        = Done 2 s'
        /\ g_threads s' = [7; 9; 11]
        /\ g_threadsPrograms s' = [1; 2; 0])
  /\ (exists s',
        StoreThreadAndProgram terminal_ui 4294967295 two_threads = Done 4294967295 s'
        /\ g_threads s' = [7; 9]
        /\ g_threadsPrograms s' = [1; 2]).
Proof.
  split; [|split].
  - apply (proj1 (StoreThreadAndProgram_frame terminal_tester two_threads) 1%nat).
    + reflexivity.
    + intros [|m] Hm; [discriminate | lia].
  - destruct (proj1 (proj2 (StoreThreadAndProgram_frame
        {| GetCurrentThreadId := 11; GetUIThreadId := 7; IsUIThread := false;
           GetTerminalBuild := 1090; MIN_VALID_POINTER := 65536;
           GetParent := fun h => h; GetWindowText := fun _ => EmptyString;
           FindChartWindow := fun _ _ _ => (NULL, []) |} two_threads)))
      as (s' & Hrun & Hth & Hpr & _).
    + simpl. intros H. apply elem_of_cons in H as [H|H]; [discriminate|].
      apply elem_of_cons in H as [H|H]; [discriminate|].
      exact (not_elem_of_nil _ H).
    + exists s'. split; [exact Hrun|]. split; [exact Hth | exact Hpr].
  - destruct (proj2 (proj2 (StoreThreadAndProgram_frame terminal_ui two_threads))
                4294967295) as (s' & Hrun & _ & Hth & Hpr & _).
    + vm_compute. reflexivity.
    + exists s'. split; [exact Hrun|]. split; [exact Hth | exact Hpr].
Defined.

(** ** Limbo scan *)

Lemma in_limbo_true t hChart name reason master :
  in_limbo t hChart name reason master = true <->
  matches_limbo t hChart name reason master.
Proof.
  unfold in_limbo, matches_limbo.
  rewrite !andb_true_iff, !Z.eqb_eq, !bool_decide_eq_true, String.eqb_eq. tauto.
Qed.

Lemma in_limbo_false t hChart name reason master :
  in_limbo t hChart name reason master = false <->
  ~ matches_limbo t hChart name reason master.
Proof. rewrite <- in_limbo_true. destruct (in_limbo _ _ _ _ _); split; congruence. Qed.

Lemma loop_step t hChart name reason s chain rest master :
  chain_master s chain = Some master ->
  FindIndicatorInLimbo_loop t hChart name reason (chain :: rest) s =
    if in_limbo t hChart name reason master
    then Done (to_int (EC.programId master)) s
    else FindIndicatorInLimbo_loop t hChart name reason rest s.
Proof.
  unfold chain_master. intros H.
  destruct (subscript chain 0) as [p|] eqn:Hp; [|discriminate]. simpl in H.
  simpl. unfold bind at 1. unfold of_option. rewrite Hp. unfold ret.
  rewrite (bind_Done _ _ _ _ _ (deref_Done _ _ _ H)).
  destruct (in_limbo _ _ _ _ _); reflexivity.
Qed.

Lemma loop_found t hChart name reason s chains (n : nat) chain master :
  chains !! n = Some chain ->
  chain_master s chain = Some master ->
  matches_limbo t hChart name reason master ->
  (forall (j : nat), (j < n)%nat ->
     exists cj mj, chains !! j = Some cj /\ chain_master s cj = Some mj
                   /\ ~ matches_limbo t hChart name reason mj) ->
  FindIndicatorInLimbo_loop t hChart name reason chains s
  = Done (to_int (EC.programId master)) s.
Proof.
  revert chains. induction n as [|n IH]; intros chains Hn Hm Hmatch Hbefore.
  - destruct chains as [|c rest]; [discriminate|]. simpl in Hn. injection Hn as ->.
    rewrite (loop_step _ _ _ _ _ _ _ _ Hm).
    apply in_limbo_true in Hmatch. rewrite Hmatch. reflexivity.
  - destruct chains as [|c rest]; [discriminate|]. simpl in Hn.
    destruct (Hbefore 0%nat) as (c0 & m0 & Hc0 & Hm0 & Hno); [lia|].
    simpl in Hc0. injection Hc0 as <-.
    rewrite (loop_step _ _ _ _ _ _ _ _ Hm0).
    apply in_limbo_false in Hno. rewrite Hno.
    apply IH; [exact Hn | exact Hm | exact Hmatch |].
    intros j Hj. apply (Hbefore (S j)). lia.
Qed.

Lemma loop_none t hChart name reason s chains :
  (forall (j : nat), (j < length chains)%nat ->
     exists cj mj, chains !! j = Some cj /\ chain_master s cj = Some mj
                   /\ ~ matches_limbo t hChart name reason mj) ->
  FindIndicatorInLimbo_loop t hChart name reason chains s = Done NULL s.
Proof.
  induction chains as [|c rest IH]; intros Hall; [reflexivity|].
  destruct (Hall 0%nat) as (c0 & m0 & Hc0 & Hm0 & Hno); [simpl; lia|].
  simpl in Hc0. injection Hc0 as <-.
  rewrite (loop_step _ _ _ _ _ _ _ _ Hm0).
  apply in_limbo_false in Hno. rewrite Hno.
  apply IH. intros j Hj. apply (Hall (S j)). simpl. lia.
Qed.

(** The scan never changes the state, and its result is an [int]. *)
Lemma loop_pure t hChart name reason chains s r s' :
  FindIndicatorInLimbo_loop t hChart name reason chains s = Done r s' ->
  s' = s /\ - 2 ^ 31 <= r < 2 ^ 31.
Proof.
  induction chains as [|c rest IH]; simpl.
  - intros [= <- <-]. split; [reflexivity | unfold NULL; lia].
  - intros H. apply bind_inv in H as (p & s1 & Hp & H).
    unfold of_option in Hp. destruct (subscript c 0); [|discriminate].
    injection Hp as -> <-.
    apply bind_inv in H as (m & s2 & Hm & H).
    apply deref_inv in Hm as [-> _].
    destruct (in_limbo _ _ _ _ _); [|apply IH, H].
    injection H as <- <-. split; [reflexivity|].
    unfold to_int.
    pose proof (Z.mod_pos_bound (EC.programId m) (2 ^ 32) ltac:(lia)).
    destruct (Z.ltb_spec (EC.programId m mod 2 ^ 32) (2 ^ 31)); lia.
Qed.

Lemma FindIndicatorInLimbo_pure t hChart name reason s r s' :
  FindIndicatorInLimbo t hChart name reason s = Done r s' ->
  s' = s /\ - 2 ^ 31 <= r < 2 ^ 31.
Proof.
  unfold FindIndicatorInLimbo. destruct (negb _).
  - unfold bind at 1. unfold get. apply loop_pure.
  - intros [= <- <-]. split; [reflexivity | unfold NULL; lia].
Qed.

Lemma master_of_drop s (j : nat) :
  master_of s (Z.of_nat (S j)) =
    drop 1 (g_contextChains s) !! j ≫= chain_master s.
Proof.
  unfold master_of, slot_of, chain_master, subscript.
  destruct (Z.ltb_spec (Z.of_nat (S j)) 0); [lia|].
  rewrite Nat2Z.id, lookup_drop. simpl.
  destruct (g_contextChains s !! S j) as [c|]; reflexivity.
Qed.

Lemma master_of_chain s (j : nat) m :
  master_of s (Z.of_nat (S j)) = Some m ->
  exists c, drop 1 (g_contextChains s) !! j = Some c /\ chain_master s c = Some m.
Proof.
  rewrite master_of_drop.
  destruct (drop 1 (g_contextChains s) !! j) as [c|]; [|discriminate].
  simpl. intros H. exists c. split; [reflexivity | exact H].
Qed.

(** C10: with a [NULL] chart handle the scan answers [NULL] ("no indicator
    found") in every state, whatever the chains hold, and leaves the state
    as it was: no chain is read. *)
Theorem FindIndicatorInLimbo_null_chart (t : Terminal) (name : char_ptr)
    (reason : UninitializeReason) (s : State) :
  FindIndicatorInLimbo t NULL name reason s = Done NULL s.
Proof. unfold FindIndicatorInLimbo. rewrite Z.eqb_refl. reflexivity. Qed.

(** C3, as stated, fails for the [NULL] chart handle: program 1 is the
    first chain whose master matches (UI thread, the same chart handle
    [NULL], indicator "Bands", the same uninit reason, no root function),
    and the scan returns [0], not its id. *)
Lemma FindIndicatorInLimbo_null_counterexample :
  let s := two_masters (bands_master 1 NULL UR_PARAMETERS RF_NULL)
                       (bands_master 2 NULL UR_PARAMETERS RF_NULL) in
  exists (i : Z) (m : EXECUTION_CONTEXT),
    1 <= i
    /\ master_of s i = Some m
    /\ matches_limbo terminal_ui NULL Bands UR_PARAMETERS m
    /\ (forall j, 1 <= j < i ->
          exists mj, master_of s j = Some mj
                     /\ ~ matches_limbo terminal_ui NULL Bands UR_PARAMETERS mj)
    /\ FindIndicatorInLimbo terminal_ui NULL Bands UR_PARAMETERS s = Done 0 s
    /\ FindIndicatorInLimbo terminal_ui NULL Bands UR_PARAMETERS s
        <> Done (to_int (EC.programId m)) s.
Proof.
  exists 1, (bands_master 1 NULL UR_PARAMETERS RF_NULL).
  split; [lia|]. split; [reflexivity|]. split; [repeat split|].
  split; [intros j Hj; lia|]. split; [reflexivity | discriminate].
Qed.

(** C3 (amended): for a chart handle that is not [NULL], the scan returns
    the program id held by the master of the first chain, in registration
    order from index 1, whose master matches; the state is unchanged, so a
    repeated call returns the same id; when the masters of all chains fail
    the test, [NULL] is returned. *)
Theorem FindIndicatorInLimbo_first (t : Terminal) (hChart : Z) (name : char_ptr)
    (reason : UninitializeReason) (s : State) :
  hChart <> NULL ->
  (forall (i : Z) (m : EXECUTION_CONTEXT),
     1 <= i ->
     master_of s i = Some m ->
     matches_limbo t hChart name reason m ->
     (forall j, 1 <= j < i ->
        exists mj, master_of s j = Some mj /\ ~ matches_limbo t hChart name reason mj) ->
     FindIndicatorInLimbo t hChart name reason s = Done (to_int (EC.programId m)) s)
  /\
  ((forall j, 1 <= j < Z.of_nat (length (g_contextChains s)) ->
      exists mj, master_of s j = Some mj /\ ~ matches_limbo t hChart name reason mj) ->
   FindIndicatorInLimbo t hChart name reason s = Done NULL s)
  /\
  (forall r s',
     FindIndicatorInLimbo t hChart name reason s = Done r s' ->
     s' = s /\ FindIndicatorInLimbo t hChart name reason s' = Done r s').
Proof.
  intros Hh.
  assert (Hrun : FindIndicatorInLimbo t hChart name reason s =
                 FindIndicatorInLimbo_loop t hChart name reason (drop 1 (g_contextChains s)) s).
  { unfold FindIndicatorInLimbo. destruct (Z.eqb_spec hChart NULL); [contradiction|]. reflexivity. }
  split; [|split].
  - intros i m Hi Hm Hmatch Hbefore. rewrite Hrun.
    destruct (Z.to_nat i) as [|n] eqn:En; [lia|].
    assert (Ei : i = Z.of_nat (S n)) by lia. subst i.
    destruct (master_of_chain _ _ _ Hm) as (c & Hc & Hcm).
    apply (loop_found t hChart name reason s _ n c m Hc Hcm Hmatch).
    intros j Hj.
    destruct (Hbefore (Z.of_nat (S j))) as (mj & Hmj & Hno); [lia|].
    destruct (master_of_chain _ _ _ Hmj) as (cj & Hcj & Hcmj).
    exists cj, mj. split; [exact Hcj|]. split; [exact Hcmj | exact Hno].
  - intros Hall. rewrite Hrun. apply loop_none.
    intros j Hj. rewrite length_drop in Hj.
    destruct (Hall (Z.of_nat (S j))) as (mj & Hmj & Hno); [lia|].
    destruct (master_of_chain _ _ _ Hmj) as (cj & Hcj & Hcmj).
    exists cj, mj. split; [exact Hcj|]. split; [exact Hcmj | exact Hno].
  - intros r s' H. destruct (FindIndicatorInLimbo_pure _ _ _ _ _ _ _ H) as [-> _].
    split; [reflexivity | exact H].
Qed.

(** Two chains whose masters both match: the earlier one, program 1, is
    returned.  When the master of program 1 is inside [start()], program 2
    is returned.  When the uninit reason asked for is another one, [NULL]
    is returned. *)
Lemma FindIndicatorInLimbo_first_witness :
  FindIndicatorInLimbo terminal_ui 528 Bands UR_CHARTCHANGE
    (two_masters (bands_master 1 528 UR_CHARTCHANGE RF_NULL)
                 (bands_master 2 528 UR_CHARTCHANGE RF_NULL))
  = Done 1 (two_masters (bands_master 1 528 UR_CHARTCHANGE RF_NULL)
                        (bands_master 2 528 UR_CHARTCHANGE RF_NULL))
  /\ FindIndicatorInLimbo terminal_ui 528 Bands UR_CHARTCHANGE
       (two_masters (bands_master 1 528 UR_CHARTCHANGE RF_START)
                    (bands_master 2 528 UR_CHARTCHANGE RF_NULL))
     = Done 2 (two_masters (bands_master 1 528 UR_CHARTCHANGE RF_START)
                           (bands_master 2 528 UR_CHARTCHANGE RF_NULL))
  /\ FindIndicatorInLimbo terminal_ui 528 Bands UR_REMOVE
       (two_masters (bands_master 1 528 UR_CHARTCHANGE RF_NULL)
                    (bands_master 2 528 UR_CHARTCHANGE RF_NULL))
     = Done NULL (two_masters (bands_master 1 528 UR_CHARTCHANGE RF_NULL)
                              (bands_master 2 528 UR_CHARTCHANGE RF_NULL)).
Proof.
  split; [|split].
  - apply (proj1 (FindIndicatorInLimbo_first terminal_ui 528 Bands UR_CHARTCHANGE
                    _ ltac:(discriminate))
             1 (bands_master 1 528 UR_CHARTCHANGE RF_NULL)).
    + lia.
    + reflexivity.
    + repeat split.
    + intros j Hj. lia.
  - apply (proj1 (FindIndicatorInLimbo_first terminal_ui 528 Bands UR_CHARTCHANGE
                    _ ltac:(discriminate))
             2 (bands_master 2 528 UR_CHARTCHANGE RF_NULL)).
    + lia.
    + reflexivity.
    + repeat split.
    + intros j Hj. assert (j = 1) as -> by lia.
      exists (bands_master 1 528 UR_CHARTCHANGE RF_START).
      split; [reflexivity|]. intros (_ & _ & _ & _ & _ & H). discriminate H.
  - apply (proj1 (proj2 (FindIndicatorInLimbo_first terminal_ui 528 Bands UR_REMOVE
                    _ ltac:(discriminate)))).
    intros j Hj. simpl in Hj.
    assert (Hcases : j = 1 \/ j = 2) by lia.
    destruct Hcases as [-> | ->].
    + exists (bands_master 1 528 UR_CHARTCHANGE RF_NULL).
      split; [reflexivity|]. intros (_ & _ & _ & _ & H & _). discriminate H.
    + exists (bands_master 2 528 UR_CHARTCHANGE RF_NULL).
      split; [reflexivity|]. intros (_ & _ & _ & _ & H & _). discriminate H.
Defined.

(** ** Init-reason resolver for indicators *)

Lemma InitReason_indicator_recompile t ec sec programName symbol isTesting
    isVisualMode hChart droppedOnChart originalProgramId s :
  InitReason_indicator t ec sec programName UR_RECOMPILE symbol isTesting
    isVisualMode hChart droppedOnChart originalProgramId s
  = if sec =? NULL
    then Done (IR_RECOMPILE, originalProgramId) s
    else Done (IR_NULL, originalProgramId) (logged (LogError ERR_ILLEGAL_STATE) s).
Proof. unfold InitReason_indicator. destruct (sec =? NULL); reflexivity. Qed.

(** C8, as stated, fails: for an indicator with the uninit reason
    [UR_RECOMPILE] and no super context the resolver emits no diagnostic and
    answers [IR_RECOMPILE]; it does not fail with [ERR_ILLEGAL_STATE]. *)
Lemma InitReason_indicator_recompile_counterexample :
  let s := two_masters (bands_master 1 528 UR_RECOMPILE RF_NULL)
                       (bands_master 2 528 UR_RECOMPILE RF_NULL) in
  InitReason_indicator terminal_ui 196608 NULL Bands UR_RECOMPILE EURUSD false false
    528 0 0 s
  = Done (IR_RECOMPILE, 0) s
  /\ InitReason_indicator terminal_ui 196608 NULL Bands UR_RECOMPILE EURUSD false false
       528 0 0 s
     <> Done (IR_NULL, 0) (logged (LogError ERR_ILLEGAL_STATE) s).
Proof. split; [reflexivity | discriminate]. Qed.

(** C8 (amended): for an indicator with the uninit reason [UR_RECOMPILE]
    the answer of the resolver does not depend on the build of the terminal,
    on the thread or on the test flags, and the reason applies to the case
    without a super context only: without one the init reason is
    [IR_RECOMPILE] and nothing is logged, with one the resolver fails with
    [ERR_ILLEGAL_STATE] and hands back the [NULL] reason. *)
Theorem InitReason_indicator_recompile_cases (t : Terminal) (ec sec : Z)
    (programName symbol : char_ptr) (isTesting isVisualMode : bool)
    (hChart droppedOnChart originalProgramId : Z) (s : State) :
  (sec = NULL ->
   InitReason_indicator t ec sec programName UR_RECOMPILE symbol isTesting
     isVisualMode hChart droppedOnChart originalProgramId s
   = Done (IR_RECOMPILE, originalProgramId) s)
  /\
  (sec <> NULL ->
   InitReason_indicator t ec sec programName UR_RECOMPILE symbol isTesting
     isVisualMode hChart droppedOnChart originalProgramId s
   = Done (IR_NULL, originalProgramId) (logged (LogError ERR_ILLEGAL_STATE) s)).
Proof.
  rewrite InitReason_indicator_recompile. split.
  - intros ->. reflexivity.
  - intros H. destruct (Z.eqb_spec sec NULL); [contradiction | reflexivity].
Qed.

Lemma InitReason_indicator_recompile_cases_witness :
  InitReason_indicator terminal_ui 196608 NULL Bands UR_RECOMPILE EURUSD false false
    528 0 0 (one_program EC.zero)
  = Done (IR_RECOMPILE, 0) (one_program EC.zero)
  /\ InitReason_indicator terminal_tester 196608 131072 Bands UR_RECOMPILE EURUSD true false
       528 0 0 (one_program EC.zero)
     = Done (IR_NULL, 0) (logged (LogError ERR_ILLEGAL_STATE) (one_program EC.zero)).
Proof.
  split.
  - apply (proj1 (InitReason_indicator_recompile_cases terminal_ui 196608 NULL Bands EURUSD
                    false false 528 0 0 (one_program EC.zero))).
    reflexivity.
  - apply (proj2 (InitReason_indicator_recompile_cases terminal_tester 196608 131072 Bands
                    EURUSD true false 528 0 0 (one_program EC.zero))).
    discriminate.
Defined.

(** C6: for an indicator with the uninit reason [UR_PARAMETERS] the
    resolver fails with [ERR_ILLEGAL_STATE] whenever a super context is
    given.  Without a super context and with no program id in the record:
    when the limbo scan finds no instance (it answers [NULL]) the init
    reason is [IR_USER] and no original program id is reported; when it
    finds the instance [id] the init reason is [IR_PARAMETERS] and [id] is
    reported as the original program id.  The registry and the memory stay
    as they were. *)
Theorem InitReason_indicator_parameters (t : Terminal) (ec sec : Z)
    (programName symbol : char_ptr) (isTesting isVisualMode : bool)
    (hChart droppedOnChart originalProgramId : Z) (s : State) :
  (sec <> NULL ->
   InitReason_indicator t ec sec programName UR_PARAMETERS symbol isTesting
     isVisualMode hChart droppedOnChart originalProgramId s
   = Done (IR_NULL, originalProgramId) (logged (LogError ERR_ILLEGAL_STATE) s))
  /\
  (sec = NULL ->
   forall e : EXECUTION_CONTEXT,
     memory s !! ec = Some e ->
     EC.programId e = 0 ->
     (FindIndicatorInLimbo t hChart programName UR_PARAMETERS s = Done NULL s ->
      InitReason_indicator t ec sec programName UR_PARAMETERS symbol isTesting
        isVisualMode hChart droppedOnChart originalProgramId s
      = Done (IR_USER, 0) s)
     /\
     (forall id : Z,
        0 < id ->
        FindIndicatorInLimbo t hChart programName UR_PARAMETERS s = Done id s ->
        InitReason_indicator t ec sec programName UR_PARAMETERS symbol isTesting
          isVisualMode hChart droppedOnChart originalProgramId s
        = Done (IR_PARAMETERS, id) s)).
Proof.
  split.
  - intros Hsec. unfold InitReason_indicator.
    destruct (Z.eqb_spec sec NULL); [contradiction | reflexivity].
  - intros -> e He Hid. unfold InitReason_indicator.
    rewrite Z.eqb_refl. cbn [negb].
    rewrite (bind_Done _ _ _ _ _ (deref_Done _ _ _ He)).
    rewrite Hid. change (to_int 0 =? 0) with true. cbn [negb].
    split.
    + intros Hscan. rewrite (bind_Done _ _ _ _ _ Hscan). reflexivity.
    + intros id Hpos Hscan. rewrite (bind_Done _ _ _ _ _ Hscan).
      destruct (FindIndicatorInLimbo_pure _ _ _ _ _ _ _ Hscan) as [_ Hrange].
      destruct (Z.ltb_spec id 0); [lia|].
      destruct (Z.eqb_spec id 0); [lia|].
      rewrite to_uint_small by lia. reflexivity.
Qed.

(** The fresh record at [0x30000] resolves to [IR_PARAMETERS] with the
    original id 1.  Asked for another chart, the scan finds nothing and the
    reason is [IR_USER].  With a super context the resolver fails. *)
Lemma InitReason_indicator_parameters_witness :
  InitReason_indicator terminal_ui 196608 NULL Bands UR_PARAMETERS EURUSD false false
    528 0 0 limbo_after_parameters
  = Done (IR_PARAMETERS, 1) limbo_after_parameters
  /\ InitReason_indicator terminal_ui 196608 NULL Bands UR_PARAMETERS EURUSD false false
       640 0 0 limbo_after_parameters
     = Done (IR_USER, 0) limbo_after_parameters
  /\ InitReason_indicator terminal_ui 196608 131072 Bands UR_PARAMETERS EURUSD false false
       528 0 0 limbo_after_parameters
     = Done (IR_NULL, 0) (logged (LogError ERR_ILLEGAL_STATE) limbo_after_parameters).
Proof.
  split; [|split].
  - apply (proj2 (proj2 (InitReason_indicator_parameters terminal_ui 196608 NULL Bands EURUSD
                    false false 528 0 0 limbo_after_parameters)
                    eq_refl EC.zero eq_refl eq_refl) 1).
    + lia.
    + reflexivity.
  - apply (proj1 (proj2 (InitReason_indicator_parameters terminal_ui 196608 NULL Bands EURUSD
                    false false 640 0 0 limbo_after_parameters)
                    eq_refl EC.zero eq_refl eq_refl)).
    reflexivity.
  - apply (proj1 (InitReason_indicator_parameters terminal_ui 196608 131072 Bands EURUSD
                    false false 528 0 0 limbo_after_parameters)).
    discriminate.
Defined.

(** ** Effective flags *)

Lemma bind_assoc {A B C} (m : M A) (f : A -> M B) (g : B -> M C) s :
  bind (bind m f) g s = bind m (fun x => bind (f x) g) s.
Proof. unfold bind. destruct (m s); reflexivity. Qed.

Lemma set_memory_set_memory h h' s :
  set_memory h (set_memory h' s) = set_memory h s.
Proof. reflexivity. Qed.

(** Running a computation whose first step is known. *)
Ltac lookup_memory :=
  cbn [memory set_memory];
  first [ eassumption
        | rewrite lookup_insert_eq; reflexivity
        | rewrite lookup_insert_ne by congruence; eassumption ].

Ltac run_step :=
  cbv beta; rewrite ?bind_assoc;
  match goal with
  | |- bind (deref _) _ _ = _ =>
      erewrite (bind_Done (deref _)) by (apply deref_Done; lookup_memory)
  | |- bind (poke _ _) _ _ = _ =>
      erewrite (bind_Done (poke _ _)) by (apply poke_Done; lookup_memory);
      rewrite ?set_memory_set_memory; cbn [memory set_memory];
      rewrite ?insert_insert_eq
  | |- bind (ret _) _ _ = _ => unfold bind at 1; unfold ret at 1
  end.

Section Inherited.
Variables (t : Terminal) (ec : Z) (r sc : EXECUTION_CONTEXT) (s : State).
Hypothesis Hec : memory s !! ec = Some r.
Hypothesis Hset : EC.superContext r <> NULL.
Hypothesis Hsc : memory s !! EC.superContext r = Some sc.

Lemma ProgramIsTesting_inherited raw :
  ProgramIsTesting t ec raw s = Done (EC.testing sc) s.
Proof.
  unfold ProgramIsTesting. run_step.
  destruct (Z.eqb_spec (EC.superContext r) NULL); [contradiction|].
  cbn [negb]. run_step. reflexivity.
Qed.

Lemma ProgramIsVisualMode_inherited raw :
  ProgramIsVisualMode t ec raw s = Done (EC.visualMode sc) s.
Proof.
  unfold ProgramIsVisualMode. run_step.
  destruct (Z.eqb_spec (EC.superContext r) NULL); [contradiction|].
  cbn [negb]. run_step. reflexivity.
Qed.

Lemma ProgramIsOptimization_inherited raw :
  ProgramIsOptimization t ec raw s = Done (EC.optimization sc) s.
Proof.
  unfold ProgramIsOptimization. run_step.
  destruct (Z.eqb_spec (EC.superContext r) NULL); [contradiction|].
  cbn [negb]. run_step. reflexivity.
Qed.

Lemma ProgramIsLogging_inherited :
  ProgramIsLogging t ec s = Done (EC.logging sc) s.
Proof.
  unfold ProgramIsLogging. run_step.
  destruct (Z.eqb_spec (EC.superContext r) NULL); [contradiction|].
  cbn [negb]. run_step. reflexivity.
Qed.

Lemma ProgramCustomLogFile_inherited :
  ProgramCustomLogFile t ec s = Done (EC.customLogFile sc) s.
Proof.
  unfold ProgramCustomLogFile. run_step.
  destruct (Z.eqb_spec (EC.superContext r) NULL); [contradiction|].
  cbn [negb]. run_step. reflexivity.
Qed.
End Inherited.

Ltac run_inherited lem :=
  cbv beta; rewrite ?bind_assoc;
  erewrite bind_Done
    by (eapply lem; [ lookup_memory | simpl; assumption | simpl; lookup_memory ]).



Lemma SyncMainContext_init_update_nested t ec programType programName uninitReason
    initFlags deinitFlags symbol period sec isTesting isVisualMode isOptimization
    hChart initReason s e sc :
  memory s !! ec = Some e ->
  EC.ticks e = 0 ->
  sec <> NULL ->
  sec <> ec ->
  memory s !! sec = Some sc ->
  SyncMainContext_init_update t ec programType programName uninitReason initFlags
    deinitFlags symbol period sec isTesting isVisualMode isOptimization hChart
    initReason s
  = Done (EC.testing sc, EC.visualMode sc, EC.optimization sc)
      (set_memory
         (<[ec := first_activation t programType programName uninitReason initFlags
                    deinitFlags symbol period sec hChart initReason sc e]> (memory s)) s).
Proof.
  intros He Hticks Hsec Hne Hsc.
  unfold SyncMainContext_init_update. run_step. rewrite Hticks. cbn [Z.eqb].
  unfold ec_SetProgramType, ec_SetProgramName, ec_SetModuleType, ec_SetModuleName,
    ec_SetSuperContext, ec_SetHChart, ec_SetHChartWindow, ec_SetTesting,
    ec_SetVisualMode, ec_SetOptimization, ec_SetInitFlags, ec_SetDeinitFlags,
    ec_SetLogging, ec_SetCustomLogFile, ec_SetRootFunction, ec_SetInitReason,
    ec_SetUninitReason, ec_SetSymbol, ec_SetTimeframe, ec_SetThreadId.
  do 7 run_step.
  run_inherited ProgramIsTesting_inherited. run_step.
  run_inherited ProgramIsVisualMode_inherited. run_step.
  run_inherited ProgramIsOptimization_inherited. run_step.
  do 2 run_step.
  run_inherited ProgramIsLogging_inherited. run_step.
  run_inherited ProgramCustomLogFile_inherited. run_step.
  do 7 run_step.
  reflexivity.
Qed.

(** ** Invariants of the operations

    [wp m Q s]: when [m] finishes from [s], its result and final state
    satisfy [Q].  [preserves I m]: [m] keeps the state property [I]. *)

Lemma wp_Done {A} (m : M A) Q s a s' : wp m Q s -> m s = Done a s' -> Q a s'.
Proof. unfold wp. intros H E. rewrite E in H. exact H. Qed.

Lemma wp_mono {A} (m : M A) (Q Q' : A -> State -> Prop) s :
  wp m Q s -> (forall a s', Q a s' -> Q' a s') -> wp m Q' s.
Proof. unfold wp. destruct (m s); [|trivial]. intros H HQ. apply HQ, H. Qed.

Lemma wp_ret {A} (a : A) Q s : Q a s -> wp (ret a) Q s.
Proof. intros H. exact H. Qed.

Lemma wp_bind {A B} (m : M A) (f : A -> M B) Q s :
  wp m (fun a s' => wp (f a) Q s') s -> wp (bind m f) Q s.
Proof. unfold wp, bind. destruct (m s); trivial. Qed.

Lemma wp_bind_assoc {A B C} (m : M A) (f : A -> M B) (g : B -> M C) Q s :
  wp (bind m (fun x => bind (f x) g)) Q s -> wp (bind (bind m f) g) Q s.
Proof. unfold wp. rewrite bind_assoc. trivial. Qed.

Lemma wp_get Q s : Q s s -> wp get Q s.
Proof. intros H. exact H. Qed.

Lemma wp_update f Q s : Q tt (f s) -> wp (update f) Q s.
Proof. intros H. exact H. Qed.

Lemma wp_of_option {A} (o : option A) Q s :
  (forall a, o = Some a -> Q a s) -> wp (of_option o) Q s.
Proof. destruct o; intros H; [apply H; reflexivity | exact Logic.I]. Qed.

Lemma wp_deref p Q s :
  (forall r, memory s !! p = Some r -> Q r s) -> wp (deref p) Q s.
Proof.
  intros H. unfold deref. apply wp_bind, wp_get, wp_of_option. exact H.
Qed.

Lemma wp_poke p f Q s :
  (forall r, memory s !! p = Some r -> Q tt (set_memory (<[p := f r]> (memory s)) s)) ->
  wp (poke p f) Q s.
Proof.
  intros H. unfold poke. apply wp_bind, wp_deref. intros r Hr.
  apply wp_update, H, Hr.
Qed.

Lemma wp_assign p r0 Q s :
  (forall r, memory s !! p = Some r -> Q tt (set_memory (<[p := r0]> (memory s)) s)) ->
  wp (assign p r0) Q s.
Proof.
  intros H. unfold assign. apply wp_bind, wp_deref. intros r Hr.
  apply wp_update, (H r), Hr.
Qed.

Lemma wp_chain_at id Q s :
  (forall c, subscript (g_contextChains s) id = Some c -> Q c s) -> wp (chain_at id) Q s.
Proof. intros H. unfold chain_at. apply wp_bind, wp_get, wp_of_option. exact H. Qed.

Lemma wp_slot_at id slot Q s :
  (forall p, slot_of s id slot = Some p -> Q p s) -> wp (slot_at id slot) Q s.
Proof.
  intros H. unfold slot_at. apply wp_bind, wp_chain_at. intros c Hc.
  apply wp_of_option. intros p Hp. apply H. unfold slot_of. rewrite Hc. exact Hp.
Qed.

Lemma wp_set_slot id slot p Q s :
  (forall c q, subscript (g_contextChains s) id = Some c -> subscript c slot = Some q ->
     Q tt (set_contextChains
             (<[Z.to_nat id := <[Z.to_nat slot := p]> c]> (g_contextChains s)) s)) ->
  wp (set_slot id slot p) Q s.
Proof.
  intros H. unfold set_slot. apply wp_bind, wp_chain_at. intros c Hc.
  apply wp_bind, wp_of_option. intros q Hq. apply wp_update. exact (H c q Hc Hq).
Qed.

Lemma wp_chain_push_back id p Q s :
  (forall c, subscript (g_contextChains s) id = Some c ->
     Q tt (set_contextChains (<[Z.to_nat id := c ++ [p]]> (g_contextChains s)) s)) ->
  wp (chain_push_back id p) Q s.
Proof.
  intros H. unfold chain_push_back. apply wp_bind, wp_chain_at. intros c Hc.
  apply wp_update. exact (H c Hc).
Qed.

Lemma wp_log d (Q : unit -> State -> Prop) s :
  Q tt (set_diagnostics (diagnostics s ++ [d]) s) -> wp (log d) Q s.
Proof. intros H. exact H. Qed.

Lemma preserves_wp {A B} I (m : M A) (f : A -> M B) Q s :
  preserves I m -> I s -> (forall a s', I s' -> wp (f a) Q s') -> wp (bind m f) Q s.
Proof.
  intros Hm Hs Hf. apply wp_bind. eapply wp_mono; [apply Hm, Hs|].
  intros a s' Hs'. apply Hf, Hs'.
Qed.

Lemma preserves_ret {A} I (a : A) : preserves I (ret a).
Proof. intros s Hs. exact Hs. Qed.

Lemma preserves_bind {A B} I (m : M A) (f : A -> M B) :
  preserves I m -> (forall a, preserves I (f a)) -> preserves I (bind m f).
Proof.
  intros Hm Hf s Hs. eapply preserves_wp; [exact Hm | exact Hs|].
  intros a s' Hs'. apply Hf, Hs'.
Qed.

Lemma preserves_get I : preserves I get.
Proof. intros s Hs. exact Hs. Qed.

Lemma preserves_undefined {A} I : preserves I (@undefined A).
Proof. intros s Hs. exact Logic.I. Qed.

Lemma preserves_of_option {A} I (o : option A) : preserves I (of_option o).
Proof. destruct o; [apply preserves_ret | apply preserves_undefined]. Qed.

Lemma preserves_deref I p : preserves I (deref p).
Proof.
  unfold deref. apply preserves_bind; [apply preserves_get|].
  intros s. apply preserves_of_option.
Qed.

Lemma preserves_chain_at I id : preserves I (chain_at id).
Proof.
  unfold chain_at. apply preserves_bind; [apply preserves_get|].
  intros s. apply preserves_of_option.
Qed.

Lemma preserves_slot_at I id slot : preserves I (slot_at id slot).
Proof.
  unfold slot_at. apply preserves_bind; [apply preserves_chain_at|].
  intros c. apply preserves_of_option.
Qed.

Lemma preserves_when I b (m : M unit) : preserves I m -> preserves I (when b m).
Proof. intros H. destruct b; [exact H | apply preserves_ret]. Qed.

Lemma preserves_Done {A} I (m : M A) s a s' :
  preserves I m -> I s -> m s = Done a s' -> I s'.
Proof. intros Hm Hs E. exact (wp_Done m _ s a s' (Hm s Hs) E). Qed.

#[global] Instance and_Invariant I1 I2 :
  Invariant I1 -> Invariant I2 -> Invariant (fun s => I1 s /\ I2 s).
Proof.
  intros H1 H2. split; intros; match goal with H : _ /\ _ |- _ => destruct H end; split;
    first [ eapply inv_record; eassumption
          | apply inv_threads; assumption
          | apply inv_threadsPrograms; assumption
          | apply inv_lastUIThreadProgram; assumption
          | apply inv_diagnostics; assumption
          | apply inv_library_slot; assumption
          | apply inv_push_back; assumption ].
Qed.

#[global] Instance or_Invariant I1 I2 :
  Invariant I1 -> Invariant I2 -> Invariant (fun s => I1 s \/ I2 s).
Proof.
  intros H1 H2. split; intros;
    match goal with H : _ \/ _ |- _ => destruct H; [left | right] end;
    first [ eapply inv_record; eassumption
          | apply inv_threads; assumption
          | apply inv_threadsPrograms; assumption
          | apply inv_lastUIThreadProgram; assumption
          | apply inv_diagnostics; assumption
          | apply inv_library_slot; assumption
          | apply inv_push_back; assumption ].
Qed.

#[global] Instance ex_Invariant {A} (I : A -> State -> Prop) :
  (forall a, Invariant (I a)) -> Invariant (fun s => exists a, I a s).
Proof.
  intros H. split; intros;
    match goal with H : exists _, _ |- _ => destruct H as [a ?]; exists a end;
    first [ eapply inv_record; eassumption
          | apply inv_threads; assumption
          | apply inv_threadsPrograms; assumption
          | apply inv_lastUIThreadProgram; assumption
          | apply inv_diagnostics; assumption
          | apply inv_library_slot; assumption
          | apply inv_push_back; assumption ].
Qed.

#[global] Instance or_CopiesProgramId ec I1 I2 :
  CopiesProgramId ec I1 -> CopiesProgramId ec I2 ->
  CopiesProgramId ec (fun s => I1 s \/ I2 s).
Proof.
  intros H1 H2 s p r e [H|H] Hp He; [left | right]; apply inv_program_id; assumption.
Qed.

#[global] Instance ex_CopiesProgramId {A} ec (I : A -> State -> Prop) :
  (forall a, CopiesProgramId ec (I a)) -> CopiesProgramId ec (fun s => exists a, I a s).
Proof.
  intros H s p r e [a Ha] Hp He. exists a. apply inv_program_id; assumption.
Qed.

Create HintDb preserves discriminated.

#[global] Hint Extern 0 (Invariant _) => typeclasses eauto : preserves.
#[global] Hint Extern 0 (CopiesProgramId _ _) => typeclasses eauto : preserves.

Ltac preserves_step :=
  lazymatch goal with
  | |- preserves _ (ret _) => apply preserves_ret
  | |- preserves _ get => apply preserves_get
  | |- preserves _ (deref _) => apply preserves_deref
  | |- preserves _ (chain_at _) => apply preserves_chain_at
  | |- preserves _ (slot_at _ _) => apply preserves_slot_at
  | |- preserves _ (of_option _) => apply preserves_of_option
  | |- preserves _ undefined => apply preserves_undefined
  | |- preserves _ (when _ _) => apply preserves_when
  | |- preserves _ (bind _ _) => apply preserves_bind; [|intros ?]
  | |- preserves _ (if ?b then _ else _) => destruct b
  | |- preserves _ (let _ := _ in _) => cbv zeta
  | |- preserves _ _ => solve [eauto 3 with preserves]
  end.

Ltac preserves_auto := repeat preserves_step.

Section Invariants.
Context {I : State -> Prop} `{!Invariant I}.

Lemma preserves_setter p f :
  (forall r, EC.programId (f r) = EC.programId r) -> preserves I (poke p f).
Proof.
  intros Hf s Hs. apply wp_poke. intros r Hr.
  apply (inv_record s p r (f r) Hs Hr (Hf r)).
Qed.

Lemma preserves_log d : preserves I (log d).
Proof. intros s Hs. apply wp_log, inv_diagnostics, Hs. Qed.

Lemma preserves_error code : preserves I (error code).
Proof. unfold error. apply preserves_bind; [apply preserves_log | intros; apply preserves_ret]. Qed.

Lemma preserves_warn code : preserves I (warn code).
Proof. unfold warn. apply preserves_bind; [apply preserves_log | intros; apply preserves_ret]. Qed.

Lemma preserves_debug : preserves I debug.
Proof. unfold debug. apply preserves_bind; [apply preserves_log | intros; apply preserves_ret]. Qed.

Lemma preserves_log_all ds : preserves I (log_all ds).
Proof.
  induction ds as [|d ds IH]; simpl; [apply preserves_ret|].
  apply preserves_bind; [apply preserves_log | intros; exact IH].
Qed.

Lemma preserves_set_threads f :
  preserves I (update (fun s => set_threads (f s) s)).
Proof. intros s Hs. apply wp_update, inv_threads, Hs. Qed.

Lemma preserves_set_threadsPrograms f :
  preserves I (update (fun s => set_threadsPrograms (f s) s)).
Proof. intros s Hs. apply wp_update, inv_threadsPrograms, Hs. Qed.

Lemma preserves_set_threadsPrograms_const l :
  preserves I (update (set_threadsPrograms l)).
Proof. intros s Hs. apply wp_update, inv_threadsPrograms, Hs. Qed.

Lemma preserves_set_lastUIThreadProgram p :
  preserves I (update (set_lastUIThreadProgram p)).
Proof. intros s Hs. apply wp_update, inv_lastUIThreadProgram, Hs. Qed.

Hint Resolve preserves_log preserves_error preserves_warn preserves_debug
  preserves_log_all preserves_set_threads preserves_set_threadsPrograms
  preserves_set_threadsPrograms_const preserves_set_lastUIThreadProgram : preserves.

Lemma preserves_InitializeReason_error code : preserves I (InitializeReason_error code).
Proof. unfold InitializeReason_error. preserves_auto. Qed.

Lemma preserves_set_threadProgram i programId : preserves I (set_threadProgram i programId).
Proof. unfold set_threadProgram. preserves_auto. Qed.

Hint Resolve preserves_InitializeReason_error preserves_set_threadProgram : preserves.

Lemma preserves_StoreThreadAndProgram t programId :
  preserves I (StoreThreadAndProgram t programId).
Proof.
  unfold StoreThreadAndProgram. destruct (to_int programId <? 0); [preserves_auto|].
  cbv zeta. apply preserves_bind; [apply preserves_get|]. intros s.
  destruct (lookup_thread _ _ _); preserves_auto.
Qed.

Hint Resolve preserves_StoreThreadAndProgram : preserves.

(** The setters other than [ec_SetProgramId]. *)
Lemma preserves_ec_SetProgramType p v : preserves I (ec_SetProgramType p v).
Proof. apply preserves_setter. reflexivity. Qed.
Lemma preserves_ec_SetProgramName p v : preserves I (ec_SetProgramName p v).
Proof. apply preserves_setter. reflexivity. Qed.
Lemma preserves_ec_SetModuleType p v : preserves I (ec_SetModuleType p v).
Proof. apply preserves_setter. reflexivity. Qed.
Lemma preserves_ec_SetModuleName p v : preserves I (ec_SetModuleName p v).
Proof. apply preserves_setter. reflexivity. Qed.
Lemma preserves_ec_SetRootFunction p v : preserves I (ec_SetRootFunction p v).
Proof. apply preserves_setter. reflexivity. Qed.
Lemma preserves_ec_SetInitCycle p v : preserves I (ec_SetInitCycle p v).
Proof. apply preserves_setter. reflexivity. Qed.
Lemma preserves_ec_SetInitReason p v : preserves I (ec_SetInitReason p v).
Proof. apply preserves_setter. reflexivity. Qed.
Lemma preserves_ec_SetUninitReason p v : preserves I (ec_SetUninitReason p v).
Proof. apply preserves_setter. reflexivity. Qed.
Lemma preserves_ec_SetTesting p v : preserves I (ec_SetTesting p v).
Proof. apply preserves_setter. reflexivity. Qed.
Lemma preserves_ec_SetVisualMode p v : preserves I (ec_SetVisualMode p v).
Proof. apply preserves_setter. reflexivity. Qed.
Lemma preserves_ec_SetOptimization p v : preserves I (ec_SetOptimization p v).
Proof. apply preserves_setter. reflexivity. Qed.
Lemma preserves_ec_SetInitFlags p v : preserves I (ec_SetInitFlags p v).
Proof. apply preserves_setter. reflexivity. Qed.
Lemma preserves_ec_SetDeinitFlags p v : preserves I (ec_SetDeinitFlags p v).
Proof. apply preserves_setter. reflexivity. Qed.
Lemma preserves_ec_SetLogging p v : preserves I (ec_SetLogging p v).
Proof. apply preserves_setter. reflexivity. Qed.
Lemma preserves_ec_SetCustomLogFile p v : preserves I (ec_SetCustomLogFile p v).
Proof. apply preserves_setter. reflexivity. Qed.
Lemma preserves_ec_SetSymbol p v : preserves I (ec_SetSymbol p v).
Proof. apply preserves_setter. reflexivity. Qed.
Lemma preserves_ec_SetTimeframe p v : preserves I (ec_SetTimeframe p v).
Proof. apply preserves_setter. reflexivity. Qed.
Lemma preserves_ec_SetHChart p v : preserves I (ec_SetHChart p v).
Proof. apply preserves_setter. reflexivity. Qed.
Lemma preserves_ec_SetHChartWindow p v : preserves I (ec_SetHChartWindow p v).
Proof. apply preserves_setter. reflexivity. Qed.
Lemma preserves_ec_SetSuperContext p v : preserves I (ec_SetSuperContext p v).
Proof. apply preserves_setter. reflexivity. Qed.
Lemma preserves_ec_SetThreadId p v : preserves I (ec_SetThreadId p v).
Proof. apply preserves_setter. reflexivity. Qed.
Lemma preserves_ec_SetTicks p v : preserves I (ec_SetTicks p v).
Proof. apply preserves_setter. reflexivity. Qed.
Lemma preserves_ec_SetPreviousTickTime p v : preserves I (ec_SetPreviousTickTime p v).
Proof. apply preserves_setter. reflexivity. Qed.
Lemma preserves_ec_SetCurrentTickTime p v : preserves I (ec_SetCurrentTickTime p v).
Proof. apply preserves_setter. reflexivity. Qed.
Lemma preserves_ec_SetMqlError p v : preserves I (ec_SetMqlError p v).
Proof. apply preserves_setter. reflexivity. Qed.
Lemma preserves_ec_SetDllError p v : preserves I (ec_SetDllError p v).
Proof. apply preserves_setter. reflexivity. Qed.
Lemma preserves_ec_SetDllWarning p v : preserves I (ec_SetDllWarning p v).
Proof. apply preserves_setter. reflexivity. Qed.
Lemma preserves_set_initCycle p v : preserves I (poke p (EC.set_initCycle v)).
Proof. apply preserves_setter. reflexivity. Qed.

Hint Resolve preserves_ec_SetProgramType preserves_ec_SetProgramName
  preserves_ec_SetModuleType preserves_ec_SetModuleName preserves_ec_SetRootFunction
  preserves_ec_SetInitCycle preserves_ec_SetInitReason preserves_ec_SetUninitReason
  preserves_ec_SetTesting preserves_ec_SetVisualMode preserves_ec_SetOptimization
  preserves_ec_SetInitFlags preserves_ec_SetDeinitFlags preserves_ec_SetLogging
  preserves_ec_SetCustomLogFile preserves_ec_SetSymbol preserves_ec_SetTimeframe
  preserves_ec_SetHChart preserves_ec_SetHChartWindow preserves_ec_SetSuperContext
  preserves_ec_SetThreadId preserves_ec_SetTicks preserves_ec_SetPreviousTickTime
  preserves_ec_SetCurrentTickTime preserves_ec_SetMqlError preserves_ec_SetDllError
  preserves_ec_SetDllWarning preserves_set_initCycle : preserves.

Lemma preserves_FindIndicatorInLimbo t hChart name reason :
  preserves I (FindIndicatorInLimbo t hChart name reason).
Proof.
  unfold FindIndicatorInLimbo. destruct (negb _); [|apply preserves_ret].
  apply preserves_bind; [apply preserves_get|]. intros s.
  induction (drop 1 (g_contextChains s)) as [|c rest IH]; simpl; [apply preserves_ret|].
  preserves_auto.
Qed.

Hint Resolve preserves_FindIndicatorInLimbo : preserves.

Lemma preserves_InitReason_indicator t p sec programName uninitReason symbol
    isTesting isVisualMode hChart droppedOnChart originalProgramId :
  preserves I (InitReason_indicator t p sec programName uninitReason symbol
                 isTesting isVisualMode hChart droppedOnChart originalProgramId).
Proof. unfold InitReason_indicator. destruct uninitReason; preserves_auto. Qed.

Lemma preserves_InitReason_expert t p uninitReason symbol isTesting
    droppedOnPosX droppedOnPosY :
  preserves I (InitReason_expert t p uninitReason symbol isTesting droppedOnPosX
                 droppedOnPosY).
Proof. unfold InitReason_expert. destruct uninitReason; preserves_auto. Qed.

Hint Resolve preserves_InitReason_indicator preserves_InitReason_expert : preserves.

Lemma preserves_InitReason t p sec programType programName uninitReason symbol
    isTesting isVisualMode hChart droppedOnChart droppedOnPosX droppedOnPosY :
  preserves I (InitReason t p sec programType programName uninitReason symbol
                 isTesting isVisualMode hChart droppedOnChart droppedOnPosX
                 droppedOnPosY).
Proof. unfold InitReason, InitReason_script. destruct programType; preserves_auto. Qed.

Lemma preserves_FindWindowHandle t hChart sec moduleType symbol timeframe
    isTesting isVisualMode :
  preserves I (FindWindowHandle t hChart sec moduleType symbol timeframe isTesting
                 isVisualMode).
Proof. unfold FindWindowHandle. preserves_auto. Qed.

Lemma preserves_ProgramIsTesting t p isTesting :
  preserves I (ProgramIsTesting t p isTesting).
Proof.
  unfold ProgramIsTesting. apply preserves_bind; [apply preserves_deref|]. intros r.
  destruct (negb _); [preserves_auto|]. destruct (EC.programType r); preserves_auto.
Qed.

Lemma preserves_ProgramIsVisualMode t p isVisualMode :
  preserves I (ProgramIsVisualMode t p isVisualMode).
Proof.
  unfold ProgramIsVisualMode. apply preserves_bind; [apply preserves_deref|]. intros r.
  destruct (negb _); [preserves_auto|]. destruct (EC.programType r); preserves_auto.
Qed.

Lemma preserves_ProgramIsOptimization t p isOptimization :
  preserves I (ProgramIsOptimization t p isOptimization).
Proof.
  unfold ProgramIsOptimization. apply preserves_bind; [apply preserves_deref|]. intros r.
  destruct (negb _); [preserves_auto|]. destruct (EC.programType r); preserves_auto.
Qed.

Lemma preserves_ProgramIsLogging t p : preserves I (ProgramIsLogging t p).
Proof.
  unfold ProgramIsLogging. apply preserves_bind; [apply preserves_deref|]. intros r.
  destruct (negb _); [preserves_auto|]. destruct (EC.programType r); preserves_auto.
Qed.

Lemma preserves_ProgramCustomLogFile t p : preserves I (ProgramCustomLogFile t p).
Proof.
  unfold ProgramCustomLogFile. apply preserves_bind; [apply preserves_deref|]. intros r.
  destruct (negb _); [preserves_auto|]. destruct (EC.programType r); preserves_auto.
Qed.

Hint Resolve preserves_InitReason preserves_FindWindowHandle preserves_ProgramIsTesting
  preserves_ProgramIsVisualMode preserves_ProgramIsOptimization
  preserves_ProgramIsLogging preserves_ProgramCustomLogFile : preserves.

Lemma preserves_SyncMainContext_init_update t p programType programName uninitReason
    initFlags deinitFlags symbol period sec isTesting isVisualMode isOptimization
    hChart initReason :
  preserves I (SyncMainContext_init_update t p programType programName uninitReason
                 initFlags deinitFlags symbol period sec isTesting isVisualMode
                 isOptimization hChart initReason).
Proof. unfold SyncMainContext_init_update. preserves_auto. Qed.

Lemma preserves_library_slot id slot p :
  2 <= slot -> preserves I (set_slot id slot p).
Proof.
  intros Hslot s Hs. apply wp_set_slot. intros c q Hc Hq.
  apply inv_library_slot; assumption.
Qed.

Lemma preserves_chain_push_back id p : preserves I (chain_push_back id p).
Proof.
  intros s Hs. apply wp_chain_push_back. intros c Hc.
  apply inv_push_back; assumption.
Qed.

Context {ec : Z} `{!CopiesProgramId ec I}.

(** [ec_SetProgramId(lib, ec->programId)], followed by [k]. *)
Lemma preserves_copy_program_id {A} lib (k : M A) :
  preserves I k ->
  preserves I (e <- deref ec ;; ec_SetProgramId lib (EC.programId e) ;; k).
Proof.
  intros Hk s Hs. apply wp_bind, wp_deref. intros e He.
  apply wp_bind, wp_poke. intros r Hr. apply Hk.
  apply inv_program_id; assumption.
Qed.

Hint Resolve preserves_SyncMainContext_init_update preserves_chain_push_back
  : preserves.

Lemma slots_from_ge first count i : i ∈ slots_from first count -> first <= i.
Proof.
  revert first. induction count as [|n IH]; intros first; simpl.
  - intros H. destruct (not_elem_of_nil _ H).
  - intros H. apply elem_of_cons in H as [-> | H]; [lia|].
    specialize (IH _ H). lia.
Qed.

Lemma preserves_SyncMainContext_init_loop currentProgramId lastProgramId slots :
  (forall i, i ∈ slots -> 2 <= i) ->
  preserves I (SyncMainContext_init_loop ec currentProgramId lastProgramId slots).
Proof.
  induction slots as [|i rest IH]; intros Hslots; simpl; [apply preserves_ret|].
  assert (Hi : 2 <= i) by (apply Hslots; left).
  assert (Hrest : forall j, j ∈ rest -> 2 <= j) by (intros j Hj; apply Hslots; right; exact Hj).
  apply preserves_bind; [apply preserves_slot_at|]. intros lib.
  apply preserves_bind; [|intros _; exact (IH Hrest)].
  destruct (lib =? NULL); [preserves_auto|].
  apply preserves_bind; [apply preserves_deref|]. intros l.
  apply preserves_when.
  apply preserves_bind; [apply preserves_library_slot, Hi|]. intros _.
  apply preserves_copy_program_id.
  preserves_auto.
Qed.

Lemma preserves_SyncMainContext_init_libraries isNewExpert isTesting lastProgramId :
  preserves I (SyncMainContext_init_libraries ec isNewExpert isTesting lastProgramId).
Proof.
  unfold SyncMainContext_init_libraries. apply preserves_when.
  apply preserves_bind; [apply preserves_slot_at|]. intros lastMaster.
  apply preserves_bind; [preserves_auto|]. intros marked.
  apply preserves_when.
  apply preserves_bind; [apply preserves_deref|]. intros e. cbv zeta.
  apply preserves_bind; [apply preserves_chain_at|]. intros _.
  apply preserves_bind; [apply preserves_chain_at|]. intros lastChain.
  apply preserves_bind; [|intros _; preserves_auto].
  apply preserves_SyncMainContext_init_loop. intros i. apply slots_from_ge.
Qed.
End Invariants.

#[global] Hint Resolve preserves_log preserves_error preserves_warn preserves_debug
  preserves_log_all preserves_set_threads preserves_set_threadsPrograms
  preserves_set_threadsPrograms_const preserves_set_lastUIThreadProgram
  preserves_InitializeReason_error preserves_set_threadProgram
  preserves_StoreThreadAndProgram
  preserves_ec_SetProgramType preserves_ec_SetProgramName
  preserves_ec_SetModuleType preserves_ec_SetModuleName preserves_ec_SetRootFunction
  preserves_ec_SetInitCycle preserves_ec_SetInitReason preserves_ec_SetUninitReason
  preserves_ec_SetTesting preserves_ec_SetVisualMode preserves_ec_SetOptimization
  preserves_ec_SetInitFlags preserves_ec_SetDeinitFlags preserves_ec_SetLogging
  preserves_ec_SetCustomLogFile preserves_ec_SetSymbol preserves_ec_SetTimeframe
  preserves_ec_SetHChart preserves_ec_SetHChartWindow preserves_ec_SetSuperContext
  preserves_ec_SetThreadId preserves_ec_SetTicks preserves_ec_SetPreviousTickTime
  preserves_ec_SetCurrentTickTime preserves_ec_SetMqlError preserves_ec_SetDllError
  preserves_ec_SetDllWarning preserves_set_initCycle
  preserves_FindIndicatorInLimbo preserves_InitReason_indicator
  preserves_InitReason_expert preserves_InitReason preserves_FindWindowHandle
  preserves_ProgramIsTesting preserves_ProgramIsVisualMode
  preserves_ProgramIsOptimization preserves_ProgramIsLogging
  preserves_ProgramCustomLogFile preserves_SyncMainContext_init_update
  preserves_chain_push_back preserves_SyncMainContext_init_libraries : preserves.

(** *** The number of chains *)

#[global] Instance registry_Invariant P : Invariant (registry P).
Proof.
  split; intros; unfold registry in *; simpl; try assumption;
    rewrite length_insert; assumption.
Qed.

#[global] Instance registry_CopiesProgramId ec P : CopiesProgramId ec (registry P).
Proof. intros s p r e Hs _ _. exact Hs. Qed.

Section Registry.
Variable P : nat -> Prop.

Lemma registry_poke p f : preserves (registry P) (poke p f).
Proof. intros s Hs. apply wp_poke. intros r Hr. exact Hs. Qed.

Lemma registry_assign p r : preserves (registry P) (assign p r).
Proof. intros s Hs. apply wp_assign. intros r' Hr. exact Hs. Qed.

Lemma registry_new : preserves (registry P) new_EXECUTION_CONTEXT.
Proof.
  unfold new_EXECUTION_CONTEXT. apply preserves_bind; [apply preserves_get|].
  intros s. cbv zeta. apply preserves_bind; [|intros; apply preserves_ret].
  intros s' Hs'. apply wp_update. exact Hs'.
Qed.

Lemma registry_set_slot id slot p : preserves (registry P) (set_slot id slot p).
Proof.
  intros s Hs. apply wp_set_slot. intros c q Hc Hq.
  unfold registry in *. simpl. rewrite length_insert. exact Hs.
Qed.

Lemma registry_ec_SetProgramId p v : preserves (registry P) (ec_SetProgramId p v).
Proof. apply registry_poke. Qed.

Hint Resolve registry_poke registry_assign registry_new registry_set_slot
  registry_ec_SetProgramId : preserves.

Lemma registry_SyncMainContext_start t ec time :
  preserves (registry P) (SyncMainContext_start t ec time).
Proof. unfold SyncMainContext_start. preserves_auto. Qed.

Lemma registry_SyncMainContext_deinit t ec uninitReason :
  preserves (registry P) (SyncMainContext_deinit t ec uninitReason).
Proof. unfold SyncMainContext_deinit. preserves_auto. Qed.

Lemma registry_SyncLibContext_init t ec uninitReason initFlags deinitFlags moduleName
    symbol period isOptimization :
  preserves (registry P) (SyncLibContext_init t ec uninitReason initFlags deinitFlags
                            moduleName symbol period isOptimization).
Proof. unfold SyncLibContext_init. preserves_auto. Qed.

Lemma registry_SyncLibContext_deinit t ec uninitReason :
  preserves (registry P) (SyncLibContext_deinit t ec uninitReason).
Proof. unfold SyncLibContext_deinit. preserves_auto. Qed.

Lemma registry_LeaveContext t ec : preserves (registry P) (LeaveContext t ec).
Proof.
  unfold LeaveContext. destruct (_ <? _); [preserves_auto|].
  apply preserves_bind; [apply preserves_deref|]. intros r. cbv zeta.
  destruct (_ <? _); [preserves_auto|]. destruct (negb _); [preserves_auto|].
  destruct (EC.moduleType r); preserves_auto.
Qed.

(** With [P] closed under successor the creation of a chain keeps it. *)
Hypothesis P_succ : forall k, P k -> P (S k).

Lemma registry_push_back chain :
  preserves (registry P)
    (update (fun s => set_contextChains (g_contextChains s ++ [chain]) s)).
Proof.
  intros s Hs. apply wp_update. unfold registry in *. simpl.
  rewrite length_app. simpl. rewrite Nat.add_1_r. apply P_succ, Hs.
Qed.

Hint Resolve registry_push_back : preserves.

Lemma registry_SyncMainContext_init_chain t ec programType sec initReason
    originalProgramId :
  preserves (registry P)
    (SyncMainContext_init_chain t ec programType sec initReason originalProgramId).
Proof. unfold SyncMainContext_init_chain. preserves_auto. Qed.

Hint Resolve registry_SyncMainContext_init_chain : preserves.

Lemma registry_SyncMainContext_init t ec programType programName uninitReason
    initFlags deinitFlags symbol period sec isTesting isVisualMode isOptimization
    hChart droppedOnChart droppedOnPosX droppedOnPosY :
  preserves (registry P)
    (SyncMainContext_init t ec programType programName uninitReason initFlags
       deinitFlags symbol period sec isTesting isVisualMode isOptimization hChart
       droppedOnChart droppedOnPosX droppedOnPosY).
Proof. unfold SyncMainContext_init. preserves_auto. Qed.
End Registry.

#[global] Hint Resolve registry_poke registry_assign registry_new registry_set_slot
  registry_ec_SetProgramId registry_SyncMainContext_start
  registry_SyncMainContext_deinit registry_SyncLibContext_init
  registry_SyncLibContext_deinit registry_LeaveContext : preserves.

#[global] Instance allocated_Invariant p : Invariant (allocated p).
Proof.
  split; intros; unfold allocated in *; simpl; try assumption.
  destruct (decide (p0 = p)) as [->|Hne].
  - rewrite lookup_insert_eq. eauto.
  - rewrite lookup_insert_ne by exact Hne. assumption.
Qed.

Lemma lookup_programId_insert (h : gmap Z EXECUTION_CONTEXT) p q r r' v :
  h !! p = Some r ->
  EC.programId r' = EC.programId r ->
  EC.programId <$> h !! q = Some v ->
  EC.programId <$> <[p := r']> h !! q = Some v.
Proof.
  intros Hp Hid Hq. destruct (decide (p = q)) as [->|Hne].
  - rewrite lookup_insert_eq. rewrite Hp in Hq. simpl in *. congruence.
  - rewrite lookup_insert_ne by exact Hne. exact Hq.
Qed.

Lemma lookup_programId_insert_id (h : gmap Z EXECUTION_CONTEXT) p q r' v :
  EC.programId r' = v ->
  EC.programId <$> h !! q = Some v ->
  EC.programId <$> <[p := r']> h !! q = Some v.
Proof.
  intros Hid Hq. destruct (decide (p = q)) as [->|Hne].
  - rewrite lookup_insert_eq. simpl. congruence.
  - rewrite lookup_insert_ne by exact Hne. exact Hq.
Qed.

Lemma owns_chain (l : list ContextChain) (n : nat) id c c' master ec :
  subscript l id = Some c ->
  (forall libs, c = master :: ec :: libs -> exists libs', c' = master :: ec :: libs') ->
  (exists libs, l !! n = Some (master :: ec :: libs)) ->
  exists libs, <[Z.to_nat id := c']> l !! n = Some (master :: ec :: libs).
Proof.
  intros Hc Hc' [libs Hn]. apply subscript_Some in Hc as [Hid Hc].
  destruct (decide (Z.to_nat id = n)) as [E|Hne].
  - rewrite E in *. rewrite Hc in Hn. injection Hn as ->.
    destruct (Hc' libs eq_refl) as [libs' ->]. exists libs'.
    apply list_lookup_insert_eq. eapply lookup_lt_Some. exact Hc.
  - exists libs. rewrite list_lookup_insert_ne by exact Hne. exact Hn.
Qed.

#[global] Instance owns_Invariant ec master n : Invariant (owns ec master n).
Proof.
  split; intros; unfold owns in *; simpl; try assumption.
  - destruct H as (Hlen & Hc & Hec & Hm). repeat split; try assumption.
    + eapply lookup_programId_insert; eassumption.
    + eapply lookup_programId_insert; eassumption.
  - destruct H as (Hlen & Hc & Hec & Hm). repeat split; try assumption.
    + rewrite length_insert. exact Hlen.
    + eapply owns_chain; [eassumption | | exact Hc].
      intros libs ->. destruct (Z.to_nat slot) as [|[|k]] eqn:E; [lia | lia |].
      simpl. eauto.
  - destruct H as (Hlen & Hc & Hec & Hm). repeat split; try assumption.
    + rewrite length_insert. exact Hlen.
    + eapply owns_chain; [eassumption | | exact Hc].
      intros libs ->. simpl. eauto.
Qed.

#[global] Instance owns_CopiesProgramId ec master n : CopiesProgramId ec (owns ec master n).
Proof.
  intros s p r e (Hlen & Hc & Hec & Hm) Hp He. unfold owns. simpl.
  assert (Hid : EC.programId e = Z.of_nat n).
  { rewrite He in Hec. simpl in Hec. congruence. }
  repeat split; try assumption.
  - apply lookup_programId_insert_id; [exact Hid | exact Hec].
  - apply lookup_programId_insert_id; [exact Hid | exact Hm].
Qed.

Lemma wp_new_EXECUTION_CONTEXT Q s :
  (forall p, memory s !! p = None -> p <> NULL ->
     Q p (set_memory (<[p := EC.zero]> (memory s)) s)) ->
  wp new_EXECUTION_CONTEXT Q s.
Proof.
  intros H. unfold new_EXECUTION_CONTEXT. apply wp_bind, wp_get.
  cbv zeta. apply wp_bind, wp_update, wp_ret.
  pose proof (is_fresh (dom (memory s) ∪ {[NULL]})) as Hfresh.
  apply H.
  - apply not_elem_of_dom. set_solver.
  - set_solver.
Qed.

Lemma preserves_and {A} I1 I2 (m : M A) :
  preserves I1 m -> preserves I2 m -> preserves (fun s => I1 s /\ I2 s) m.
Proof.
  intros H1 H2 s [Hs1 Hs2]. specialize (H1 s Hs1). specialize (H2 s Hs2).
  unfold wp in *. destruct (m s); [split; assumption | trivial].
Qed.

Lemma allocated_poke p q f : preserves (allocated p) (poke q f).
Proof.
  intros s Hs. apply wp_poke. intros r Hr. unfold allocated in *. simpl.
  destruct (decide (q = p)) as [->|Hne].
  - rewrite lookup_insert_eq. eauto.
  - rewrite lookup_insert_ne by exact Hne. exact Hs.
Qed.

(** The block (1.2) creates the chain of program [n] in a registry of [n]
    chains; the other branch (1.1) keeps the registry's length. *)
Lemma SyncMainContext_init_chain_owns t ec programType sec initReason originalProgramId
    (n : nat) s :
  registry (eq n) s ->
  allocated ec s ->
  Z.of_nat n + 1 < 2 ^ 32 ->
  wp (SyncMainContext_init_chain t ec programType sec initReason originalProgramId)
    (fun _ s' => registry (eq n) s' \/ exists master, owns ec master n s') s.
Proof.
  intros Hn Hec Hsize. unfold SyncMainContext_init_chain.
  apply (preserves_wp (fun s => registry (eq n) s /\ allocated ec s)); [|split; assumption|].
  { apply preserves_when. apply preserves_bind.
    - apply preserves_and; [apply registry_ec_SetProgramId | apply allocated_poke].
    - intros _. preserves_auto. }
  clear s Hn Hec. intros _ s [Hn Hec]. cbv zeta.
  destruct (bool_decide (programType = PT_INDICATOR) && _) eqn:Hcycle.
  - (* (1.1) *)
    apply (preserves_wp (registry (eq n))); [|exact Hn|].
    + preserves_auto.
    + intros created s' Hs'.
      destruct (bool_decide (programType = PT_INDICATOR)
                && bool_decide (initReason = IR_PROGRAM_AFTERTEST)).
      * apply (preserves_wp (registry (eq n))); [preserves_auto | exact Hs'|].
        intros _ s'' Hs''. apply wp_ret. left. exact Hs''.
      * apply wp_ret. left. exact Hs'.
  - (* (1.2) *)
    apply wp_bind_assoc, wp_bind, wp_new_EXECUTION_CONTEXT. intros master Hfresh Hnull.
    assert (Hne : master <> ec).
    { intros ->. destruct Hec as [e He]. congruence. }
    apply wp_bind_assoc, wp_bind, wp_deref. intros e He. simpl in He.
    rewrite lookup_insert_ne in He by exact Hne.
    apply wp_bind_assoc, wp_bind, wp_assign. intros z Hz.
    rewrite set_memory_set_memory. cbn [memory set_memory]. rewrite insert_insert_eq.
    apply wp_bind_assoc, wp_bind, wp_update.
    apply wp_bind_assoc, wp_bind, wp_get. cbv zeta.
    cbn [g_contextChains set_contextChains set_memory].
    rewrite length_app. cbn [length].
    replace (to_uint (to_uint (Z.of_nat (length (g_contextChains s) + 1)) - 1))
      with (Z.of_nat n).
    2:{ unfold registry in Hn. rewrite <- Hn. change (2 ^ 32) with 4294967296 in Hsize.
        rewrite (to_uint_small (Z.of_nat (n + 1)))
          by (change (2 ^ 32) with 4294967296; lia).
        rewrite to_uint_small by (change (2 ^ 32) with 4294967296; lia). lia. }
    apply wp_bind_assoc, wp_bind, wp_poke. intros e' He'.
    cbn [memory set_contextChains set_memory] in He'.
    rewrite lookup_insert_ne in He' by exact Hne. rewrite He in He'. injection He' as <-.
    apply wp_bind_assoc, wp_bind, wp_deref. intros e2 He2.
    cbn [memory set_contextChains set_memory] in He2.
    rewrite lookup_insert_eq in He2. injection He2 as <-.
    apply wp_bind_assoc, wp_bind, wp_poke. intros m Hm.
    cbn [memory set_contextChains set_memory] in Hm.
    rewrite lookup_insert_ne, lookup_insert_eq in Hm by congruence. injection Hm as <-.
    match goal with |- wp _ _ ?s1 => assert (Howns : owns ec master n s1) end.
    { unfold owns, registry in *. cbn [memory g_contextChains set_contextChains set_memory].
      repeat split.
      - rewrite length_app, <- Hn. simpl. lia.
      - exists []. rewrite lookup_app_r by lia. rewrite <- Hn, Nat.sub_diag. reflexivity.
      - rewrite lookup_insert_ne, lookup_insert_eq by exact Hne. reflexivity.
      - rewrite lookup_insert_eq. reflexivity. }
    apply (preserves_wp (owns ec master n)); [|exact Howns|].
    { preserves_auto. }
    intros created s' Hs'.
      destruct (bool_decide (programType = PT_INDICATOR)
                && bool_decide (initReason = IR_PROGRAM_AFTERTEST)).
    + apply (preserves_wp (owns ec master n)); [preserves_auto | exact Hs'|].
      intros _ s'' Hs''. apply wp_ret. right. exists master. exact Hs''.
    + apply wp_ret. right. exists master. exact Hs'.
Qed.

(** [SyncMainContext_init] either keeps the number of chains or creates
    the chain of program [n], where [n] is the number of chains before. *)
Lemma SyncMainContext_init_creates t ec programType programName uninitReason initFlags
    deinitFlags symbol period sec isTesting isVisualMode isOptimization hChart
    droppedOnChart droppedOnPosX droppedOnPosY (n : nat) s :
  registry (eq n) s ->
  Z.of_nat n + 1 < 2 ^ 32 ->
  wp (SyncMainContext_init t ec programType programName uninitReason initFlags
        deinitFlags symbol period sec isTesting isVisualMode isOptimization hChart
        droppedOnChart droppedOnPosX droppedOnPosY)
    (fun _ s' => registry (eq n) s' \/ exists master, owns ec master n s') s.
Proof.
  intros Hn Hsize.
  assert (Hweak : forall {A} (m : M A) s, preserves (registry (eq n)) m -> registry (eq n) s ->
            wp m (fun _ s' => registry (eq n) s' \/ exists master, owns ec master n s') s).
  { intros A m s0 Hm Hs0. eapply wp_mono; [apply Hm, Hs0|]. intros; left; assumption. }
  unfold SyncMainContext_init.
  repeat match goal with
         | |- wp (if ?b then _ else _) _ _ => destruct b; [apply Hweak; [preserves_auto | exact Hn]|]
         end.
  apply wp_bind, wp_deref. intros e He.
  assert (Ha : registry (eq n) s /\ allocated ec s) by (split; [exact Hn | exists e; exact He]).
  clear Hn He.
  apply (preserves_wp (fun s => registry (eq n) s /\ allocated ec s)); [preserves_auto | exact Ha|].
  clear s Ha. intros _ s Ha.
  apply (preserves_wp (fun s => registry (eq n) s /\ allocated ec s)); [preserves_auto | exact Ha|].
  clear s Ha. intros resolved s Ha. cbv zeta.
  apply (preserves_wp (fun s => registry (eq n) s /\ allocated ec s)); [preserves_auto | exact Ha|].
  clear s Ha. intros hChart' s [Hn Ha].
  destruct (hChart' =? INVALID_HWND); [apply Hweak; [preserves_auto | exact Hn]|].
  apply wp_bind, wp_deref. intros e' He'.
  apply wp_bind with (Q := fun _ s' => registry (eq n) s' \/ exists master, owns ec master n s').
  eapply wp_mono with (Q := fun _ s' => registry (eq n) s' \/ exists master, owns ec master n s').
  { destruct (EC.programId e' =? 0).
    - apply SyncMainContext_init_chain_owns; assumption.
    - apply wp_ret. left. exact Hn. }
  clear s Hn Ha He'. intros step1 s Hs. cbv zeta.
  apply (preserves_wp (fun s' => registry (eq n) s' \/ exists master, owns ec master n s'));
    [preserves_auto | exact Hs|].
  clear s Hs. intros flags s Hs.
  apply (preserves_wp (fun s' => registry (eq n) s' \/ exists master, owns ec master n s'));
    [preserves_auto | exact Hs|].
  clear s Hs. intros _ s Hs. apply wp_ret. exact Hs.
Qed.

(** *** Calls of the exported functions *)

Lemma perform_creates c (n : nat) s :
  registry (eq n) s ->
  Z.of_nat n + 1 < 2 ^ 32 ->
  wp (perform c)
    (fun _ s' => registry (eq n) s' \/ creates_program c s s' (Z.of_nat n)) s.
Proof.
  intros Hn Hsize.
  assert (Hweak : forall (m : M bool), preserves (registry (eq n)) m ->
            wp m (fun _ s' => registry (eq n) s' \/ creates_program c s s' (Z.of_nat n)) s).
  { intros m Hm. eapply wp_mono; [apply Hm, Hn|]. intros; left; assumption. }
  destruct c; simpl; try (apply Hweak; solve [eauto with preserves]).
  eapply wp_mono; [apply SyncMainContext_init_creates; eassumption|].
  intros b s' [Hs' | (master & Hlen & (libs & Hlibs) & Hec & Hm)]; [left; exact Hs'|].
  right. unfold creates_program, registry in *. simpl. rewrite <- Hn.
  split; [do 16 eexists; reflexivity|]. split; [reflexivity|]. split; [exact Hlen|].
  split; [|exact Hec]. exists master, libs. split; [|exact Hm].
  apply subscript_Some. split; [lia|]. rewrite Nat2Z.id. exact Hlibs.
Qed.

Lemma step_registry s s' :
  step s s' -> (length (g_contextChains s) <= length (g_contextChains s'))%nat.
Proof.
  intros [c b s0 s1 Hrun | h s0]; [|simpl; lia].
  assert (Hp : preserves (registry (le (length (g_contextChains s0)))) (perform c)).
  { destruct c; simpl; eauto with preserves.
    apply registry_SyncMainContext_init. intros k Hk. lia. }
  exact (preserves_Done _ _ _ _ _ Hp (le_n _) Hrun).
Qed.

Lemma steps_registry s s' :
  rtc step s s' -> (length (g_contextChains s) <= length (g_contextChains s'))%nat.
Proof.
  induction 1 as [|s1 s2 s3 Hstep _ IH]; [lia|].
  apply step_registry in Hstep. lia.
Qed.

Lemma perform_new_chain c b s s' :
  Z.of_nat (length (g_contextChains s)) + 1 < 2 ^ 32 ->
  perform c s = Done b s' ->
  length (g_contextChains s') <> length (g_contextChains s) ->
  creates_program c s s' (Z.of_nat (length (g_contextChains s))).
Proof.
  intros Hsize Hrun Hgrew.
  pose proof (wp_Done _ _ _ _ _ (perform_creates c _ s eq_refl Hsize) Hrun) as [Hsame | Hnew].
  - unfold registry in Hsame. congruence.
  - exact Hnew.
Qed.

(** C2: when two calls create a chain, the second one any number of steps
    after the first (calls of the exported functions, the terminal
    rewriting the memory of the programs), the program id each assigns is
    the index of the chain it appended to the registry, the id of the first
    is not [0], and the id of the second is larger: no step removes a chain,
    so no index is assigned twice.  The registry holds its sentinel chain at
    index 0 from the start, and the number of chains fits [uint]. *)
Theorem program_ids_increase (c1 c2 : api_call) (b1 b2 : bool) (s0 s1 s2 s3 : State) :
  g_contextChains s0 <> [] ->
  Z.of_nat (length (g_contextChains s2)) + 1 < 2 ^ 32 ->
  perform c1 s0 = Done b1 s1 ->
  length (g_contextChains s1) <> length (g_contextChains s0) ->
  rtc step s1 s2 ->
  perform c2 s2 = Done b2 s3 ->
  length (g_contextChains s3) <> length (g_contextChains s2) ->
  exists id1 id2 : Z,
    creates_program c1 s0 s1 id1
    /\ creates_program c2 s2 s3 id2
    /\ 0 < id1 < id2.
Proof.
  intros Hsentinel Hsize Hrun1 Hgrew1 Hsteps Hrun2 Hgrew2.
  pose proof (steps_registry _ _ Hsteps) as Hmono.
  pose proof (step_registry _ _ (step_call c1 b1 s0 s1 Hrun1)) as Hmono1.
  assert (Hsize0 : Z.of_nat (length (g_contextChains s0)) + 1 < 2 ^ 32) by lia.
  pose proof (perform_new_chain c1 b1 s0 s1 Hsize0 Hrun1 Hgrew1) as Hnew1.
  pose proof (perform_new_chain c2 b2 s2 s3 Hsize Hrun2 Hgrew2) as Hnew2.
  exists (Z.of_nat (length (g_contextChains s0))), (Z.of_nat (length (g_contextChains s2))).
  split; [exact Hnew1|]. split; [exact Hnew2|].
  destruct Hnew1 as (_ & _ & Hlen1 & _).
  destruct (g_contextChains s0) as [|sentinel rest]; [contradiction|]. simpl in *. lia.
Qed.

Lemma program_ids_increase_witness :
  exists id1 id2 : Z,
    creates_program experts_first_test fresh_process
      (after experts_first_test fresh_process) id1
    /\ creates_program experts_second_test
         (after experts_first_tick (after experts_first_test fresh_process))
         (after experts_second_test
            (after experts_first_tick (after experts_first_test fresh_process))) id2
    /\ 0 < id1 < id2.
Proof.
  apply (program_ids_increase experts_first_test experts_second_test true true
           fresh_process
           (after experts_first_test fresh_process)
           (after experts_first_tick (after experts_first_test fresh_process))
           (after experts_second_test
              (after experts_first_tick (after experts_first_test fresh_process)))).
  - discriminate.
  - vm_compute. reflexivity.
  - vm_compute. reflexivity.
  - vm_compute. discriminate.
  - eapply rtc_l; [|apply rtc_refl].
    apply (step_call experts_first_tick true). vm_compute. reflexivity.
  - vm_compute. reflexivity.
  - vm_compute. discriminate.
Defined.

(** ** Libraries taken over by a new expert *)

Lemma list_insert_alter_eq {A} (f : A -> A) (l : list A) (i : nat) (x : A) :
  l !! i = Some x -> <[i := f x]> l = alter f i l.
Proof.
  revert i. induction l as [|y l IH]; intros [|i] H; simpl in *; try discriminate.
  - injection H as ->. reflexivity.
  - f_equal. apply IH, H.
Qed.

Lemma set_slot_alter id slot p s c q :
  subscript (g_contextChains s) id = Some c ->
  subscript c slot = Some q ->
  set_slot id slot p s =
    Done tt (set_contextChains
               (alter (<[Z.to_nat slot := p]>) (Z.to_nat id) (g_contextChains s)) s).
Proof.
  intros Hc Hq. rewrite (set_slot_Done id slot p s c q Hc Hq).
  apply subscript_Some in Hc as [_ Hc].
  rewrite (list_insert_alter_eq (<[Z.to_nat slot := p]>) _ _ _ Hc). reflexivity.
Qed.

Lemma chain_push_back_alter id p s c :
  subscript (g_contextChains s) id = Some c ->
  chain_push_back id p s =
    Done tt (set_contextChains
               (alter (fun c => c ++ [p]) (Z.to_nat id) (g_contextChains s)) s).
Proof.
  intros Hc. unfold chain_push_back.
  rewrite (bind_Done _ _ _ _ _ (chain_at_Done _ _ _ Hc)).
  apply subscript_Some in Hc as [_ Hc].
  unfold update. rewrite (list_insert_alter_eq (fun c => c ++ [p]) _ _ _ Hc). reflexivity.
Qed.

Section Reattach.
Variables (ec cur last : Z) (e : EXECUTION_CONTEXT).
Hypothesis Hdistinct : cur <> last.

Lemma SyncMainContext_init_loop_cons i p rest s :
  loop_ready ec cur last e i p s ->
  SyncMainContext_init_loop ec cur last (i :: rest) s =
  SyncMainContext_init_loop ec cur last rest (reattach_slot e cur last i p s).
Proof.
  intros [He Hslot [cc Hcc] Hlib]. cbn [SyncMainContext_init_loop].
  rewrite (bind_Done _ _ _ _ _ (slot_at_Done _ _ _ _ Hslot)).
  unfold reattach_slot.
  destruct (Z.eqb_spec p NULL) as [->|Hp].
  { rewrite bind_assoc. unfold warn. rewrite bind_assoc. reflexivity. }
  destruct Hlib as [?|[Hne [l Hl]]]; [contradiction|]. rewrite Hl.
  run_step. unfold when.
  destruct (EC.initCycle l); [|reflexivity].
  unfold slot_of in Hslot.
  destruct (subscript (g_contextChains s) last) as [cl|] eqn:Hcl; [|discriminate].
  simpl in Hslot.
  rewrite !bind_assoc.
  rewrite (bind_Done _ _ _ _ _ (set_slot_alter _ _ NULL _ _ _ Hcl Hslot)).
  unfold ec_SetProgramId, ec_SetInitCycle, ec_SetVisualMode, ec_SetOptimization,
    ec_SetLogging, ec_SetCustomLogFile, ec_SetHChart, ec_SetHChartWindow.
  do 15 run_step.
  erewrite (bind_Done (chain_push_back _ _)).
  2:{ apply chain_push_back_alter with (c := cc).
      cbn [g_contextChains set_contextChains set_memory].
      apply subscript_Some in Hcc as [Hc0 Hcc]. apply subscript_Some in Hcl as [Hl0 Hcl].
      apply subscript_Some. split; [exact Hc0|].
      rewrite list_lookup_alter_ne by lia. exact Hcc. }
  reflexivity.
Qed.
End Reattach.

Lemma marked_insert_ne h p q x : q <> p -> marked (<[p := x]> h) q = marked h q.
Proof. intros H. unfold marked. rewrite lookup_insert_ne by congruence. reflexivity. Qed.

Lemma marked_NULL h : marked h NULL = false.
Proof. reflexivity. Qed.

Lemma filter_ext_in {A} (P Q : A -> Prop) `{!forall x, Decision (P x)}
    `{!forall x, Decision (Q x)} (l : list A) :
  (forall x, x ∈ l -> P x <-> Q x) -> filter P l = filter Q l.
Proof.
  induction l as [|a l IH]; intros Hext; [reflexivity|].
  rewrite !filter_cons.
  rewrite IH by (intros x Hx; apply Hext; right; exact Hx).
  destruct (decide (P a)) as [Hp|Hp], (decide (Q a)) as [Hq|Hq]; try reflexivity.
  - exfalso. apply Hq, (Hext a); [left | exact Hp].
  - exfalso. apply Hp, (Hext a); [left | exact Hq].
Qed.

Lemma bool_decide_elem_of_cons_ne (q p : Z) (ps : list Z) :
  q <> p -> bool_decide (q ∈ p :: ps) = bool_decide (q ∈ ps).
Proof. intros H. apply bool_decide_ext. rewrite elem_of_cons. tauto. Qed.

Lemma distinct_records_cons p ps :
  distinct_records (p :: ps) -> (p <> NULL -> p ∉ ps) /\ distinct_records ps.
Proof.
  unfold distinct_records. rewrite filter_cons.
  destruct (decide (p <> NULL)) as [Hp|Hp].
  - rewrite NoDup_cons. intros [Hnotin Hnodup]. split; [|exact Hnodup].
    intros _ Hin. apply Hnotin, list_elem_of_filter. split; assumption.
  - intros H. split; [intros; contradiction | exact H].
Qed.

Section ReattachSlots.
Variables (ec cur last : Z) (e : EXECUTION_CONTEXT).
Hypothesis Hcur : 0 <= cur.
Hypothesis Hlast : 0 <= last.
Hypothesis Hdistinct : cur <> last.

Lemma reattaching_ready i p ps s :
  reattaching ec cur last e i (p :: ps) s -> loop_ready ec cur last e i p s.
Proof.
  intros [He (pre & Hl & ->) [cc Hc] Hlibs]. split.
  - exact He.
  - unfold slot_of.
    replace (subscript (g_contextChains s) last) with (Some (pre ++ p :: ps))
      by (symmetry; apply subscript_Some; split; assumption).
    simpl. apply subscript_Some. split; [lia|].
    rewrite Nat2Z.id. rewrite lookup_app_r by lia. rewrite Nat.sub_diag. reflexivity.
  - exists cc. apply subscript_Some. split; assumption.
  - destruct (decide (p = NULL)) as [->|Hp]; [left; reflexivity | right].
    apply Hlibs; [left | exact Hp].
Qed.

Lemma reattaching_next i p ps s :
  reattaching ec cur last e i (p :: ps) s ->
  reattaching ec cur last e (i + 1) ps (reattach_slot e cur last i p s).
Proof.
  intros [He (pre & Hl & ->) [cc Hc] Hlibs]. unfold reattach_slot.
  assert (Hrest : forall q, q ∈ ps -> q <> NULL -> q <> ec /\ is_Some (memory s !! q)).
  { intros q Hq. apply Hlibs. right. exact Hq. }
  assert (Hkeep : reattaching ec cur last e (Z.of_nat (length pre) + 1) ps s).
  { split; [exact He | | exists cc; exact Hc | exact Hrest].
    exists (pre ++ [p]). rewrite <- app_assoc, length_app. simpl. split; [exact Hl | lia]. }
  destruct (Z.eqb_spec p NULL) as [->|Hp].
  { destruct Hkeep as [? ? ? ?]. split; assumption. }
  destruct (Hlibs p ltac:(left) Hp) as [Hne [l Hp']]. rewrite Hp'.
  destruct (EC.initCycle l); [|exact Hkeep].
  split; cbn [memory g_contextChains set_contextChains set_memory].
  - rewrite lookup_insert_ne by exact Hne. exact He.
  - exists (pre ++ [NULL]). split; [|rewrite length_app; simpl; lia].
    rewrite list_lookup_alter_ne by lia.
    rewrite list_lookup_alter_eq, Hl. simpl. f_equal.
    rewrite Nat2Z.id.
    replace (length pre) with (length pre + 0)%nat at 1 by lia.
    rewrite insert_app_r. simpl. rewrite <- app_assoc. reflexivity.
  - rewrite list_lookup_alter_eq, list_lookup_alter_ne by lia. rewrite Hc. simpl. eauto.
  - intros q Hq Hqn. destruct (Hrest q Hq Hqn) as [Hqe Hqm]. split; [exact Hqe|].
    destruct (decide (p = q)) as [->|Hpq].
    + rewrite lookup_insert_eq. eauto.
    + rewrite lookup_insert_ne by exact Hpq. exact Hqm.
Qed.

Lemma SyncMainContext_init_loop_run ps : forall i s,
  reattaching ec cur last e i ps s ->
  SyncMainContext_init_loop ec cur last (slots_from i (length ps)) s
  = Done tt (reattach_slots e cur last i ps s).
Proof.
  induction ps as [|p ps IH]; intros i s Hs; [reflexivity|].
  cbn [length slots_from reattach_slots].
  rewrite (SyncMainContext_init_loop_cons ec cur last e Hdistinct i p _ s
             (reattaching_ready _ _ _ _ Hs)).
  apply IH, reattaching_next, Hs.
Qed.

Lemma reattach_slots_reattachment ps : forall i s pre cc,
  memory s !! ec = Some e ->
  g_contextChains s !! Z.to_nat last = Some (pre ++ ps) ->
  i = Z.of_nat (length pre) ->
  g_contextChains s !! Z.to_nat cur = Some cc ->
  (forall p, p ∈ ps -> p <> NULL -> p <> ec /\ is_Some (memory s !! p)) ->
  distinct_records ps ->
  reattachment cur last e pre ps cc s (reattach_slots e cur last i ps s).
Proof.
  induction ps as [|p ps IH]; intros i s pre cc He Hl Hi Hc Hlibs Hnodup.
  { cbn [reattach_slots]. rewrite app_nil_r in Hl.
    split; simpl; rewrite ?app_nil_r; auto. }
  destruct (distinct_records_cons _ _ Hnodup) as [Hnotin Hnodup'].
  assert (Hrest : forall q, q ∈ ps -> q <> NULL -> q <> ec /\ is_Some (memory s !! q)).
  { intros q Hq. apply Hlibs. right. exact Hq. }
  cbn [reattach_slots]. unfold reattach_slot.
  destruct (Z.eqb_spec p NULL) as [->|Hp].
  - (* an empty slot: a warning *)
    specialize (IH (i + 1) (logged (LogWarn ERR_ILLEGAL_STATE) s) (pre ++ [NULL]) cc).
    destruct IH as [H1 H2 H3 H4 H5 H6 H7]; cbn [memory g_contextChains logged set_diagnostics];
      try assumption.
    { rewrite <- app_assoc. exact Hl. }
    { rewrite length_app. simpl. lia. }
    cbn [memory logged set_diagnostics] in *.
    split.
    + rewrite H1, fmap_cons, marked_NULL, <- app_assoc. reflexivity.
    + rewrite H2, filter_cons, marked_NULL. rewrite decide_False by discriminate. reflexivity.
    + exact H3.
    + exact H4.
    + intros q. rewrite H5. destruct (decide (q = NULL)) as [->|Hq].
      * rewrite marked_NULL, !andb_false_r. reflexivity.
      * rewrite bool_decide_elem_of_cons_ne by exact Hq. reflexivity.
    + rewrite H6. rewrite filter_cons, decide_True by reflexivity.
      rewrite fmap_cons. unfold logged. cbn [diagnostics set_diagnostics].
      rewrite <- app_assoc. reflexivity.
    + exact H7.
  - destruct (Hlibs p ltac:(left) Hp) as [Hne [l Hp']]. rewrite Hp'.
    assert (Hmarked : marked (memory s) p = EC.initCycle l).
    { unfold marked. rewrite Hp'. destruct (Z.eqb_spec p NULL); [contradiction | reflexivity]. }
    specialize (Hnotin Hp).
    destruct (EC.initCycle l) eqn:Hcycle.
    + (* a marked library: detached, rewritten, appended *)
      assert (Hagree : forall q, q ∈ ps ->
                marked (<[p := reattached e l]> (memory s)) q = marked (memory s) q).
      { intros q Hq. apply marked_insert_ne. intros ->. contradiction. }
      match goal with
      | |- reattachment _ _ _ _ _ _ _ (reattach_slots _ _ _ _ _ ?s1) =>
          specialize (IH (i + 1) s1 (pre ++ [NULL]) (cc ++ [p]))
      end.
      destruct IH as [H1 H2 H3 H4 H5 H6 H7];
        cbn [memory g_contextChains diagnostics g_threads g_threadsPrograms
               g_lastUIThreadProgram set_contextChains set_memory] in *.
      { rewrite lookup_insert_ne by exact Hne. exact He. }
      { rewrite list_lookup_alter_ne by lia.
        rewrite list_lookup_alter_eq, Hl. simpl. f_equal. subst i.
        rewrite Nat2Z.id.
        replace (length pre) with (length pre + 0)%nat at 1 by lia.
        rewrite insert_app_r. simpl. rewrite <- app_assoc. reflexivity. }
      { rewrite length_app. simpl. lia. }
      { rewrite list_lookup_alter_eq, list_lookup_alter_ne by lia. rewrite Hc. reflexivity. }
      { intros q Hq Hqn. destruct (Hrest q Hq Hqn) as [Hqe Hqm]. split; [exact Hqe|].
        rewrite lookup_insert_ne by (intros ->; contradiction). exact Hqm. }
      { exact Hnodup'. }
      split.
      * rewrite H1, fmap_cons, Hmarked, <- app_assoc. simpl. do 3 f_equal.
        apply list_fmap_ext. intros k q Hk.
        rewrite Hagree by (eapply list_elem_of_lookup_2; exact Hk). reflexivity.
      * rewrite H2, filter_cons, Hmarked. rewrite decide_True by reflexivity.
        rewrite <- app_assoc. simpl. do 3 f_equal.
        apply filter_ext_in. intros q Hq. rewrite Hagree by exact Hq. reflexivity.
      * intros j Hj1 Hj2. rewrite H3 by assumption.
        rewrite !list_lookup_alter_ne by congruence. reflexivity.
      * rewrite H4. rewrite !length_alter. reflexivity.
      * intros q. rewrite H5.
        destruct (decide (q = p)) as [->|Hq].
        -- rewrite bool_decide_eq_false_2 by exact Hnotin.
           rewrite bool_decide_eq_true_2 by left. rewrite Hmarked. simpl.
           rewrite lookup_insert_eq, Hp'. reflexivity.
        -- rewrite marked_insert_ne by exact Hq.
           rewrite lookup_insert_ne by congruence.
           rewrite bool_decide_elem_of_cons_ne by exact Hq. reflexivity.
      * rewrite H6. rewrite filter_cons, decide_False by exact Hp. reflexivity.
      * exact H7.
    + (* a library that is not marked stays *)
      specialize (IH (i + 1) s (pre ++ [p]) cc).
      destruct IH as [H1 H2 H3 H4 H5 H6 H7]; try assumption.
      { rewrite <- app_assoc. exact Hl. }
      { rewrite length_app. simpl. lia. }
      split.
      * rewrite H1, fmap_cons, Hmarked, <- app_assoc. reflexivity.
      * rewrite H2, filter_cons, Hmarked. rewrite decide_False by discriminate. reflexivity.
      * exact H3.
      * exact H4.
      * intros q. rewrite H5. destruct (decide (q = p)) as [->|Hq].
        -- rewrite Hmarked, !andb_false_r. reflexivity.
        -- rewrite bool_decide_elem_of_cons_ne by exact Hq. reflexivity.
      * rewrite H6, filter_cons, decide_False by exact Hp. reflexivity.
      * exact H7.
Qed.
End ReattachSlots.

Lemma reattached_fields e l :
  EC.programId (reattached e l) = EC.programId e
  /\ EC.initCycle (reattached e l) = false
  /\ EC.visualMode (reattached e l) = EC.visualMode e
  /\ EC.optimization (reattached e l) = EC.optimization e
  /\ EC.logging (reattached e l) = EC.logging e
  /\ EC.customLogFile (reattached e l) = EC.customLogFile e
  /\ EC.hChart (reattached e l) = EC.hChart e
  /\ EC.hChartWindow (reattached e l) = EC.hChartWindow e.
Proof. repeat split. Qed.

(** Step (3) of [SyncMainContext_init] for a new expert ([isNewExpert])
    under test ([isTesting]) with a known previous program [last] whose
    master is marked as being in its init cycle.  The previous chain is
    [lastMaster :: main :: libs], the library slots hold pairwise different
    records that can be read, and the new program has another id.  Then the
    step finishes, and
    - every library slot that held a marked record holds [NULL];
    - these records are appended, in slot order, to the chain of the new
      program;
    - each of them has the program id, visual mode, optimisation, logging,
      log file and the two chart handles of the expert's record, and its
      own mark cleared;
    - the records that were not marked stay in their slots unchanged;
    - the mark of the previous master is cleared;
    - for every [NULL] library slot one warning with [ERR_ILLEGAL_STATE] was
      logged and the slot was skipped. *)
Lemma SyncMainContext_init_libraries_reattach (ec last : Z)
    (e lm : EXECUTION_CONTEXT) (s : State) (cc libs : list Z) (lastMaster main : Z) :
  last <> 0 ->
  memory s !! ec = Some e ->
  EC.programId e <> last ->
  subscript (g_contextChains s) (EC.programId e) = Some cc ->
  subscript (g_contextChains s) last = Some (lastMaster :: main :: libs) ->
  lastMaster <> NULL ->
  memory s !! lastMaster = Some lm ->
  EC.initCycle lm = true ->
  (forall p, p ∈ libs -> p <> NULL ->
     p <> ec /\ p <> lastMaster /\ is_Some (memory s !! p)) ->
  distinct_records libs ->
  exists s',
    SyncMainContext_init_libraries ec true true last s = Done tt s'
    /\ subscript (g_contextChains s') last
       = Some (lastMaster :: main
                 :: ((fun p => if marked (memory s) p then NULL else p) <$> libs))
    /\ subscript (g_contextChains s') (EC.programId e)
       = Some (cc ++ filter (fun p => marked (memory s) p = true) libs)
    /\ (forall p l,
          p ∈ libs -> p <> NULL -> memory s !! p = Some l -> EC.initCycle l = true ->
          exists l',
            memory s' !! p = Some l'
            /\ l' = reattached e l
            /\ EC.programId l' = EC.programId e
            /\ EC.initCycle l' = false
            /\ EC.visualMode l' = EC.visualMode e
            /\ EC.optimization l' = EC.optimization e
            /\ EC.logging l' = EC.logging e
            /\ EC.customLogFile l' = EC.customLogFile e
            /\ EC.hChart l' = EC.hChart e
            /\ EC.hChartWindow l' = EC.hChartWindow e)
    /\ (forall p, p ∈ libs -> marked (memory s) p = false ->
          memory s' !! p = memory s !! p)
    /\ memory s' !! lastMaster = Some (EC.set_initCycle false lm)
    /\ diagnostics s'
       = diagnostics s
         ++ ((fun _ => LogWarn ERR_ILLEGAL_STATE) <$> filter (fun p => p = NULL) libs)
    /\ (lastMaster <> ec -> memory s' !! ec = Some e)
    /\ length (g_contextChains s') = length (g_contextChains s).
Proof.
  intros Hlast He Hne Hcc Hchain Hnull Hlm Hmark Hlibs Hnodup.
  pose proof (proj1 (subscript_Some _ _ _) Hcc) as [Hcur0 Hcc'].
  pose proof (proj1 (subscript_Some _ _ _) Hchain) as [Hlast0 Hchain'].
  assert (Hlibs' : forall p, p ∈ libs -> p <> NULL -> p <> ec /\ is_Some (memory s !! p)).
  { intros p Hp Hpn. destruct (Hlibs p Hp Hpn) as (? & _ & ?). split; assumption. }
  assert (Hnotin : lastMaster ∉ libs).
  { intros Hin. destruct (Hlibs _ Hin Hnull) as (_ & Hcontra & _). contradiction. }
  pose proof (reattach_slots_reattachment ec (EC.programId e) last e Hcur0 Hlast0 Hne
                libs 2 s [lastMaster; main] cc He Hchain' eq_refl Hcc' Hlibs' Hnodup)
    as [H1 H2 H3 H4 H5 H6 H7].
  set (s1 := reattach_slots e (EC.programId e) last 2 libs s) in *.
  assert (Hlm1 : memory s1 !! lastMaster = Some lm).
  { rewrite H5, bool_decide_eq_false_2 by exact Hnotin. exact Hlm. }
  exists (set_memory (<[lastMaster := EC.set_initCycle false lm]> (memory s1)) s1).
  split.
  { unfold SyncMainContext_init_libraries. cbn [andb].
    destruct (Z.eqb_spec last 0) as [?|_]; [contradiction|]. cbn [negb when].
    assert (Hslot0 : slot_of s last 0 = Some lastMaster).
    { unfold slot_of. rewrite Hchain. reflexivity. }
    rewrite (bind_Done _ _ _ _ _ (slot_at_Done _ _ _ _ Hslot0)).
    destruct (Z.eqb_spec lastMaster NULL) as [?|_]; [contradiction|].
    rewrite bind_assoc. run_step. run_step. rewrite Hmark. cbn [when].
    run_step. cbv zeta.
    rewrite (bind_Done _ _ _ _ _ (chain_at_Done _ _ _ Hcc)).
    rewrite (bind_Done _ _ _ _ _ (chain_at_Done _ _ _ Hchain)).
    replace (length (lastMaster :: main :: libs) - 2)%nat with (length libs)
      by (simpl; lia).
    erewrite (bind_Done (SyncMainContext_init_loop _ _ _ _)).
    2:{ apply (SyncMainContext_init_loop_run ec (EC.programId e) last e Hcur0 Hlast0 Hne
                 libs 2 s).
        split; [exact He | | exists cc; exact Hcc' | exact Hlibs'].
        exists [lastMaster; main]. split; [exact Hchain' | reflexivity]. }
    fold s1. apply poke_Done, Hlm1. }
  cbn [memory g_contextChains diagnostics set_memory].
  split; [apply subscript_Some; split; [exact Hlast0 | exact H1]|].
  split; [apply subscript_Some; split; [exact Hcur0 | exact H2]|].
  split.
  { intros p l Hp Hpn Hl Hcycle. exists (reattached e l).
    split; [|split; [reflexivity | apply reattached_fields]].
    rewrite lookup_insert_ne by (intros ->; contradiction).
    rewrite H5, bool_decide_eq_true_2 by exact Hp.
    unfold marked. rewrite Hl, Hcycle.
    destruct (Z.eqb_spec p NULL); [contradiction|]. reflexivity. }
  split.
  { intros p Hp Hunmarked.
    rewrite lookup_insert_ne by (intros ->; contradiction).
    rewrite H5, Hunmarked, andb_false_r. reflexivity. }
  split; [apply lookup_insert_eq|].
  split; [exact H6|].
  split; [|exact H4].
  intros Hec. rewrite lookup_insert_ne by exact Hec. rewrite H5.
  destruct (bool_decide (ec ∈ libs) && marked (memory s) ec) eqn:Hmoved; [|exact He].
  apply andb_prop in Hmoved as [Hin Hm]. apply bool_decide_eq_true_1 in Hin.
  assert (Hn : ec <> NULL) by (intros ->; discriminate Hm).
  destruct (Hlibs' ec Hin Hn) as [Hcontra _]. contradiction.
Qed.

Example SyncMainContext_init_libraries_reattach_example :
  exists s',
    SyncMainContext_init_libraries 262144 true true 1 second_test = Done tt s'
    /\ subscript (g_contextChains s') 1 = Some [131072; 196608; NULL; NULL; 331776]
    /\ subscript (g_contextChains s') 2 = Some [139264; 262144; 327680]
    /\ memory s' !! 327680 = Some (reattached second_expert marked_library)
    /\ memory s' !! 131072 = Some (EC.set_programId 1 EC.zero)
    /\ diagnostics s' = [LogWarn ERR_ILLEGAL_STATE].
Proof.
  destruct (SyncMainContext_init_libraries_reattach 262144 1 second_expert
              (EC.set_programId 1 (EC.set_initCycle true EC.zero)) second_test
              [139264; 262144] [327680; NULL; 331776] 131072 196608)
    as (s' & Hrun & Hlast & Hcur & Hmoved & _ & Hmaster & Hwarn & _).
  - discriminate.
  - reflexivity.
  - discriminate.
  - reflexivity.
  - reflexivity.
  - discriminate.
  - reflexivity.
  - reflexivity.
  - intros p Hp Hnull.
    apply elem_of_cons in Hp as [-> | Hp];
      [split; [discriminate | split; [discriminate | eexists; reflexivity]]|].
    apply elem_of_cons in Hp as [-> | Hp]; [contradiction|].
    apply elem_of_cons in Hp as [-> | Hp];
      [split; [discriminate | split; [discriminate | eexists; reflexivity]]|].
    destruct (not_elem_of_nil _ Hp).
  - unfold distinct_records. apply (bool_decide_unpack _). vm_compute. exact Logic.I.
  - exists s'. split; [exact Hrun|]. split; [exact Hlast|]. split; [exact Hcur|].
    split.
    + destruct (Hmoved 327680 marked_library) as (l' & Hl' & -> & _).
      * left.
      * discriminate.
      * reflexivity.
      * reflexivity.
      * exact Hl'.
    + split; [exact Hmaster | exact Hwarn].
Qed.

Example second_test_takes_library_over :
  g_contextChains before_second_test = [[]; [327681; 196608; 327680]]
  /\ EC.initCycle <$> memory before_second_test !! 327681 = Some true
  /\ EC.initCycle <$> memory before_second_test !! 327680 = Some true
  /\ exists s',
       perform experts_first_test before_second_test = Done true s'
       /\ g_contextChains s' = [[]; [327681; 196608; NULL]; [327682; 196608; 327680]]
       /\ EC.programId <$> memory s' !! 196608 = Some 2
       /\ EC.programId <$> memory s' !! 327680 = Some 2
       /\ EC.initCycle <$> memory s' !! 327680 = Some false
       /\ EC.initCycle <$> memory s' !! 327681 = Some false
       /\ diagnostics s' = [].
Proof.
  split; [vm_compute; reflexivity|]. split; [vm_compute; reflexivity|].
  split; [vm_compute; reflexivity|].
  exists (after experts_first_test before_second_test).
  split; [vm_compute; reflexivity|]. split; [vm_compute; reflexivity|].
  split; [vm_compute; reflexivity|]. split; [vm_compute; reflexivity|].
  split; [vm_compute; reflexivity|]. split; vm_compute; reflexivity.
Qed.

(** * Further properties *)

(** ** The thread map under [StoreThreadAndProgram] *)

Lemma lookup_thread_lt threads x i :
  lookup_thread threads x 0 = Some i ->
  0 <= i /\ (Z.to_nat i < length threads)%nat /\ threads !! Z.to_nat i = Some x
  /\ forall m : nat, (m < Z.to_nat i)%nat -> threads !! m <> Some x.
Proof.
  intros H. apply lookup_thread_Some in H as (n & -> & Hn & Hfirst).
  rewrite Z.add_0_l, Nat2Z.id. split; [lia|]. split; [|split; [exact Hn | exact Hfirst]].
  eapply lookup_lt_Some. exact Hn.
Qed.

Lemma lookup_thread_app_new threads x :
  x ∉ threads ->
  lookup_thread (threads ++ [x]) x 0 = Some (Z.of_nat (length threads)).
Proof.
  intros Hx. apply lookup_thread_Some. exists (length threads).
  split; [lia|]. split.
  - rewrite lookup_app_r by lia. rewrite Nat.sub_diag. reflexivity.
  - intros m Hm Hcontra. rewrite lookup_app_l in Hcontra by exact Hm.
    apply Hx. eapply list_elem_of_lookup_2. exact Hcontra.
Qed.

Lemma set_threadProgram_Done i v s :
  is_Some (subscript (g_threadsPrograms s) i) ->
  set_threadProgram i v s
  = Done tt (set_threadsPrograms (<[Z.to_nat i := v]> (g_threadsPrograms s)) s).
Proof.
  intros [x Hx]. unfold set_threadProgram, bind, get, of_option. rewrite Hx. reflexivity.
Qed.

(** With a map whose two vectors have the same length the function
    finishes, in the state [stored] describes. *)
Lemma StoreThreadAndProgram_run t programId s :
  length (g_threads s) = length (g_threadsPrograms s) ->
  StoreThreadAndProgram t programId s
  = Done (if to_int programId <? 0 then to_uint EMPTY else to_uint (thread_index t s))
         (stored t programId s).
Proof.
  intros Hlen. unfold StoreThreadAndProgram, stored, thread_index.
  destruct (to_int programId <? 0); [reflexivity|].
  cbv zeta. unfold bind at 1. unfold get.
  destruct (lookup_thread (g_threads s) (GetCurrentThreadId t) 0) as [i|] eqn:Hi.
  - apply lookup_thread_lt in Hi as (Hi0 & Hi & _).
    assert (Hentry : is_Some (subscript (g_threadsPrograms s) i)).
    { rewrite Hlen in Hi. apply lookup_lt_is_Some in Hi as [x Hx]. exists x.
      apply subscript_Some. split; [exact Hi0 | exact Hx]. }
    destruct (programId =? 0); cbn [negb when andb].
    + reflexivity.
    + rewrite bind_assoc.
      rewrite (bind_Done _ _ _ _ _ (set_threadProgram_Done i programId s Hentry)).
      destruct (IsUIThread t); reflexivity.
  - unfold thread_added, bind, update, when, debug, log, ret, get. simpl.
    rewrite length_app. simpl.
    replace (Z.of_nat (length (g_threads s) + 1) - 1)
      with (Z.of_nat (length (g_threads s))) by lia.
    destruct (511 <? Z.of_nat (length (g_threads s))), (negb (programId =? 0) && IsUIThread t);
      reflexivity.
Qed.

Lemma stored_positive t programId s :
  0 < programId < 2 ^ 31 ->
  stored t programId s
  = let s1 :=
      match lookup_thread (g_threads s) (GetCurrentThreadId t) 0 with
      | Some i => set_threadsPrograms (<[Z.to_nat i := programId]> (g_threadsPrograms s)) s
      | None => thread_added t programId s
      end in
    if IsUIThread t then set_lastUIThreadProgram programId s1 else s1.
Proof.
  intros Hid. unfold stored. rewrite to_int_small by lia.
  destruct (Z.ltb_spec programId 0); [lia|].
  destruct (Z.eqb_spec programId 0); [lia|]. reflexivity.
Qed.

Lemma subscript_app_ne {A} (l : list A) (x : A) (j : Z) :
  j <> Z.of_nat (length l) -> subscript (l ++ [x]) j = subscript l j.
Proof.
  intros Hj. unfold subscript. destruct (Z.ltb_spec j 0); [reflexivity|].
  destruct (decide (Z.to_nat j < length l)%nat) as [Hlt|Hge].
  - apply lookup_app_l. exact Hlt.
  - rewrite lookup_app_r by lia.
    rewrite (lookup_ge_None_2 l) by lia.
    destruct (Z.to_nat j - length l)%nat as [|k] eqn:E; [lia | reflexivity].
Qed.

Lemma subscript_app_new {A} (l : list A) (x : A) :
  subscript (l ++ [x]) (Z.of_nat (length l)) = Some x.
Proof.
  apply subscript_Some. split; [lia|]. rewrite Nat2Z.id.
  rewrite lookup_app_r by lia. rewrite Nat.sub_diag. reflexivity.
Qed.

Lemma thread_added_fields t programId s :
  g_threads (thread_added t programId s) = g_threads s ++ [GetCurrentThreadId t]
  /\ g_threadsPrograms (thread_added t programId s) = g_threadsPrograms s ++ [programId]
  /\ g_lastUIThreadProgram (thread_added t programId s) = g_lastUIThreadProgram s
  /\ memory (thread_added t programId s) = memory s
  /\ g_contextChains (thread_added t programId s) = g_contextChains s.
Proof. unfold thread_added. cbv zeta. destruct (511 <? _); repeat split. Qed.

(** X1: [StoreThreadAndProgram] with a program id from [1] to [INT_MAX], on a
    thread map whose two vectors have the same length: the function returns
    an index at which [g_threads] holds the current thread and
    [g_threadsPrograms] holds the program id; the entries of all other
    threads are as before; [g_lastUIThreadProgram] is the program id on the
    UI thread and unchanged on any other thread; records and chains are
    untouched. *)
Theorem StoreThreadAndProgram_records (t : Terminal) (programId : Z) (s : State) :
  0 < programId < 2 ^ 31 ->
  length (g_threads s) = length (g_threadsPrograms s) ->
  Z.of_nat (length (g_threads s)) < 2 ^ 32 ->
  exists i s',
    StoreThreadAndProgram t programId s = Done i s'
    /\ subscript (g_threads s') i = Some (GetCurrentThreadId t)
    /\ subscript (g_threadsPrograms s') i = Some programId
    /\ (forall j, j <> i ->
          subscript (g_threads s') j = subscript (g_threads s) j
          /\ subscript (g_threadsPrograms s') j = subscript (g_threadsPrograms s) j)
    /\ g_lastUIThreadProgram s'
       = (if IsUIThread t then programId else g_lastUIThreadProgram s)
    /\ memory s' = memory s
    /\ g_contextChains s' = g_contextChains s.
Proof.
  intros Hid Hlen Hsize.
  rewrite (StoreThreadAndProgram_run t programId s Hlen).
  rewrite (to_int_small programId) by lia.
  destruct (Z.ltb_spec programId 0) as [?|_]; [lia|].
  rewrite (stored_positive t programId s Hid). unfold thread_index. cbv zeta.
  destruct (lookup_thread (g_threads s) (GetCurrentThreadId t) 0) as [i|] eqn:Hi.
  - apply lookup_thread_lt in Hi as (Hi0 & Hlt & Hi & _).
    assert (Hsmall : to_uint i = i) by (apply to_uint_small; lia).
    rewrite Hsmall.
    eexists i, _. split; [reflexivity|].
    assert (Hentry : is_Some (g_threadsPrograms s !! Z.to_nat i)).
    { apply lookup_lt_is_Some. lia. }
    destruct (IsUIThread t); cbn [g_threads g_threadsPrograms g_lastUIThreadProgram
      memory g_contextChains set_threadsPrograms set_lastUIThreadProgram].
    all: (split; [apply subscript_Some; split; [exact Hi0 | exact Hi]|]).
    all: (split; [apply subscript_Some; split; [exact Hi0|];
                  apply list_lookup_insert_eq; lia|]).
    all: (split; [|repeat split]).
    all: intros j Hj; split; [reflexivity|].
    all: unfold subscript; destruct (Z.ltb_spec j 0); [reflexivity|];
         apply list_lookup_insert_ne; lia.
  - assert (Hsmall : to_uint (Z.of_nat (length (g_threads s))) = Z.of_nat (length (g_threads s)))
      by (apply to_uint_small; lia).
    rewrite Hsmall.
    destruct (thread_added_fields t programId s) as (Hth & Htp & Hui & Hmem & Hcc).
    eexists _, _. split; [reflexivity|].
    destruct (IsUIThread t); cbn [g_threads g_threadsPrograms g_lastUIThreadProgram
      memory g_contextChains set_lastUIThreadProgram]; rewrite Hth, Htp.
    all: (split; [apply subscript_app_new|]).
    all: (split; [rewrite Hlen; apply subscript_app_new|]).
    all: (split; [|repeat split; assumption]).
    all: intros j Hj; split;
         [apply subscript_app_ne; exact Hj | apply subscript_app_ne; rewrite <- Hlen; exact Hj].
Qed.

(** The tester thread 9 is not in the map of the threads 7 and 8: it gets
    the third entry, and the last program of the UI thread stays. *)
Lemma StoreThreadAndProgram_records_witness :
  exists i s',
    StoreThreadAndProgram terminal_tester 5 (set_threads [7; 8] two_threads) = Done i s'
    /\ subscript (g_threads s') i = Some 9
    /\ subscript (g_threadsPrograms s') i = Some 5
    /\ g_lastUIThreadProgram s' = 1.
Proof.
  destruct (StoreThreadAndProgram_records terminal_tester 5 (set_threads [7; 8] two_threads))
    as (i & s' & Hrun & Hth & Htp & _ & Hui & _).
  - vm_compute. split; reflexivity.
  - reflexivity.
  - vm_compute. reflexivity.
  - exists i, s'. repeat split; assumption.
Defined.

(** X2: calling [StoreThreadAndProgram] a second time with the same program
    id (not negative) on the same thread returns the same index and changes
    nothing: the thread keeps its one entry, no second entry is made. *)
Theorem StoreThreadAndProgram_idempotent (t : Terminal) (programId : Z) (s s' : State)
    (i : Z) :
  length (g_threads s) = length (g_threadsPrograms s) ->
  0 <= to_int programId ->
  StoreThreadAndProgram t programId s = Done i s' ->
  StoreThreadAndProgram t programId s' = Done i s'.
Proof.
  intros Hlen Hid Hrun.
  rewrite (StoreThreadAndProgram_run t programId s Hlen) in Hrun.
  destruct (Z.ltb_spec (to_int programId) 0) as [?|_]; [lia|].
  injection Hrun as <- <-.
  assert (Hlen' : length (g_threads (stored t programId s))
                  = length (g_threadsPrograms (stored t programId s))).
  { unfold stored. destruct (Z.ltb_spec (to_int programId) 0) as [?|_]; [lia|]. cbv zeta.
    destruct (lookup_thread _ _ _) as [i|] eqn:Hi.
    - destruct (programId =? 0), (IsUIThread t); simpl; rewrite ?length_insert; exact Hlen.
    - destruct (thread_added_fields t programId s) as (Hth & Htp & _).
      destruct (negb (programId =? 0) && IsUIThread t); simpl; rewrite Hth, Htp, !length_app;
        simpl; lia. }
  rewrite (StoreThreadAndProgram_run t programId _ Hlen'). clear Hlen'.
  destruct (Z.ltb_spec (to_int programId) 0) as [?|_]; [lia|].
  assert (Hnonneg : (to_int programId <? 0) = false) by (apply Z.ltb_ge; lia).
  unfold stored, thread_index. rewrite !Hnonneg. cbv zeta.
  destruct (lookup_thread (g_threads s) (GetCurrentThreadId t) 0) as [i|] eqn:Hi.
  - destruct (programId =? 0) eqn:Hzero; cbn [negb andb].
    + rewrite ?Hi, ?Hzero. reflexivity.
    + destruct (IsUIThread t);
        cbn [g_threads g_threadsPrograms set_threadsPrograms set_lastUIThreadProgram];
        rewrite ?Hi, ?Hzero;
        cbn [g_threads g_threadsPrograms set_threadsPrograms set_lastUIThreadProgram];
        rewrite list_insert_insert_eq; reflexivity.
  - apply lookup_thread_None in Hi.
    destruct (thread_added_fields t programId s) as (Hth & Htp & Hui & Hmem & Hcc).
    assert (Hfound : lookup_thread (g_threads s ++ [GetCurrentThreadId t])
                       (GetCurrentThreadId t) 0 = Some (Z.of_nat (length (g_threads s))))
      by (apply lookup_thread_app_new, Hi).
    assert (Hsame : <[length (g_threads s) := programId]> (g_threadsPrograms s ++ [programId])
                    = g_threadsPrograms s ++ [programId]).
    { apply list_insert_id. rewrite Hlen, lookup_app_r by lia.
      rewrite Nat.sub_diag. reflexivity. }
    destruct (programId =? 0) eqn:Hzero; cbn [negb andb].
    + rewrite Hth, Hfound. reflexivity.
    + destruct (IsUIThread t);
        cbn [g_threads g_threadsPrograms set_threadsPrograms set_lastUIThreadProgram];
        rewrite Hth, Hfound, Htp, Nat2Z.id, Hsame;
        destruct (thread_added t programId s); simpl in *; subst; reflexivity.
Qed.

Lemma StoreThreadAndProgram_idempotent_witness :
  StoreThreadAndProgram terminal_tester 5
    (set_threadsPrograms [1; 2; 5] (set_threads [7; 8; 9] two_threads))
  = Done 2 (set_threadsPrograms [1; 2; 5] (set_threads [7; 8; 9] two_threads)).
Proof.
  apply (StoreThreadAndProgram_idempotent terminal_tester 5 (set_threads [7; 8] two_threads)).
  - reflexivity.
  - vm_compute. discriminate.
  - vm_compute. reflexivity.
Defined.

(** ** Properties of the chains and of the thread map that every call keeps *)

Ltac unfold_setters :=
  unfold ec_SetProgramId, ec_SetProgramType, ec_SetProgramName, ec_SetModuleType,
    ec_SetModuleName, ec_SetRootFunction, ec_SetInitCycle, ec_SetInitReason,
    ec_SetUninitReason, ec_SetTesting, ec_SetVisualMode, ec_SetOptimization,
    ec_SetInitFlags, ec_SetDeinitFlags, ec_SetLogging, ec_SetCustomLogFile,
    ec_SetSymbol, ec_SetTimeframe, ec_SetHChart, ec_SetHChartWindow,
    ec_SetSuperContext, ec_SetThreadId, ec_SetTicks, ec_SetPreviousTickTime,
    ec_SetCurrentTickTime, ec_SetMqlError, ec_SetDllError, ec_SetDllWarning.

Create HintDb keeps discriminated.

Section Skeletons.
Context {I : State -> Prop} `{!Skeleton I}.

Lemma keeps_poke p f : preserves I (poke p f).
Proof. intros s Hs. apply wp_poke. intros r _. apply skel_memory, Hs. Qed.

Lemma keeps_assign p r : preserves I (assign p r).
Proof. intros s Hs. apply wp_assign. intros r' _. apply skel_memory, Hs. Qed.

Lemma keeps_new_EXECUTION_CONTEXT : preserves I new_EXECUTION_CONTEXT.
Proof. intros s Hs. apply wp_new_EXECUTION_CONTEXT. intros p _ _. apply skel_memory, Hs. Qed.

Lemma keeps_log d : preserves I (log d).
Proof. intros s Hs. apply wp_log, skel_diagnostics, Hs. Qed.

Lemma keeps_error code : preserves I (error code).
Proof. unfold error. apply preserves_bind; [apply keeps_log | intros; apply preserves_ret]. Qed.

Lemma keeps_warn code : preserves I (warn code).
Proof. unfold warn. apply preserves_bind; [apply keeps_log | intros; apply preserves_ret]. Qed.

Lemma keeps_debug : preserves I debug.
Proof. unfold debug. apply preserves_bind; [apply keeps_log | intros; apply preserves_ret]. Qed.

Lemma keeps_log_all ds : preserves I (log_all ds).
Proof.
  induction ds as [|d ds IH]; simpl; [apply preserves_ret|].
  apply preserves_bind; [apply keeps_log | intros; exact IH].
Qed.

Lemma keeps_InitializeReason_error code : preserves I (InitializeReason_error code).
Proof.
  unfold InitializeReason_error.
  apply preserves_bind; [apply keeps_error | intros; apply preserves_ret].
Qed.

Lemma keeps_set_slot id slot p : 1 <= slot -> preserves I (set_slot id slot p).
Proof.
  intros Hslot s Hs. apply wp_set_slot. intros c q Hc Hq.
  apply skel_slot; [exact Hs | exact Hc | exact Hslot | exists q; exact Hq].
Qed.

Lemma keeps_chain_push_back id p : preserves I (chain_push_back id p).
Proof.
  intros s Hs. apply wp_chain_push_back. intros c Hc. apply skel_push_back; assumption.
Qed.

Lemma keeps_new_chain chain :
  preserves I (update (fun s => set_contextChains (g_contextChains s ++ [chain]) s)).
Proof. intros s Hs. apply wp_update, skel_new_chain, Hs. Qed.

Lemma keeps_set_threadProgram i programId : preserves I (set_threadProgram i programId).
Proof.
  intros s Hs. unfold set_threadProgram. apply wp_bind, wp_get.
  apply wp_bind, wp_of_option. intros x Hx. apply wp_update.
  apply skel_thread_program; [exact Hs | exists x; exact Hx].
Qed.

Lemma keeps_set_lastUIThreadProgram p : preserves I (update (set_lastUIThreadProgram p)).
Proof. intros s Hs. apply wp_update, skel_lastUIThreadProgram, Hs. Qed.

Lemma keeps_StoreThreadAndProgram t programId :
  preserves I (StoreThreadAndProgram t programId).
Proof.
  unfold StoreThreadAndProgram. destruct (to_int programId <? 0).
  { apply preserves_bind; [apply keeps_error | intros; apply preserves_ret]. }
  cbv zeta. intros s Hs. apply wp_bind, wp_get.
  destruct (lookup_thread (g_threads s) (GetCurrentThreadId t) 0) as [i|] eqn:Hi.
  - apply (preserves_wp I); [|exact Hs|].
    + apply preserves_bind; [|intros; apply preserves_ret].
      apply preserves_when, keeps_set_threadProgram.
    + intros i' s' Hs'. apply (preserves_wp I); [|exact Hs'|].
      * apply preserves_when, keeps_set_lastUIThreadProgram.
      * intros _ s'' Hs''. apply wp_ret. exact Hs''.
  - apply lookup_thread_None in Hi.
    apply wp_bind_assoc, wp_bind, wp_update.
    apply wp_bind_assoc, wp_bind, wp_update.
    apply wp_bind_assoc, wp_bind, wp_get. cbv zeta.
    pose proof (skel_thread_added s (GetCurrentThreadId t) programId Hs Hi) as Hs1.
    cbn [g_threads g_threadsPrograms set_threads set_threadsPrograms] in *.
    match goal with |- wp _ _ ?s1 => change (I s1) in Hs1; revert Hs1; generalize s1 end.
    intros s1 Hs1.
    apply (preserves_wp I); [|exact Hs1|].
    + apply preserves_bind; [|intros; apply preserves_ret].
      apply preserves_when, preserves_bind; [apply keeps_debug | intros; apply preserves_ret].
    + intros i' s' Hs'. apply (preserves_wp I); [|exact Hs'|].
      * apply preserves_when, keeps_set_lastUIThreadProgram.
      * intros _ s'' Hs''. apply wp_ret. exact Hs''.
Qed.

Hint Resolve keeps_new_EXECUTION_CONTEXT keeps_error keeps_warn keeps_debug keeps_log_all
  keeps_InitializeReason_error keeps_chain_push_back keeps_new_chain
  keeps_set_threadProgram keeps_set_lastUIThreadProgram keeps_StoreThreadAndProgram
  : keeps.

Ltac keeps_step :=
  lazymatch goal with
  | |- preserves _ (ret _) => apply preserves_ret
  | |- preserves _ get => apply preserves_get
  | |- preserves _ (deref _) => apply preserves_deref
  | |- preserves _ (chain_at _) => apply preserves_chain_at
  | |- preserves _ (slot_at _ _) => apply preserves_slot_at
  | |- preserves _ (of_option _) => apply preserves_of_option
  | |- preserves _ undefined => apply preserves_undefined
  | |- preserves _ (when _ _) => apply preserves_when
  | |- preserves _ (bind _ _) => apply preserves_bind; [|intros ?]
  | |- preserves _ (if ?b then _ else _) => destruct b
  | |- preserves _ (let _ := _ in _) => cbv zeta
  | |- preserves _ (poke _ _) => apply keeps_poke
  | |- preserves _ (assign _ _) => apply keeps_assign
  | |- preserves _ (log _) => apply keeps_log
  | |- preserves _ (set_slot _ 1 _) => apply keeps_set_slot; lia
  | |- preserves _ _ => solve [eauto 3 with keeps]
  end.

Ltac keeps_auto := unfold_setters; repeat keeps_step.

Lemma keeps_FindIndicatorInLimbo t hChart name reason :
  preserves I (FindIndicatorInLimbo t hChart name reason).
Proof.
  unfold FindIndicatorInLimbo. destruct (negb _); [|apply preserves_ret].
  apply preserves_bind; [apply preserves_get|]. intros s.
  induction (drop 1 (g_contextChains s)) as [|c rest IH]; simpl; [apply preserves_ret|].
  keeps_auto.
Qed.

Hint Resolve keeps_FindIndicatorInLimbo : keeps.

Lemma keeps_InitReason t p sec programType programName uninitReason symbol
    isTesting isVisualMode hChart droppedOnChart droppedOnPosX droppedOnPosY :
  preserves I (InitReason t p sec programType programName uninitReason symbol
                 isTesting isVisualMode hChart droppedOnChart droppedOnPosX
                 droppedOnPosY).
Proof.
  unfold InitReason, InitReason_script, InitReason_indicator, InitReason_expert.
  destruct programType, uninitReason; keeps_auto.
Qed.

Lemma keeps_FindWindowHandle t hChart sec moduleType symbol timeframe
    isTesting isVisualMode :
  preserves I (FindWindowHandle t hChart sec moduleType symbol timeframe isTesting
                 isVisualMode).
Proof. unfold FindWindowHandle. keeps_auto. Qed.

Lemma keeps_ProgramIsTesting t p isTesting : preserves I (ProgramIsTesting t p isTesting).
Proof.
  unfold ProgramIsTesting. apply preserves_bind; [apply preserves_deref|]. intros r.
  destruct (negb _); [keeps_auto|]. destruct (EC.programType r); keeps_auto.
Qed.

Lemma keeps_ProgramIsVisualMode t p isVisualMode :
  preserves I (ProgramIsVisualMode t p isVisualMode).
Proof.
  unfold ProgramIsVisualMode. apply preserves_bind; [apply preserves_deref|]. intros r.
  destruct (negb _); [keeps_auto|]. destruct (EC.programType r); keeps_auto.
Qed.

Lemma keeps_ProgramIsOptimization t p isOptimization :
  preserves I (ProgramIsOptimization t p isOptimization).
Proof.
  unfold ProgramIsOptimization. apply preserves_bind; [apply preserves_deref|]. intros r.
  destruct (negb _); [keeps_auto|]. destruct (EC.programType r); keeps_auto.
Qed.

Lemma keeps_ProgramIsLogging t p : preserves I (ProgramIsLogging t p).
Proof.
  unfold ProgramIsLogging. apply preserves_bind; [apply preserves_deref|]. intros r.
  destruct (negb _); [keeps_auto|]. destruct (EC.programType r); keeps_auto.
Qed.

Lemma keeps_ProgramCustomLogFile t p : preserves I (ProgramCustomLogFile t p).
Proof.
  unfold ProgramCustomLogFile. apply preserves_bind; [apply preserves_deref|]. intros r.
  destruct (negb _); [keeps_auto|]. destruct (EC.programType r); keeps_auto.
Qed.

Hint Resolve keeps_InitReason keeps_FindWindowHandle keeps_ProgramIsTesting
  keeps_ProgramIsVisualMode keeps_ProgramIsOptimization keeps_ProgramIsLogging
  keeps_ProgramCustomLogFile : keeps.

Lemma keeps_SyncMainContext_init_chain t ec programType sec initReason originalProgramId :
  preserves I
    (SyncMainContext_init_chain t ec programType sec initReason originalProgramId).
Proof. unfold SyncMainContext_init_chain. keeps_auto. Qed.

Lemma keeps_SyncMainContext_init_update t p programType programName uninitReason
    initFlags deinitFlags symbol period sec isTesting isVisualMode isOptimization
    hChart initReason :
  preserves I (SyncMainContext_init_update t p programType programName uninitReason
                 initFlags deinitFlags symbol period sec isTesting isVisualMode
                 isOptimization hChart initReason).
Proof. unfold SyncMainContext_init_update. keeps_auto. Qed.

Lemma keeps_SyncMainContext_init_loop ec currentProgramId lastProgramId slots :
  (forall i, i ∈ slots -> 2 <= i) ->
  preserves I (SyncMainContext_init_loop ec currentProgramId lastProgramId slots).
Proof.
  induction slots as [|i rest IH]; intros Hslots; simpl; [apply preserves_ret|].
  assert (Hi : 2 <= i) by (apply Hslots; left).
  assert (Hrest : forall j, j ∈ rest -> 2 <= j) by (intros j Hj; apply Hslots; right; exact Hj).
  apply preserves_bind; [apply preserves_slot_at|]. intros lib.
  apply preserves_bind; [|intros _; exact (IH Hrest)].
  destruct (lib =? NULL); [keeps_auto|].
  apply preserves_bind; [apply preserves_deref|]. intros l.
  apply preserves_when.
  apply preserves_bind; [apply keeps_set_slot; lia|]. intros _.
  keeps_auto.
Qed.

Lemma keeps_SyncMainContext_init_libraries ec isNewExpert isTesting lastProgramId :
  preserves I (SyncMainContext_init_libraries ec isNewExpert isTesting lastProgramId).
Proof.
  unfold SyncMainContext_init_libraries. apply preserves_when.
  apply preserves_bind; [apply preserves_slot_at|]. intros lastMaster.
  apply preserves_bind; [keeps_auto|]. intros marked.
  apply preserves_when.
  apply preserves_bind; [apply preserves_deref|]. intros e. cbv zeta.
  apply preserves_bind; [apply preserves_chain_at|]. intros _.
  apply preserves_bind; [apply preserves_chain_at|]. intros lastChain.
  apply preserves_bind; [|intros _; keeps_auto].
  apply keeps_SyncMainContext_init_loop. intros i. apply slots_from_ge.
Qed.

Hint Resolve keeps_SyncMainContext_init_chain keeps_SyncMainContext_init_update
  keeps_SyncMainContext_init_libraries : keeps.

Lemma keeps_SyncMainContext_init t ec programType programName uninitReason
    initFlags deinitFlags symbol period sec isTesting isVisualMode isOptimization
    hChart droppedOnChart droppedOnPosX droppedOnPosY :
  preserves I
    (SyncMainContext_init t ec programType programName uninitReason initFlags
       deinitFlags symbol period sec isTesting isVisualMode isOptimization hChart
       droppedOnChart droppedOnPosX droppedOnPosY).
Proof. unfold SyncMainContext_init. keeps_auto. Qed.

Lemma keeps_SyncMainContext_start t ec time : preserves I (SyncMainContext_start t ec time).
Proof. unfold SyncMainContext_start. keeps_auto. Qed.

Lemma keeps_SyncMainContext_deinit t ec uninitReason :
  preserves I (SyncMainContext_deinit t ec uninitReason).
Proof. unfold SyncMainContext_deinit. keeps_auto. Qed.

Lemma keeps_SyncLibContext_init t ec uninitReason initFlags deinitFlags moduleName
    symbol period isOptimization :
  preserves I (SyncLibContext_init t ec uninitReason initFlags deinitFlags
                 moduleName symbol period isOptimization).
Proof. unfold SyncLibContext_init. keeps_auto. Qed.

Lemma keeps_SyncLibContext_deinit t ec uninitReason :
  preserves I (SyncLibContext_deinit t ec uninitReason).
Proof. unfold SyncLibContext_deinit. keeps_auto. Qed.

Lemma keeps_LeaveContext t ec : preserves I (LeaveContext t ec).
Proof.
  unfold LeaveContext. destruct (_ <? _); [keeps_auto|].
  apply preserves_bind; [apply preserves_deref|]. intros r. cbv zeta.
  destruct (_ <? _); [keeps_auto|]. destruct (negb _); [keeps_auto|].
  destruct (EC.moduleType r); keeps_auto.
Qed.

Lemma keeps_perform c : preserves I (perform c).
Proof.
  destruct c; simpl;
    [ apply keeps_SyncMainContext_init | apply keeps_SyncMainContext_start
    | apply keeps_SyncMainContext_deinit | apply keeps_SyncLibContext_init
    | apply keeps_SyncLibContext_deinit | apply keeps_LeaveContext ].
Qed.

(** A sequence of calls and of rewrites of the records by the terminal
    keeps the property. *)
Lemma keeps_steps s s' : rtc step s s' -> I s -> I s'.
Proof.
  induction 1 as [s|s s1 s' Hstep _ IH]; intros Hs; [exact Hs|].
  apply IH. destruct Hstep as [c b s s1 Hrun | h s].
  - exact (preserves_Done I (perform c) s b s1 (keeps_perform c) Hs Hrun).
  - apply skel_memory, Hs.
Qed.
End Skeletons.


#[global] Instance tracker_extends_Skeleton threads : Skeleton (tracker_extends threads).
Proof.
  split; try (intros; assumption).
  - intros s i v [[Hlen Hdup] Hpre] _. repeat split; simpl; try assumption.
    rewrite length_insert. exact Hlen.
  - intros s x v [[Hlen Hdup] Hpre] Hx. repeat split; simpl.
    + rewrite !length_app. simpl. lia.
    + apply NoDup_app. split; [exact Hdup|]. split.
      * intros y Hy Hin. apply list_elem_of_singleton in Hin as ->. contradiction.
      * apply NoDup_singleton.
    + apply prefix_app_r. exact Hpre.
Qed.

#[global] Instance chain_keeps_Skeleton id master n : Skeleton (chain_keeps id master n).
Proof.
  split; try (intros; assumption).
  - intros s id0 c slot p (c0 & Hc0 & Hm & Hn) Hc Hslot _. unfold chain_keeps. simpl.
    apply subscript_Some in Hc as [Hid0 Hc].
    destruct (decide (Z.to_nat id0 = id)) as [E|Hne].
    + rewrite E in *. rewrite Hc in Hc0. injection Hc0 as ->.
      exists (<[Z.to_nat slot := p]> c0). split.
      * apply list_lookup_insert_eq. eapply lookup_lt_Some. exact Hc.
      * split; [|rewrite length_insert; exact Hn].
        rewrite list_lookup_insert_ne by lia. exact Hm.
    + exists c0. rewrite list_lookup_insert_ne by exact Hne. repeat split; assumption.
  - intros s id0 c p (c0 & Hc0 & Hm & Hn) Hc. unfold chain_keeps. simpl.
    apply subscript_Some in Hc as [Hid0 Hc].
    destruct (decide (Z.to_nat id0 = id)) as [E|Hne].
    + rewrite E in *. rewrite Hc in Hc0. injection Hc0 as ->.
      exists (c0 ++ [p]). split.
      * apply list_lookup_insert_eq. eapply lookup_lt_Some. exact Hc.
      * split; [|rewrite length_app; lia].
        rewrite lookup_app_l; [exact Hm|]. eapply lookup_lt_Some. exact Hm.
    + exists c0. rewrite list_lookup_insert_ne by exact Hne. repeat split; assumption.
  - intros s chain (c0 & Hc0 & Hm & Hn). exists c0. simpl. split; [|split; assumption].
    rewrite lookup_app_l; [exact Hc0|]. eapply lookup_lt_Some. exact Hc0.
Qed.

(** X3: a thread map in which [g_threads] and [g_threadsPrograms] have the
    same length and no thread occurs twice stays so under every sequence
    of finished calls of the exported functions (with the terminal
    rewriting records in between), and the entries it has are never moved
    or removed: [g_threads] only grows at its end. *)
Theorem thread_map_well_formed (s s' : State) :
  tracker_ok s ->
  rtc step s s' ->
  tracker_ok s' /\ g_threads s `prefix_of` g_threads s'.
Proof.
  intros Hok Hsteps.
  apply (keeps_steps (I := tracker_extends (g_threads s)) s s' Hsteps).
  split; [exact Hok | reflexivity].
Qed.

Lemma thread_map_well_formed_witness :
  tracker_ok (after experts_second_test
                (after experts_first_tick (after experts_first_test fresh_process)))
  /\ g_threads fresh_process
     `prefix_of` g_threads (after experts_second_test
                   (after experts_first_tick (after experts_first_test fresh_process))).
Proof.
  apply (thread_map_well_formed fresh_process).
  - split; [reflexivity | apply NoDup_nil_2].
  - eapply rtc_l; [apply (step_call experts_first_test true); vm_compute; reflexivity|].
    eapply rtc_l; [apply (step_call experts_first_tick true); vm_compute; reflexivity|].
    eapply rtc_l; [apply (step_call experts_second_test true); vm_compute; reflexivity|].
    apply rtc_refl.
Defined.

(** X4: the master of a chain is permanent.  Whatever calls of the
    exported functions finish, and however the terminal rewrites the
    records in between, a chain of the registry stays at its index, slot 0
    keeps pointing to the same master record, and the chain never gets
    shorter: a slot is set to [NULL], never removed. *)
Theorem masters_are_permanent (s s' : State) (id : nat) (c : ContextChain) (master : Z) :
  rtc step s s' ->
  g_contextChains s !! id = Some c ->
  c !! 0%nat = Some master ->
  exists c',
    g_contextChains s' !! id = Some c'
    /\ c' !! 0%nat = Some master
    /\ (length c <= length c')%nat.
Proof.
  intros Hsteps Hc Hm.
  apply (keeps_steps (I := chain_keeps id master (length c)) s s' Hsteps).
  exists c. split; [exact Hc|]. split; [exact Hm | reflexivity].
Qed.

(** Program 1 of the first expert keeps its master while the expert
    ticks, its record is erased and a second expert is loaded. *)
Lemma masters_are_permanent_witness :
  exists master c',
    g_contextChains (after experts_first_test fresh_process) !! 1%nat
    = Some [master; 196608]
    /\ g_contextChains
         (after experts_second_test
            (set_memory (<[196608 := EC.zero]>
                           (memory (after experts_first_tick
                                      (after experts_first_test fresh_process))))
               (after experts_first_tick (after experts_first_test fresh_process))))
       !! 1%nat = Some c'
    /\ c' !! 0%nat = Some master
    /\ (2 <= length c')%nat.
Proof.
  assert (Hc : g_contextChains (after experts_first_test fresh_process) !! 1%nat
               = Some [fresh (dom (memory fresh_process) ∪ {[NULL]}); 196608])
    by (vm_compute; reflexivity).
  assert (Hsteps : rtc step (after experts_first_test fresh_process)
            (after experts_second_test
               (set_memory (<[196608 := EC.zero]>
                              (memory (after experts_first_tick
                                         (after experts_first_test fresh_process))))
                  (after experts_first_tick (after experts_first_test fresh_process))))).
  { apply (rtc_l step _ (after experts_first_tick (after experts_first_test fresh_process)));
      [apply (step_call experts_first_tick true); vm_compute; reflexivity|].
    apply (rtc_l step _
             (set_memory (<[196608 := EC.zero]>
                            (memory (after experts_first_tick
                                       (after experts_first_test fresh_process))))
                (after experts_first_tick (after experts_first_test fresh_process))));
      [apply step_terminal|].
    eapply rtc_l; [apply (step_call experts_second_test true); vm_compute; reflexivity|].
    apply rtc_refl. }
  destruct (masters_are_permanent _ _ 1 _ _ Hsteps Hc eq_refl) as (c' & Hc' & Hm & Hlen).
  exists (fresh (dom (memory fresh_process) ∪ {[NULL]})), c'.
  split; [exact Hc|]. split; [exact Hc'|]. split; [exact Hm | exact Hlen].
Defined.


(** ** A record that has its program id *)

#[global] Instance settled_Invariant ec v n : Invariant (settled ec v n).
Proof.
  unfold settled. apply and_Invariant; [apply registry_Invariant|].
  split; intros; simpl; try assumption.
  eapply lookup_programId_insert; eassumption.
Qed.

Section Settled.
Variables (ec v : Z) (n : nat).
Hypothesis Hv : v <> 0.

Lemma settled_set_slot id slot p : preserves (settled ec v n) (set_slot id slot p).
Proof.
  intros s [Hn Hid]. apply wp_set_slot. intros c q Hc Hq. split; [|exact Hid].
  unfold registry in *. simpl. rewrite length_insert. exact Hn.
Qed.

Hint Resolve settled_set_slot : preserves.

Lemma settled_deref {A} (k : EXECUTION_CONTEXT -> M A) Q s :
  settled ec v n s ->
  (forall e, memory s !! ec = Some e -> EC.programId e = v -> wp (k e) Q s) ->
  wp (e <- deref ec ;; k e) Q s.
Proof.
  intros [_ Hid] Hk. apply wp_bind, wp_deref. intros e He. apply Hk; [exact He|].
  rewrite He in Hid. simpl in Hid. congruence.
Qed.

Lemma settled_weaken {A} (m : M A) s :
  preserves (settled ec v n) m -> settled ec v n s ->
  wp m (fun _ s' => settled ec v n s') s.
Proof. intros Hm Hs. apply Hm, Hs. Qed.

Lemma settled_SyncMainContext_init t programType programName uninitReason initFlags
    deinitFlags symbol period sec isTesting isVisualMode isOptimization hChart
    droppedOnChart droppedOnPosX droppedOnPosY s :
  settled ec v n s ->
  wp (SyncMainContext_init t ec programType programName uninitReason initFlags
        deinitFlags symbol period sec isTesting isVisualMode isOptimization hChart
        droppedOnChart droppedOnPosX droppedOnPosY)
    (fun _ s' => settled ec v n s') s.
Proof.
  intros Hs. unfold SyncMainContext_init.
  repeat match goal with
         | |- wp (if ?b then _ else _) _ _ =>
             destruct b; [apply settled_weaken; [preserves_auto | exact Hs]|]
         end.
  apply settled_deref; [exact Hs|]. intros e He Hid.
  apply (preserves_wp (settled ec v n)); [preserves_auto | exact Hs|].
  clear s Hs He. intros _ s Hs.
  apply (preserves_wp (settled ec v n)); [preserves_auto | exact Hs|].
  clear s Hs. intros resolved s Hs. cbv zeta.
  apply (preserves_wp (settled ec v n)); [preserves_auto | exact Hs|].
  clear s Hs. intros hChart' s Hs.
  destruct (hChart' =? INVALID_HWND); [apply settled_weaken; [preserves_auto | exact Hs]|].
  apply settled_deref; [exact Hs|]. intros e' He' Hid'.
  rewrite Hid'. destruct (Z.eqb_spec v 0) as [?|_]; [contradiction|].
  apply wp_bind, wp_ret. cbv zeta. cbn [fst snd].
  apply (preserves_wp (settled ec v n)); [preserves_auto | exact Hs|].
  clear s Hs He'. intros flags s Hs.
  unfold SyncMainContext_init_libraries. cbn [andb when].
  apply wp_bind, wp_ret, wp_ret. exact Hs.
Qed.

Lemma settled_SyncLibContext_init t uninitReason initFlags deinitFlags moduleName
    symbol period isOptimization s :
  settled ec v n s ->
  wp (SyncLibContext_init t ec uninitReason initFlags deinitFlags moduleName symbol
        period isOptimization)
    (fun _ s' => settled ec v n s') s.
Proof.
  intros Hs. unfold SyncLibContext_init.
  repeat match goal with
         | |- wp (if ?b then _ else _) _ _ =>
             destruct b; [apply settled_weaken; [preserves_auto | exact Hs]|]
         end.
  apply settled_deref; [exact Hs|]. intros e He Hid.
  rewrite Hid. destruct (Z.eqb_spec v 0) as [?|_]; [contradiction|].
  apply settled_weaken; [preserves_auto | exact Hs].
Qed.

Lemma settled_LeaveContext t : preserves (settled ec v n) (LeaveContext t ec).
Proof.
  unfold LeaveContext. destruct (_ <? _); [preserves_auto|].
  apply preserves_bind; [apply preserves_deref|]. intros r. cbv zeta.
  destruct (_ <? _); [preserves_auto|]. destruct (negb _); [preserves_auto|].
  destruct (EC.moduleType r); preserves_auto.
Qed.

Lemma settled_perform c s :
  context_of c = ec ->
  settled ec v n s ->
  wp (perform c) (fun _ s' => settled ec v n s') s.
Proof.
  intros Hc Hs. destruct c; simpl in Hc; subst ec0; simpl.
  - apply settled_SyncMainContext_init, Hs.
  - apply settled_weaken; [unfold SyncMainContext_start; preserves_auto | exact Hs].
  - apply settled_weaken; [unfold SyncMainContext_deinit; preserves_auto | exact Hs].
  - apply settled_SyncLibContext_init, Hs.
  - apply settled_weaken; [unfold SyncLibContext_deinit; preserves_auto | exact Hs].
  - apply settled_weaken; [apply settled_LeaveContext | exact Hs].
Qed.
End Settled.

(** X5: identity is stable.  A call of an exported function for a record
    that has a program id (other than [0]) leaves the record with the same
    program id and the registry with the same number of chains: a new chain
    is created only for a record without an id. *)
Theorem program_id_is_kept (c : api_call) (b : bool) (s s' : State)
    (e : EXECUTION_CONTEXT) :
  memory s !! context_of c = Some e ->
  EC.programId e <> 0 ->
  perform c s = Done b s' ->
  (exists e', memory s' !! context_of c = Some e' /\ EC.programId e' = EC.programId e)
  /\ length (g_contextChains s') = length (g_contextChains s).
Proof.
  intros He Hid Hrun.
  assert (Hs : settled (context_of c) (EC.programId e) (length (g_contextChains s)) s).
  { split; [reflexivity|]. rewrite He. reflexivity. }
  pose proof (wp_Done _ _ _ _ _
                (settled_perform (context_of c) (EC.programId e) _ Hid c s eq_refl Hs) Hrun)
    as [Hn Hid'].
  split; [|symmetry; exact Hn].
  destruct (memory s' !! context_of c) as [e'|]; [|discriminate].
  exists e'. split; [reflexivity|]. simpl in Hid'. congruence.
Qed.

(** The first expert's record keeps program id 1 through its tick. *)
Lemma program_id_is_kept_witness :
  (exists e',
     memory (after experts_first_tick (after experts_first_test fresh_process)) !! 196608
     = Some e'
     /\ EC.programId e' = 1)
  /\ length (g_contextChains
               (after experts_first_tick (after experts_first_test fresh_process)))
     = 2%nat.
Proof.
  destruct (memory (after experts_first_test fresh_process) !! 196608) as [e|] eqn:He;
    [|vm_compute in He; discriminate].
  assert (Hid : EC.programId e = 1).
  { vm_compute in He. injection He as <-. reflexivity. }
  destruct (program_id_is_kept experts_first_tick true
              (after experts_first_test fresh_process)
              (after experts_first_tick (after experts_first_test fresh_process)) e)
    as [(e' & He' & Hid') Hlen].
  - exact He.
  - rewrite Hid. discriminate.
  - vm_compute. reflexivity.
  - split; [exists e'; split; [exact He' | congruence]|].
    rewrite Hlen. vm_compute. reflexivity.
Defined.


(** ** The exported functions: rejected calls *)

(** X6: [SyncMainContext_init] checks its arguments before it reads or
    writes anything: with [ec], [programName] or [symbol] below
    [MIN_VALID_POINTER], with a [period] that is not positive as an [int]
    (so also a [uint] from 2^31 on), or with a [sec] that is neither [NULL]
    nor at least [MIN_VALID_POINTER], the call returns [FALSE], emits a
    single [ERR_INVALID_PARAMETER] however many arguments are bad, and
    changes nothing else.  [SyncLibContext_init] does the same for [ec],
    [moduleName], [symbol] and [period]. *)
Theorem init_rejects_arguments (t : Terminal) (ec : Z) (s : State) :
  (forall programType programName uninitReason initFlags deinitFlags symbol period sec
          isTesting isVisualMode isOptimization hChart droppedOnChart droppedOnPosX
          droppedOnPosY,
     to_uint ec < MIN_VALID_POINTER t
     \/ to_uint (address programName) < MIN_VALID_POINTER t
     \/ to_uint (address symbol) < MIN_VALID_POINTER t
     \/ to_int period <= 0
     \/ (sec <> NULL /\ to_uint sec < MIN_VALID_POINTER t) ->
     SyncMainContext_init t ec programType programName uninitReason initFlags
       deinitFlags symbol period sec isTesting isVisualMode isOptimization hChart
       droppedOnChart droppedOnPosX droppedOnPosY s
     = failed ERR_INVALID_PARAMETER s)
  /\ (forall uninitReason initFlags deinitFlags moduleName symbol period isOptimization,
        to_uint ec < MIN_VALID_POINTER t
        \/ to_uint (address moduleName) < MIN_VALID_POINTER t
        \/ to_uint (address symbol) < MIN_VALID_POINTER t
        \/ to_int period <= 0 ->
        SyncLibContext_init t ec uninitReason initFlags deinitFlags moduleName symbol
          period isOptimization s
        = failed ERR_INVALID_PARAMETER s).
Proof.
  split.
  - intros programType programName uninitReason initFlags deinitFlags symbol period sec
      isTesting isVisualMode isOptimization hChart droppedOnChart droppedOnPosX
      droppedOnPosY Hbad.
    unfold SyncMainContext_init.
    destruct (Z.ltb_spec (to_uint ec) (MIN_VALID_POINTER t)); [reflexivity|].
    destruct (Z.ltb_spec (to_uint (address programName)) (MIN_VALID_POINTER t));
      [reflexivity|].
    destruct (Z.ltb_spec (to_uint (address symbol)) (MIN_VALID_POINTER t)); [reflexivity|].
    destruct (Z.leb_spec (to_int period) 0); [reflexivity|].
    destruct (Z.eqb_spec sec NULL) as [->|Hsec]; cbn [negb andb].
    + destruct Hbad as [?|[?|[?|[?|[? _]]]]]; [lia | lia | lia | lia | contradiction].
    + destruct (Z.ltb_spec (to_uint sec) (MIN_VALID_POINTER t)); [reflexivity|].
      destruct Hbad as [?|[?|[?|[?|[_ ?]]]]]; lia.
  - intros uninitReason initFlags deinitFlags moduleName symbol period isOptimization Hbad.
    unfold SyncLibContext_init.
    destruct (Z.ltb_spec (to_uint ec) (MIN_VALID_POINTER t)); [reflexivity|].
    destruct (Z.ltb_spec (to_uint (address moduleName)) (MIN_VALID_POINTER t));
      [reflexivity|].
    destruct (Z.ltb_spec (to_uint (address symbol)) (MIN_VALID_POINTER t)); [reflexivity|].
    destruct (Z.leb_spec (to_int period) 0); [reflexivity|].
    destruct Hbad as [?|[?|[?|?]]]; lia.
Qed.

(** A period of 2^31 is negative as an [int]; a super context pointer of
    [0x100] is below the first valid address. *)
Lemma init_rejects_arguments_witness :
  SyncMainContext_init terminal_ui 196608 PT_INDICATOR Bands UR_UNDEFINED 0 0 EURUSD
    2147483648 NULL false false false 528 0 0 0 fresh_process
  = failed ERR_INVALID_PARAMETER fresh_process
  /\ SyncMainContext_init terminal_ui 196608 PT_INDICATOR Bands UR_UNDEFINED 0 0 EURUSD
       60 256 false false false 528 0 0 0 fresh_process
     = failed ERR_INVALID_PARAMETER fresh_process
  /\ SyncLibContext_init terminal_ui 196608 UR_UNDEFINED 0 0 (CharPtr 0 "stdlib") EURUSD
       60 false fresh_process
     = failed ERR_INVALID_PARAMETER fresh_process.
Proof.
  destruct (init_rejects_arguments terminal_ui 196608 fresh_process) as [Hmain Hlib].
  split; [|split].
  - apply Hmain. right. right. right. left. vm_compute. discriminate.
  - apply Hmain. right. right. right. right. split; [discriminate | reflexivity].
  - apply Hlib. right. left. reflexivity.
Defined.

(** X7: [SyncMainContext_start], [SyncMainContext_deinit] and
    [SyncLibContext_deinit] work on a record with a program id only: for a
    pointer below [MIN_VALID_POINTER], and for a record whose program id is
    [0], each returns [FALSE] with one [ERR_INVALID_PARAMETER] and changes
    nothing else; in particular the thread map is not touched. *)
Theorem unassigned_record_rejected (t : Terminal) (ec : Z) (s : State) :
  to_uint ec < MIN_VALID_POINTER t
  \/ (exists e, memory s !! ec = Some e /\ EC.programId e = 0) ->
  (forall time, SyncMainContext_start t ec time s = failed ERR_INVALID_PARAMETER s)
  /\ (forall uninitReason,
        SyncMainContext_deinit t ec uninitReason s = failed ERR_INVALID_PARAMETER s)
  /\ (forall uninitReason,
        SyncLibContext_deinit t ec uninitReason s = failed ERR_INVALID_PARAMETER s).
Proof.
  intros Hbad.
  unfold SyncMainContext_start, SyncMainContext_deinit, SyncLibContext_deinit.
  destruct (Z.ltb_spec (to_uint ec) (MIN_VALID_POINTER t)) as [?|Hptr].
  { repeat split. }
  destruct Hbad as [?|(e & He & Hid)]; [lia|].
  repeat split; intros; rewrite (bind_Done _ _ _ _ _ (deref_Done _ _ _ He)), Hid;
    reflexivity.
Qed.

Lemma unassigned_record_rejected_witness :
  SyncMainContext_start terminal_ui 196608 1700000000 fresh_process
  = failed ERR_INVALID_PARAMETER fresh_process.
Proof.
  apply (unassigned_record_rejected terminal_ui 196608 fresh_process).
  right. exists EC.zero. split; reflexivity.
Defined.


(** ** The exported functions: accepted calls *)

Lemma stored_fields t programId s :
  memory (stored t programId s) = memory s
  /\ g_contextChains (stored t programId s) = g_contextChains s.
Proof.
  unfold stored. destruct (to_int programId <? 0); [split; reflexivity|]. cbv zeta.
  destruct (thread_added_fields t programId s) as (_ & _ & _ & Hmem & Hcc).
  destruct (lookup_thread _ _ _), (programId =? 0), (IsUIThread t); simpl;
    split; first [reflexivity | assumption].
Qed.

Lemma stored_length t programId s :
  length (g_threads s) = length (g_threadsPrograms s) ->
  length (g_threads (stored t programId s))
  = length (g_threadsPrograms (stored t programId s)).
Proof.
  intros Hlen. unfold stored. destruct (to_int programId <? 0); [exact Hlen|]. cbv zeta.
  destruct (lookup_thread _ _ _) as [i|].
  - destruct (programId =? 0), (IsUIThread t); simpl; rewrite ?length_insert; exact Hlen.
  - destruct (thread_added_fields t programId s) as (Hth & Htp & _).
    destruct (negb (programId =? 0) && IsUIThread t); simpl; rewrite Hth, Htp, !length_app;
      simpl; lia.
Qed.

Lemma SyncMainContext_start_run t ec time e s :
  MIN_VALID_POINTER t <= to_uint ec ->
  memory s !! ec = Some e ->
  EC.programId e <> 0 ->
  length (g_threads s) = length (g_threadsPrograms s) ->
  SyncMainContext_start t ec time s
  = Done true (set_memory (<[ec := ticked t time e]> (memory s))
                 (stored t (EC.programId e) s)).
Proof.
  intros Hptr He Hid Hlen. unfold SyncMainContext_start.
  destruct (Z.ltb_spec (to_uint ec) (MIN_VALID_POINTER t)) as [?|_]; [lia|].
  rewrite (bind_Done _ _ _ _ _ (deref_Done _ _ _ He)).
  destruct (Z.eqb_spec (EC.programId e) 0) as [?|_]; [contradiction|].
  rewrite (bind_Done _ _ _ _ _ (StoreThreadAndProgram_run t _ s Hlen)).
  destruct (stored_fields t (EC.programId e) s) as [Hmem _].
  rewrite <- Hmem. rewrite <- Hmem in He. clear Hmem.
  generalize dependent (stored t (EC.programId e) s). intros s1 He.
  unfold ec_SetRootFunction, ec_SetThreadId, ec_SetTicks, ec_SetPreviousTickTime,
    ec_SetCurrentTickTime.
  do 7 run_step. reflexivity.
Qed.

Lemma SyncMainContext_deinit_run t ec uninitReason e s :
  MIN_VALID_POINTER t <= to_uint ec ->
  memory s !! ec = Some e ->
  EC.programId e <> 0 ->
  length (g_threads s) = length (g_threadsPrograms s) ->
  SyncMainContext_deinit t ec uninitReason s
  = Done true (set_memory (<[ec := deinitializing t uninitReason e]> (memory s))
                 (stored t (EC.programId e) s)).
Proof.
  intros Hptr He Hid Hlen. unfold SyncMainContext_deinit.
  destruct (Z.ltb_spec (to_uint ec) (MIN_VALID_POINTER t)) as [?|_]; [lia|].
  rewrite (bind_Done _ _ _ _ _ (deref_Done _ _ _ He)).
  destruct (Z.eqb_spec (EC.programId e) 0) as [?|_]; [contradiction|].
  rewrite (bind_Done _ _ _ _ _ (StoreThreadAndProgram_run t _ s Hlen)).
  destruct (stored_fields t (EC.programId e) s) as [Hmem _].
  rewrite <- Hmem. rewrite <- Hmem in He. clear Hmem.
  generalize dependent (stored t (EC.programId e) s). intros s1 He.
  unfold ec_SetRootFunction, ec_SetThreadId, ec_SetUninitReason.
  do 3 run_step. reflexivity.
Qed.

Lemma SyncLibContext_deinit_run t ec uninitReason e s :
  MIN_VALID_POINTER t <= to_uint ec ->
  memory s !! ec = Some e ->
  EC.programId e <> 0 ->
  length (g_threads s) = length (g_threadsPrograms s) ->
  SyncLibContext_deinit t ec uninitReason s
  = Done true
      (set_memory
         (<[ec := EC.set_uninitReason uninitReason (EC.set_rootFunction RF_DEINIT e)]>
            (memory s))
         (stored t (EC.programId e) s)).
Proof.
  intros Hptr He Hid Hlen. unfold SyncLibContext_deinit.
  destruct (Z.ltb_spec (to_uint ec) (MIN_VALID_POINTER t)) as [?|_]; [lia|].
  rewrite (bind_Done _ _ _ _ _ (deref_Done _ _ _ He)).
  destruct (Z.eqb_spec (EC.programId e) 0) as [?|_]; [contradiction|].
  rewrite (bind_Done _ _ _ _ _ (StoreThreadAndProgram_run t _ s Hlen)).
  destruct (stored_fields t (EC.programId e) s) as [Hmem _].
  rewrite <- Hmem. rewrite <- Hmem in He. clear Hmem.
  generalize dependent (stored t (EC.programId e) s). intros s1 He.
  unfold ec_SetRootFunction, ec_SetUninitReason.
  do 2 run_step. reflexivity.
Qed.

Lemma to_uint_succ x : to_uint (to_uint (x + 1) + 1) = to_uint (x + 2).
Proof.
  unfold to_uint. rewrite Zplus_mod_idemp_l. f_equal. lia.
Qed.

(** X8: two ticks of a program.  [SyncMainContext_start] for a record with
    a program id, called for a tick at [time1] and again for a tick at
    [time2], succeeds both times; afterwards the record is in [RF_START] on
    the current thread, its tick counter has advanced by two (modulo
    2^32), [previousTickTime] is the time of the first of the two ticks and
    [currentTickTime] the time of the second, the program id is the same
    and no chain has changed. *)
Theorem SyncMainContext_start_ticks (t : Terminal) (ec time1 time2 : Z)
    (e : EXECUTION_CONTEXT) (s : State) :
  MIN_VALID_POINTER t <= to_uint ec ->
  memory s !! ec = Some e ->
  EC.programId e <> 0 ->
  length (g_threads s) = length (g_threadsPrograms s) ->
  exists s1 s2 e2,
    SyncMainContext_start t ec time1 s = Done true s1
    /\ SyncMainContext_start t ec time2 s1 = Done true s2
    /\ memory s2 !! ec = Some e2
    /\ EC.rootFunction e2 = RF_START
    /\ EC.threadId e2 = GetCurrentThreadId t
    /\ EC.ticks e2 = to_uint (EC.ticks e + 2)
    /\ EC.previousTickTime e2 = time1
    /\ EC.currentTickTime e2 = time2
    /\ EC.programId e2 = EC.programId e
    /\ g_contextChains s2 = g_contextChains s.
Proof.
  intros Hptr He Hid Hlen.
  pose proof (SyncMainContext_start_run t ec time1 e s Hptr He Hid Hlen) as Hrun1.
  destruct (stored_fields t (EC.programId e) s) as [Hmem1 Hcc1].
  pose proof (stored_length t (EC.programId e) s Hlen) as Hlen1.
  set (s1 := set_memory (<[ec := ticked t time1 e]> (memory s))
               (stored t (EC.programId e) s)) in *.
  assert (He1 : memory s1 !! ec = Some (ticked t time1 e)) by apply lookup_insert_eq.
  pose proof (SyncMainContext_start_run t ec time2 (ticked t time1 e) s1 Hptr He1 Hid Hlen1)
    as Hrun2.
  destruct (stored_fields t (EC.programId e) s1) as [Hmem2 Hcc2].
  eexists s1, _, (ticked t time2 (ticked t time1 e)).
  split; [exact Hrun1|]. split; [exact Hrun2|].
  split; [apply lookup_insert_eq|].
  repeat split.
  - apply to_uint_succ.
  - cbn [g_contextChains set_memory]. change (EC.programId (ticked t time1 e)) with (EC.programId e).
    rewrite Hcc2. exact Hcc1.
Qed.

(** The expert of [fresh_process] after its [init()]: two ticks. *)
Lemma SyncMainContext_start_ticks_witness :
  exists s1 s2 e2,
    SyncMainContext_start terminal_tester 196608 1700000000
      (after experts_first_test fresh_process) = Done true s1
    /\ SyncMainContext_start terminal_tester 196608 1700000060 s1 = Done true s2
    /\ memory s2 !! 196608 = Some e2
    /\ EC.ticks e2 = 2
    /\ EC.previousTickTime e2 = 1700000000
    /\ EC.currentTickTime e2 = 1700000060.
Proof.
  destruct (memory (after experts_first_test fresh_process) !! 196608) as [e|] eqn:He;
    [|vm_compute in He; discriminate].
  assert (Hfields : EC.programId e = 1 /\ EC.ticks e = 0).
  { vm_compute in He. injection He as <-. split; reflexivity. }
  destruct Hfields as [Hid Hticks].
  destruct (SyncMainContext_start_ticks terminal_tester 196608 1700000000 1700000060 e
              (after experts_first_test fresh_process))
    as (s1 & s2 & e2 & H1 & H2 & He2 & _ & _ & Ht & Hp & Hc & _).
  - vm_compute. discriminate.
  - exact He.
  - rewrite Hid. discriminate.
  - vm_compute. reflexivity.
  - exists s1, s2, e2. rewrite Hticks in Ht. repeat split; assumption.
Defined.


Lemma to_int_positive_nonzero x : 1 <= to_int x -> x <> 0.
Proof. intros H ->. vm_compute in H. apply H. reflexivity. Qed.

(** X9: the two calls that end a main module, in order: [deinit()] entry
    with the uninit reason, then the release at the exit of [deinit()].
    For a main record that is slot 1 of its chain both succeed, and the
    reason handed to [SyncMainContext_deinit] is the one [LeaveContext]
    decides by: afterwards slot 1 is [NULL] for an indicator and a script,
    and for an expert unless the reason was chart change, parameter change
    or account change, in which case the expert's record stays in slot 1.
    The record ends with no root function, the uninit reason and the
    current thread stored, and its program id; no chain is added or
    removed. *)
Theorem deinit_then_LeaveContext (t : Terminal) (ec : Z) (reason : UninitializeReason)
    (e : EXECUTION_CONTEXT) (s : State) (c : ContextChain) :
  MIN_VALID_POINTER t <= to_uint ec ->
  memory s !! ec = Some e ->
  1 <= to_int (EC.programId e) ->
  EC.moduleType e = MT_INDICATOR \/ EC.moduleType e = MT_SCRIPT
  \/ EC.moduleType e = MT_EXPERT ->
  length (g_threads s) = length (g_threadsPrograms s) ->
  subscript (g_contextChains s) (EC.programId e) = Some c ->
  subscript c 1 = Some ec ->
  exists s1 s2 e2,
    SyncMainContext_deinit t ec reason s = Done true s1
    /\ LeaveContext t ec s1 = Done true s2
    /\ slot_of s2 (EC.programId e) 1
       = Some (if bool_decide (EC.moduleType e = MT_EXPERT) && keeps_main reason
               then ec else NULL)
    /\ memory s2 !! ec = Some e2
    /\ EC.rootFunction e2 = RF_NULL
    /\ EC.uninitReason e2 = reason
    /\ EC.threadId e2 = GetCurrentThreadId t
    /\ EC.programId e2 = EC.programId e
    /\ length (g_contextChains s2) = length (g_contextChains s).
Proof.
  intros Hptr He Hid Hmt Hlen Hc Hmain.
  pose proof (to_int_positive_nonzero _ Hid) as Hid0.
  pose proof (SyncMainContext_deinit_run t ec reason e s Hptr He Hid0 Hlen) as Hrun1.
  destruct (stored_fields t (EC.programId e) s) as [_ Hcc1].
  set (s1 := set_memory (<[ec := deinitializing t reason e]> (memory s))
               (stored t (EC.programId e) s)) in *.
  assert (He1 : memory s1 !! ec = Some (deinitializing t reason e)) by apply lookup_insert_eq.
  assert (Hc1 : subscript (g_contextChains s1) (EC.programId e) = Some c).
  { cbn [g_contextChains set_memory s1]. rewrite Hcc1. exact Hc. }
  assert (Hslot : is_Some (subscript c 1)) by (exists ec; exact Hmain).
  exists s1.
  destruct Hmt as [Hmt | [Hmt | Hmt]].
  1, 2: exists (released ec (deinitializing t reason e) (EC.programId e) c true s1),
          (EC.set_rootFunction RF_NULL (deinitializing t reason e));
        (split; [exact Hrun1|]);
        (split; [apply (LeaveContext_main t ec _ s1 c Hptr He1 Hid eq_refl);
                 [simpl; tauto | exact Hc1 | exact Hmain]|]);
        (split; [rewrite Hmt; cbn [bool_decide decide_rel andb];
                 rewrite bool_decide_eq_false_2 by discriminate;
                 apply slot_of_released; [exact Hc1 | exact Hslot]|]);
        (split; [apply memory_released|]);
        repeat split;
        unfold released; cbn [g_contextChains set_contextChains set_memory s1];
        rewrite length_insert, Hcc1; reflexivity.
  exists (released ec (deinitializing t reason e) (EC.programId e) c
            (negb (keeps_main reason)) s1),
    (EC.set_rootFunction RF_NULL (deinitializing t reason e)).
  split; [exact Hrun1|].
  split; [apply (LeaveContext_expert t ec _ s1 c Hptr He1 Hid eq_refl Hmt Hc1 Hmain)|].
  split.
  { rewrite bool_decide_eq_true_2 by exact Hmt. cbn [andb].
    destruct (keeps_main reason); cbn [negb].
    - rewrite slot_of_kept. unfold slot_of. rewrite Hc1. exact Hmain.
    - apply slot_of_released; [exact Hc1 | exact Hslot]. }
  split; [apply memory_released|].
  repeat split.
  unfold released. destruct (negb (keeps_main reason));
    cbn [g_contextChains set_contextChains set_memory s1];
    rewrite ?length_insert, Hcc1; reflexivity.
Qed.

(** The expert of program 1 leaves for a change of parameters and stays
    in its chain. *)
Lemma deinit_then_LeaveContext_witness :
  exists s1 s2,
    SyncMainContext_deinit terminal_ui 196608 UR_PARAMETERS
      (one_program (EC.set_programId 1 (EC.set_moduleType MT_EXPERT EC.zero)))
    = Done true s1
    /\ LeaveContext terminal_ui 196608 s1 = Done true s2
    /\ slot_of s2 1 1 = Some 196608.
Proof.
  destruct (deinit_then_LeaveContext terminal_ui 196608 UR_PARAMETERS
              (EC.set_programId 1 (EC.set_moduleType MT_EXPERT EC.zero))
              (one_program (EC.set_programId 1 (EC.set_moduleType MT_EXPERT EC.zero)))
              [131072; 196608])
    as (s1 & s2 & e2 & H1 & H2 & Hslot & _).
  - vm_compute. discriminate.
  - reflexivity.
  - vm_compute. discriminate.
  - right. right. reflexivity.
  - reflexivity.
  - reflexivity.
  - reflexivity.
  - exists s1, s2. split; [exact H1|]. split; [exact H2 | exact Hslot].
Defined.

(** X10: the two calls that end a library: [SyncLibContext_deinit], then
    [LeaveContext].  The release of a library returns [FALSE] although
    nothing failed: it emits no diagnostic, clears the root function and
    leaves every chain as it is, so the library keeps its slot; it is not
    looked up in a chain at all. *)
Theorem library_deinit_then_LeaveContext (t : Terminal) (ec : Z)
    (reason : UninitializeReason) (e : EXECUTION_CONTEXT) (s : State) :
  MIN_VALID_POINTER t <= to_uint ec ->
  memory s !! ec = Some e ->
  1 <= to_int (EC.programId e) ->
  EC.moduleType e = MT_LIBRARY ->
  length (g_threads s) = length (g_threadsPrograms s) ->
  exists s1 s2 e2,
    SyncLibContext_deinit t ec reason s = Done true s1
    /\ LeaveContext t ec s1 = Done false s2
    /\ diagnostics s2 = diagnostics s1
    /\ g_contextChains s2 = g_contextChains s
    /\ memory s2 !! ec = Some e2
    /\ EC.rootFunction e2 = RF_NULL
    /\ EC.uninitReason e2 = reason
    /\ EC.programId e2 = EC.programId e.
Proof.
  intros Hptr He Hid Hmt Hlen.
  pose proof (to_int_positive_nonzero _ Hid) as Hid0.
  pose proof (SyncLibContext_deinit_run t ec reason e s Hptr He Hid0 Hlen) as Hrun1.
  destruct (stored_fields t (EC.programId e) s) as [_ Hcc1].
  set (r1 := EC.set_uninitReason reason (EC.set_rootFunction RF_DEINIT e)) in *.
  set (s1 := set_memory (<[ec := r1]> (memory s)) (stored t (EC.programId e) s)) in *.
  assert (He1 : memory s1 !! ec = Some r1) by apply lookup_insert_eq.
  exists s1, (set_memory (<[ec := EC.set_rootFunction RF_NULL r1]> (memory s1)) s1),
    (EC.set_rootFunction RF_NULL r1).
  split; [exact Hrun1|]. split.
  { rewrite (LeaveContext_entered t ec r1 s1 Hptr He1 Hid eq_refl).
    change (EC.moduleType r1) with (EC.moduleType e). rewrite Hmt.
    unfold ec_SetRootFunction. rewrite (bind_Done _ _ _ _ _ (poke_Done _ _ _ _ He1)).
    reflexivity. }
  split; [reflexivity|]. split; [exact Hcc1|].
  split; [apply lookup_insert_eq|]. repeat split.
Qed.

Lemma library_deinit_then_LeaveContext_witness :
  exists s1 s2,
    SyncLibContext_deinit terminal_ui 196608 UR_REMOVE
      (one_program (EC.set_programId 1 (EC.set_moduleType MT_LIBRARY EC.zero)))
    = Done true s1
    /\ LeaveContext terminal_ui 196608 s1 = Done false s2
    /\ diagnostics s2 = []
    /\ g_contextChains s2 = [[]; [131072; 196608]].
Proof.
  destruct (library_deinit_then_LeaveContext terminal_ui 196608 UR_REMOVE
              (EC.set_programId 1 (EC.set_moduleType MT_LIBRARY EC.zero))
              (one_program (EC.set_programId 1 (EC.set_moduleType MT_LIBRARY EC.zero))))
    as (s1 & s2 & e2 & H1 & H2 & Hd & Hc & _).
  - vm_compute. discriminate.
  - reflexivity.
  - vm_compute. discriminate.
  - reflexivity.
  - reflexivity.
  - exists s1, s2. split; [exact H1|]. split; [exact H2|]. split; [|exact Hc].
    rewrite Hd. vm_compute in H1. injection H1 as <-. reflexivity.
Defined.


Lemma chain_push_back_Done id p s c :
  subscript (g_contextChains s) id = Some c ->
  chain_push_back id p s
  = Done tt (set_contextChains (<[Z.to_nat id := c ++ [p]]> (g_contextChains s)) s).
Proof.
  intros Hc. unfold chain_push_back.
  rewrite (bind_Done _ _ _ _ _ (chain_at_Done _ _ _ Hc)). reflexivity.
Qed.

Lemma slot_at_None id slot s : slot_of s id slot = None -> slot_at id slot s = Undefined.
Proof.
  unfold slot_of, slot_at, chain_at, bind, get, of_option, undefined, ret.
  destruct (subscript (g_contextChains s) id) as [c|]; [|reflexivity]. simpl.
  intros ->. reflexivity.
Qed.

(** X11: the first load of a library.  [SyncLibContext_init] for a record
    without a program id, on a thread whose entry in the thread map names
    the loading program: the record becomes a copy of that program's
    master record with the module type [MT_LIBRARY], the module name, the
    root function [RF_INIT], the uninit reason and the flags of the call,
    and with the init cycle mark, the init reason, the tick counter and the
    error fields cleared; so it holds the program id of the loader.  The
    record is appended to the loader's chain; the other chains, the other
    records, the thread map and the diagnostics stay as they are. *)
Theorem SyncLibContext_init_first_load (t : Terminal) (ec : Z)
    (uninitReason : UninitializeReason) (initFlags deinitFlags : Z)
    (moduleName symbol : char_ptr) (period : Z) (isOptimization : bool)
    (e m : EXECUTION_CONTEXT) (s : State) (i programId master : Z) (rest : list Z) :
  MIN_VALID_POINTER t <= to_uint ec ->
  MIN_VALID_POINTER t <= to_uint (address moduleName) ->
  MIN_VALID_POINTER t <= to_uint (address symbol) ->
  0 < to_int period ->
  memory s !! ec = Some e ->
  EC.programId e = 0 ->
  lookup_thread (g_threads s) (GetCurrentThreadId t) 0 = Some i ->
  Z.of_nat (length (g_threads s)) <= 2 ^ 32 ->
  subscript (g_threadsPrograms s) i = Some programId ->
  subscript (g_contextChains s) programId = Some (master :: rest) ->
  memory s !! master = Some m ->
  exists s',
    SyncLibContext_init t ec uninitReason initFlags deinitFlags moduleName symbol period
      isOptimization s = Done true s'
    /\ memory s' !! ec
       = Some (loaded_library uninitReason initFlags deinitFlags moduleName m)
    /\ subscript (g_contextChains s') programId = Some (master :: rest ++ [ec])
    /\ (forall id, 0 <= id -> id <> programId ->
          subscript (g_contextChains s') id = subscript (g_contextChains s) id)
    /\ (forall p, p <> ec -> memory s' !! p = memory s !! p)
    /\ g_threads s' = g_threads s
    /\ g_threadsPrograms s' = g_threadsPrograms s
    /\ g_lastUIThreadProgram s' = g_lastUIThreadProgram s
    /\ diagnostics s' = diagnostics s.
Proof.
  intros Hptr Hname Hsymbol Hperiod He Hid Hi Hsize Hprog Hchain Hm.
  assert (Hslot : slot_of s programId 0 = Some master).
  { unfold slot_of. rewrite Hchain. reflexivity. }
  pose proof (lookup_thread_lt _ _ _ Hi) as (Hi0 & Hlt & _).
  assert (Hsmall : to_uint i = i) by (apply to_uint_small; lia).
  eexists. split.
  { unfold SyncLibContext_init.
    destruct (Z.ltb_spec (to_uint ec) (MIN_VALID_POINTER t)) as [?|_]; [lia|].
    destruct (Z.ltb_spec (to_uint (address moduleName)) (MIN_VALID_POINTER t)) as [?|_];
      [lia|].
    destruct (Z.ltb_spec (to_uint (address symbol)) (MIN_VALID_POINTER t)) as [?|_]; [lia|].
    destruct (Z.leb_spec (to_int period) 0) as [?|_]; [lia|].
    rewrite (bind_Done _ _ _ _ _ (deref_Done _ _ _ He)), Hid. cbn [Z.eqb].
    rewrite bind_assoc.
    rewrite (bind_Done _ _ _ _ _ (StoreThreadAndProgram_known t s i Hi)), Hsmall.
    rewrite bind_assoc. unfold bind at 1. unfold get at 1.
    rewrite bind_assoc. unfold bind at 1. rewrite Hprog. unfold of_option, ret at 1.
    rewrite bind_assoc, (bind_Done _ _ _ _ _ (slot_at_Done _ _ _ _ Hslot)).
    rewrite bind_assoc, (bind_Done _ _ _ _ _ (deref_Done _ _ _ Hm)).
    rewrite bind_assoc, (bind_Done _ _ _ _ _ (assign_Done _ _ _ _ He)).
    unfold ec_SetModuleType, ec_SetModuleName, ec_SetRootFunction, ec_SetInitCycle,
      ec_SetInitReason, ec_SetUninitReason, ec_SetInitFlags, ec_SetDeinitFlags,
      ec_SetTicks, ec_SetMqlError, ec_SetDllError, ec_SetDllWarning.
    do 14 run_step.
    erewrite (bind_Done (chain_push_back _ _)) by (apply chain_push_back_Done; exact Hchain).
    reflexivity. }
  cbn [memory g_contextChains g_threads g_threadsPrograms g_lastUIThreadProgram diagnostics
       set_memory set_contextChains].
  split; [apply lookup_insert_eq|].
  split; [exact (subscript_insert_eq _ _ _ _ Hchain)|].
  split.
  { intros id Hid0 Hne. apply subscript_insert_ne; [|exact Hid0 | congruence].
    apply subscript_Some in Hchain as [? _]. assumption. }
  split; [intros p Hp; apply lookup_insert_ne; congruence|].
  repeat split.
Qed.

(** The library [stdlib] of the expert of [fresh_process], loaded on the
    tester thread right after the expert's [init()]. *)
Lemma SyncLibContext_init_first_load_witness :
  exists s' l,
    SyncLibContext_init terminal_tester 262144 UR_UNDEFINED 0 0 (CharPtr 4198528 "stdlib")
      EURUSD 60 false (after experts_first_test fresh_process) = Done true s'
    /\ memory s' !! 262144 = Some l
    /\ EC.programId l = 1
    /\ EC.moduleType l = MT_LIBRARY
    /\ EC.moduleName l = "stdlib"
    /\ subscript (g_contextChains s') 1
       = Some [fresh (dom (memory fresh_process) ∪ {[NULL]}); 196608; 262144].
Proof.
  destruct (memory (after experts_first_test fresh_process)
              !! fresh (dom (memory fresh_process) ∪ {[NULL]})) as [m|] eqn:Hm;
    [|vm_compute in Hm; discriminate].
  assert (Hid : EC.programId m = 1).
  { vm_compute in Hm. injection Hm as <-. reflexivity. }
  destruct (SyncLibContext_init_first_load terminal_tester 262144 UR_UNDEFINED 0 0
              (CharPtr 4198528 "stdlib") EURUSD 60 false EC.zero m
              (after experts_first_test fresh_process) 0 1
              (fresh (dom (memory fresh_process) ∪ {[NULL]})) [196608])
    as (s' & Hrun & Hl & Hc & _).
  - vm_compute. discriminate.
  - vm_compute. discriminate.
  - vm_compute. discriminate.
  - vm_compute. reflexivity.
  - vm_compute. reflexivity.
  - reflexivity.
  - vm_compute. reflexivity.
  - vm_compute. discriminate.
  - vm_compute. reflexivity.
  - vm_compute. reflexivity.
  - exact Hm.
  - exists s', (loaded_library UR_UNDEFINED 0 0 (CharPtr 4198528 "stdlib") m).
    split; [exact Hrun|]. split; [exact Hl|]. split; [exact Hid|].
    split; [reflexivity|]. split; [reflexivity | exact Hc].
Defined.

(** X12: a library that is loaded by no program.  When the thread map has
    no entry for the current thread, or names program [0] for it,
    [SyncLibContext_init] for a record without a program id reads
    [g_contextChains[0][0]]; index 0 of the registry is never occupied, so
    this is a subscript out of range and the call has no defined result. *)
Theorem SyncLibContext_init_without_loader (t : Terminal) (ec : Z)
    (uninitReason : UninitializeReason) (initFlags deinitFlags : Z)
    (moduleName symbol : char_ptr) (period : Z) (isOptimization : bool)
    (e : EXECUTION_CONTEXT) (s : State) :
  MIN_VALID_POINTER t <= to_uint ec ->
  MIN_VALID_POINTER t <= to_uint (address moduleName) ->
  MIN_VALID_POINTER t <= to_uint (address symbol) ->
  0 < to_int period ->
  memory s !! ec = Some e ->
  EC.programId e = 0 ->
  length (g_threads s) = length (g_threadsPrograms s) ->
  Z.of_nat (length (g_threads s)) < 2 ^ 32 ->
  subscript (g_threadsPrograms s) (thread_index t s) = Some 0
  \/ GetCurrentThreadId t ∉ g_threads s ->
  slot_of s 0 0 = None ->
  SyncLibContext_init t ec uninitReason initFlags deinitFlags moduleName symbol period
    isOptimization s = Undefined.
Proof.
  intros Hptr Hname Hsymbol Hperiod He Hid Hlen Hsize Hnone Hslot.
  unfold SyncLibContext_init.
  destruct (Z.ltb_spec (to_uint ec) (MIN_VALID_POINTER t)) as [?|_]; [lia|].
  destruct (Z.ltb_spec (to_uint (address moduleName)) (MIN_VALID_POINTER t)) as [?|_];
    [lia|].
  destruct (Z.ltb_spec (to_uint (address symbol)) (MIN_VALID_POINTER t)) as [?|_]; [lia|].
  destruct (Z.leb_spec (to_int period) 0) as [?|_]; [lia|].
  rewrite (bind_Done _ _ _ _ _ (deref_Done _ _ _ He)), Hid. cbn [Z.eqb].
  rewrite bind_assoc.
  rewrite (bind_Done _ _ _ _ _ (StoreThreadAndProgram_run t 0 s Hlen)).
  change (to_int 0 <? 0) with false. cbv iota.
  assert (Hstored : stored t 0 s
                    = match lookup_thread (g_threads s) (GetCurrentThreadId t) 0 with
                      | Some _ => s
                      | None => thread_added t 0 s
                      end).
  { unfold stored. change (to_int 0 <? 0) with false. cbv iota zeta.
    cbn [Z.eqb negb andb]. reflexivity. }
  rewrite Hstored. clear Hstored. unfold thread_index in *.
  rewrite bind_assoc. unfold bind at 1. unfold get at 1.
  rewrite bind_assoc. unfold bind at 1.
  destruct (lookup_thread (g_threads s) (GetCurrentThreadId t) 0) as [i|] eqn:Hi.
  - destruct Hnone as [Hzero | Hunknown].
    + pose proof (lookup_thread_lt _ _ _ Hi) as (Hi0 & Hlt & _).
      rewrite to_uint_small by lia. rewrite Hzero. unfold of_option, ret at 1.
      rewrite !bind_assoc. unfold bind at 1.
      rewrite (slot_at_None 0 0 s Hslot). reflexivity.
    + apply (lookup_thread_None _ _ 0) in Hunknown. congruence.
  - destruct (thread_added_fields t 0 s) as (_ & Htp & _ & _ & Hcc).
    rewrite to_uint_small by lia. rewrite Htp, Hlen, subscript_app_new.
    unfold of_option, ret at 1. rewrite !bind_assoc. unfold bind at 1.
    rewrite slot_at_None; [reflexivity|].
    unfold slot_of. rewrite Hcc. exact Hslot.
Qed.

(** In [fresh_process] no program has run on the tester thread. *)
Lemma SyncLibContext_init_without_loader_witness :
  SyncLibContext_init terminal_tester 262144 UR_UNDEFINED 0 0 (CharPtr 4198528 "stdlib")
    EURUSD 60 false fresh_process = Undefined.
Proof.
  apply (SyncLibContext_init_without_loader terminal_tester 262144 UR_UNDEFINED 0 0
           (CharPtr 4198528 "stdlib") EURUSD 60 false EC.zero fresh_process).
  - vm_compute. discriminate.
  - vm_compute. discriminate.
  - vm_compute. discriminate.
  - vm_compute. reflexivity.
  - reflexivity.
  - reflexivity.
  - reflexivity.
  - vm_compute. reflexivity.
  - right. apply not_elem_of_nil.
  - reflexivity.
Defined.


(** X13: the [init()] of a library that has a program id already.  On the
    UI thread (init cycle of an indicator) the record gets [RF_INIT], the
    uninit reason, symbol and period of the call, and its init cycle mark
    is cleared.  On any other thread (an expert in the tester, between two
    tests) the mark is set on the library and on the master of its
    program, which is what the takeover in the next [init()] of an expert
    looks for, and visual mode, logging, log file and both chart handles
    of the library are reset.  In both cases the call succeeds and no chain
    changes. *)
Theorem SyncLibContext_init_again (t : Terminal) (ec : Z)
    (uninitReason : UninitializeReason) (initFlags deinitFlags : Z)
    (moduleName symbol : char_ptr) (period : Z) (isOptimization : bool)
    (l : EXECUTION_CONTEXT) (s : State) :
  MIN_VALID_POINTER t <= to_uint ec ->
  MIN_VALID_POINTER t <= to_uint (address moduleName) ->
  MIN_VALID_POINTER t <= to_uint (address symbol) ->
  0 < to_int period ->
  memory s !! ec = Some l ->
  EC.programId l <> 0 ->
  length (g_threads s) = length (g_threadsPrograms s) ->
  (IsUIThread t = true ->
   exists s',
     SyncLibContext_init t ec uninitReason initFlags deinitFlags moduleName symbol period
       isOptimization s = Done true s'
     /\ memory s' !! ec = Some (reloaded_library uninitReason symbol period l)
     /\ g_contextChains s' = g_contextChains s)
  /\ (IsUIThread t = false ->
      forall master m,
        slot_of s (EC.programId l) 0 = Some master ->
        memory s !! master = Some m ->
        master <> ec ->
        exists s',
          SyncLibContext_init t ec uninitReason initFlags deinitFlags moduleName symbol
            period isOptimization s = Done true s'
          /\ memory s' !! ec
             = Some (retested_library t uninitReason symbol period isOptimization l)
          /\ memory s' !! master = Some (EC.set_initCycle true m)
          /\ g_contextChains s' = g_contextChains s).
Proof.
  intros Hptr Hname Hsymbol Hperiod He Hid Hlen.
  destruct (stored_fields t (EC.programId l) s) as [Hmem Hcc].
  assert (Hstart :
    SyncLibContext_init t ec uninitReason initFlags deinitFlags moduleName symbol period
      isOptimization s
    = ((if IsUIThread t then
          ec_SetRootFunction ec RF_INIT ;;
          ec_SetInitCycle ec false ;;
          ec_SetUninitReason ec uninitReason ;;
          ec_SetSymbol ec symbol ;;
          ec_SetTimeframe ec period
        else
          ec_SetRootFunction ec RF_INIT ;;
          ec_SetInitCycle ec true ;;
          ec_SetUninitReason ec uninitReason ;;
          ec_SetVisualMode ec false ;;
          ec_SetOptimization ec isOptimization ;;
          ec_SetLogging ec false ;;
          ec_SetCustomLogFile ec None ;;
          ec_SetSymbol ec symbol ;;
          ec_SetTimeframe ec period ;;
          ec_SetHChart ec NULL ;;
          ec_SetHChartWindow ec NULL ;;
          ec_SetThreadId ec (GetCurrentThreadId t) ;;
          e <- deref ec ;;
          master <- slot_at (EC.programId e) 0 ;;
          poke master (EC.set_initCycle true)) ;;
       ret true) (stored t (EC.programId l) s)).
  { unfold SyncLibContext_init.
    destruct (Z.ltb_spec (to_uint ec) (MIN_VALID_POINTER t)) as [?|_]; [lia|].
    destruct (Z.ltb_spec (to_uint (address moduleName)) (MIN_VALID_POINTER t)) as [?|_];
      [lia|].
    destruct (Z.ltb_spec (to_uint (address symbol)) (MIN_VALID_POINTER t)) as [?|_]; [lia|].
    destruct (Z.leb_spec (to_int period) 0) as [?|_]; [lia|].
    rewrite (bind_Done _ _ _ _ _ (deref_Done _ _ _ He)).
    destruct (Z.eqb_spec (EC.programId l) 0) as [?|_]; [contradiction|].
    destruct (IsUIThread t);
      rewrite !bind_assoc, (bind_Done _ _ _ _ _ (StoreThreadAndProgram_run t _ s Hlen));
      rewrite ?bind_assoc; reflexivity. }
  rewrite Hstart. clear Hstart.
  rewrite <- Hmem in He. rewrite <- Hcc.
  assert (Hslots : forall id slot,
            slot_of (stored t (EC.programId l) s) id slot = slot_of s id slot).
  { intros. unfold slot_of. rewrite Hcc. reflexivity. }
  rewrite <- Hmem. clear Hmem Hcc.
  generalize dependent (stored t (EC.programId l) s). intros s1 He Hslots.
  unfold ec_SetRootFunction, ec_SetInitCycle, ec_SetUninitReason, ec_SetSymbol,
    ec_SetTimeframe, ec_SetVisualMode, ec_SetOptimization, ec_SetLogging,
    ec_SetCustomLogFile, ec_SetHChart, ec_SetHChartWindow, ec_SetThreadId.
  split.
  - intros ->. eexists. split.
    + do 5 run_step. reflexivity.
    + cbn [memory g_contextChains set_memory]. rewrite ?insert_insert_eq.
      split; [apply lookup_insert_eq | reflexivity].
  - intros -> master m Hmaster Hm Hne. rewrite <- Hslots in Hmaster. eexists. split.
    + do 13 run_step.
      erewrite (bind_Done (bind (slot_at _ _) _))
        by (erewrite bind_Done by (apply slot_at_Done; exact Hmaster);
            apply poke_Done; cbn [memory set_memory];
            rewrite lookup_insert_ne by congruence; exact Hm).
      reflexivity.
    + cbn [memory g_contextChains set_memory].
      split; [rewrite lookup_insert_ne by exact Hne; apply lookup_insert_eq|].
      split; [apply lookup_insert_eq | reflexivity].
Qed.

(** The library of the scenario of [before_second_test]: its second
    [init()] on the tester thread marks it and the master of program 1. *)
Lemma SyncLibContext_init_again_witness :
  exists s' l' m',
    perform library_init (after library_init (after experts_first_test tester_process))
    = Done true s'
    /\ memory s' !! 327680 = Some l'
    /\ EC.initCycle l' = true
    /\ memory s' !! fresh (dom (memory tester_process) ∪ {[NULL]}) = Some m'
    /\ EC.initCycle m' = true.
Proof.
  destruct (memory (after library_init (after experts_first_test tester_process)) !! 327680)
    as [l|] eqn:Hl; [|vm_compute in Hl; discriminate].
  assert (Hid : EC.programId l = 1).
  { vm_compute in Hl. injection Hl as <-. reflexivity. }
  destruct (memory (after library_init (after experts_first_test tester_process))
              !! fresh (dom (memory tester_process) ∪ {[NULL]})) as [m|] eqn:Hm;
    [|vm_compute in Hm; discriminate].
  destruct (SyncLibContext_init_again terminal_tester 327680 UR_UNDEFINED 0 0
              (CharPtr 4198528 "stdlib") EURUSD 60 false l
              (after library_init (after experts_first_test tester_process)))
    as [_ Htester].
  - vm_compute. discriminate.
  - vm_compute. discriminate.
  - vm_compute. discriminate.
  - vm_compute. reflexivity.
  - exact Hl.
  - rewrite Hid. discriminate.
  - vm_compute. reflexivity.
  - destruct (Htester eq_refl (fresh (dom (memory tester_process) ∪ {[NULL]})) m)
      as (s' & Hrun & Hl' & Hm' & _).
    + rewrite Hid. vm_compute. reflexivity.
    + exact Hm.
    + vm_compute. discriminate.
    + exists s', (retested_library terminal_tester UR_UNDEFINED EURUSD 60 false l),
        (EC.set_initCycle true m).
      split; [exact Hrun|]. split; [exact Hl'|].
      split; [reflexivity|]. split; [exact Hm' | reflexivity].
Defined.


(** ** The init-reason resolver *)

Lemma wp_FindIndicatorInLimbo t hChart name reason Q s :
  (forall r, FindIndicatorInLimbo t hChart name reason s = Done r s ->
             - 2 ^ 31 <= r < 2 ^ 31 -> Q r s) ->
  wp (FindIndicatorInLimbo t hChart name reason) Q s.
Proof.
  intros H. unfold wp.
  pose proof (FindIndicatorInLimbo_pure t hChart name reason s) as Hpure.
  destruct (FindIndicatorInLimbo t hChart name reason s) as [r s'|]; [|exact Logic.I].
  destruct (Hpure r s' eq_refl) as [-> Hr]. exact (H r eq_refl Hr).
Qed.

Ltac resolver_step :=
  lazymatch goal with
  | |- wp (bind _ _) _ _ => apply wp_bind
  | |- wp (deref _) _ _ => apply wp_deref; intros ? ?
  | |- wp (slot_at _ _) _ _ => apply wp_slot_at; intros ? ?
  | |- wp (ret _) _ _ => apply wp_ret
  | |- wp (FindIndicatorInLimbo _ _ _ _) _ _ => apply wp_FindIndicatorInLimbo; intros ? ? ?
  | |- wp (InitializeReason_error _) _ _ => unfold InitializeReason_error
  | |- wp (error _) _ _ => unfold error
  | |- wp (log _) _ _ => apply wp_log
  | |- wp InitReason_script _ _ => unfold InitReason_script
  | |- wp (if ?b then _ else _) _ _ => destruct b eqn:?
  | |- wp (let _ := _ in _) _ _ => cbv zeta
  | |- wp ((fun _ => _) _ _) _ _ => cbv beta
  end.

Ltac resolver_cases :=
  unfold InitReason, InitReason_indicator, InitReason_expert;
  match goal with
  | |- wp (match ?p with PT_NULL => _ | _ => _ end) _ _ => destruct p
  end;
  try match goal with
      | |- context [match ?u with UR_UNDEFINED => _ | _ => _ end] => destruct u
      end;
  cbv zeta; repeat resolver_step.

(** The resolver only reads: it hands back a reason and leaves the state
    as it is, or it hands back the [NULL] reason and has logged one error. *)
Lemma InitReason_logs t ec sec programType programName uninitReason symbol isTesting
    isVisualMode hChart droppedOnChart droppedOnPosX droppedOnPosY s :
  wp (InitReason t ec sec programType programName uninitReason symbol isTesting
        isVisualMode hChart droppedOnChart droppedOnPosX droppedOnPosY)
    (fun resolved s' =>
       s' = s \/ (fst resolved = IR_NULL /\ exists code, s' = logged (LogError code) s)) s.
Proof.
  resolver_cases;
    first [ left; reflexivity
          | right; split; [reflexivity | eexists; reflexivity] ].
Qed.

Lemma InitReason_frame t ec sec programType programName uninitReason symbol isTesting
    isVisualMode hChart droppedOnChart droppedOnPosX droppedOnPosY s resolved s' :
  InitReason t ec sec programType programName uninitReason symbol isTesting isVisualMode
    hChart droppedOnChart droppedOnPosX droppedOnPosY s = Done resolved s' ->
  memory s' = memory s /\ g_contextChains s' = g_contextChains s
  /\ g_threads s' = g_threads s /\ g_threadsPrograms s' = g_threadsPrograms s
  /\ g_lastUIThreadProgram s' = g_lastUIThreadProgram s.
Proof.
  intros Hrun.
  pose proof (wp_Done _ _ _ _ _
                (InitReason_logs t ec sec programType programName uninitReason symbol
                   isTesting isVisualMode hChart droppedOnChart droppedOnPosX
                   droppedOnPosY s) Hrun) as [-> | [_ [code ->]]];
    repeat split.
Qed.

(** X14: the contract of the init-reason resolver towards its caller.
    [InitReason] never writes to a record, a chain or the thread map.  When
    it answers with a reason other than [NULL] it has emitted nothing; the
    only other outcome is the [NULL] reason, with at most one error
    diagnostic. *)
Theorem InitReason_reports (t : Terminal) (ec sec : Z) (programType : ProgramType)
    (programName : char_ptr) (uninitReason : UninitializeReason) (symbol : char_ptr)
    (isTesting isVisualMode : bool)
    (hChart droppedOnChart droppedOnPosX droppedOnPosY : Z) (s s' : State)
    (reason : InitializeReason) (originalProgramId : Z) :
  InitReason t ec sec programType programName uninitReason symbol isTesting isVisualMode
    hChart droppedOnChart droppedOnPosX droppedOnPosY s
  = Done (reason, originalProgramId) s' ->
  (reason <> IR_NULL -> s' = s)
  /\ (s' = s \/ exists code, s' = logged (LogError code) s)
  /\ memory s' = memory s
  /\ g_contextChains s' = g_contextChains s
  /\ g_threads s' = g_threads s
  /\ g_threadsPrograms s' = g_threadsPrograms s
  /\ g_lastUIThreadProgram s' = g_lastUIThreadProgram s.
Proof.
  intros Hrun.
  pose proof (wp_Done _ _ _ _ _
                (InitReason_logs t ec sec programType programName uninitReason symbol
                   isTesting isVisualMode hChart droppedOnChart droppedOnPosX
                   droppedOnPosY s) Hrun) as [-> | [Hnull [code ->]]].
  - split; [reflexivity|]. split; [left; reflexivity|]. repeat split.
  - simpl in Hnull. split; [intros Hr; contradiction|].
    split; [right; exists code; reflexivity|]. repeat split.
Qed.

(** An expert with the uninit reason [UR_ACCOUNT]: the resolver fails. *)
Lemma InitReason_reports_witness :
  exists s',
    InitReason terminal_ui 196608 NULL PT_EXPERT Bands UR_ACCOUNT EURUSD false false 528
      0 0 0 fresh_process = Done (IR_NULL, 0) s'
    /\ (s' = fresh_process
        \/ exists code, s' = logged (LogError code) fresh_process)
    /\ memory s' = memory fresh_process.
Proof.
  eexists. split; [vm_compute; reflexivity|].
  destruct (InitReason_reports terminal_ui 196608 NULL PT_EXPERT Bands UR_ACCOUNT EURUSD
              false false 528 0 0 0 fresh_process _ IR_NULL 0 eq_refl)
    as (_ & Hs & Hm & _).
  split; [exact Hs | exact Hm].
Defined.


Lemma to_int_zero : to_int 0 = 0.
Proof. reflexivity. Qed.

Lemma init_cycle_resolved t ec sec programName uninitReason symbol isTesting isVisualMode
    hChart droppedOnChart e s :
  memory s !! ec = Some e ->
  EC.programId e = 0 ->
  wp (InitReason_indicator t ec sec programName uninitReason symbol isTesting
        isVisualMode hChart droppedOnChart NULL)
    (fun resolved s' =>
       fst resolved = IR_PARAMETERS \/ fst resolved = IR_SYMBOLCHANGE
       \/ fst resolved = IR_TIMEFRAMECHANGE ->
       s' = s /\ sec = NULL
       /\ 0 < snd resolved < 2 ^ 31
       /\ FindIndicatorInLimbo t hChart programName uninitReason s
          = Done (snd resolved) s
       /\ (fst resolved = IR_PARAMETERS /\ uninitReason = UR_PARAMETERS
           \/ fst resolved <> IR_PARAMETERS /\ uninitReason = UR_CHARTCHANGE)) s.
Proof.
  intros He Hid. unfold InitReason_indicator. cbv zeta.
  destruct uninitReason;
    try (repeat resolver_step; cbn [fst snd]; intros [?|[?|?]]; discriminate).
  - (* UR_CHARTCHANGE *)
    destruct (Z.eqb_spec sec NULL) as [->|?]; cbn [negb];
      [|repeat resolver_step; cbn [fst snd]; intros [?|[?|?]]; discriminate].
    apply wp_bind, wp_deref. intros e' He'. rewrite He in He'. injection He' as <-.
    rewrite Hid, to_int_zero. cbn [Z.eqb].
    apply wp_bind, wp_FindIndicatorInLimbo. intros programId Hscan Hrange.
    destruct (Z.leb_spec programId 0) as [?|Hpos].
    { repeat resolver_step; cbn [fst snd]; intros [?|[?|?]]; discriminate. }
    assert (Hsmall : to_uint programId = programId)
      by (apply to_uint_small; change (2 ^ 32) with 4294967296;
          change (2 ^ 31) with 2147483648 in Hrange; lia).
    repeat resolver_step; cbn [fst snd]; rewrite Hsmall; intros _;
      (split; [reflexivity|]); (split; [reflexivity|]); (split; [lia|]);
      (split; [exact Hscan|]); right; (split; [discriminate | reflexivity]).
  - (* UR_PARAMETERS *)
    destruct (Z.eqb_spec sec NULL) as [->|?]; cbn [negb];
      [|repeat resolver_step; cbn [fst snd]; intros [?|[?|?]]; discriminate].
    apply wp_bind, wp_deref. intros e' He'. rewrite He in He'. injection He' as <-.
    rewrite Hid, to_int_zero. cbn [Z.eqb negb].
    apply wp_bind, wp_FindIndicatorInLimbo. intros programId Hscan Hrange.
    destruct (Z.ltb_spec programId 0) as [?|Hpos].
    { apply wp_ret. cbn [fst snd]. intros [?|[?|?]]; discriminate. }
    cbv zeta. apply wp_ret. cbn [fst snd].
    destruct (Z.eqb_spec programId 0) as [->|Hne]; [intros [?|[?|?]]; discriminate|].
    assert (Hsmall : to_uint programId = programId)
      by (apply to_uint_small; change (2 ^ 32) with 4294967296;
          change (2 ^ 31) with 2147483648 in Hrange; lia).
    rewrite Hsmall. intros _.
    split; [reflexivity|]. split; [reflexivity|]. split; [lia|].
    split; [exact Hscan|]. left. split; reflexivity.
Qed.

(** X15: what makes the restore of block (1.1) of [SyncMainContext_init]
    safe.  For an indicator whose record has no program id, [InitReason]
    answers with an init cycle ([IR_PARAMETERS], [IR_SYMBOLCHANGE] or
    [IR_TIMEFRAMECHANGE]) only together with an original program id from
    [1] to [INT_MAX] that [FindIndicatorInLimbo] found for the chart, the
    name and the uninit reason of the call; there is no super context
    then, nothing was logged or changed, and the raw uninit reason was
    [UR_PARAMETERS] for [IR_PARAMETERS] and [UR_CHARTCHANGE] for the other
    two. *)
Theorem init_cycle_names_its_program (t : Terminal) (ec sec : Z) (programName : char_ptr)
    (uninitReason : UninitializeReason) (symbol : char_ptr) (isTesting isVisualMode : bool)
    (hChart droppedOnChart droppedOnPosX droppedOnPosY : Z) (e : EXECUTION_CONTEXT)
    (s s' : State) (reason : InitializeReason) (originalProgramId : Z) :
  memory s !! ec = Some e ->
  EC.programId e = 0 ->
  InitReason t ec sec PT_INDICATOR programName uninitReason symbol isTesting isVisualMode
    hChart droppedOnChart droppedOnPosX droppedOnPosY s
  = Done (reason, originalProgramId) s' ->
  reason = IR_PARAMETERS \/ reason = IR_SYMBOLCHANGE \/ reason = IR_TIMEFRAMECHANGE ->
  s' = s
  /\ sec = NULL
  /\ 0 < originalProgramId < 2 ^ 31
  /\ FindIndicatorInLimbo t hChart programName uninitReason s = Done originalProgramId s
  /\ (reason = IR_PARAMETERS /\ uninitReason = UR_PARAMETERS
      \/ reason <> IR_PARAMETERS /\ uninitReason = UR_CHARTCHANGE).
Proof.
  intros He Hid Hrun Hcycle.
  exact (wp_Done _ _ _ _ _
           (init_cycle_resolved t ec sec programName uninitReason symbol isTesting
              isVisualMode hChart droppedOnChart e s He Hid) Hrun Hcycle).
Qed.

(** The indicator "Bands" of [limbo_after_parameters] comes back with a
    new record at [0x30000]: the resolver names program 1. *)
Lemma init_cycle_names_its_program_witness :
  InitReason terminal_ui 196608 NULL PT_INDICATOR Bands UR_PARAMETERS EURUSD false false
    528 0 0 0 limbo_after_parameters = Done (IR_PARAMETERS, 1) limbo_after_parameters
  /\ FindIndicatorInLimbo terminal_ui 528 Bands UR_PARAMETERS limbo_after_parameters
     = Done 1 limbo_after_parameters.
Proof.
  assert (Hrun : InitReason terminal_ui 196608 NULL PT_INDICATOR Bands UR_PARAMETERS EURUSD
                   false false 528 0 0 0 limbo_after_parameters
                 = Done (IR_PARAMETERS, 1) limbo_after_parameters)
    by (vm_compute; reflexivity).
  split; [exact Hrun|].
  destruct (init_cycle_names_its_program terminal_ui 196608 NULL Bands UR_PARAMETERS EURUSD
              false false 528 0 0 0 EC.zero limbo_after_parameters limbo_after_parameters
              IR_PARAMETERS 1 eq_refl eq_refl Hrun (or_introl eq_refl))
    as (_ & _ & _ & Hscan & _).
  exact Hscan.
Defined.


(** The builds of the terminal that announce the end of a test to a nested
    indicator with the uninit reason [uninitReason]. *)
Lemma after_test_resolved t ec sec programName uninitReason symbol isTesting isVisualMode
    hChart droppedOnChart originalProgramId s :
  wp (InitReason_indicator t ec sec programName uninitReason symbol isTesting
        isVisualMode hChart droppedOnChart originalProgramId)
    (fun resolved s' =>
       fst resolved = IR_PROGRAM_AFTERTEST ->
       snd resolved = originalProgramId /\ s' = s
       /\ sec <> NULL /\ isTesting = true /\ IsUIThread t = true
       /\ (uninitReason = UR_UNDEFINED /\ isVisualMode = false /\ GetTerminalBuild t <= 229
           \/ uninitReason = UR_REMOVE
              /\ (if isVisualMode then 578 else 388) <= GetTerminalBuild t <= 628
           \/ uninitReason = UR_CHARTCLOSE /\ 633 <= GetTerminalBuild t)) s.
Proof.
  unfold InitReason_indicator. cbv zeta.
  destruct uninitReason;
    try (repeat resolver_step; cbn [fst snd];
         try (intros ?; discriminate);
         try (match goal with |- (if ?b then _ else _) = _ -> _ => destruct b end;
              intros ?; discriminate)).
  - (* UR_UNDEFINED *)
    intros _. repeat split; try reflexivity.
    + apply Z.eqb_neq. assumption.
    + destruct isTesting; [reflexivity | discriminate].
    + destruct isTesting, isVisualMode, (IsUIThread t); try discriminate; reflexivity.
    + left. split; [reflexivity|].
      split; [destruct isTesting, isVisualMode; try discriminate; reflexivity|].
      apply Z.leb_le. assumption.
  - (* UR_REMOVE *)
    intros _. repeat split; try reflexivity.
    + apply Z.eqb_neq. assumption.
    + destruct isTesting; [reflexivity | discriminate].
    + destruct isTesting, (IsUIThread t); try discriminate; reflexivity.
    + right. left. split; [reflexivity|].
      destruct isVisualMode; cbn [negb] in *;
        match goal with H : (_ && _) = true |- _ => apply andb_true_iff in H as [H1 H2] end;
        apply Z.leb_le in H1, H2; lia.
  - (* UR_CHARTCLOSE *)
    intros _. repeat split; try reflexivity.
    + apply Z.eqb_neq. assumption.
    + destruct isTesting; [reflexivity | discriminate].
    + destruct isTesting, (IsUIThread t); try discriminate; reflexivity.
    + right. right. split; [reflexivity|]. apply Z.leb_le. assumption.
Qed.

(** X16: when an indicator is told that a test has ended.  The indicator
    resolver answers [IR_PROGRAM_AFTERTEST] exactly for a nested indicator
    (super context set) under test on the UI thread whose raw uninit
    reason fits the build of the terminal: [UR_UNDEFINED] up to build 229
    (visual mode off), [UR_REMOVE] for the builds 388 to 628 (578 to 628
    in visual mode), [UR_CHARTCLOSE] from build 633 on.  The build ranges
    do not overlap.  The answer comes without a diagnostic and without an
    original program id of its own. *)
Theorem after_test_builds (t : Terminal) (ec sec : Z) (programName : char_ptr)
    (uninitReason : UninitializeReason) (symbol : char_ptr) (isTesting isVisualMode : bool)
    (hChart droppedOnChart originalProgramId : Z) (s s' : State) (id : Z) :
  InitReason_indicator t ec sec programName uninitReason symbol isTesting isVisualMode
    hChart droppedOnChart originalProgramId s = Done (IR_PROGRAM_AFTERTEST, id) s'
  <-> id = originalProgramId /\ s' = s
      /\ sec <> NULL /\ isTesting = true /\ IsUIThread t = true
      /\ (uninitReason = UR_UNDEFINED /\ isVisualMode = false /\ GetTerminalBuild t <= 229
          \/ uninitReason = UR_REMOVE
             /\ (if isVisualMode then 578 else 388) <= GetTerminalBuild t <= 628
          \/ uninitReason = UR_CHARTCLOSE /\ 633 <= GetTerminalBuild t).
Proof.
  split.
  - intros Hrun.
    exact (wp_Done _ _ _ _ _
             (after_test_resolved t ec sec programName uninitReason symbol isTesting
                isVisualMode hChart droppedOnChart originalProgramId s) Hrun eq_refl).
  - intros (-> & -> & Hsec & -> & Hui & Hcases).
    apply Z.eqb_neq in Hsec. unfold InitReason_indicator. cbv zeta. rewrite Hui.
    destruct Hcases as [(-> & -> & Hbuild) | [(-> & Hbuild) | (-> & Hbuild)]];
      rewrite Hsec; cbn [negb andb orb].
    + destruct (Z.leb_spec (GetTerminalBuild t) 229); [reflexivity | lia].
    + destruct isVisualMode; cbn [negb];
        destruct (Z.leb_spec 578 (GetTerminalBuild t)),
                 (Z.leb_spec 388 (GetTerminalBuild t)),
                 (Z.leb_spec (GetTerminalBuild t) 628); try lia; reflexivity.
    + destruct (Z.leb_spec 633 (GetTerminalBuild t)); [reflexivity | lia].
Qed.


(** ** [SyncMainContext_init] for a program that exists *)

(** Blocks (2) and (3) for a record that has ticked and is no new expert. *)
Lemma SyncMainContext_init_update_ticked t ec programType programName uninitReason
    initFlags deinitFlags symbol period sec isTesting isVisualMode isOptimization hChart
    initReason e s :
  memory s !! ec = Some e ->
  EC.ticks e <> 0 ->
  SyncMainContext_init_update t ec programType programName uninitReason initFlags
    deinitFlags symbol period sec isTesting isVisualMode isOptimization hChart initReason s
  = Done (isTesting, isVisualMode, isOptimization)
      (set_memory (<[ec := initialized t initReason uninitReason symbol period e]> (memory s))
         s).
Proof.
  intros He Hticks. unfold SyncMainContext_init_update.
  rewrite (bind_Done _ _ _ _ _ (deref_Done _ _ _ He)).
  destruct (Z.eqb_spec (EC.ticks e) 0) as [?|_]; [contradiction|].
  unfold ec_SetRootFunction, ec_SetInitReason, ec_SetUninitReason, ec_SetSymbol,
    ec_SetTimeframe, ec_SetThreadId.
  do 7 run_step. reflexivity.
Qed.

Lemma FindWindowHandle_given t hChart sec moduleType symbol timeframe isTesting
    isVisualMode s :
  hChart <> NULL ->
  FindWindowHandle t hChart sec moduleType symbol timeframe isTesting isVisualMode s
  = Done hChart s.
Proof.
  intros H. unfold FindWindowHandle.
  destruct (Z.eqb_spec hChart NULL) as [?|_]; [contradiction | reflexivity].
Qed.

(** X17: [init()] of a program that is running: the record has a program id
    and has ticked, and the terminal passes the chart handle.  Then
    [SyncMainContext_init] runs no more than the thread map update, the
    resolver and block (2.2): it returns [TRUE] with the root function
    [RF_INIT], the reason the resolver gave, the uninit reason, symbol,
    period and thread of the call stored in the record, and everything else
    of the record and all chains as they were.  No record other than this
    one and the master of its chain is written; on the master nothing is
    said.  This holds whatever the resolver answers: when it fails, its
    error diagnostic is the only trace, the [NULL] reason is stored and the
    call still succeeds. *)
Theorem SyncMainContext_init_running (t : Terminal) (ec : Z) (programType : ProgramType)
    (programName : char_ptr) (uninitReason : UninitializeReason)
    (initFlags deinitFlags : Z) (symbol : char_ptr) (period sec : Z)
    (isTesting isVisualMode isOptimization : bool)
    (hChart droppedOnChart droppedOnPosX droppedOnPosY : Z)
    (e : EXECUTION_CONTEXT) (s s2 : State) (reason : InitializeReason)
    (originalProgramId : Z) :
  MIN_VALID_POINTER t <= to_uint ec ->
  MIN_VALID_POINTER t <= to_uint (address programName) ->
  MIN_VALID_POINTER t <= to_uint (address symbol) ->
  0 < to_int period ->
  sec = NULL \/ MIN_VALID_POINTER t <= to_uint sec ->
  hChart <> NULL ->
  hChart <> INVALID_HWND ->
  memory s !! ec = Some e ->
  EC.programId e <> 0 ->
  EC.ticks e <> 0 ->
  length (g_threads s) = length (g_threadsPrograms s) ->
  InitReason t ec sec programType programName uninitReason symbol isTesting isVisualMode
    hChart droppedOnChart droppedOnPosX droppedOnPosY (stored t (EC.programId e) s)
  = Done (reason, originalProgramId) s2 ->
  exists s',
    SyncMainContext_init t ec programType programName uninitReason initFlags deinitFlags
      symbol period sec isTesting isVisualMode isOptimization hChart droppedOnChart
      droppedOnPosX droppedOnPosY s = Done true s'
    /\ memory s' !! ec = Some (initialized t reason uninitReason symbol period e)
    /\ (forall p, p <> ec -> slot_of s (EC.programId e) 0 <> Some p ->
          memory s' !! p = memory s !! p)
    /\ g_contextChains s' = g_contextChains s
    /\ diagnostics s' = diagnostics s2.
Proof.
  intros Hptr Hname Hsymbol Hperiod Hsec HhChart Hvalid He Hid Hticks Hlen Hresolved.
  destruct (InitReason_frame _ _ _ _ _ _ _ _ _ _ _ _ _ _ _ _ Hresolved) as (Hmem2 & Hcc2 & _).
  destruct (stored_fields t (EC.programId e) s) as [Hmem1 Hcc1].
  assert (He2 : memory s2 !! ec = Some e) by (rewrite Hmem2, Hmem1; exact He).
  eexists. split.
  { unfold SyncMainContext_init.
    destruct (Z.ltb_spec (to_uint ec) (MIN_VALID_POINTER t)) as [?|_]; [lia|].
    destruct (Z.ltb_spec (to_uint (address programName)) (MIN_VALID_POINTER t)) as [?|_];
      [lia|].
    destruct (Z.ltb_spec (to_uint (address symbol)) (MIN_VALID_POINTER t)) as [?|_]; [lia|].
    destruct (Z.leb_spec (to_int period) 0) as [?|_]; [lia|].
    assert (Hsec' : negb (sec =? NULL) && (to_uint sec <? MIN_VALID_POINTER t) = false).
    { destruct Hsec as [-> | Hsec]; [reflexivity|].
      apply andb_false_iff. right. apply Z.ltb_ge. exact Hsec. }
    rewrite Hsec'.
    rewrite (bind_Done _ _ _ _ _ (deref_Done _ _ _ He)).
    destruct (Z.eqb_spec (EC.programId e) 0) as [?|_]; [contradiction|]. cbn [negb when].
    rewrite !bind_assoc.
    rewrite (bind_Done _ _ _ _ _ (StoreThreadAndProgram_run t _ s Hlen)).
    unfold bind at 1. unfold ret at 1.
    rewrite (bind_Done _ _ _ _ _ Hresolved). cbv zeta. cbn [fst snd].
    rewrite (bind_Done _ _ _ _ _
               (FindWindowHandle_given t hChart sec _ symbol period isTesting isVisualMode
                  s2 HhChart)).
    destruct (Z.eqb_spec hChart INVALID_HWND) as [?|_]; [contradiction|].
    rewrite (bind_Done _ _ _ _ _ (deref_Done _ _ _ He2)).
    destruct (Z.eqb_spec (EC.programId e) 0) as [?|_]; [contradiction|].
    unfold bind at 1. unfold ret at 1. cbn [fst snd].
    rewrite (bind_Done _ _ _ _ _
               (SyncMainContext_init_update_ticked t ec programType programName
                  uninitReason initFlags deinitFlags symbol period sec isTesting
                  isVisualMode isOptimization hChart reason e s2 He2 Hticks)).
    cbn [fst snd]. unfold SyncMainContext_init_libraries. cbn [andb when].
    reflexivity. }
  cbn [memory g_contextChains diagnostics set_memory].
  split; [apply lookup_insert_eq|].
  split; [intros p Hp _; rewrite lookup_insert_ne by congruence; rewrite Hmem2, Hmem1;
          reflexivity|].
  split; [rewrite Hcc2; exact Hcc1 | reflexivity].
Qed.

(** The expert of program 1 has ticked and comes back to [init()] after a
    change of account: [LeaveContext] kept it in its chain for this uninit
    reason, the resolver calls the reason unexpected, and [init()]
    succeeds with the [NULL] reason. *)
Lemma SyncMainContext_init_running_witness :
  exists s' e',
    SyncMainContext_init terminal_ui 196608 PT_EXPERT Bands UR_ACCOUNT 0 0 EURUSD 60 NULL
      false false false 528 0 0 0
      (one_program (EC.set_programId 1 (EC.set_ticks 5 EC.zero))) = Done true s'
    /\ memory s' !! 196608 = Some e'
    /\ EC.initReason e' = IR_NULL
    /\ EC.rootFunction e' = RF_INIT
    /\ diagnostics s' = [LogError ERR_ILLEGAL_STATE].
Proof.
  destruct (SyncMainContext_init_running terminal_ui 196608 PT_EXPERT Bands UR_ACCOUNT 0 0
              EURUSD 60 NULL false false false 528 0 0 0
              (EC.set_programId 1 (EC.set_ticks 5 EC.zero))
              (one_program (EC.set_programId 1 (EC.set_ticks 5 EC.zero)))
              (logged (LogError ERR_ILLEGAL_STATE)
                 (one_program (EC.set_programId 1 (EC.set_ticks 5 EC.zero))))
              IR_NULL 0)
    as (s' & Hrun & He' & _ & _ & Hd).
  - vm_compute. discriminate.
  - vm_compute. discriminate.
  - vm_compute. discriminate.
  - vm_compute. reflexivity.
  - left. reflexivity.
  - discriminate.
  - discriminate.
  - reflexivity.
  - discriminate.
  - discriminate.
  - reflexivity.
  - vm_compute. reflexivity.
  - exists s', (initialized terminal_ui IR_NULL UR_ACCOUNT EURUSD 60
                  (EC.set_programId 1 (EC.set_ticks 5 EC.zero))).
    split; [exact Hrun|]. split; [exact He'|]. split; [reflexivity|].
    split; [reflexivity | exact Hd].
Defined.


(** ** An indicator comes back from limbo *)

Lemma stored_set_memory t programId h s :
  stored t programId (set_memory h s) = set_memory h (stored t programId s).
Proof.
  unfold stored, logged, thread_added. cbn [g_threads g_threadsPrograms set_memory]. cbv zeta.
  destruct (to_int programId <? 0); [reflexivity|].
  destruct (lookup_thread _ _ _), (programId =? 0), (IsUIThread t);
    cbn [negb andb]; try reflexivity;
    cbn [g_threads g_threadsPrograms set_threads set_threadsPrograms set_memory];
    destruct (511 <? _); reflexivity.
Qed.

(** The reason the resolver gives an indicator that is found in limbo,
    from the raw uninit reason and the symbol of its master record. *)
Lemma InitReason_resumes t ec programName uninitReason symbol isTesting isVisualMode
    hChart droppedOnChart droppedOnPosX droppedOnPosY e m s id master rest :
  memory s !! ec = Some e ->
  EC.programId e = 0 ->
  uninitReason = UR_PARAMETERS \/ uninitReason = UR_CHARTCHANGE ->
  FindIndicatorInLimbo t hChart programName uninitReason s = Done id s ->
  0 < id ->
  subscript (g_contextChains s) id = Some (master :: rest) ->
  memory s !! master = Some m ->
  InitReason t ec NULL PT_INDICATOR programName uninitReason symbol isTesting isVisualMode
    hChart droppedOnChart droppedOnPosX droppedOnPosY s
  = Done (match uninitReason with
          | UR_PARAMETERS => IR_PARAMETERS
          | _ => if String.eqb (EC.symbol m) (chars symbol)
                 then IR_TIMEFRAMECHANGE else IR_SYMBOLCHANGE
          end, id) s.
Proof.
  intros He Hid Hreason Hscan Hpos Hchain Hm.
  destruct (FindIndicatorInLimbo_pure _ _ _ _ _ _ _ Hscan) as [_ Hrange].
  assert (Hsmall : to_uint id = id)
    by (apply to_uint_small; change (2 ^ 32) with 4294967296;
        change (2 ^ 31) with 2147483648 in Hrange; lia).
  assert (Hslot : slot_of s id 0 = Some master).
  { unfold slot_of. rewrite Hchain. reflexivity. }
  unfold InitReason, InitReason_indicator. cbv zeta.
  destruct Hreason as [-> | ->]; cbn [Z.eqb NULL negb];
    rewrite (bind_Done _ _ _ _ _ (deref_Done _ _ _ He)), Hid, to_int_zero; cbn [Z.eqb negb];
    rewrite (bind_Done _ _ _ _ _ Hscan).
  - destruct (Z.ltb_spec id 0) as [?|_]; [lia|].
    destruct (Z.eqb_spec id 0) as [?|_]; [lia|]. rewrite Hsmall. reflexivity.
  - destruct (Z.leb_spec id 0) as [?|_]; [lia|]. rewrite Hsmall.
    rewrite (bind_Done _ _ _ _ _ (slot_at_Done _ _ _ _ Hslot)).
    rewrite (bind_Done _ _ _ _ _ (deref_Done _ _ _ Hm)).
    destruct (String.eqb _ _); reflexivity.
Qed.

(** Block (1), branch (1.1): the record adopts the original program id and
    is restored from the master of that program. *)
Lemma SyncMainContext_init_chain_restores t ec initReason e m s id master main libs :
  initReason = IR_PARAMETERS \/ initReason = IR_SYMBOLCHANGE
  \/ initReason = IR_TIMEFRAMECHANGE ->
  memory s !! ec = Some e ->
  id <> 0 ->
  subscript (g_contextChains s) id = Some (master :: main :: libs) ->
  memory s !! master = Some m ->
  master <> ec ->
  EC.programId m = id ->
  length (g_threads s) = length (g_threadsPrograms s) ->
  SyncMainContext_init_chain t ec PT_INDICATOR NULL initReason id s
  = Done (NULL, 0, false)
      (set_contextChains
         (<[Z.to_nat id := master :: ec :: libs]> (g_contextChains s))
         (set_memory (<[ec := m]> (memory s)) (stored t id s))).
Proof.
  intros Hcycle He Hid Hchain Hm Hne Hmid Hlen.
  destruct (stored_fields t id s) as [Hmem Hcc].
  unfold SyncMainContext_init_chain.
  destruct (Z.eqb_spec id 0) as [?|_]; [contradiction|]. cbn [negb when].
  unfold ec_SetProgramId. rewrite !bind_assoc.
  rewrite (bind_Done _ _ _ _ _ (poke_Done _ _ _ _ He)). rewrite ?bind_assoc.
  erewrite (bind_Done (deref ec)) by (apply deref_Done; apply lookup_insert_eq).
  cbn [EC.programId EC.set_programId]. rewrite ?bind_assoc.
  rewrite (bind_Done _ _ _ _ _
             (StoreThreadAndProgram_run t id
                (set_memory (<[ec := EC.set_programId id e]> (memory s)) s) Hlen)).
  rewrite stored_set_memory.
  unfold bind at 1. unfold ret at 1.
  assert (Hcyc : bool_decide (PT_INDICATOR = PT_INDICATOR)
                 && (bool_decide (initReason = IR_PARAMETERS)
                     || bool_decide (initReason = IR_SYMBOLCHANGE)
                     || bool_decide (initReason = IR_TIMEFRAMECHANGE)) = true)
    by (destruct Hcycle as [-> | [-> | ->]]; reflexivity).
  assert (Hafter : bool_decide (PT_INDICATOR = PT_INDICATOR)
                   && bool_decide (initReason = IR_PROGRAM_AFTERTEST) = false)
    by (destruct Hcycle as [-> | [-> | ->]]; reflexivity).
  cbv zeta. rewrite Hcyc, Hafter. rewrite ?bind_assoc.
  erewrite (bind_Done (deref ec)) by (apply deref_Done; apply lookup_insert_eq).
  cbn [EC.programId EC.set_programId]. rewrite ?bind_assoc.
  erewrite (bind_Done (slot_at id 0))
    by (apply slot_at_Done; unfold slot_of; cbn [g_contextChains set_memory];
        rewrite Hcc, Hchain; reflexivity).
  rewrite ?bind_assoc.
  erewrite (bind_Done (deref master))
    by (apply deref_Done; cbn [memory set_memory];
        rewrite lookup_insert_ne by congruence; exact Hm).
  rewrite ?bind_assoc.
  erewrite (bind_Done (assign ec m)) by (eapply assign_Done; apply lookup_insert_eq).
  rewrite set_memory_set_memory. cbn [memory set_memory]. rewrite insert_insert_eq.
  rewrite ?bind_assoc.
  erewrite (bind_Done (deref ec)) by (apply deref_Done; apply lookup_insert_eq).
  rewrite Hmid. rewrite ?bind_assoc.
  erewrite (bind_Done (set_slot id 1 ec))
    by (eapply set_slot_Done; cbn [g_contextChains set_memory];
        [rewrite Hcc; exact Hchain | reflexivity]).
  cbn [g_contextChains set_memory]. rewrite Hcc. reflexivity.
Qed.

(** X18: an indicator comes back from limbo.  The terminal calls [init()]
    for an indicator with a new, erased record after a change of parameters
    or of the chart; [FindIndicatorInLimbo] finds program [id], whose master
    holds [id] and has ticked.  Then [SyncMainContext_init] creates no
    chain: the record takes over the content of the master, and with it the
    program id and everything the program knew, is stored as the main
    record in slot 1 of the chain of [id], and gets the fields of block
    (2.2).  The init reason is [IR_PARAMETERS] for [UR_PARAMETERS]; for
    [UR_CHARTCHANGE] it is [IR_TIMEFRAMECHANGE] when the symbol of the call
    is the symbol of the master, [IR_SYMBOLCHANGE] otherwise. *)
Theorem indicator_resumes (t : Terminal) (ec : Z) (programName : char_ptr)
    (uninitReason : UninitializeReason) (initFlags deinitFlags : Z) (symbol : char_ptr)
    (period : Z) (isTesting isVisualMode isOptimization : bool)
    (hChart droppedOnChart droppedOnPosX droppedOnPosY : Z)
    (e m : EXECUTION_CONTEXT) (s : State) (id master main : Z) (libs : list Z) :
  MIN_VALID_POINTER t <= to_uint ec ->
  MIN_VALID_POINTER t <= to_uint (address programName) ->
  MIN_VALID_POINTER t <= to_uint (address symbol) ->
  0 < to_int period ->
  hChart <> NULL ->
  hChart <> INVALID_HWND ->
  memory s !! ec = Some e ->
  EC.programId e = 0 ->
  uninitReason = UR_PARAMETERS \/ uninitReason = UR_CHARTCHANGE ->
  FindIndicatorInLimbo t hChart programName uninitReason s = Done id s ->
  0 < id ->
  subscript (g_contextChains s) id = Some (master :: main :: libs) ->
  memory s !! master = Some m ->
  EC.programId m = id ->
  EC.ticks m <> 0 ->
  length (g_threads s) = length (g_threadsPrograms s) ->
  exists s',
    SyncMainContext_init t ec PT_INDICATOR programName uninitReason initFlags deinitFlags
      symbol period NULL isTesting isVisualMode isOptimization hChart droppedOnChart
      droppedOnPosX droppedOnPosY s = Done true s'
    /\ memory s' !! ec
       = Some (initialized t
                 (match uninitReason with
                  | UR_PARAMETERS => IR_PARAMETERS
                  | _ => if String.eqb (EC.symbol m) (chars symbol)
                         then IR_TIMEFRAMECHANGE else IR_SYMBOLCHANGE
                  end) uninitReason symbol period m)
    /\ subscript (g_contextChains s') id = Some (master :: ec :: libs)
    /\ length (g_contextChains s') = length (g_contextChains s)
    /\ g_threads s' = g_threads (stored t id s)
    /\ g_threadsPrograms s' = g_threadsPrograms (stored t id s).
Proof.
  intros Hptr Hname Hsymbol Hperiod HhChart Hvalid He Hid Hreason Hscan Hpos Hchain Hm
    Hmid Hticks Hlen.
  assert (Hne : master <> ec).
  { intros ->. rewrite He in Hm. injection Hm as ->. lia. }
  pose proof (InitReason_resumes t ec programName uninitReason symbol isTesting
                isVisualMode hChart droppedOnChart droppedOnPosX droppedOnPosY e m s id
                master (main :: libs) He Hid Hreason Hscan Hpos Hchain Hm) as Hresolved.
  set (reason := match uninitReason with
                 | UR_PARAMETERS => IR_PARAMETERS
                 | _ => if String.eqb (EC.symbol m) (chars symbol)
                        then IR_TIMEFRAMECHANGE else IR_SYMBOLCHANGE
                 end) in *.
  assert (Hcycle : reason = IR_PARAMETERS \/ reason = IR_SYMBOLCHANGE
                   \/ reason = IR_TIMEFRAMECHANGE).
  { subst reason. destruct Hreason as [-> | ->]; [left; reflexivity|].
    destruct (String.eqb _ _); [right; right | right; left]; reflexivity. }
  eexists. split.
  { unfold SyncMainContext_init.
    destruct (Z.ltb_spec (to_uint ec) (MIN_VALID_POINTER t)) as [?|_]; [lia|].
    destruct (Z.ltb_spec (to_uint (address programName)) (MIN_VALID_POINTER t)) as [?|_];
      [lia|].
    destruct (Z.ltb_spec (to_uint (address symbol)) (MIN_VALID_POINTER t)) as [?|_]; [lia|].
    destruct (Z.leb_spec (to_int period) 0) as [?|_]; [lia|].
    cbn [Z.eqb NULL negb andb].
    rewrite (bind_Done _ _ _ _ _ (deref_Done _ _ _ He)), Hid. cbn [Z.eqb negb when].
    unfold bind at 1. unfold ret at 1.
    rewrite (bind_Done _ _ _ _ _ Hresolved). cbv zeta. cbn [fst snd].
    rewrite (bind_Done _ _ _ _ _
               (FindWindowHandle_given t hChart NULL _ symbol period isTesting isVisualMode
                  s HhChart)).
    destruct (Z.eqb_spec hChart INVALID_HWND) as [?|_]; [contradiction|].
    rewrite (bind_Done _ _ _ _ _ (deref_Done _ _ _ He)), Hid. cbn [Z.eqb].
    rewrite (bind_Done _ _ _ _ _
               (SyncMainContext_init_chain_restores t ec reason e m s id master main libs
                  Hcycle He ltac:(lia) Hchain Hm Hne Hmid Hlen)).
    cbn [fst snd].
    erewrite (bind_Done (SyncMainContext_init_update _ _ _ _ _ _ _ _ _ _ _ _ _ _ _))
      by (apply SyncMainContext_init_update_ticked;
          [cbn [memory set_memory set_contextChains]; apply lookup_insert_eq | exact Hticks]).
    cbn [fst snd]. unfold SyncMainContext_init_libraries. cbn [andb when].
    reflexivity. }
  cbn [memory g_contextChains g_threads g_threadsPrograms set_memory set_contextChains].
  rewrite insert_insert_eq.
  split; [apply lookup_insert_eq|].
  split; [exact (subscript_insert_eq _ _ _ _ Hchain)|].
  split; [apply length_insert|].
  split; reflexivity.
Qed.

(** "Bands" on chart 528 after a change of parameters: program 1 is in
    limbo, its master has ticked. *)
Lemma indicator_resumes_witness :
  exists s' e',
    SyncMainContext_init terminal_ui 196608 PT_INDICATOR Bands UR_PARAMETERS 0 0 EURUSD 60
      NULL false false false 528 0 0 0
      (two_masters (EC.set_ticks 12 (bands_master 1 528 UR_PARAMETERS RF_NULL))
                   (bands_master 2 528 UR_PARAMETERS RF_START)) = Done true s'
    /\ memory s' !! 196608 = Some e'
    /\ EC.programId e' = 1
    /\ EC.ticks e' = 12
    /\ EC.initReason e' = IR_PARAMETERS
    /\ g_contextChains s' = [[]; [131072; 196608]; [139264; NULL]].
Proof.
  destruct (indicator_resumes terminal_ui 196608 Bands UR_PARAMETERS 0 0 EURUSD 60 false
              false false 528 0 0 0 EC.zero
              (EC.set_ticks 12 (bands_master 1 528 UR_PARAMETERS RF_NULL))
              (two_masters (EC.set_ticks 12 (bands_master 1 528 UR_PARAMETERS RF_NULL))
                           (bands_master 2 528 UR_PARAMETERS RF_START))
              1 131072 NULL [])
    as (s' & Hrun & He' & _).
  - vm_compute. discriminate.
  - vm_compute. discriminate.
  - vm_compute. discriminate.
  - vm_compute. reflexivity.
  - discriminate.
  - discriminate.
  - reflexivity.
  - reflexivity.
  - left. reflexivity.
  - vm_compute. reflexivity.
  - reflexivity.
  - reflexivity.
  - reflexivity.
  - reflexivity.
  - discriminate.
  - reflexivity.
  - exists s', (initialized terminal_ui IR_PARAMETERS UR_PARAMETERS EURUSD 60
                  (EC.set_ticks 12 (bands_master 1 528 UR_PARAMETERS RF_NULL))).
    split; [exact Hrun|]. split; [exact He'|]. repeat split.
    vm_compute in Hrun. injection Hrun as <-. reflexivity.
Defined.


(** ** A new program *)

Ltac run_by tac := cbv beta; rewrite ?bind_assoc; erewrite bind_Done by tac.

Lemma bind_get {A} (f : State -> M A) s : bind get f s = f s s.
Proof. reflexivity. Qed.

Lemma bind_ret {A B} (a : A) (f : A -> M B) s : bind (ret a) f s = f a s.
Proof. reflexivity. Qed.

Lemma bind_update {A} (g : State -> State) (f : unit -> M A) s :
  bind (update g) f s = f tt (g s).
Proof. reflexivity. Qed.

Lemma bind_of_option {A B} (o : option A) (a : A) (f : A -> M B) s :
  o = Some a -> bind (of_option o) f s = f a s.
Proof. intros ->. reflexivity. Qed.

Lemma new_EXECUTION_CONTEXT_Done s :
  new_EXECUTION_CONTEXT s
  = Done (fresh (dom (memory s) ∪ {[NULL]}))
      (set_memory (<[fresh (dom (memory s) ∪ {[NULL]}) := EC.zero]> (memory s)) s).
Proof. reflexivity. Qed.

Lemma fresh_record s :
  memory s !! fresh (dom (memory s) ∪ {[NULL]}) = None
  /\ fresh (dom (memory s) ∪ {[NULL]}) <> NULL.
Proof.
  pose proof (is_fresh (dom (memory s) ∪ {[NULL]})) as Hfresh. split.
  - apply not_elem_of_dom. set_solver.
  - set_solver.
Qed.

(** Block (1), branch (1.2): a new master, a new chain, a new program id;
    the previous program of the thread is handed back. *)
Lemma SyncMainContext_init_chain_creates t ec programType sec initReason e s :
  memory s !! ec = Some e ->
  programType <> PT_INDICATOR
  \/ (initReason <> IR_PARAMETERS /\ initReason <> IR_SYMBOLCHANGE
      /\ initReason <> IR_TIMEFRAMECHANGE /\ initReason <> IR_PROGRAM_AFTERTEST) ->
  length (g_threads s) = length (g_threadsPrograms s) ->
  Z.of_nat (length (g_threads s)) < 2 ^ 32 ->
  Z.of_nat (length (g_contextChains s)) + 1 < 2 ^ 32 ->
  SyncMainContext_init_chain t ec programType sec initReason 0 s
  = Done (sec, last_program t s, bool_decide (programType = PT_EXPERT)) (created t ec e s).
Proof.
  intros He Htype Hlen Hthreads Hchains.
  destruct (fresh_record s) as [Hfresh Hnull].
  set (master := fresh (dom (memory s) ∪ {[NULL]})) in *.
  assert (Hne : master <> ec) by (intros ->; congruence).
  unfold SyncMainContext_init_chain. cbn [Z.eqb negb when].
  rewrite bind_ret. cbv zeta.
  assert (Hcycle : bool_decide (programType = PT_INDICATOR)
                   && (bool_decide (initReason = IR_PARAMETERS)
                       || bool_decide (initReason = IR_SYMBOLCHANGE)
                       || bool_decide (initReason = IR_TIMEFRAMECHANGE)) = false).
  { destruct Htype as [Htype | (H1 & H2 & H3 & _)].
    - rewrite (bool_decide_eq_false_2 _ Htype). reflexivity.
    - rewrite (bool_decide_eq_false_2 _ H1), (bool_decide_eq_false_2 _ H2),
        (bool_decide_eq_false_2 _ H3). apply andb_false_r. }
  assert (Hafter : bool_decide (programType = PT_INDICATOR)
                   && bool_decide (initReason = IR_PROGRAM_AFTERTEST) = false).
  { destruct Htype as [Htype | (_ & _ & _ & H4)].
    - rewrite (bool_decide_eq_false_2 _ Htype). reflexivity.
    - rewrite (bool_decide_eq_false_2 _ H4). apply andb_false_r. }
  rewrite Hcycle, Hafter. rewrite ?bind_assoc.
  rewrite (bind_Done _ _ _ _ _ (new_EXECUTION_CONTEXT_Done s)). fold master.
  run_by ltac:(apply deref_Done; cbn [memory set_memory];
               rewrite lookup_insert_ne by exact Hne; exact He).
  run_by ltac:(eapply assign_Done; apply lookup_insert_eq).
  rewrite set_memory_set_memory. cbn [memory set_memory]. rewrite insert_insert_eq.
  rewrite ?bind_assoc, bind_update, ?bind_assoc, bind_get.
  cbn [g_contextChains set_contextChains set_memory]. rewrite length_app. cbn [length].
  replace (to_uint (to_uint (Z.of_nat (length (g_contextChains s) + 1)) - 1))
    with (Z.of_nat (length (g_contextChains s))).
  2:{ change (2 ^ 32) with 4294967296 in Hchains.
      rewrite (to_uint_small (Z.of_nat (length (g_contextChains s) + 1)))
        by (change (2 ^ 32) with 4294967296; lia).
      rewrite to_uint_small by (change (2 ^ 32) with 4294967296; lia). lia. }
  set (n := Z.of_nat (length (g_contextChains s))).
  run_by ltac:(apply poke_Done; cbn [memory set_memory set_contextChains];
               rewrite lookup_insert_ne by exact Hne; exact He).
  cbn [memory set_memory set_contextChains].
  run_by ltac:(apply deref_Done; apply lookup_insert_eq).
  cbn [EC.programId EC.set_programId].
  run_by ltac:(apply poke_Done; cbn [memory set_memory set_contextChains];
               rewrite lookup_insert_ne by congruence; apply lookup_insert_eq).
  cbn [memory set_memory set_contextChains]. rewrite ?bind_assoc.
  match goal with
  | |- bind (StoreThreadAndProgram t 0) _ ?s1 = _ =>
      rewrite (bind_Done _ _ _ _ _ (StoreThreadAndProgram_run t 0 s1 Hlen));
      set (s1' := s1)
  end.
  change (to_int 0 <? 0) with false. cbv iota.
  assert (Hs1 : created t ec e s = entered t n s1').
  { unfold created. cbv zeta. fold master n. f_equal. unfold s1'. f_equal. f_equal.
    rewrite (insert_insert_ne _ ec master) by congruence.
    rewrite insert_insert_eq.
    rewrite (insert_insert_ne _ master ec) by congruence. reflexivity. }
  rewrite Hs1. clear Hs1.
  assert (Hth : g_threads s1' = g_threads s) by reflexivity.
  assert (Htp : g_threadsPrograms s1' = g_threadsPrograms s) by reflexivity.
  assert (Hec : memory s1' !! ec = Some (EC.set_programId n e)).
  { unfold s1'. cbn [memory set_memory set_contextChains].
    rewrite lookup_insert_ne by exact Hne. apply lookup_insert_eq. }
  assert (Hlast : last_program t s = last_program t s1') by reflexivity.
  rewrite Hlast. rewrite <- Hth, <- Htp in Hlen. rewrite <- Hth in Hthreads.
  clearbody s1'. clear Hth Htp Hlast.
  unfold stored, thread_index, last_program, entered.
  change (to_int 0 <? 0) with false. cbv iota zeta. cbn [Z.eqb negb andb].
  rewrite ?bind_assoc, bind_get.
  destruct (lookup_thread (g_threads s1') (GetCurrentThreadId t) 0) as [i|] eqn:Hi.
  - pose proof (lookup_thread_lt _ _ _ Hi) as (Hi0 & Hlt & _).
    rewrite to_uint_small by lia.
    assert (Hentry : is_Some (g_threadsPrograms s1' !! Z.to_nat i))
      by (apply lookup_lt_is_Some; lia).
    destruct Hentry as [p Hp]. rewrite Hp. cbn [default].
    assert (Hsub : subscript (g_threadsPrograms s1') i = Some p)
      by (apply subscript_Some; split; [exact Hi0 | exact Hp]).
    rewrite ?bind_assoc, (bind_of_option _ _ _ _ Hsub).
    run_by ltac:(apply deref_Done; exact Hec).
    cbn [EC.programId EC.set_programId].
    run_by ltac:(apply set_threadProgram_Done; exists p; exact Hsub).
    reflexivity.
  - destruct (thread_added_fields t 0 s1') as (Hth & Htp & Hui & Hmem & Hcc).
    rewrite to_uint_small by lia.
    assert (Hsub : subscript (g_threadsPrograms (thread_added t 0 s1'))
                     (Z.of_nat (length (g_threads s1'))) = Some 0)
      by (rewrite Htp, Hlen; apply subscript_app_new).
    rewrite ?bind_assoc, (bind_of_option _ _ _ _ Hsub).
    run_by ltac:(apply deref_Done; rewrite Hmem; exact Hec).
    cbn [EC.programId EC.set_programId].
    run_by ltac:(apply set_threadProgram_Done; eexists; exact Hsub).
    rewrite ?bind_assoc, !bind_ret. cbn [fst snd]. unfold ret. f_equal.
    unfold thread_added. cbv zeta.
    cbn [g_threads g_threadsPrograms set_threads set_threadsPrograms].
    rewrite !length_app. cbn [length].
    assert (Hins : <[length (g_threads s1') := n]> (g_threadsPrograms s1' ++ [0])
                   = g_threadsPrograms s1' ++ [n]).
    { rewrite Hlen.
      replace (length (g_threadsPrograms s1'))
        with (length (g_threadsPrograms s1') + 0)%nat at 1 by lia.
      rewrite insert_app_r. reflexivity. }
    destruct (511 <? _);
      cbn [g_threadsPrograms set_threadsPrograms set_threads set_diagnostics];
      rewrite Nat2Z.id, Hins; reflexivity.
Qed.


Section ExpertFlags.
Variables (t : Terminal) (ec : Z) (r : EXECUTION_CONTEXT) (s : State).
Hypothesis Hr : memory s !! ec = Some r.
Hypothesis Hsc : EC.superContext r = NULL.
Hypothesis Hpt : EC.programType r = PT_EXPERT.

Lemma ProgramIsTesting_expert b : ProgramIsTesting t ec b s = Done b s.
Proof.
  unfold ProgramIsTesting. rewrite (bind_Done _ _ _ _ _ (deref_Done _ _ _ Hr)), Hsc, Hpt.
  reflexivity.
Qed.

Lemma ProgramIsVisualMode_expert b : ProgramIsVisualMode t ec b s = Done b s.
Proof.
  unfold ProgramIsVisualMode. rewrite (bind_Done _ _ _ _ _ (deref_Done _ _ _ Hr)), Hsc, Hpt.
  reflexivity.
Qed.

Lemma ProgramIsOptimization_expert b : ProgramIsOptimization t ec b s = Done b s.
Proof.
  unfold ProgramIsOptimization.
  rewrite (bind_Done _ _ _ _ _ (deref_Done _ _ _ Hr)), Hsc, Hpt. reflexivity.
Qed.

Lemma ProgramIsLogging_expert : ProgramIsLogging t ec s = Done true s.
Proof.
  unfold ProgramIsLogging. rewrite (bind_Done _ _ _ _ _ (deref_Done _ _ _ Hr)), Hsc, Hpt.
  reflexivity.
Qed.

Lemma ProgramCustomLogFile_expert : ProgramCustomLogFile t ec s = Done None s.
Proof.
  unfold ProgramCustomLogFile. rewrite (bind_Done _ _ _ _ _ (deref_Done _ _ _ Hr)), Hsc, Hpt.
  reflexivity.
Qed.
End ExpertFlags.

Ltac run_flag lem :=
  cbv beta; rewrite ?bind_assoc;
  erewrite bind_Done by (eapply lem; [lookup_memory | reflexivity | reflexivity]).

(** Blocks (2.1) and (2.2) for the first [init()] of an expert that is not
    nested: the raw flags of the terminal are taken as they are. *)
Lemma SyncMainContext_init_update_expert t ec programName uninitReason initFlags
    deinitFlags symbol period isTesting isVisualMode isOptimization hChart initReason e s :
  memory s !! ec = Some e ->
  EC.ticks e = 0 ->
  SyncMainContext_init_update t ec PT_EXPERT programName uninitReason initFlags
    deinitFlags symbol period NULL isTesting isVisualMode isOptimization hChart initReason s
  = Done (isTesting, isVisualMode, isOptimization)
      (set_memory
         (<[ec := activated t PT_EXPERT programName uninitReason initFlags deinitFlags
                    symbol period NULL hChart initReason isTesting isVisualMode
                    isOptimization true None e]> (memory s)) s).
Proof.
  intros He Hticks. unfold SyncMainContext_init_update. run_step. rewrite Hticks. cbn [Z.eqb].
  unfold ec_SetProgramType, ec_SetProgramName, ec_SetModuleType, ec_SetModuleName,
    ec_SetSuperContext, ec_SetHChart, ec_SetHChartWindow, ec_SetTesting,
    ec_SetVisualMode, ec_SetOptimization, ec_SetInitFlags, ec_SetDeinitFlags,
    ec_SetLogging, ec_SetCustomLogFile, ec_SetRootFunction, ec_SetInitReason,
    ec_SetUninitReason, ec_SetSymbol, ec_SetTimeframe, ec_SetThreadId.
  do 7 run_step.
  run_flag ProgramIsTesting_expert. run_step.
  run_flag ProgramIsVisualMode_expert. run_step.
  run_flag ProgramIsOptimization_expert. run_step.
  do 2 run_step.
  run_flag ProgramIsLogging_expert. run_step.
  run_flag ProgramCustomLogFile_expert. run_step.
  do 7 run_step.
  reflexivity.
Qed.


Lemma entered_fields t programId s :
  memory (entered t programId s) = memory s
  /\ g_contextChains (entered t programId s) = g_contextChains s
  /\ g_lastUIThreadProgram (entered t programId s) = g_lastUIThreadProgram s.
Proof.
  unfold entered.
  destruct (thread_added_fields t programId s) as (_ & _ & Hui & Hmem & Hcc).
  destruct (lookup_thread _ _ _); repeat split; assumption.
Qed.

Lemma entered_thread t programId s :
  length (g_threads s) = length (g_threadsPrograms s) ->
  subscript (g_threads (entered t programId s)) (thread_index t s)
  = Some (GetCurrentThreadId t)
  /\ subscript (g_threadsPrograms (entered t programId s)) (thread_index t s)
     = Some programId.
Proof.
  intros Hlen. unfold entered, thread_index.
  destruct (lookup_thread (g_threads s) (GetCurrentThreadId t) 0) as [i|] eqn:Hi.
  - apply lookup_thread_lt in Hi as (Hi0 & Hlt & Hi & _).
    cbn [g_threads g_threadsPrograms set_threadsPrograms].
    split; apply subscript_Some; (split; [exact Hi0|]); [exact Hi|].
    apply list_lookup_insert_eq. lia.
  - destruct (thread_added_fields t programId s) as (Hth & Htp & _).
    rewrite Hth, Htp. split; [apply subscript_app_new|].
    rewrite Hlen. apply subscript_app_new.
Qed.

Lemma InitReason_expert_id t ec sec programName uninitReason symbol isTesting isVisualMode
    hChart droppedOnChart droppedOnPosX droppedOnPosY s reason originalProgramId s' :
  InitReason t ec sec PT_EXPERT programName uninitReason symbol isTesting isVisualMode
    hChart droppedOnChart droppedOnPosX droppedOnPosY s
  = Done (reason, originalProgramId) s' ->
  originalProgramId = 0.
Proof.
  unfold InitReason. intros H. apply bind_inv in H as (r & s1 & _ & H).
  injection H as _ <- _. reflexivity.
Qed.

(** X19: the first [init()] of an expert that has no library to take
    over: the expert is not under test, or the thread map names no program
    (program [0]) for the current thread, so that step (3) does not run.
    For such an expert whose record has no program id and has not ticked,
    with the chart handle given and no super context,
    [SyncMainContext_init] creates a master record at an address that held
    none, appends the chain of the master and the record to the registry
    and gives both the index of that chain as program id.  The record gets
    its name, types, handles and flags, with testing, visual mode and
    optimisation exactly as the terminal reported them, logging on and no
    log file.  The thread map names the new program for the current
    thread, but [g_lastUIThreadProgram] is left as it was, also on the UI
    thread. *)
Theorem expert_first_init (t : Terminal) (ec : Z) (programName : char_ptr)
    (uninitReason : UninitializeReason) (initFlags deinitFlags : Z) (symbol : char_ptr)
    (period : Z) (isTesting isVisualMode isOptimization : bool)
    (hChart droppedOnChart droppedOnPosX droppedOnPosY : Z)
    (e : EXECUTION_CONTEXT) (s s2 : State) (reason : InitializeReason)
    (originalProgramId : Z) :
  MIN_VALID_POINTER t <= to_uint ec ->
  MIN_VALID_POINTER t <= to_uint (address programName) ->
  MIN_VALID_POINTER t <= to_uint (address symbol) ->
  0 < to_int period ->
  hChart <> NULL ->
  hChart <> INVALID_HWND ->
  memory s !! ec = Some e ->
  EC.programId e = 0 ->
  EC.ticks e = 0 ->
  length (g_threads s) = length (g_threadsPrograms s) ->
  Z.of_nat (length (g_threads s)) < 2 ^ 32 ->
  Z.of_nat (length (g_contextChains s)) + 1 < 2 ^ 32 ->
  InitReason t ec NULL PT_EXPERT programName uninitReason symbol isTesting isVisualMode
    hChart droppedOnChart droppedOnPosX droppedOnPosY s
  = Done (reason, originalProgramId) s2 ->
  isTesting = false \/ last_program t s = 0 ->
  exists s' master,
    SyncMainContext_init t ec PT_EXPERT programName uninitReason initFlags deinitFlags
      symbol period NULL isTesting isVisualMode isOptimization hChart droppedOnChart
      droppedOnPosX droppedOnPosY s = Done true s'
    /\ memory s !! master = None
    /\ master <> NULL
    /\ g_contextChains s' = g_contextChains s ++ [[master; ec]]
    /\ memory s' !! ec
       = Some (activated t PT_EXPERT programName uninitReason initFlags deinitFlags symbol
                 period NULL hChart reason isTesting isVisualMode isOptimization true None
                 (EC.set_programId (Z.of_nat (length (g_contextChains s))) e))
    /\ EC.programId <$> memory s' !! master = Some (Z.of_nat (length (g_contextChains s)))
    /\ subscript (g_threads s') (thread_index t s) = Some (GetCurrentThreadId t)
    /\ subscript (g_threadsPrograms s') (thread_index t s)
       = Some (Z.of_nat (length (g_contextChains s)))
    /\ g_lastUIThreadProgram s' = g_lastUIThreadProgram s.
Proof.
  intros Hptr Hname Hsymbol Hperiod HhChart Hvalid He Hid Hticks Hlen Hthreads Hchains
    Hresolved Hlast.
  pose proof (InitReason_expert_id _ _ _ _ _ _ _ _ _ _ _ _ _ _ _ _ Hresolved) as ->.
  destruct (InitReason_frame _ _ _ _ _ _ _ _ _ _ _ _ _ _ _ _ Hresolved)
    as (Hmem2 & Hcc2 & Hth2 & Htp2 & Hui2).
  assert (He2 : memory s2 !! ec = Some e) by (rewrite Hmem2; exact He).
  assert (Hlen2 : length (g_threads s2) = length (g_threadsPrograms s2))
    by (rewrite Hth2, Htp2; exact Hlen).
  assert (Hlast2 : last_program t s2 = last_program t s)
    by (unfold last_program; rewrite Hth2, Htp2; reflexivity).
  assert (Hindex2 : thread_index t s2 = thread_index t s)
    by (unfold thread_index; rewrite Hth2; reflexivity).
  destruct (fresh_record s) as [Hfresh Hnull].
  set (n := Z.of_nat (length (g_contextChains s))) in *.
  set (master := fresh (dom (memory s) ∪ {[NULL]})) in *.
  assert (Hne : master <> ec) by (intros ->; congruence).
  set (s1 := set_contextChains (g_contextChains s2 ++ [[master; ec]])
               (set_memory (<[master := EC.set_programId n e]>
                              (<[ec := EC.set_programId n e]> (memory s2))) s2)).
  assert (Hcreated : created t ec e s2 = entered t n s1).
  { unfold created, s1, master, n. rewrite Hmem2, Hcc2. reflexivity. }
  destruct (entered_fields t n s1) as (Hmem3 & Hcc3 & Hui3).
  assert (Hlen1 : length (g_threads s1) = length (g_threadsPrograms s1)) by exact Hlen2.
  destruct (entered_thread t n s1 Hlen1) as [Hthread Hprogram].
  assert (He3 : memory (entered t n s1) !! ec = Some (EC.set_programId n e)).
  { rewrite Hmem3. unfold s1. cbn [memory set_memory set_contextChains].
    rewrite lookup_insert_ne by exact Hne. apply lookup_insert_eq. }
  eexists _, master. split.
  { unfold SyncMainContext_init.
    destruct (Z.ltb_spec (to_uint ec) (MIN_VALID_POINTER t)) as [?|_]; [lia|].
    destruct (Z.ltb_spec (to_uint (address programName)) (MIN_VALID_POINTER t)) as [?|_];
      [lia|].
    destruct (Z.ltb_spec (to_uint (address symbol)) (MIN_VALID_POINTER t)) as [?|_]; [lia|].
    destruct (Z.leb_spec (to_int period) 0) as [?|_]; [lia|].
    cbn [Z.eqb NULL negb andb].
    rewrite (bind_Done _ _ _ _ _ (deref_Done _ _ _ He)), Hid. cbn [Z.eqb negb when].
    rewrite bind_ret.
    rewrite (bind_Done _ _ _ _ _ Hresolved). cbv zeta. cbn [fst snd].
    rewrite (bind_Done _ _ _ _ _
               (FindWindowHandle_given t hChart NULL _ symbol period isTesting isVisualMode
                  s2 HhChart)).
    destruct (Z.eqb_spec hChart INVALID_HWND) as [?|_]; [contradiction|].
    rewrite (bind_Done _ _ _ _ _ (deref_Done _ _ _ He2)), Hid. cbn [Z.eqb].
    rewrite (bind_Done _ _ _ _ _
               (SyncMainContext_init_chain_creates t ec PT_EXPERT NULL reason e s2 He2
                  ltac:(left; discriminate) Hlen2
                  ltac:(rewrite Hth2; exact Hthreads) ltac:(rewrite Hcc2; exact Hchains))).
    cbn [fst snd]. rewrite Hcreated.
    rewrite (bind_Done _ _ _ _ _
               (SyncMainContext_init_update_expert t ec programName uninitReason initFlags
                  deinitFlags symbol period isTesting isVisualMode isOptimization hChart
                  reason (EC.set_programId n e) (entered t n s1) He3 Hticks)).
    cbn [fst snd]. unfold SyncMainContext_init_libraries.
    rewrite Hlast2.
    assert (Hskip : bool_decide (PT_EXPERT = PT_EXPERT) && isTesting
                    && negb (last_program t s =? 0) = false).
    { destruct Hlast as [-> | ->]; [reflexivity|]. apply andb_false_r. }
    rewrite Hskip. cbn [when]. reflexivity. }
  cbn [memory g_contextChains g_threads g_threadsPrograms g_lastUIThreadProgram set_memory].
  rewrite Hmem3, Hcc3, Hui3. rewrite <- Hindex2.
  unfold s1 at 1 2 3 4. cbn [memory g_contextChains g_lastUIThreadProgram set_memory
    set_contextChains].
  split; [exact Hfresh|]. split; [exact Hnull|].
  split; [rewrite Hcc2; reflexivity|].
  split; [apply lookup_insert_eq|].
  split; [rewrite lookup_insert_ne by congruence; rewrite lookup_insert_eq; reflexivity|].
  split; [exact Hthread|]. split; [exact Hprogram | exact Hui2].
Qed.

(** The expert "Grid" on chart 528, dropped by the user on the UI thread
    of [fresh_process]: program 1, and [g_lastUIThreadProgram] still [0]. *)
Lemma expert_first_init_witness :
  exists s' master e',
    SyncMainContext_init terminal_ui 196608 PT_EXPERT (CharPtr 4198400 "Grid") UR_UNDEFINED
      0 0 EURUSD 60 NULL false false false 528 0 0 0 fresh_process = Done true s'
    /\ g_contextChains s' = [[]; [master; 196608]]
    /\ memory s' !! 196608 = Some e'
    /\ EC.programId e' = 1
    /\ EC.initReason e' = IR_USER
    /\ EC.logging e' = true
    /\ g_threads s' = [7]
    /\ g_threadsPrograms s' = [1]
    /\ g_lastUIThreadProgram s' = 0.
Proof.
  destruct (expert_first_init terminal_ui 196608 (CharPtr 4198400 "Grid") UR_UNDEFINED 0 0
              EURUSD 60 false false false 528 0 0 0 EC.zero fresh_process fresh_process
              IR_USER 0)
    as (s' & master & Hrun & _ & _ & Hcc & He' & _ & _ & _ & Hui).
  - vm_compute. discriminate.
  - vm_compute. discriminate.
  - vm_compute. discriminate.
  - vm_compute. reflexivity.
  - discriminate.
  - discriminate.
  - reflexivity.
  - reflexivity.
  - reflexivity.
  - reflexivity.
  - vm_compute. reflexivity.
  - vm_compute. reflexivity.
  - vm_compute. reflexivity.
  - left. reflexivity.
  - exists s', master. eexists.
    split; [exact Hrun|]. split; [exact Hcc|]. split; [exact He'|].
    split; [reflexivity|]. split; [reflexivity|]. split; [reflexivity|].
    vm_compute in Hrun. injection Hrun as <-. repeat split.
Defined.


Section ChartlessIndicator.
Variables (t : Terminal) (ec : Z) (r : EXECUTION_CONTEXT) (s : State).
Hypothesis Hr : memory s !! ec = Some r.
Hypothesis Hsc : EC.superContext r = NULL.
Hypothesis Hpt : EC.programType r = PT_INDICATOR.
Hypothesis Hchart : EC.hChart r = NULL /\ EC.hChartWindow r = NULL.

Lemma ProgramIsTesting_chartless b : ProgramIsTesting t ec b s = Done true s.
Proof.
  unfold ProgramIsTesting. rewrite (bind_Done _ _ _ _ _ (deref_Done _ _ _ Hr)), Hsc, Hpt.
  destruct Hchart as [_ ->]. destruct b; reflexivity.
Qed.

Lemma ProgramIsVisualMode_chartless b : ProgramIsVisualMode t ec b s = Done false s.
Proof.
  unfold ProgramIsVisualMode. rewrite (bind_Done _ _ _ _ _ (deref_Done _ _ _ Hr)), Hsc, Hpt.
  destruct Hchart as [-> _]. cbn [negb Z.eqb NULL]. rewrite andb_false_r. reflexivity.
Qed.

Lemma ProgramIsOptimization_chartless b : ProgramIsOptimization t ec b s = Done b s.
Proof.
  unfold ProgramIsOptimization.
  rewrite (bind_Done _ _ _ _ _ (deref_Done _ _ _ Hr)), Hsc, Hpt. reflexivity.
Qed.

Lemma ProgramIsLogging_chartless : ProgramIsLogging t ec s = Done true s.
Proof.
  unfold ProgramIsLogging. rewrite (bind_Done _ _ _ _ _ (deref_Done _ _ _ Hr)), Hsc, Hpt.
  reflexivity.
Qed.

Lemma ProgramCustomLogFile_chartless : ProgramCustomLogFile t ec s = Done None s.
Proof.
  unfold ProgramCustomLogFile. rewrite (bind_Done _ _ _ _ _ (deref_Done _ _ _ Hr)), Hsc, Hpt.
  reflexivity.
Qed.
End ChartlessIndicator.

Ltac run_chartless lem :=
  cbv beta; rewrite ?bind_assoc;
  erewrite bind_Done
    by (eapply lem; first [lookup_memory | reflexivity | split; reflexivity]).

(** Blocks (2.1) and (2.2) for the first [init()] of an indicator that is
    not nested and has no chart. *)
Lemma SyncMainContext_init_update_chartless t ec programName uninitReason initFlags
    deinitFlags symbol period isTesting isVisualMode isOptimization initReason e s :
  memory s !! ec = Some e ->
  EC.ticks e = 0 ->
  SyncMainContext_init_update t ec PT_INDICATOR programName uninitReason initFlags
    deinitFlags symbol period NULL isTesting isVisualMode isOptimization NULL initReason s
  = Done (true, false, isOptimization)
      (set_memory
         (<[ec := activated t PT_INDICATOR programName uninitReason initFlags deinitFlags
                    symbol period NULL NULL initReason true false isOptimization true None
                    e]> (memory s)) s).
Proof.
  intros He Hticks. unfold SyncMainContext_init_update. run_step. rewrite Hticks. cbn [Z.eqb].
  unfold ec_SetProgramType, ec_SetProgramName, ec_SetModuleType, ec_SetModuleName,
    ec_SetSuperContext, ec_SetHChart, ec_SetHChartWindow, ec_SetTesting,
    ec_SetVisualMode, ec_SetOptimization, ec_SetInitFlags, ec_SetDeinitFlags,
    ec_SetLogging, ec_SetCustomLogFile, ec_SetRootFunction, ec_SetInitReason,
    ec_SetUninitReason, ec_SetSymbol, ec_SetTimeframe, ec_SetThreadId.
  cbn [negb Z.eqb NULL].
  do 7 run_step.
  run_chartless ProgramIsTesting_chartless. run_step.
  run_chartless ProgramIsVisualMode_chartless. run_step.
  run_chartless ProgramIsOptimization_chartless. run_step.
  do 2 run_step.
  run_chartless ProgramIsLogging_chartless. run_step.
  run_chartless ProgramCustomLogFile_chartless. run_step.
  do 7 run_step.
  reflexivity.
Qed.

Lemma FindWindowHandle_none t moduleType symbol timeframe isTesting isVisualMode s :
  isTesting = true /\ isVisualMode = false
  \/ FindChartWindow t moduleType (chars symbol) timeframe = (NULL, []) ->
  FindWindowHandle t NULL NULL moduleType symbol timeframe isTesting isVisualMode s
  = Done NULL s.
Proof.
  intros H. unfold FindWindowHandle. cbn [Z.eqb NULL negb].
  destruct (isTesting && negb isVisualMode) eqn:Hflags; [reflexivity|].
  destruct H as [[-> ->] | ->]; [discriminate | reflexivity].
Qed.

(** X20: an indicator without a chart.  The first [init()] of an indicator
    that is not nested, with no chart handle from the terminal and none to
    be found (the terminal reports a test without visual mode, or there is
    no chart window), creates the program and records it as running in the
    tester with visual mode off: [testing] is [TRUE] and [visualMode] is
    [FALSE] whatever the terminal reported for them, logging is on, both
    chart handles are [NULL].  For the uninit reason [UR_UNDEFINED] the
    init reason is [IR_TEMPLATE] for builds below 654 and otherwise for a
    drop index from 0 on, else [IR_USER]. *)
Theorem indicator_without_chart (t : Terminal) (ec : Z) (programName : char_ptr)
    (initFlags deinitFlags : Z) (symbol : char_ptr) (period : Z)
    (isTesting isVisualMode isOptimization : bool)
    (droppedOnChart droppedOnPosX droppedOnPosY : Z) (e : EXECUTION_CONTEXT) (s : State) :
  MIN_VALID_POINTER t <= to_uint ec ->
  MIN_VALID_POINTER t <= to_uint (address programName) ->
  MIN_VALID_POINTER t <= to_uint (address symbol) ->
  0 < to_int period ->
  memory s !! ec = Some e ->
  EC.programId e = 0 ->
  EC.ticks e = 0 ->
  length (g_threads s) = length (g_threadsPrograms s) ->
  Z.of_nat (length (g_threads s)) < 2 ^ 32 ->
  Z.of_nat (length (g_contextChains s)) + 1 < 2 ^ 32 ->
  isTesting = true /\ isVisualMode = false
  \/ FindChartWindow t MT_INDICATOR (chars symbol) period = (NULL, []) ->
  exists s' master,
    SyncMainContext_init t ec PT_INDICATOR programName UR_UNDEFINED initFlags deinitFlags
      symbol period NULL isTesting isVisualMode isOptimization NULL droppedOnChart
      droppedOnPosX droppedOnPosY s = Done true s'
    /\ g_contextChains s' = g_contextChains s ++ [[master; ec]]
    /\ memory s' !! ec
       = Some (activated t PT_INDICATOR programName UR_UNDEFINED initFlags deinitFlags
                 symbol period NULL NULL
                 (if (GetTerminalBuild t <? 654) || (0 <=? droppedOnChart)
                  then IR_TEMPLATE else IR_USER)
                 true false isOptimization true None
                 (EC.set_programId (Z.of_nat (length (g_contextChains s))) e)).
Proof.
  intros Hptr Hname Hsymbol Hperiod He Hid Hticks Hlen Hthreads Hchains Hnone.
  set (reason := if (GetTerminalBuild t <? 654) || (0 <=? droppedOnChart)
                 then IR_TEMPLATE else IR_USER).
  assert (Hresolved :
    InitReason t ec NULL PT_INDICATOR programName UR_UNDEFINED symbol isTesting
      isVisualMode NULL droppedOnChart droppedOnPosX droppedOnPosY s
    = Done (reason, 0) s).
  { unfold InitReason, InitReason_indicator, reason. cbn [Z.eqb NULL].
    destruct (GetTerminalBuild t <? 654), (0 <=? droppedOnChart); reflexivity. }
  assert (Hcreate : reason <> IR_PARAMETERS /\ reason <> IR_SYMBOLCHANGE
                    /\ reason <> IR_TIMEFRAMECHANGE /\ reason <> IR_PROGRAM_AFTERTEST).
  { unfold reason. destruct ((GetTerminalBuild t <? 654) || (0 <=? droppedOnChart));
      repeat split; discriminate. }
  destruct (fresh_record s) as [Hfresh Hnull].
  set (n := Z.of_nat (length (g_contextChains s))) in *.
  set (master := fresh (dom (memory s) ∪ {[NULL]})) in *.
  assert (Hne : master <> ec) by (intros ->; congruence).
  set (s1 := set_contextChains (g_contextChains s ++ [[master; ec]])
               (set_memory (<[master := EC.set_programId n e]>
                              (<[ec := EC.set_programId n e]> (memory s))) s)).
  assert (Hcreated : created t ec e s = entered t n s1) by reflexivity.
  destruct (entered_fields t n s1) as (Hmem3 & Hcc3 & _).
  assert (He3 : memory (entered t n s1) !! ec = Some (EC.set_programId n e)).
  { rewrite Hmem3. unfold s1. cbn [memory set_memory set_contextChains].
    rewrite lookup_insert_ne by exact Hne. apply lookup_insert_eq. }
  eexists _, master. split.
  { unfold SyncMainContext_init.
    destruct (Z.ltb_spec (to_uint ec) (MIN_VALID_POINTER t)) as [?|_]; [lia|].
    destruct (Z.ltb_spec (to_uint (address programName)) (MIN_VALID_POINTER t)) as [?|_];
      [lia|].
    destruct (Z.ltb_spec (to_uint (address symbol)) (MIN_VALID_POINTER t)) as [?|_]; [lia|].
    destruct (Z.leb_spec (to_int period) 0) as [?|_]; [lia|].
    cbn [Z.eqb NULL negb andb].
    rewrite (bind_Done _ _ _ _ _ (deref_Done _ _ _ He)), Hid. cbn [Z.eqb negb when].
    rewrite bind_ret.
    rewrite (bind_Done _ _ _ _ _ Hresolved). cbv zeta. cbn [fst snd].
    rewrite (bind_Done _ _ _ _ _
               (FindWindowHandle_none t (ModuleType_of PT_INDICATOR) symbol period
                  isTesting isVisualMode s Hnone)).
    cbn [Z.eqb NULL INVALID_HWND].
    rewrite (bind_Done _ _ _ _ _ (deref_Done _ _ _ He)), Hid. cbn [Z.eqb].
    rewrite (bind_Done _ _ _ _ _
               (SyncMainContext_init_chain_creates t ec PT_INDICATOR NULL reason e s He
                  (or_intror Hcreate) Hlen Hthreads Hchains)).
    cbn [fst snd]. rewrite Hcreated.
    rewrite (bind_Done _ _ _ _ _
               (SyncMainContext_init_update_chartless t ec programName UR_UNDEFINED
                  initFlags deinitFlags symbol period isTesting isVisualMode
                  isOptimization reason (EC.set_programId n e) (entered t n s1) He3
                  Hticks)).
    cbn [fst snd]. unfold SyncMainContext_init_libraries.
    rewrite (bool_decide_eq_false_2 (PT_INDICATOR = PT_EXPERT)) by discriminate.
    cbn [andb when]. reflexivity. }
  cbn [memory g_contextChains set_memory]. rewrite Hcc3.
  split; [reflexivity | apply lookup_insert_eq].
Qed.

(** An indicator loaded by the tester's template on the UI thread: the
    terminal says "not testing", and there is no chart window. *)
Lemma indicator_without_chart_witness :
  exists s' master e',
    SyncMainContext_init
      {| GetCurrentThreadId := 7; GetUIThreadId := 7; IsUIThread := true;
         GetTerminalBuild := 1090; MIN_VALID_POINTER := 65536;
         GetParent := fun h => h + 1; GetWindowText := fun _ => "";
         FindChartWindow := fun _ _ _ => (NULL, []) |}
      196608 PT_INDICATOR Bands UR_UNDEFINED 0 0 EURUSD 60 NULL false false false NULL 0 0
      0 fresh_process = Done true s'
    /\ g_contextChains s' = [[]; [master; 196608]]
    /\ memory s' !! 196608 = Some e'
    /\ EC.testing e' = true
    /\ EC.visualMode e' = false
    /\ EC.initReason e' = IR_TEMPLATE.
Proof.
  destruct (indicator_without_chart
              {| GetCurrentThreadId := 7; GetUIThreadId := 7; IsUIThread := true;
                 GetTerminalBuild := 1090; MIN_VALID_POINTER := 65536;
                 GetParent := fun h => h + 1; GetWindowText := fun _ => "";
                 FindChartWindow := fun _ _ _ => (NULL, []) |}
              196608 Bands 0 0 EURUSD 60 false false false 0 0 0 EC.zero fresh_process)
    as (s' & master & Hrun & Hcc & He').
  - vm_compute. discriminate.
  - vm_compute. discriminate.
  - vm_compute. discriminate.
  - vm_compute. reflexivity.
  - reflexivity.
  - reflexivity.
  - reflexivity.
  - reflexivity.
  - vm_compute. reflexivity.
  - vm_compute. reflexivity.
  - right. reflexivity.
  - exists s', master. eexists.
    split; [exact Hrun|]. split; [exact Hcc|]. split; [exact He'|]. repeat split.
Defined.

(** ** The second test of an expert: the whole of [SyncMainContext_init] *)

Lemma InitReason_new_expert t ec sec programName uninitReason symbol isTesting
    isVisualMode hChart droppedOnChart droppedOnPosX droppedOnPosY e s :
  memory s !! ec = Some e ->
  EC.programId e = 0 ->
  exists reason s2,
    InitReason t ec sec PT_EXPERT programName uninitReason symbol isTesting isVisualMode
      hChart droppedOnChart droppedOnPosX droppedOnPosY s = Done (reason, 0) s2.
Proof.
  intros He Hid. unfold InitReason, InitReason_expert.
  destruct uninitReason;
    try (rewrite bind_assoc, (bind_Done _ _ _ _ _ (deref_Done _ _ _ He)), Hid,
           to_int_zero; cbn [Z.eqb]);
    repeat match goal with
           | |- context [if ?b then _ else _] => destruct b
           end;
    eexists _, _; reflexivity.
Qed.

Lemma set_diagnostics_nil s : set_diagnostics (diagnostics s ++ []) s = s.
Proof. destruct s. unfold set_diagnostics. cbn. rewrite app_nil_r. reflexivity. Qed.

Lemma log_all_Done ds s :
  log_all ds s = Done tt (set_diagnostics (diagnostics s ++ ds) s).
Proof.
  revert s. induction ds as [|d ds IH]; intros s.
  - rewrite set_diagnostics_nil. reflexivity.
  - cbn [log_all]. unfold log at 1. rewrite bind_update, IH.
    destruct s. unfold set_diagnostics. cbn. rewrite <- app_assoc. reflexivity.
Qed.

Lemma FindWindowHandle_tested t hChart moduleType symbol timeframe isVisualMode s :
  FindWindowHandle t hChart NULL moduleType symbol timeframe true isVisualMode s
  = Done (fst (tested_window t hChart moduleType symbol timeframe isVisualMode))
      (set_diagnostics
         (diagnostics s
          ++ snd (tested_window t hChart moduleType symbol timeframe isVisualMode)) s).
Proof.
  unfold FindWindowHandle, tested_window.
  destruct (negb (hChart =? NULL)); [rewrite set_diagnostics_nil; reflexivity|].
  cbn [Z.eqb NULL negb andb].
  destruct (negb isVisualMode); [rewrite set_diagnostics_nil; reflexivity|].
  rewrite (bind_Done _ _ _ _ _ (log_all_Done _ s)). reflexivity.
Qed.

Lemma entered_known t programId s i :
  lookup_thread (g_threads s) (GetCurrentThreadId t) 0 = Some i ->
  diagnostics (entered t programId s) = diagnostics s.
Proof. intros H. unfold entered. rewrite H. reflexivity. Qed.

Lemma last_program_known t s :
  last_program t s <> 0 ->
  exists i, lookup_thread (g_threads s) (GetCurrentThreadId t) 0 = Some i.
Proof.
  unfold last_program. destruct (lookup_thread _ _ _) as [i|]; [eauto | congruence].
Qed.

Lemma marked_agree (h h' : gmap Z EXECUTION_CONTEXT) (p : Z) :
  h' !! p = h !! p -> marked h' p = marked h p.
Proof. intros H. unfold marked. rewrite H. reflexivity. Qed.

(** C7: the [init()] of a new expert under test on a thread whose last
    program is known and has a marked master.  The call is
    [SyncMainContext_init] for an expert without super context with
    [isTesting] set; the record has no program id; [FindWindowHandle] does
    not fail, it resolves the handle [h].  The thread map names the program [last] for the current thread, the
    chain of [last] is [lastMaster :: main :: libs], its master is marked
    as being in its init cycle, and the library slots hold pairwise
    different records that can be read.  Then the call returns [TRUE], a
    new chain of a new master and the record is created at the end of the
    registry, and
    - every library slot of the previous chain that held a marked record
      holds [NULL];
    - these records are appended, in slot order, to the new chain;
    - each of them has the program id, visual mode, optimisation, logging,
      log file and the two chart handles of the expert's record as the
      call leaves it, and its own mark cleared;
    - the records that were not marked stay in their slots unchanged;
    - the mark of the previous master is cleared;
    - for every [NULL] library slot one warning with [ERR_ILLEGAL_STATE]
      was logged, after the diagnostics of the resolver and of the window
      search, and the slot was skipped. *)
Theorem SyncMainContext_init_reattaches (t : Terminal) (ec : Z) (programName : char_ptr)
    (uninitReason : UninitializeReason) (initFlags deinitFlags : Z) (symbol : char_ptr)
    (period : Z) (isVisualMode isOptimization : bool)
    (hChart droppedOnChart droppedOnPosX droppedOnPosY : Z)
    (e lm : EXECUTION_CONTEXT) (s : State) (last lastMaster main : Z) (libs : list Z) :
  MIN_VALID_POINTER t <= to_uint ec ->
  MIN_VALID_POINTER t <= to_uint (address programName) ->
  MIN_VALID_POINTER t <= to_uint (address symbol) ->
  0 < to_int period ->
  fst (tested_window t hChart MT_EXPERT symbol period isVisualMode) <> INVALID_HWND ->
  memory s !! ec = Some e ->
  EC.programId e = 0 ->
  length (g_threads s) = length (g_threadsPrograms s) ->
  Z.of_nat (length (g_threads s)) < 2 ^ 32 ->
  Z.of_nat (length (g_contextChains s)) + 1 < 2 ^ 32 ->
  last_program t s = last ->
  last <> 0 ->
  subscript (g_contextChains s) last = Some (lastMaster :: main :: libs) ->
  lastMaster <> NULL ->
  lastMaster <> ec ->
  memory s !! lastMaster = Some lm ->
  EC.initCycle lm = true ->
  (forall p, p ∈ libs -> p <> NULL ->
     p <> ec /\ p <> lastMaster /\ is_Some (memory s !! p)) ->
  distinct_records libs ->
  exists s' s2 master e' reason,
    InitReason t ec NULL PT_EXPERT programName uninitReason symbol true isVisualMode
      hChart droppedOnChart droppedOnPosX droppedOnPosY s = Done (reason, 0) s2
    /\ SyncMainContext_init t ec PT_EXPERT programName uninitReason initFlags deinitFlags
         symbol period NULL true isVisualMode isOptimization hChart droppedOnChart
         droppedOnPosX droppedOnPosY s = Done true s'
    /\ memory s !! master = None
    /\ memory s' !! ec = Some e'
    /\ e' = (if EC.ticks e =? 0
             then activated t PT_EXPERT programName uninitReason initFlags deinitFlags
                    symbol period NULL
                    (fst (tested_window t hChart MT_EXPERT symbol period isVisualMode))
                    reason true isVisualMode isOptimization true None
             else initialized t reason uninitReason symbol period)
              (EC.set_programId (Z.of_nat (length (g_contextChains s))) e)
    /\ EC.programId e' = Z.of_nat (length (g_contextChains s))
    /\ length (g_contextChains s') = S (length (g_contextChains s))
    /\ subscript (g_contextChains s') last
       = Some (lastMaster :: main
                 :: ((fun p => if marked (memory s) p then NULL else p) <$> libs))
    /\ subscript (g_contextChains s') (Z.of_nat (length (g_contextChains s)))
       = Some ([master; ec] ++ filter (fun p => marked (memory s) p = true) libs)
    /\ (forall p l,
          p ∈ libs -> p <> NULL -> memory s !! p = Some l -> EC.initCycle l = true ->
          exists l',
            memory s' !! p = Some l'
            /\ l' = reattached e' l
            /\ EC.programId l' = EC.programId e'
            /\ EC.initCycle l' = false
            /\ EC.visualMode l' = EC.visualMode e'
            /\ EC.optimization l' = EC.optimization e'
            /\ EC.logging l' = EC.logging e'
            /\ EC.customLogFile l' = EC.customLogFile e'
            /\ EC.hChart l' = EC.hChart e'
            /\ EC.hChartWindow l' = EC.hChartWindow e')
    /\ (forall p, p ∈ libs -> p <> NULL -> marked (memory s) p = false ->
          memory s' !! p = memory s !! p)
    /\ memory s' !! lastMaster = Some (EC.set_initCycle false lm)
    /\ diagnostics s'
       = diagnostics s2
         ++ snd (tested_window t hChart MT_EXPERT symbol period isVisualMode)
         ++ ((fun _ => LogWarn ERR_ILLEGAL_STATE) <$> filter (fun p => p = NULL) libs).
Proof.
  intros Hptr Hname Hsymbol Hperiod Hvalid He Hid Hlen Hthreads Hchains Hlast
    Hknown Hchain Hnull HlmEc Hlm Hmark Hlibs Hnodup.
  set (w := tested_window t hChart MT_EXPERT symbol period isVisualMode) in *.
  destruct (InitReason_new_expert t ec NULL programName uninitReason symbol true
              isVisualMode hChart droppedOnChart droppedOnPosX droppedOnPosY e s He Hid)
    as (reason & s0 & Hresolved).
  destruct (InitReason_frame _ _ _ _ _ _ _ _ _ _ _ _ _ _ _ _ Hresolved)
    as (Hmem0 & Hcc0 & Hth0 & Htp0 & _).
  pose proof (FindWindowHandle_tested t hChart MT_EXPERT symbol period isVisualMode s0)
    as Hwindow.
  fold w in Hwindow.
  set (s2 := set_diagnostics (diagnostics s0 ++ snd w) s0) in *.
  assert (Hmem2 : memory s2 = memory s) by exact Hmem0.
  assert (Hcc2 : g_contextChains s2 = g_contextChains s) by exact Hcc0.
  assert (Hth2 : g_threads s2 = g_threads s) by exact Hth0.
  assert (Htp2 : g_threadsPrograms s2 = g_threadsPrograms s) by exact Htp0.
  assert (He0 : memory s0 !! ec = Some e) by (rewrite Hmem0; exact He).
  assert (He2 : memory s2 !! ec = Some e) by (rewrite Hmem2; exact He).
  assert (Hlen2 : length (g_threads s2) = length (g_threadsPrograms s2))
    by (rewrite Hth2, Htp2; exact Hlen).
  assert (Hlast2 : last_program t s2 = last)
    by (unfold last_program; rewrite Hth2, Htp2; exact Hlast).
  destruct (fresh_record s) as [Hfresh Hfnull].
  set (n := Z.of_nat (length (g_contextChains s))) in *.
  set (master := fresh (dom (memory s) ∪ {[NULL]})) in *.
  assert (Hne : master <> ec) by (intros ->; congruence).
  assert (HneM : master <> lastMaster) by (intros ->; congruence).
  set (s1 := set_contextChains (g_contextChains s2 ++ [[master; ec]])
               (set_memory (<[master := EC.set_programId n e]>
                              (<[ec := EC.set_programId n e]> (memory s2))) s2)).
  assert (Hcreated : created t ec e s2 = entered t n s1).
  { unfold created, s1, master, n. rewrite Hmem2, Hcc2. reflexivity. }
  destruct (entered_fields t n s1) as (Hmem3 & Hcc3 & Hui3).
  assert (Hdiag3 : diagnostics (entered t n s1) = diagnostics s2).
  { destruct (last_program_known t s2) as [i Hi]; [rewrite Hlast2; exact Hknown|].
    rewrite (entered_known t n s1 i Hi). reflexivity. }
  assert (He3 : memory (entered t n s1) !! ec = Some (EC.set_programId n e)).
  { rewrite Hmem3. unfold s1. cbn [memory set_memory set_contextChains].
    rewrite lookup_insert_ne by exact Hne. apply lookup_insert_eq. }
  set (e' := (if EC.ticks e =? 0
              then activated t PT_EXPERT programName uninitReason initFlags deinitFlags
                     symbol period NULL (fst w) reason true isVisualMode isOptimization
                     true None
              else initialized t reason uninitReason symbol period)
               (EC.set_programId n e)).
  set (s3 := set_memory (<[ec := e']> (memory (entered t n s1))) (entered t n s1)).
  assert (Hupdate :
    SyncMainContext_init_update t ec PT_EXPERT programName uninitReason initFlags
      deinitFlags symbol period NULL true isVisualMode isOptimization (fst w) reason
      (entered t n s1)
    = Done (true, isVisualMode, isOptimization) s3).
  { unfold s3, e'. destruct (Z.eqb_spec (EC.ticks e) 0) as [Hticks | Hticks].
    - apply SyncMainContext_init_update_expert; [exact He3 | exact Hticks].
    - apply SyncMainContext_init_update_ticked; [exact He3 | exact Hticks]. }
  assert (Hid' : EC.programId e' = n).
  { unfold e'. destruct (EC.ticks e =? 0); reflexivity. }
  pose proof (proj1 (subscript_Some _ _ _) Hchain) as [Hlast0 Hchain'].
  assert (Hlt : last < n).
  { apply lookup_lt_Some in Hchain'. unfold n. lia. }
  (* the state before step (3) *)
  assert (Hmem_s3 : forall p, p <> ec -> p <> master -> memory s3 !! p = memory s !! p).
  { intros p Hp1 Hp2. unfold s3. cbn [memory set_memory].
    rewrite lookup_insert_ne by congruence. rewrite Hmem3. unfold s1.
    cbn [memory set_memory set_contextChains].
    rewrite !lookup_insert_ne by congruence. rewrite Hmem2. reflexivity. }
  assert (Hcc_s3 : g_contextChains s3 = g_contextChains s ++ [[master; ec]]).
  { unfold s3. cbn [g_contextChains set_memory]. rewrite Hcc3. unfold s1.
    cbn [g_contextChains set_contextChains set_memory]. rewrite Hcc2. reflexivity. }
  assert (Hreadable : forall p, p ∈ libs -> p <> NULL -> p <> ec /\ p <> master).
  { intros p Hp Hpn. destruct (Hlibs p Hp Hpn) as (Hpe & _ & [l Hl]).
    split; [exact Hpe | intros ->; congruence]. }
  assert (Hmarked : forall p, p ∈ libs -> marked (memory s3) p = marked (memory s) p).
  { intros p Hp. destruct (decide (p = NULL)) as [->|Hpn]; [reflexivity|].
    destruct (Hreadable p Hp Hpn). apply marked_agree, Hmem_s3; assumption. }
  destruct (SyncMainContext_init_libraries_reattach ec last e' lm s3 [master; ec] libs
              lastMaster main)
    as (s' & Hrun & Hold & Hnew & Hmoved & Hkept & Hmaster & Hwarn & Hec & Hsize).
  { exact Hknown. }
  { unfold s3. cbn [memory set_memory]. apply lookup_insert_eq. }
  { rewrite Hid'. lia. }
  { rewrite Hid', Hcc_s3. apply subscript_app_new. }
  { rewrite Hcc_s3, subscript_app_ne by lia. exact Hchain. }
  { exact Hnull. }
  { rewrite Hmem_s3 by congruence. exact Hlm. }
  { exact Hmark. }
  { intros p Hp Hpn. destruct (Hlibs p Hp Hpn) as (Hpe & Hpm & Hsome).
    destruct (Hreadable p Hp Hpn). rewrite Hmem_s3 by assumption.
    split; [exact Hpe | split; [exact Hpm | exact Hsome]]. }
  { exact Hnodup. }
  exists s', s0, master, e', reason.
  split; [exact Hresolved|].
  split.
  { unfold SyncMainContext_init.
    destruct (Z.ltb_spec (to_uint ec) (MIN_VALID_POINTER t)) as [?|_]; [lia|].
    destruct (Z.ltb_spec (to_uint (address programName)) (MIN_VALID_POINTER t)) as [?|_];
      [lia|].
    destruct (Z.ltb_spec (to_uint (address symbol)) (MIN_VALID_POINTER t)) as [?|_]; [lia|].
    destruct (Z.leb_spec (to_int period) 0) as [?|_]; [lia|].
    cbn [Z.eqb NULL negb andb].
    rewrite (bind_Done _ _ _ _ _ (deref_Done _ _ _ He)), Hid. cbn [Z.eqb negb when].
    rewrite bind_ret.
    rewrite (bind_Done _ _ _ _ _ Hresolved). cbv zeta. cbn [fst snd].
    change (ModuleType_of PT_EXPERT) with MT_EXPERT.
    rewrite (bind_Done _ _ _ _ _ Hwindow).
    destruct (Z.eqb_spec (fst w) INVALID_HWND) as [?|_]; [contradiction|].
    rewrite (bind_Done _ _ _ _ _ (deref_Done _ _ _ He2)), Hid. cbn [Z.eqb].
    rewrite (bind_Done _ _ _ _ _
               (SyncMainContext_init_chain_creates t ec PT_EXPERT NULL reason e s2 He2
                  ltac:(left; discriminate) Hlen2
                  ltac:(rewrite Hth2; exact Hthreads) ltac:(rewrite Hcc2; exact Hchains))).
    cbn [fst snd]. rewrite Hcreated.
    rewrite (bind_Done _ _ _ _ _ Hupdate). cbn [fst snd].
    rewrite Hlast2.
    rewrite (bool_decide_eq_true_2 (PT_EXPERT = PT_EXPERT)) by reflexivity.
    rewrite (bind_Done _ _ _ _ _ Hrun). reflexivity. }
  split; [exact Hfresh|].
  split; [exact (Hec HlmEc)|].
  split; [reflexivity|].
  split; [exact Hid'|].
  split; [rewrite Hsize, Hcc_s3, length_app; simpl; lia|].
  split.
  { rewrite Hold. do 3 f_equal. apply list_fmap_ext.
    intros i p Hp. rewrite Hmarked by (eapply list_elem_of_lookup_2; exact Hp).
    reflexivity. }
  split.
  { rewrite Hid' in Hnew. rewrite Hnew. do 2 f_equal.
    apply filter_ext_in. intros p Hp. rewrite Hmarked by exact Hp. reflexivity. }
  split.
  { intros p l Hp Hpn Hl Hcycle. apply (Hmoved p l Hp Hpn); [|exact Hcycle].
    destruct (Hreadable p Hp Hpn). rewrite Hmem_s3 by assumption. exact Hl. }
  split.
  { intros p Hp Hpn Hunmarked.
    rewrite (Hkept p Hp) by (rewrite Hmarked by exact Hp; exact Hunmarked).
    destruct (Hreadable p Hp Hpn). apply Hmem_s3; assumption. }
  split; [exact Hmaster|].
  rewrite Hwarn. unfold s3. cbn [diagnostics set_memory]. rewrite Hdiag3.
  unfold s2. cbn [diagnostics set_diagnostics]. rewrite <- app_assoc. reflexivity.
Qed.

(** The second test of the expert "Grid" on the tester thread: program 2
    is created, the marked library of program 1 moves into its chain, the
    [NULL] slot gives a warning, and the library that is not marked
    stays. *)
Lemma SyncMainContext_init_reattaches_witness :
  exists s' master,
    SyncMainContext_init terminal_tester 196608 PT_EXPERT (CharPtr 4198400 "Grid")
      UR_UNDEFINED 0 0 EURUSD 60 NULL true false false NULL 0 0 0 second_test_entry
    = Done true s'
    /\ subscript (g_contextChains s') 1 = Some [131072; 196608; NULL; NULL; 331776]
    /\ subscript (g_contextChains s') 2 = Some [master; 196608; 327680]
    /\ (exists l', memory s' !! 327680 = Some l'
                   /\ EC.programId l' = 2 /\ EC.initCycle l' = false
                   /\ EC.logging l' = true)
    /\ memory s' !! 331776 = Some (EC.set_programId 1 (EC.set_moduleType MT_LIBRARY EC.zero))
    /\ memory s' !! 131072 = Some (EC.set_programId 1 EC.zero)
    /\ diagnostics s' = [LogWarn ERR_ILLEGAL_STATE].
Proof.
  destruct (SyncMainContext_init_reattaches terminal_tester 196608 (CharPtr 4198400 "Grid")
              UR_UNDEFINED 0 0 EURUSD 60 false false NULL 0 0 0 EC.zero
              (EC.set_programId 1 (EC.set_initCycle true EC.zero)) second_test_entry
              1 131072 196608 [327680; NULL; 331776])
    as (s' & s2 & master & e' & reason & Hres & Hrun & _ & _ & He' & _ & _ & Hold & Hnew
        & Hmoved & Hkept & Hmaster & Hwarn).
  - vm_compute. discriminate.
  - vm_compute. discriminate.
  - vm_compute. discriminate.
  - vm_compute. reflexivity.
  - discriminate.
  - reflexivity.
  - reflexivity.
  - reflexivity.
  - vm_compute. reflexivity.
  - vm_compute. reflexivity.
  - reflexivity.
  - discriminate.
  - reflexivity.
  - discriminate.
  - discriminate.
  - reflexivity.
  - reflexivity.
  - intros p Hp Hnull.
    apply elem_of_cons in Hp as [-> | Hp];
      [split; [discriminate | split; [discriminate | eexists; reflexivity]]|].
    apply elem_of_cons in Hp as [-> | Hp]; [contradiction|].
    apply elem_of_cons in Hp as [-> | Hp];
      [split; [discriminate | split; [discriminate | eexists; reflexivity]]|].
    destruct (not_elem_of_nil _ Hp).
  - unfold distinct_records. apply (bool_decide_unpack _). vm_compute. exact Logic.I.
  - exists s', master.
    split; [exact Hrun|].
    split; [exact Hold|].
    split; [exact Hnew|].
    split.
    { destruct (Hmoved 327680 marked_library) as (l' & Hl' & _ & Hid & Hcycle & _ & _ & Hlog & _).
      - left.
      - discriminate.
      - reflexivity.
      - reflexivity.
      - exists l'. rewrite Hid, Hlog, He'.
        split; [exact Hl'|]. split; [reflexivity|]. split; [exact Hcycle | reflexivity]. }
    split.
    { rewrite (Hkept 331776).
      - reflexivity.
      - right. right. left.
      - discriminate.
      - reflexivity. }
    split; [exact Hmaster|].
    rewrite Hwarn. vm_compute in Hres. injection Hres as _ <-. reflexivity.
Defined.
